(* ===== verification/_CoqProject ===== *)
-Q . S2P
Prelude.v
OrderedSet.v
Vec3.v
Figure.v
Camera.v
Picking.v
Scene.v
Ascii.v
Keyboard.v
Draw.v
Controller.v
Session.v
Font.v
Json.v
BookData.v
BookSearch.v
BookUI.v
