(* ===== verification/Prelude.v ===== *)
(** * A verification development of the lab5 ASCII 3D scene engine

    The main program of the repository is the lab5 "ASCII 3D scene
    generator" under [src/src/labs/lab5]: polyhedral figures and a
    first-person camera are drawn through OpenGL, the frame buffer is read
    back, downsampled and printed as colourised text, and GLUT callbacks
    route keyboard, mouse and wheel input to the figures and the camera.
    The lab4 font table is modelled as data.  The lab7 book-search client
    under [src/src/labs/lab7] is modelled too: a console client of the
    Google Books API that pages through the results, filters them with a
    regular expression on a chosen field, prints them as a coloured list
    or a table, keeps a search history and saves the results to files.
    The lab5 console menu is modelled with the life of a scene window
    (creation, the event loop, the save on exit); the documentation
    generator is not modelled (see the manifest).

    ** The program and how its parts interact

    - [dal/Figure.py]: the data ([Vertex], [Edge], [Face], [FigureData]),
      the template catalogue [figures] (seven module-level [FigureData]
      objects) and the colour palette [colors].
    - [bll/FigureWrapper.py]: one wrapper per figure: [create] binds the
      wrapper to the template object itself (no copy); colour setters,
      [rotate], [translate], [scale], [set_draw_mode], the bounding-box
      picking test [contains_point] and the draw strategies.
    - [dal/Camera.py], [bll/CameraWrapper.py]: the camera record and its
      look ([rotate]), fly ([translate]) and perspective setters.
    - [dal/Scene.py], [bll/Scene.py]: the ordered figure list, the
      selection (deselect, then select the first hit), drag-to-orbit.
    - [bll/Controller.py] with [ui/Keyboard.py], [ui/Mouse.py] and
      [dal/Keyboard.py]: GLUT callbacks; key names through [keys_map]; the
      [action_values] table; translate/rotate commands go to the selected
      figure or, with none selected, to the camera; the perspective
      commands; reshape; display; [get_scene] strips the colour escapes.
    - [ui/Renderer.py]: [map_pixel_to_ascii], [render_to_ascii], [reshape].
    - [init.py]: [camera_create] and [create_scene] build the start state;
      [main] shows the console menu [ui/Ascii3DMenu.py], whose options open
      the scene window ([Controller.make_scene]: [glut_init],
      [add_handlers], [glutMainLoop]), name the file the scene is saved
      to when the window is left ([exit] calls [stop_scene], then
      [save_scene]) and set the number of text rows (in the settings file
      and the renderer).
    - lab7: [dal/*Model.py] read the JSON settings, user settings and
      history through [DictJsonDataAccess] (not in the repository);
      [bll/GoogleBooksAPI.py] sends the request; [bll/Controller.py] runs
      the paging loop, the regex filter and the history, and saves; the
      filter and the flattening are [bll/InputParser.py] and
      [bll/ItemExtraction.py]; [bll/DataStyler.py] colours the output and
      strips the colours again for a text file; [ui/UserInterface.py]
      calls the controller from menus of [shared] (not in the repository);
      [dal/JsonpickeHandler.py] registers a jsonpickle handler that writes
      an [OrderedSet] of [shared] (the set of the lab5 pressed keys) as the
      list of its keys and reads it back.

    ** Files of this development (in dependency order)

    - [Prelude] (this file): Python errors, the [result] monad ([x <- c ;;
      k]) and the [outcome] type for exceptions raised after a mutation
      ([x <~ c ;; k]), both in [scene_scope]; the trace of OpenGL/GLUT
      commands [gl_cmd]; Python's clamp [max(lo, min(hi, v))] on reals;
      dicts as association lists (a dict display keeps the first position
      and the last value of a repeated key); the [scene] hint databases and
      tactics.
    - [OrderedSet]: the ordered set of [shared] as an interface (the
      class [OrderedSet] with its laws, stated on the keys in insertion
      order), the list implementation the controller uses for its pressed
      keys ([oset_add], [oset_discard], [OrderedSet(iterable)]) and its
      instance on duplicate-free lists, and the jsonpickle handler
      [flatten]/[restore] with [handle], proved against the interface.
    - [Vec3]: vectors and 3x3 matrices over [R], the rotation matrices of
      [FigureWrapper.rotate], orthogonality, [np.mean(..., axis=0)].
    - [Figure]: the data with edges and faces as vertex indices, the seven
      templates entry by entry, the palette, every state-changing
      [FigureWrapper] operation, a reachability relation for figures.
    - [Camera]: [CameraData] with its vectors either Python lists or numpy
      arrays (they behave differently under [+=] and [+]), the wrapper's
      methods, [init.camera_create].
    - [Picking]: [project_vertices_to_screen] with [gluProject] as a
      parameter, [contains_point] and its bounding-box contract.
    - [Scene]: a store of figure objects indexed by identity (so the shared
      templates are one object), [selection], [handle_click],
      [handle_motion], the selection invariant as a boolean test.
    - [Ascii]: the text side of the renderer with IEEE binary64 floats
      (PrimFloat) for the glyph index and the scaled width, the escapes, the
      rows bottom-up, [AsciiRenderer.reshape], and the stripping loop of
      [Controller.get_scene] with fuel.
    - [Keyboard]: [keys_map] evaluated as a dict display with GLUT's key
      codes, and the four [KeyboardHandler] callbacks.
    - [Draw]: the draw strategies of [FigureWrapper] and [Scene.draw] as
      traces of OpenGL commands, with the reference traces [quad_cmds] and
      [loop_cmds] the theorems compare them with.
    - [Controller]: the controller state (scene, renderer, pressed keys,
      last screen, command trace, console output), [action_values], every
      handler, [renderer_display] (clear, [Scene.draw], capture of the
      FRONT buffer, swap: the controller keeps the frame its last swap
      brought forward), [display] with [print_screen] (the console text
      from the [print_settings] section, with its [AttributeError] and
      [TypeError] paths), the event [step] (one GLUT callback), [init.create_scene] and the relation [reachable] of
      states reachable from it; [save_scene] and [stop_scene] (the [exit]
      action) write the stripped screen to a file.
    - [Session]: [glut_init], the main loop over a list of GLUT events,
      [make_scene], the handlers of [Ascii3DMenu], the menu loop, and the
      relation [session_reachable] of the controllers of a running session.
    - [Font]: the lab4 font, one definition per block of its display.
    - [Json]: the JSON values of lab7 ([jvalue], dicts as association
      lists in insertion order) and the Python operations the client
      applies to them: truth, [str]/[repr], [get], [d[k]], iteration,
      [split], [startswith], [endswith], [replace], [join], slicing.
    - [BookData]: [InputParser], [extract_data_items] and [DataStyler];
      [remove_styles] is the regular expression of [re.sub] written as a
      scanner by well-founded recursion (Equations) and proved to undo
      the styling.
    - [BookSearch]: the JSON models, the API client, the controller with a
      state-and-error monad [run] ([let! c x := r in k]), its paging loop
      on fuel, the aliasing of the selected-fields list, the save methods
      with [FileHandler] as a trace of files; sample inputs for the
      witnesses.
    - [BookUI]: the handlers of [UserInterface], [init.set_up_models] and
      [init.main], and the menu loop as a transition system [ui_reachable]
      with its invariant.

    ** What the theorems show (claims C1-C37 of the manifest)

    - Figures (C1-C6): rotation keeps the centroid, is rigid and is undone
      exactly by the inverse rotations (angle included); colours stay in
      sync; every reachable figure has valid indices; [set_color] checks
      only the length of its argument, over every argument.
    - Camera (C7-C9): the clamps, [z_near] beyond [z_far] from every camera
      in range, and the application's list-backed camera that cannot move.
    - Picking and scene (C10-C11): [contains_point] refines its contract;
      a click keeps at most one figure selected.
    - ASCII (C12-C14): agreement of the float glyph index with the exact
      formula up to 51 glyphs, the render/strip round trip, and the
      termination of the strip loop (length + 1 iterations whenever it
      ends; never past an escape with no later ['m']).
    - Keyboard and controller (C15-C20): modifiers never reach the
      controller, the controller invariant over every reachable state (by
      induction on [reachable]; the pressed keys stay an ordered set of
      distinct keys), routing of the movement commands, keys that stay
      pressed, reshape below the height floor, a redraw after every
      change.
    - Display and session (C21-C25): leaving a window saves exactly the
      plain text of the frame before the last one, and each display
      prints the frame the previous display drew, since the capture reads
      the front buffer before the swap; the settings file and the renderer
      agree on the row count in every controller of a running session (by
      induction on the menu turns); [exit] before the first frame raises
      [AttributeError] instead of the intended [ValueError]; [glut_init]
      divides by a zero window height.
    - Ordered sets (C26): the jsonpickle handler reads back every set it
      writes, for any implementation of the interface.
    - Drawing (C27): the trace of a selected figure in faces mode as the
      application draws it (border always in the highlight colour).
    - lab7 (C28-C37): the regex field appended to the stored list fields at
      every search; the history that never keeps more than the last
      search; the search that stops at a first page without a match; a
      query without results and an HTTP error status reported as
      exceptions other than the code intends; every returned item matches
      the filter; the search always terminates; stripping the styles of
      the list output gives the plain text; the well-formedness of every
      controller the menu loop reaches (by induction on [ui_reachable]);
      the regex prompt that leaves exactly at the first entry that
      compiles (liveness of its retry loop).

    The other lemmas document further behaviours without being claims:
    scaling keeps the centroid and, in exact arithmetic, is invertible;
    two wrappers of one template are one object; F1-F7 are shadowed by
    the modifier codes in [keys_map]; reading a list with the handler
    keeps the first occurrence of each key.

    ** Bounds and fuel

    - The glyph-index claims are checked exhaustively by [vm_compute] over
      every grey value 0..255 and ramp lengths 1..51 (agreement) and 1..128
      (in range); 51 is the largest length for which agreement holds.
    - [strip_loop] runs on fuel; [S (length line)] is enough for every
      line on which the loop ends at all ([strip_loop_termination]: an
      iteration moves the index forward unless an escape has no later
      ['m'], and then the loop repeats itself forever), so the fuel
      [S (String.length screen)] of [get_scene_plain] decides exactly
      between a result and a loop that never ends.  [save_scene] strips with
      that fuel; when it runs out the controller records [hung] (the call
      never returns) and the main loop of [Session] stops there.
    - The main loop of a scene window and the console menu run over the
      finite lists of events and turns the user gives; a run whose list
      ends with the window or the menu still open says so
      ([LoopOpen], [Waiting]).
    - The lab7 paging loop [search_loop] runs on [items_amount + 1]
      iterations of fuel: an iteration that goes on adds at least one item
      (a truthy page), so the loop stops by then; [search_terminates]
      proves that this fuel never runs out.
    - [remove_styles] needs no fuel: each match removes at least two
      characters, the measure of its well-founded recursion.

    ** Modelling choices

    - Python floats are exact reals [R]: the geometric theorems hold exactly
      and for floats up to rounding.  The [np.float32] casts of
      [FigureWrapper.translate] (the offset) and [FigureWrapper.scale] (the
      factor matrix) are not modelled: rotation pivots on the exact
      centroid, and the invertibility of [scale], which depends on the
      float32 values of the factors (0 and infinity included), is not a
      claim.  Where rounding changes a discrete
      result the code is modelled with primitive IEEE-754 doubles, which
      compute as CPython does.
    - An exception is [Err e] of [result], or [Raised s e] of [outcome] when
      the code has mutated state [s] before raising.
    - OpenGL and GLUT: the values read back (window size, projection) are
      parameters of an event; the calls that only affect the display are
      recorded in a command trace.  The frame [Scene.draw] leaves in the
      back buffer is a parameter of the display event; the frame read back
      is the one of the front buffer (the content of a new window before
      its first swap, which OpenGL leaves unspecified, is a parameter of
      the event); PIL's resize and grey conversion are not modelled.

    ** Not modelled

    - What OpenGL does with the commands (rasterisation): the frame drawn
      is an input; PyOpenGL's conversion of the colour values is not
      modelled (a colour is recorded as the Python value passed).
    - The terminal behind the console output (each [print] is an entry
      of [printed]); the menus and inputs of [shared]
      are modelled from their use (the values the prompts return, the
      loop over the user's choices).  Two library behaviours are taken as
      they are: an exception escaping a GLUT callback ends the process
      (PyOpenGL's wrapper), and whether [glutMainLoop] returns after
      [glutLeaveMainLoop] is a parameter (freeglut's default ends the
      process).
    - lab7: the HTTP exchange ([requests.get]), the regex engine
      ([re.search], [re.compile]), [tabulate], the menus and inputs of
      [shared], the Tk file dialog, logging and jsonpickle's own encoder
      are parameters or not modelled (the handler's [flatten]/[restore]
      and its registration are modelled; [init.main]'s call of [handle]
      is not threaded through [lab7_main], since nothing in lab7 pickles
      an ordered set); JSON numbers are integers (the
      client reads strings, lists of strings and counts);
      [DictJsonDataAccess] is modelled from its use, as the file's dict
      held in memory whose [get] returns the stored object.
    - Wiring with no behaviour of its own: the constructors and
      [set_controller] of [KeyboardHandler], [MouseHandler] and
      [Ascii3DMenu], [init.set_up], the two [runner.Runner.run] entry
      points (they call [main]), [CameraData.__repr__], and the first
      [FigureData] class of [dal/Figure.py] (lines 73-104), which the
      second definition of the same name replaces before any use.
      [InputParser.is_regex] ([re.compile] succeeds) is the parameter
      [re_compiles] of the lab7 interface.
    - [docs/generator.py]. *)

From Stdlib Require Export Bool Reals Lra ZArith String List Lia.
Export ListNotations.
Open Scope bool_scope.
Open Scope R_scope.

(** ** Python exceptions and the result monad *)

(** The exceptions the modelled code raises or lets propagate. *)
Inductive py_error : Type :=
| ValueError (msg : string)
| TypeError (msg : string)
| IndexError
| BroadcastError
| UnboundLocalError (name : string)
| AttributeError
| KeyError (key : string)
| HTTPError (msg : string)
| ConnectionError (msg : string)
| ZeroDivisionError
| PyException (prefix : string) (cause : py_error).
(** [PyException p e] is [raise Exception(p + str(e)) from e]: an exception
    of the base class whose message is [p] followed by the text of [e]. *)

Inductive result (A : Type) : Type :=
| Ok (a : A)
| Err (e : py_error).
Arguments Ok {A} a.
Arguments Err {A} e.

Definition bind {A B : Type} (r : result A) (k : A -> result B) : result B :=
  match r with
  | Ok a => k a
  | Err e => Err e
  end.

Declare Scope scene_scope.
Delimit Scope scene_scope with scene.
Notation "x <- c ;; k" := (bind c (fun x => k))
  (at level 61, c at next level, right associativity) : scene_scope.
Open Scope scene_scope.

Lemma bind_ok {A B} (a : A) (k : A -> result B) : bind (Ok a) k = k a.
Proof. reflexivity. Qed.

Lemma bind_err {A B} (e : py_error) (k : A -> result B) : bind (Err e) k = Err e.
Proof. reflexivity. Qed.

Lemma bind_eq_ok {A B} (r : result A) (k : A -> result B) (b : B) :
  bind r k = Ok b -> exists a, r = Ok a /\ k a = Ok b.
Proof. destruct r; simpl; [eauto | discriminate]. Qed.

(** A handler that raises after mutating some state: [Raised s e] keeps the
    state [s] as it was when the exception [e] left the handler. *)
Inductive outcome (S : Type) : Type :=
| Done (s : S)
| Raised (s : S) (e : py_error).
Arguments Done {S} s.
Arguments Raised {S} s e.

Definition obind {S : Type} (o : outcome S) (k : S -> outcome S) : outcome S :=
  match o with
  | Done s => k s
  | Raised s e => Raised s e
  end.

Notation "x <~ c ;; k" := (obind c (fun x => k))
  (at level 61, c at next level, right associativity) : scene_scope.

(** Change the state of an outcome, raised or not. *)
Definition omap {S T : Type} (f : S -> T) (o : outcome S) : outcome T :=
  match o with
  | Done s => Done (f s)
  | Raised s e => Raised (f s) e
  end.

(** A [for] loop whose body may raise: the state of the iteration that
    raised is kept. *)
Fixpoint ofold {A S : Type} (f : A -> S -> outcome S) (l : list A) (s : S) : outcome S :=
  match l with
  | [] => Done s
  | x :: t => obind (f x s) (ofold f t)
  end.

(** A [for] loop over a list whose body may raise, with an accumulator:
    the first exception ends the loop. *)
Fixpoint rfold {A B : Type} (f : B -> A -> result B) (l : list A) (b : B) : result B :=
  match l with
  | [] => Ok b
  | a :: t => x <- f b a ;; rfold f t x
  end.

(** The state an outcome leaves behind, raised or not. *)
Definition final_state {S : Type} (o : outcome S) : S :=
  match o with Done s | Raised s _ => s end.

Lemma obind_done {S : Type} (o : outcome S) k s' :
  obind o k = Done s' -> exists s, o = Done s /\ k s = Done s'.
Proof. destruct o as [s|s e]; simpl; [eauto | discriminate]. Qed.

(** A property kept by every iteration that returns is kept by a loop
    that returns. *)
Lemma ofold_inv {A S : Type} (P : S -> Prop) (f : A -> S -> outcome S) l s s' :
  P s -> (forall x s1 s2, P s1 -> f x s1 = Done s2 -> P s2) -> ofold f l s = Done s' -> P s'.
Proof.
  revert s. induction l as [|x l IH]; intros s Hs Hf H; simpl in H.
  - injection H as <-. exact Hs.
  - apply obind_done in H as (s1 & H1 & H). exact (IH s1 (Hf x s s1 Hs H1) Hf H).
Qed.


(** A property of the accumulator kept by every iteration holds at the end
    of a loop that returns. *)
Lemma rfold_inv {A B : Type} (P : B -> Prop) (f : B -> A -> result B) l b b' :
  P b -> (forall x a x', P x -> f x a = Ok x' -> P x') -> rfold f l b = Ok b' -> P b'.
Proof.
  revert b. induction l as [|a l IH]; intros b Hb Hf H; simpl in H.
  - injection H as <-. exact Hb.
  - apply bind_eq_ok in H as (x & H1 & H). exact (IH x (Hf b a x Hb H1) Hf H).
Qed.

(** Two loops over the same list in lock step: when every iteration of the
    first that returns is matched by one of the second that keeps [R], the
    second returns when the first does, with [R] between the results. *)
Lemma rfold_sim {A X Y : Type} (R : X -> Y -> Prop) (f : X -> A -> result X) (g : Y -> A -> result Y)
  l x y x' :
  R x y -> (forall a x y x', R x y -> f x a = Ok x' -> exists y', g y a = Ok y' /\ R x' y') ->
  rfold f l x = Ok x' -> exists y', rfold g l y = Ok y' /\ R x' y'.
Proof.
  revert x y. induction l as [|a l IH]; intros x y Hxy Hstep H; simpl in H |- *.
  - injection H as <-. eauto.
  - apply bind_eq_ok in H as (x1 & H1 & H).
    destruct (Hstep a x y x1 Hxy H1) as (y1 & -> & Hy1). exact (IH x1 y1 Hy1 Hstep H).
Qed.

(** ** Python colour values

    A colour is whatever the caller passed: a tuple, a list or a string
    ([FigureWrapper.set_color] checks only the length). *)
Inductive pycolor : Type :=
| PyTuple (l : list R)
| PyList (l : list R)
| PyStr (s : string).

(** [len(color)]. *)
Definition py_len (c : pycolor) : nat :=
  match c with
  | PyTuple l | PyList l => length l
  | PyStr s => String.length s
  end.

(** ** Calls into OpenGL and GLUT

    The handlers of the program end in calls to the graphics library that
    change what is shown but no state of the program: a redraw request, the
    projection and viewport set-up, a forced window size, the exit from the
    main loop, and the immediate-mode drawing of the figures.  They are
    recorded, in order, as a trace of commands; a colour is recorded as the
    Python value passed to [glColor3fv]/[glColor4fv]. *)
Inductive gl_prim : Type := GL_POINTS | GL_LINES | GL_QUADS.

Inductive gl_cmd : Type :=
| PostRedisplay
| Perspective (fov aspect z_near z_far : R)
| Viewport (w h : Z)
| ReshapeWindow (w h : Z)
| LeaveMainLoop
| Clear
| LoadIdentity
| SwapBuffers
| LookAt (args : list R)
| PushMatrix
| PopMatrix
| PointSize (s : R)
| LineWidth (w : R)
| BeginPrim (p : gl_prim)
| EndPrim
| Color3 (c : pycolor)
| Color4 (c : pycolor) (alpha : R)
| Vertex3 (x y z : R)
| CreateWindow (w h : Z) (title : string)
| EnableDepthStencil
| RegisterCallbacks.
(** [CreateWindow w h title] is the window set-up of [glut_init]:
    [glutInit()], [glutInitDisplayMode(RGBA | DOUBLE | DEPTH | STENCIL)],
    [glutInitWindowSize(w, h)], [glutCreateWindow(title)];
    [EnableDepthStencil] is [glEnable(GL_DEPTH_TEST)],
    [glEnable(GL_STENCIL_TEST)], [glDisable(GL_LIGHTING)];
    [RegisterCallbacks] is [add_handlers]: the nine [glut*Func] calls that
    route the GLUT events to the controller ([Controller.step]). *)

(** ** Comparisons and clamps on reals *)

(** Python's [a <= b] on floats, as a boolean. *)
Definition Rleb (a b : R) : bool := if Rle_dec a b then true else false.

Lemma Rleb_true a b : Rleb a b = true <-> a <= b.
Proof. unfold Rleb. destruct (Rle_dec a b); split; congruence || tauto. Qed.

Lemma Rleb_false a b : Rleb a b = false <-> b < a.
Proof.
  unfold Rleb. destruct (Rle_dec a b); split; intros; try discriminate; lra.
Qed.

(** [max(lo, min(hi, v))]: the clamp idiom used by every camera setter. *)
Definition py_clamp (lo hi v : R) : R := Rmax lo (Rmin hi v).

Lemma py_clamp_bounds lo hi v : lo <= hi -> lo <= py_clamp lo hi v <= hi.
Proof.
  intros H. unfold py_clamp. split; [apply Rmax_l |].
  apply Rmax_lub; [exact H | apply Rmin_l].
Qed.

Lemma py_clamp_id lo hi v : lo <= v <= hi -> py_clamp lo hi v = v.
Proof.
  intros [H1 H2]. unfold py_clamp.
  rewrite Rmin_right by lra. rewrite Rmax_right by lra. reflexivity.
Qed.

Lemma py_clamp_idem lo hi v : lo <= hi -> py_clamp lo hi (py_clamp lo hi v) = py_clamp lo hi v.
Proof. intros H. apply py_clamp_id, py_clamp_bounds, H. Qed.

Lemma py_clamp_lo lo hi v : lo <= hi -> v <= lo -> py_clamp lo hi v = lo.
Proof.
  intros H1 H2. unfold py_clamp. rewrite Rmin_right by lra.
  apply Rmax_left. lra.
Qed.

Lemma py_clamp_hi lo hi v : lo <= hi -> hi <= v -> py_clamp lo hi v = hi.
Proof.
  intros H1 H2. unfold py_clamp. rewrite Rmin_left by lra.
  apply Rmax_right. lra.
Qed.

(** ** Lists *)

(** [l[i] = x] on a list that is known to have an index [i]; out of range
    the list is unchanged (the model only updates indices it has checked). *)
Fixpoint list_set {A : Type} (l : list A) (i : nat) (x : A) : list A :=
  match l, i with
  | [], _ => []
  | _ :: t, O => x :: t
  | h :: t, S i' => h :: list_set t i' x
  end.

Lemma list_set_length {A} (l : list A) i x : length (list_set l i x) = length l.
Proof. revert i; induction l; intros [|i]; simpl; auto. Qed.

Lemma nth_error_list_set_eq {A} (l : list A) i x :
  (i < length l)%nat -> nth_error (list_set l i x) i = Some x.
Proof.
  revert i; induction l; intros [|i] H; simpl in *; try lia; auto.
  apply IHl. lia.
Qed.

Lemma nth_error_list_set_ne {A} (l : list A) i j x :
  i <> j -> nth_error (list_set l i x) j = nth_error l j.
Proof.
  revert i j; induction l; intros [|i] [|j] H; simpl; auto; try congruence.
  all: apply IHl; congruence.
Qed.

(** ** Python dicts as association lists *)

(** [d[k] = v] on a dict kept as an association list in insertion order. *)
Fixpoint dict_store {K V : Type} (eqb : K -> K -> bool) (k : K) (v : V) (d : list (K * V)) :
  list (K * V) :=
  match d with
  | [] => [(k, v)]
  | (k', v') :: t => if eqb k k' then (k', v) :: t else (k', v') :: dict_store eqb k v t
  end.

(** A dict display [{k1: v1, k2: v2, ...}]. *)
Definition dict_display {K V : Type} (eqb : K -> K -> bool) (l : list (K * V)) : list (K * V) :=
  fold_left (fun d kv => dict_store eqb (fst kv) (snd kv) d) l [].

(** [d.get(k)]. *)
Fixpoint dict_lookup {K V : Type} (eqb : K -> K -> bool) (k : K) (d : list (K * V)) : option V :=
  match d with
  | [] => None
  | (k', v) :: t => if eqb k k' then Some v else dict_lookup eqb k t
  end.

(** The first element of a list satisfying a test, with its position:
    the [for ...: if ...: break] loop of the code. *)
Fixpoint find_first {A : Type} (p : A -> bool) (l : list A) : option A :=
  match l with
  | [] => None
  | x :: t => if p x then Some x else find_first p t
  end.

Lemma find_first_some {A} (p : A -> bool) l x :
  find_first p l = Some x -> In x l /\ p x = true.
Proof.
  induction l as [|h t IH]; simpl; [discriminate|].
  destruct (p h) eqn:E; [intros [= <-]; auto | intros H; apply IH in H; tauto].
Qed.

Lemma find_first_none {A} (p : A -> bool) l :
  find_first p l = None -> forall x, In x l -> p x = false.
Proof.
  induction l as [|h t IH]; simpl; [tauto|].
  destruct (p h) eqn:E; [discriminate|]. intros H x [<-|Hx]; auto.
Qed.

(** The first hit splits the list: every earlier element fails the test. *)
Lemma find_first_split {A} (p : A -> bool) l x :
  find_first p l = Some x ->
  exists pre post, l = pre ++ x :: post /\ p x = true /\ (forall y, In y pre -> p y = false).
Proof.
  induction l as [|h t IH]; simpl; [discriminate|].
  destruct (p h) eqn:E.
  - intros [= <-]. exists [], t. split; [reflexivity|]. split; [exact E | intros y []].
  - intros H. destruct (IH H) as (pre & post & -> & Hx & Hpre).
    exists (h :: pre), post. split; [reflexivity|]. split; [exact Hx|].
    intros y [<- | Hy]; auto.
Qed.

Lemma find_first_ext {A} (p q : A -> bool) l :
  (forall x, p x = q x) -> find_first p l = find_first q l.
Proof. intros H. induction l as [|h t IH]; simpl; [reflexivity|]. rewrite H, IH. reflexivity. Qed.

(** ** Automation *)

Create HintDb scene.
Create Rewrite HintDb scene_rw.
#[export] Hint Resolve py_clamp_bounds Rmax_l Rmin_l : scene.
#[export] Hint Rewrite @bind_ok @bind_err @list_set_length : scene_rw.

(** Turn boolean comparisons on reals into their propositions. *)
Ltac rleb_to_prop :=
  repeat match goal with
  | H : Rleb _ _ = true |- _ => apply Rleb_true in H
  | H : Rleb _ _ = false |- _ => apply Rleb_false in H
  end.

(** Case on every [Rleb] test of the goal. *)
Ltac case_rleb :=
  repeat match goal with
  | |- context [Rleb ?a ?b] =>
      let E := fresh "E" in destruct (Rleb a b) eqn:E; rleb_to_prop
  end.

(** Close a linear goal over clamped values: each [py_clamp lo hi v] of the
    goal is named and its bounds are added before [lra]. *)
Ltac clamp_lra :=
  repeat match goal with
  | |- context [py_clamp ?lo ?hi ?v] =>
      let H := fresh "Hclamp" in
      assert (H : lo <= py_clamp lo hi v <= hi) by (apply py_clamp_bounds; lra);
      let x := fresh "x" in set (x := py_clamp lo hi v) in *
  end; lra.
