(* ===== verification/OrderedSet.v ===== *)
(** * OrderedSet: the ordered set of [shared] and its jsonpickle handler

    [shared.classes.ordered_set.OrderedSet] is a set that remembers the
    order in which its keys were first added: it keeps them as the keys of
    a dict [_data] (Python dicts keep insertion order).  The lab5
    controller holds its pressed keys in one; lab7 registers a jsonpickle
    handler for it ([dal/JsonpickeHandler.py]) that writes an ordered set
    as the list of its keys and reads it back with [OrderedSet(data)].

    The class lives outside [src/]; it is modelled from its use:
    [OrderedSet()], [add] ([_data[k] = None]), [discard]
    ([_data.pop(k, None)]), [list(_data.keys())] and [OrderedSet(iterable)]
    (one [add] per item, in order).  The file states what an ordered set
    promises as the class [OrderedSet] with its laws, gives the list
    implementation the controller uses ([oset_add], [oset_discard]) and
    its instance on duplicate-free lists, and proves the handler's
    properties against the class alone. *)

From S2P Require Import Prelude.

(** ** Keys *)

(** Keys compared by a boolean equality that reflects [=] (Python's
    [__eq__] on the hashable keys used here). *)
Class KeyEq (K : Type) := {
  key_eqb : K -> K -> bool;
  key_eqb_spec : forall x y, reflect (x = y) (key_eqb x y)
}.

#[export] Instance string_key : KeyEq string := { key_eqb := String.eqb; key_eqb_spec := String.eqb_spec }.

Section Keys.

Context {K : Type} `{KeyEq K}.

Definition key_eq_dec (x y : K) : {x = y} + {x <> y} :=
  match key_eqb_spec x y with
  | ReflectT _ h => left h
  | ReflectF _ h => right h
  end.

(** ** The list implementation *)

(** [OrderedSet.add]: a new key goes last, a present one keeps its place. *)
Definition oset_add (k : K) (l : list K) : list K :=
  if existsb (key_eqb k) l then l else l ++ [k].

(** [OrderedSet.discard]. *)
Definition oset_discard (k : K) (l : list K) : list K :=
  filter (fun x => negb (key_eqb k x)) l.

(** [OrderedSet(iterable)]: the items added one after the other. *)
Definition oset_of_list (l : list K) : list K :=
  fold_left (fun s k => oset_add k s) l [].

(** A list without repeated keys, decided. *)
Fixpoint nodupb (l : list K) : bool :=
  match l with
  | [] => true
  | x :: r => negb (existsb (key_eqb x) r) && nodupb r
  end.

End Keys.

(** ** The interface *)

(** What an ordered set promises, seen through the list of its keys in
    insertion order ([list(_data.keys())]): the keys are distinct and
    determine the set; [add] appends a new key and leaves a present one in
    place; [discard] removes a key and keeps the order of the others;
    [OrderedSet(iterable)] adds the items in order. *)
Class OrderedSet (K T : Type) `{KeyEq K} := {
  os_empty : T;
  os_add : K -> T -> T;
  os_discard : K -> T -> T;
  os_keys : T -> list K;
  os_of_list : list K -> T;
  os_keys_nodup s : NoDup (os_keys s);
  os_keys_inj s1 s2 : os_keys s1 = os_keys s2 -> s1 = s2;
  os_keys_empty : os_keys os_empty = [];
  os_keys_add k s : os_keys (os_add k s) = oset_add k (os_keys s);
  os_keys_discard k s : os_keys (os_discard k s) = oset_discard k (os_keys s);
  os_of_list_fold l : os_of_list l = fold_left (fun s k => os_add k s) l os_empty
}.

(** ** The jsonpickle handler *)

Section Handler.

Context {K T : Type} `{OrderedSet K T}.

(** [OrderedSetHandler.flatten]: [list(obj._data.keys())]. *)
Definition flatten (s : T) : list K := os_keys s.

(** [OrderedSetHandler.restore]: [OrderedSet(data)]. *)
Definition restore (data : list K) : T := os_of_list data.

End Handler.

(** [handle()]: [register(OrderedSet, OrderedSetHandler)] in jsonpickle's
    table of handlers, by class name (a later registration replaces an
    earlier one). *)
Definition handle (registry : list (string * string)) : list (string * string) :=
  ("OrderedSet", "OrderedSetHandler")%string :: filter (fun e => negb (String.eqb (fst e) "OrderedSet")) registry.

(** ** The list implementation satisfies the interface *)

Section ListLemmas.

Context {K : Type} `{KeyEq K}.

Lemma existsb_key_In k l : existsb (key_eqb k) l = true <-> In k l.
Proof.
  rewrite existsb_exists. split.
  - intros (x & Hx & E). destruct (key_eqb_spec k x); [subst; exact Hx | discriminate].
  - intros Hk. exists k. split; [exact Hk|]. destruct (key_eqb_spec k k); [reflexivity | congruence].
Qed.

Lemma existsb_key_false k l : existsb (key_eqb k) l = false <-> ~ In k l.
Proof. rewrite <- existsb_key_In. destruct (existsb _ _); intuition congruence. Qed.

Lemma nodupb_NoDup l : nodupb l = true <-> NoDup l.
Proof.
  induction l as [|x r IH]; cbn; [split; constructor|].
  rewrite andb_true_iff, negb_true_iff, existsb_key_false, IH, NoDup_cons_iff. reflexivity.
Qed.

Lemma oset_add_In k l : In k l -> oset_add k l = l.
Proof. unfold oset_add. rewrite <- existsb_key_In. intros ->. reflexivity. Qed.

Lemma oset_add_notin k l : ~ In k l -> oset_add k l = l ++ [k].
Proof. unfold oset_add. rewrite <- existsb_key_false. intros ->. reflexivity. Qed.

Lemma oset_add_NoDup k l : NoDup l -> NoDup (oset_add k l).
Proof.
  intros Hl. destruct (in_dec key_eq_dec k l) as [Hk|Hk].
  - rewrite oset_add_In by exact Hk. exact Hl.
  - rewrite oset_add_notin by exact Hk. rewrite <- (rev_involutive (l ++ [k])). apply NoDup_rev.
    rewrite rev_app_distr. cbn.
    constructor; [rewrite <- in_rev; exact Hk | apply NoDup_rev, Hl].
Qed.

Lemma oset_discard_NoDup k l : NoDup l -> NoDup (oset_discard k l).
Proof. apply NoDup_filter. Qed.

(** [OrderedSet(iterable)] keeps the first occurrence of every key: it is
    the reverse of Stdlib's [nodup] (which keeps the last ones) on the
    reversed list. *)
Lemma oset_of_list_first_occurrences l : oset_of_list l = rev (nodup key_eq_dec (rev l)).
Proof.
  unfold oset_of_list. induction l as [|x l IH] using rev_ind; [reflexivity|].
  rewrite fold_left_app, IH, rev_app_distr. cbn [rev app nodup].
  destruct (in_dec key_eq_dec x (rev l)) as [Hx|Hx].
  - apply oset_add_In. rewrite <- in_rev, nodup_In. exact Hx.
  - apply oset_add_notin. rewrite <- in_rev, nodup_In. exact Hx.
Qed.

Lemma oset_of_list_NoDup l : NoDup l -> oset_of_list l = l.
Proof.
  intros Hl. rewrite oset_of_list_first_occurrences, nodup_fixed_point by (apply NoDup_rev, Hl).
  apply rev_involutive.
Qed.

End ListLemmas.

(** The ordered sets of the list implementation: duplicate-free lists. *)
Definition oset (K : Type) `{KeyEq K} : Type := { l : list K | nodupb l = true }.

Section ListInstance.

Context {K : Type} `{KeyEq K}.

Lemma nodupb_add k (s : oset K) : nodupb (oset_add k (proj1_sig s)) = true.
Proof. apply nodupb_NoDup, oset_add_NoDup, nodupb_NoDup, proj2_sig. Qed.

Lemma nodupb_discard k (s : oset K) : nodupb (oset_discard k (proj1_sig s)) = true.
Proof. apply nodupb_NoDup, oset_discard_NoDup, nodupb_NoDup, proj2_sig. Qed.

Definition oset_empty : oset K := exist _ [] eq_refl.
Definition oset_add_s (k : K) (s : oset K) : oset K := exist _ (oset_add k (proj1_sig s)) (nodupb_add k s).
Definition oset_discard_s (k : K) (s : oset K) : oset K := exist _ (oset_discard k (proj1_sig s)) (nodupb_discard k s).

Lemma oset_keys_inj (s1 s2 : oset K) : proj1_sig s1 = proj1_sig s2 -> s1 = s2.
Proof.
  destruct s1 as [l1 p1], s2 as [l2 p2]. cbn. intros <-.
  f_equal. apply Eqdep_dec.UIP_dec, bool_dec.
Qed.

#[export] Program Instance list_ordered_set : OrderedSet K (oset K) := {
  os_empty := oset_empty;
  os_add := oset_add_s;
  os_discard := oset_discard_s;
  os_keys := @proj1_sig _ _;
  os_of_list l := fold_left (fun s k => oset_add_s k s) l oset_empty
}.
Next Obligation. apply nodupb_NoDup, proj2_sig. Qed.
Next Obligation. apply oset_keys_inj; assumption. Qed.

End ListInstance.

(** ** Properties of the handler, from the interface alone *)

Section HandlerProperties.

Context {K T : Type} `{OrderedSet K T}.

(** Adding keys one by one, seen through the keys: the list
    implementation's fold. *)
Lemma os_keys_fold l s :
  os_keys (fold_left (fun s k => os_add k s) l s) = fold_left (fun s k => oset_add k s) l (os_keys s).
Proof.
  revert s. induction l as [|k l IH]; intros s; [reflexivity|].
  cbn. rewrite IH, os_keys_add. reflexivity.
Qed.

Lemma os_keys_of_list l : os_keys (os_of_list l) = oset_of_list l.
Proof. rewrite os_of_list_fold, os_keys_fold, os_keys_empty. reflexivity. Qed.

(** C26. Writing an ordered set with the handler and reading it back gives
    the same set: [restore(flatten(s))] is [s], for every implementation
    of the interface (the keys of a set are distinct, so
    [OrderedSet(keys)] adds each of them once, in the same order). *)
Theorem restore_flatten (s : T) : restore (flatten s) = s.
Proof.
  apply os_keys_inj. unfold restore, flatten.
  rewrite os_keys_of_list. apply oset_of_list_NoDup, os_keys_nodup.
Qed.

(** Reading a JSON list with the handler drops the repeated keys:
    [flatten(restore(data))] keeps the first occurrence of every key, in
    order, which is the reverse of Stdlib's [nodup] on the reversed
    list; a list with repeats is not read back as written. *)
Theorem flatten_restore (data : list K) : flatten (restore data) = rev (nodup key_eq_dec (rev data)).
Proof. unfold flatten, restore. rewrite os_keys_of_list. apply oset_of_list_first_occurrences. Qed.

End HandlerProperties.

(** ** Examples *)

(** A JSON list with a repeated key, read into the list implementation
    and written back. *)
Example restore_repeated_keys :
  flatten (restore (T := oset string) ["w"; "a"; "w"; "d"]%string) = ["w"; "a"; "d"]%string.
Proof. reflexivity. Qed.

(** [handle] registers the handler once, whatever was registered. *)
Example handle_replaces :
  handle [("OrderedSet", "Other"); ("Vertex", "VH")]%string =
    [("OrderedSet", "OrderedSetHandler"); ("Vertex", "VH")]%string.
Proof. reflexivity. Qed.
