(* ===== verification/Vec3.v ===== *)
(** * Vec3: points, 3x3 matrices and the rotation matrices of the figures

    numpy 3-arrays ([Vertex.position], translation offsets) become [vec3]
    over [R]; the 3x3 [np.array] matrices of [FigureWrapper.rotate] and
    [FigureWrapper.scale] become [mat3], and [np.dot(p, M.T)] is
    [mat_vec M p].  The file proves what the figure transforms need:
    linearity, the mean of a point list ([np.mean(..., axis=0)]) and its
    commutation with affine maps, and the orthogonality of the rotation
    matrices, from which rigidity and the exact inverse follow. *)

From S2P Require Import Prelude.

Record vec3 : Type := V3 { vx : R; vy : R; vz : R }.

Definition vzero : vec3 := V3 0 0 0.
Definition vadd (p q : vec3) : vec3 := V3 (vx p + vx q) (vy p + vy q) (vz p + vz q).
Definition vopp (p : vec3) : vec3 := V3 (- vx p) (- vy p) (- vz p).
Definition vsub (p q : vec3) : vec3 := vadd p (vopp q).
Definition vscale (k : R) (p : vec3) : vec3 := V3 (k * vx p) (k * vy p) (k * vz p).
Definition vdot (p q : vec3) : R := vx p * vx q + vy p * vy q + vz p * vz q.
Definition vdist2 (p q : vec3) : R := vdot (vsub p q) (vsub p q).

Infix "+v" := vadd (at level 50, left associativity) : scene_scope.
Infix "-v" := vsub (at level 50, left associativity) : scene_scope.

(** A 3x3 matrix by its rows, as [np.array([[..],[..],[..]])]. *)
Record mat3 : Type := M3 { row0 : vec3; row1 : vec3; row2 : vec3 }.

Definition mat_vec (m : mat3) (p : vec3) : vec3 :=
  V3 (vdot (row0 m) p) (vdot (row1 m) p) (vdot (row2 m) p).

Definition col0 (m : mat3) : vec3 := V3 (vx (row0 m)) (vx (row1 m)) (vx (row2 m)).
Definition col1 (m : mat3) : vec3 := V3 (vy (row0 m)) (vy (row1 m)) (vy (row2 m)).
Definition col2 (m : mat3) : vec3 := V3 (vz (row0 m)) (vz (row1 m)) (vz (row2 m)).

Definition transpose (m : mat3) : mat3 := M3 (col0 m) (col1 m) (col2 m).

(** [np.dot(a, b)] on two matrices. *)
Definition mat_mul (a b : mat3) : mat3 :=
  M3 (V3 (vdot (row0 a) (col0 b)) (vdot (row0 a) (col1 b)) (vdot (row0 a) (col2 b)))
     (V3 (vdot (row1 a) (col0 b)) (vdot (row1 a) (col1 b)) (vdot (row1 a) (col2 b)))
     (V3 (vdot (row2 a) (col0 b)) (vdot (row2 a) (col1 b)) (vdot (row2 a) (col2 b))).

Definition mat_id : mat3 := M3 (V3 1 0 0) (V3 0 1 0) (V3 0 0 1).

(** [math.radians]. *)
Definition radians (d : R) : R := d * PI / 180.

(** [rotation_matrix_x], [_y], [_z] of [FigureWrapper.rotate]. *)
Definition rotation_matrix_x (dx : R) : mat3 :=
  let a := radians dx in
  M3 (V3 1 0 0) (V3 0 (cos a) (- sin a)) (V3 0 (sin a) (cos a)).

Definition rotation_matrix_y (dy : R) : mat3 :=
  let a := radians dy in
  M3 (V3 (cos a) 0 (sin a)) (V3 0 1 0) (V3 (- sin a) 0 (cos a)).

Definition rotation_matrix_z (dz : R) : mat3 :=
  let a := radians dz in
  M3 (V3 (cos a) (- sin a) 0) (V3 (sin a) (cos a) 0) (V3 0 0 1).

(** [np.dot(np.dot(rotation_matrix_z, rotation_matrix_y), rotation_matrix_x)]. *)
Definition rotation_matrix (dx dy dz : R) : mat3 :=
  mat_mul (mat_mul (rotation_matrix_z dz) (rotation_matrix_y dy)) (rotation_matrix_x dx).

(** [np.array([[sx,0,0],[0,sy,0],[0,0,sz]], dtype=np.float32)] of
    [FigureWrapper.scale], with the factors exact (the float32 rounding of
    the entries is not modelled). *)
Definition scale_matrix (sx sy sz : R) : mat3 :=
  M3 (V3 sx 0 0) (V3 0 sy 0) (V3 0 0 sz).

(** The sum and the mean of a point list: [np.mean(points, axis=0)]. *)
Fixpoint vsum (l : list vec3) : vec3 :=
  match l with
  | [] => vzero
  | p :: t => vadd p (vsum t)
  end.

Definition vmean (l : list vec3) : vec3 := vscale (/ INR (length l)) (vsum l).

(** An orthogonal matrix: its transpose is its inverse. *)
Definition orthogonal (m : mat3) : Prop := mat_mul (transpose m) m = mat_id.

(** ** Extensionality and the tactic for vector identities *)

Lemma vec3_eq (p q : vec3) : vx p = vx q -> vy p = vy q -> vz p = vz q -> p = q.
Proof. destruct p, q; simpl; intros; subst; reflexivity. Qed.

Lemma mat3_eq (a b : mat3) : row0 a = row0 b -> row1 a = row1 b -> row2 a = row2 b -> a = b.
Proof. destruct a, b; simpl; intros; subst; reflexivity. Qed.

(** Destruct every vector and matrix in sight and close each coordinate
    with [ring]. *)
Ltac vec_ring :=
  repeat match goal with
  | m : mat3 |- _ => destruct m
  | p : vec3 |- _ => destruct p
  end;
  unfold vadd, vopp, vsub, vscale, vdot, vdist2, mat_vec, mat_mul, transpose,
    col0, col1, col2, mat_id in *; simpl;
  try (apply mat3_eq; simpl); try (apply vec3_eq; simpl); unfold vdot; simpl; ring.

Lemma vadd_assoc p q r : vadd (vadd p q) r = vadd p (vadd q r).
Proof. vec_ring. Qed.

Lemma vadd_comm p q : vadd p q = vadd q p.
Proof. vec_ring. Qed.

Lemma vadd_zero_r p : vadd p vzero = p.
Proof. unfold vzero. vec_ring. Qed.

Lemma vadd_opp_r p : vadd p (vopp p) = vzero.
Proof. unfold vzero. vec_ring. Qed.

Lemma vsub_add_cancel p c : vadd (vadd p (vopp c)) c = p.
Proof. vec_ring. Qed.

Lemma mat_vec_add m p q : mat_vec m (vadd p q) = vadd (mat_vec m p) (mat_vec m q).
Proof. vec_ring. Qed.

Lemma mat_vec_opp m p : mat_vec m (vopp p) = vopp (mat_vec m p).
Proof. vec_ring. Qed.

Lemma mat_vec_scale m k p : mat_vec m (vscale k p) = vscale k (mat_vec m p).
Proof. vec_ring. Qed.

Lemma mat_vec_zero m : mat_vec m vzero = vzero.
Proof. unfold vzero. vec_ring. Qed.

Lemma mat_vec_mul a b p : mat_vec (mat_mul a b) p = mat_vec a (mat_vec b p).
Proof. vec_ring. Qed.

Lemma mat_vec_id p : mat_vec mat_id p = p.
Proof. vec_ring. Qed.

Lemma transpose_mul a b : transpose (mat_mul a b) = mat_mul (transpose b) (transpose a).
Proof. vec_ring. Qed.

Lemma mat_mul_assoc a b c : mat_mul (mat_mul a b) c = mat_mul a (mat_mul b c).
Proof. vec_ring. Qed.

Lemma mat_mul_id_l a : mat_mul mat_id a = a.
Proof. vec_ring. Qed.

Lemma transpose_involutive a : transpose (transpose a) = a.
Proof. destruct a as [[] [] []]. reflexivity. Qed.

Lemma vdot_mat_vec m p q : vdot (mat_vec m p) (mat_vec m q) = vdot p (mat_vec (mat_mul (transpose m) m) q).
Proof. vec_ring. Qed.

#[export] Hint Rewrite vadd_assoc mat_vec_add mat_vec_opp mat_vec_scale mat_vec_zero
  mat_vec_mul mat_vec_id : scene_rw.

(** ** Orthogonality of the rotation matrices *)

Lemma cos_sin_sq (a : R) : cos a * cos a + sin a * sin a = 1.
Proof. rewrite <- (sin2_cos2 a). unfold Rsqr. ring. Qed.

Lemma orthogonal_rotation_matrix_x dx : orthogonal (rotation_matrix_x dx).
Proof.
  unfold orthogonal, rotation_matrix_x. pose proof (cos_sin_sq (radians dx)).
  unfold mat_mul, transpose, col0, col1, col2, vdot, mat_id; simpl.
  f_equal; f_equal; lra.
Qed.

Lemma orthogonal_rotation_matrix_y dy : orthogonal (rotation_matrix_y dy).
Proof.
  unfold orthogonal, rotation_matrix_y. pose proof (cos_sin_sq (radians dy)).
  unfold mat_mul, transpose, col0, col1, col2, vdot, mat_id; simpl.
  f_equal; f_equal; lra.
Qed.

Lemma orthogonal_rotation_matrix_z dz : orthogonal (rotation_matrix_z dz).
Proof.
  unfold orthogonal, rotation_matrix_z. pose proof (cos_sin_sq (radians dz)).
  unfold mat_mul, transpose, col0, col1, col2, vdot, mat_id; simpl.
  f_equal; f_equal; lra.
Qed.

Lemma orthogonal_mul a b : orthogonal a -> orthogonal b -> orthogonal (mat_mul a b).
Proof.
  unfold orthogonal. intros Ha Hb.
  rewrite transpose_mul, mat_mul_assoc, <- (mat_mul_assoc (transpose a)), Ha,
    mat_mul_id_l. exact Hb.
Qed.

Lemma orthogonal_rotation_matrix dx dy dz : orthogonal (rotation_matrix dx dy dz).
Proof.
  unfold rotation_matrix.
  auto using orthogonal_mul, orthogonal_rotation_matrix_x,
    orthogonal_rotation_matrix_y, orthogonal_rotation_matrix_z.
Qed.

#[export] Hint Resolve orthogonal_rotation_matrix orthogonal_mul : scene.

Lemma orthogonal_inverse m p : orthogonal m -> mat_vec (transpose m) (mat_vec m p) = p.
Proof. intros H. rewrite <- mat_vec_mul. unfold orthogonal in H. rewrite H. apply mat_vec_id. Qed.

Lemma orthogonal_dist2 m p q : orthogonal m -> vdist2 (mat_vec m p) (mat_vec m q) = vdist2 p q.
Proof.
  intros H. unfold vdist2, vsub.
  rewrite <- mat_vec_opp, <- mat_vec_add, vdot_mat_vec.
  unfold orthogonal in H. rewrite H, mat_vec_id. reflexivity.
Qed.

(** A rotation by the opposite angle is the transpose. *)
Lemma rotation_matrix_x_opp a : rotation_matrix_x (- a) = transpose (rotation_matrix_x a).
Proof.
  unfold rotation_matrix_x, radians, transpose, col0, col1, col2; simpl.
  replace (- a * PI / 180) with (- (a * PI / 180)) by field.
  rewrite cos_neg, sin_neg. f_equal; f_equal; ring.
Qed.

Lemma rotation_matrix_y_opp a : rotation_matrix_y (- a) = transpose (rotation_matrix_y a).
Proof.
  unfold rotation_matrix_y, radians, transpose, col0, col1, col2; simpl.
  replace (- a * PI / 180) with (- (a * PI / 180)) by field.
  rewrite cos_neg, sin_neg. f_equal; f_equal; ring.
Qed.

Lemma rotation_matrix_z_opp a : rotation_matrix_z (- a) = transpose (rotation_matrix_z a).
Proof.
  unfold rotation_matrix_z, radians, transpose, col0, col1, col2; simpl.
  replace (- a * PI / 180) with (- (a * PI / 180)) by field.
  rewrite cos_neg, sin_neg. f_equal; f_equal; ring.
Qed.

Lemma radians_0 : radians 0 = 0.
Proof. unfold radians. field. Qed.

Lemma rotation_matrix_x_0 : rotation_matrix_x 0 = mat_id.
Proof. unfold rotation_matrix_x. rewrite radians_0, cos_0, sin_0. unfold mat_id. f_equal; f_equal; ring. Qed.

Lemma rotation_matrix_y_0 : rotation_matrix_y 0 = mat_id.
Proof. unfold rotation_matrix_y. rewrite radians_0, cos_0, sin_0. unfold mat_id. f_equal; f_equal; ring. Qed.

Lemma rotation_matrix_z_0 : rotation_matrix_z 0 = mat_id.
Proof. unfold rotation_matrix_z. rewrite radians_0, cos_0, sin_0. unfold mat_id. f_equal; f_equal; ring. Qed.

Lemma mat_mul_id_r a : mat_mul a mat_id = a.
Proof. vec_ring. Qed.

(** ** The mean of a point list *)

Lemma vsum_map_linear m l : vsum (map (mat_vec m) l) = mat_vec m (vsum l).
Proof.
  induction l as [|p l IH]; simpl.
  - symmetry. apply mat_vec_zero.
  - rewrite IH, mat_vec_add. reflexivity.
Qed.

Lemma vmean_map_linear m l : vmean (map (mat_vec m) l) = mat_vec m (vmean l).
Proof. unfold vmean. rewrite length_map, vsum_map_linear, mat_vec_scale. reflexivity. Qed.

Lemma vsum_map_add d l : vsum (map (fun p => vadd p d) l) = vadd (vsum l) (vscale (INR (length l)) d).
Proof.
  induction l as [|p l IH]; cbn [vsum map length].
  - unfold vzero. vec_ring.
  - rewrite IH, S_INR. vec_ring.
Qed.

Lemma vmean_map_add d l : l <> [] -> vmean (map (fun p => vadd p d) l) = vadd (vmean l) d.
Proof.
  intros Hne. unfold vmean. rewrite length_map, vsum_map_add.
  assert (Hn : INR (length l) <> 0) by (apply not_0_INR; destruct l; simpl; congruence).
  destruct (vsum l), d. unfold vadd, vscale; simpl. apply vec3_eq; simpl; field; exact Hn.
Qed.
