(* ===== verification/Figure.v ===== *)
(** * Figure: the figure data of [dal/Figure.py] and the transforms of
    [bll/FigureWrapper.py]

    A [Vertex] is a position and a colour.  An [Edge] and a [Face] hold
    references to vertex objects; every template builds them from the very
    objects of its vertex list, so they are modelled as indices into
    [vertices] (the design notes' arena-and-index reading).  Colours are
    Python values: a tuple, a list or a string, because [set_color] accepts
    any of them and checks only the length.  [FigureData] is the second
    class of that name in the source (the first is shadowed).

    The [FigureWrapper] operations are functions on [FigureData]; the ones
    that can raise return [result].  [rotate] and [scale] are composed
    exactly as the code composes them: centroid, [translate] by its
    opposite, the matrix, [translate] back. *)

From S2P Require Import Prelude Vec3.

(** ** Data *)

Definition rgb (r g b : R) : pycolor := PyTuple [r; g; b].

Record Vertex : Type := { position : vec3; vcolor : pycolor }.

(** [Vertex.__init__]: the default colour is [(0, 0, 100)]. *)
Definition mkVertex (x y z : R) : Vertex :=
  {| position := V3 x y z; vcolor := rgb 0 0 100 |}.

Record Edge : Type := { edge_vertices : nat * nat; ecolor : pycolor }.

(** [Edge.__init__]: default colour red. *)
Definition mkEdge (i j : nat) : Edge := {| edge_vertices := (i, j); ecolor := rgb 1 0 0 |}.

Record Face : Type := { face_vertices : list nat; fcolor : pycolor }.

(** [Face.__init__]: default colour green. *)
Definition mkFace (l : list nat) : Face := {| face_vertices := l; fcolor := rgb 0 1 0 |}.

Inductive DrawMode : Type := Points | Edges | Faces.

Record FigureData : Type := {
  vertices : list Vertex;
  edges : list Edge;
  faces : list Face;
  color : pycolor;
  angle : vec3;
  draw_mode : DrawMode;
  selected : bool;
  figure_color : bool
}.

(** [FigureData.__init__] (the second definition, the one in force): the
    [figure_color] argument is accepted and ignored, the flag is always
    [True]. *)
Definition mkFigureData (vs : list Vertex) (es : list Edge) (fs : list Face)
    (c : pycolor) (m : DrawMode) (figure_color_arg : bool) : FigureData :=
  {| vertices := vs; edges := es; faces := fs; color := c; angle := V3 0 0 0;
     draw_mode := m; selected := false; figure_color := true |}.

(** ** The template catalogue *)

Definition vertices_of (l : list (R * R * R)) : list Vertex :=
  map (fun '(x, y, z) => mkVertex x y z) l.
Definition edges_of (l : list (nat * nat)) : list Edge := map (fun '(i, j) => mkEdge i j) l.
Definition faces_of (l : list (list nat)) : list Face := map mkFace l.

Definition cube_vertices := vertices_of
  [(-1,-1,-1); (1,-1,-1); (1,1,-1); (-1,1,-1); (-1,-1,1); (1,-1,1); (1,1,1); (-1,1,1)].
Definition cube_edges := edges_of
  [(0,1); (1,2); (2,3); (3,0); (4,5); (5,6); (6,7); (7,4); (0,4); (1,5); (2,6); (3,7)]%nat.
Definition cube_faces := faces_of
  [[0;1;2;3]; [4;5;6;7]; [0;1;5;4]; [2;3;7;6]; [0;3;7;4]; [1;2;6;5]]%nat.
Definition cube_data := mkFigureData cube_vertices cube_edges cube_faces (rgb 0 1 0) Edges true.

Definition pyramid_vertices := vertices_of
  [(0,1,0); (-1,-1,-1); (1,-1,-1); (1,-1,1); (-1,-1,1)].
Definition pyramid_edges := edges_of
  [(0,1); (0,2); (0,3); (0,4); (1,2); (2,3); (3,4); (4,1)]%nat.
Definition pyramid_faces := faces_of
  [[0;1;2]; [0;2;3]; [0;3;4]; [0;4;1]; [1;2;3;4]]%nat.
Definition pyramid_data :=
  mkFigureData pyramid_vertices pyramid_edges pyramid_faces (rgb 1 0 0) Faces true.

Definition sphere_vertices := vertices_of
  [(-1,0,0); (1,0,0); (0,1,0); (0,-1,0); (0,0,1); (0,0,-1)].
Definition sphere_edges := edges_of [(0,1); (2,3); (4,5)]%nat.
Definition sphere_faces := faces_of [[0;1;2]; [3;4;5]]%nat.
Definition sphere_data :=
  mkFigureData sphere_vertices sphere_edges sphere_faces (rgb 0 0 1) Edges true.

Definition tetrahedron_vertices := vertices_of
  [(1,1,1); (-1,-1,1); (-1,1,-1); (1,-1,-1)].
Definition tetrahedron_edges := edges_of [(0,1); (0,2); (0,3); (1,2); (1,3); (2,3)]%nat.
Definition tetrahedron_faces := faces_of [[0;1;2]; [1;2;3]; [2;3;0]; [3;0;1]]%nat.
Definition tetrahedron_data :=
  mkFigureData tetrahedron_vertices tetrahedron_edges tetrahedron_faces (rgb 1 1 0) Faces true.

Definition hexahedron_vertices := vertices_of
  [(1,1,1); (-1,1,1); (-1,-1,1); (1,-1,1); (1,-1,-1); (1,1,-1); (-1,1,-1); (-1,-1,-1)].
Definition hexahedron_edges := edges_of
  [(0,1); (1,2); (2,3); (3,0); (4,5); (5,6); (6,7); (7,4); (0,5); (1,6); (2,7); (3,4)]%nat.
Definition hexahedron_faces := faces_of
  [[0;1;2;3]; [4;5;6;7]; [0;1;6;5]; [1;2;7;6]; [2;3;4;7]; [3;0;5;4]]%nat.
Definition hexahedron_data :=
  mkFigureData hexahedron_vertices hexahedron_edges hexahedron_faces (rgb 0 1 1) Faces true.

Definition octahedron_vertices := vertices_of
  [(0,1,0); (1,0,0); (0,0,1); (-1,0,0); (0,0,-1); (0,-1,0)].
Definition octahedron_edges := edges_of
  [(0,1); (0,2); (0,3); (0,4); (1,2); (2,3); (3,4); (4,1); (1,5); (2,5); (3,5); (4,5)]%nat.
Definition octahedron_faces := faces_of
  [[0;1;2]; [0;2;3]; [0;3;4]; [0;4;1]; [5;1;2]; [5;2;3]; [5;3;4]; [5;4;1]]%nat.
Definition octahedron_data :=
  mkFigureData octahedron_vertices octahedron_edges octahedron_faces (rgb 1 0 1) Edges true.

Definition icosahedron_vertices := vertices_of
  [(0,1,0); (0.8944,0.4472,0); (0.2764,0.4472,0.8506); (-0.7236,0.4472,0.5257);
   (-0.7236,0.4472,-0.5257); (0.2764,0.4472,-0.8506); (0.7236,-0.4472,0.5257);
   (-0.2764,-0.4472,0.8506); (-0.8944,-0.4472,0); (-0.2764,-0.4472,-0.8506);
   (0.7236,-0.4472,-0.5257); (0,-1,0)].
Definition icosahedron_edges := edges_of
  [(0,1); (0,2); (0,3); (0,4); (0,5); (1,2); (1,5); (1,6); (2,3); (2,6); (2,7);
   (3,4); (3,7); (3,8); (4,5); (4,8); (4,9); (5,10); (6,7); (6,10); (7,8); (7,11);
   (8,9); (8,11); (9,10); (9,11); (10,11); (5,11)]%nat.
Definition icosahedron_faces := faces_of
  [[0;1;2]; [0;2;3]; [0;3;4]; [0;4;5]; [0;5;1]; [1;2;6]; [2;3;7]; [3;4;8]; [4;5;9];
   [5;1;10]; [6;7;11]; [7;8;11]; [8;9;11]; [9;10;11]; [10;6;11]]%nat.
Definition icosahedron_data :=
  mkFigureData icosahedron_vertices icosahedron_edges icosahedron_faces (rgb 0 1 1) Faces true.

(** The module-level dictionary [figures], in its insertion order. *)
Definition figures : list (string * FigureData) :=
  [("Cube", cube_data); ("Pyramid", pyramid_data); ("Sphere", sphere_data);
   ("Tetrahedron", tetrahedron_data); ("Hexahedron", hexahedron_data);
   ("Octahedron", octahedron_data); ("Icosahedron", icosahedron_data)]%string.

(** The module-level dictionary [colors]; its values are Python lists. *)
Definition colors : list (string * list R) :=
  [("Red", [1; 0; 0]); ("Green", [0; 1; 0]); ("Blue", [0; 0; 1]); ("Yellow", [1; 1; 0]);
   ("Cyan", [0; 1; 1]); ("Magenta", [1; 0; 1]); ("White", [1; 1; 1]); ("Black", [0; 0; 0])]%string.

(** [key in d.keys()] / [d[key]] on a string-keyed dictionary, returning
    the position of the key (the identity of the stored object). *)
Fixpoint dict_index {A : Type} (k : string) (d : list (string * A)) : option nat :=
  match d with
  | [] => None
  | (k', _) :: t => if String.eqb k k' then Some O else option_map S (dict_index k t)
  end.

Fixpoint dict_get {A : Type} (k : string) (d : list (string * A)) : option A :=
  match d with
  | [] => None
  | (k', v) :: t => if String.eqb k k' then Some v else dict_get k t
  end.

(** ** The operations of [FigureWrapper] *)

Definition positions (d : FigureData) : list vec3 := map position (vertices d).

Definition with_vertices (d : FigureData) (vs : list Vertex) : FigureData :=
  {| vertices := vs; edges := edges d; faces := faces d; color := color d; angle := angle d;
     draw_mode := draw_mode d; selected := selected d; figure_color := figure_color d |}.

Definition with_color (d : FigureData) (c : pycolor) : FigureData :=
  {| vertices := vertices d; edges := edges d; faces := faces d; color := c; angle := angle d;
     draw_mode := draw_mode d; selected := selected d; figure_color := figure_color d |}.

Definition with_angle (d : FigureData) (a : vec3) : FigureData :=
  {| vertices := vertices d; edges := edges d; faces := faces d; color := color d; angle := a;
     draw_mode := draw_mode d; selected := selected d; figure_color := figure_color d |}.

Definition with_draw_mode (d : FigureData) (m : DrawMode) : FigureData :=
  {| vertices := vertices d; edges := edges d; faces := faces d; color := color d;
     angle := angle d; draw_mode := m; selected := selected d; figure_color := figure_color d |}.

Definition with_selected (d : FigureData) (b : bool) : FigureData :=
  {| vertices := vertices d; edges := edges d; faces := faces d; color := color d;
     angle := angle d; draw_mode := draw_mode d; selected := b; figure_color := figure_color d |}.

Definition set_position (f : vec3 -> vec3) (v : Vertex) : Vertex :=
  {| position := f (position v); vcolor := vcolor v |}.

Definition set_vcolor (c : pycolor) (v : Vertex) : Vertex :=
  {| position := position v; vcolor := c |}.

(** [FigureWrapper.set_example] / [create]: the wrapper is bound to the
    shared template object, identified by its position in [figures]. *)
(** [FigureWrapper.set_data]: [if data: self.data = data].  A wrapper is
    the object of the store it is bound to; a [FigureData] argument is
    falsy only as [None].  The application never calls it. *)
Definition figure_set_data (data : option nat) (w : nat) : nat :=
  match data with Some i => i | None => w end.

Definition set_example (name : string) : result nat :=
  match dict_index name figures with
  | Some i => Ok i
  | None => Err (ValueError "Wrong example name")
  end.

(** [FigureWrapper.translate]: [vertex.position += (x, y, z)] for every
    vertex.  The code adds [np.array([x, y, z], dtype=np.float32)]; the
    offset is taken exactly here, so [rotate] and [scale] pivot on the
    exact centroid rather than on its float32 rounding. *)
Definition translate (x y z : R) (d : FigureData) : FigureData :=
  with_vertices d (map (set_position (fun p => vadd p (V3 x y z))) (vertices d)).

(** [np.mean([v.position for v in vertices], axis=0)]. *)
Definition centroid (d : FigureData) : vec3 := vmean (positions d).

(** [vertex.position = np.dot(vertex.position, M.T)] for every vertex. *)
Definition apply_matrix (m : mat3) (d : FigureData) : FigureData :=
  with_vertices d (map (set_position (mat_vec m)) (vertices d)).

(** [FigureWrapper.rotate]. *)
Definition rotate (dx dy dz : R) (d : FigureData) : FigureData :=
  let c := centroid d in
  let d1 := translate (- vx c) (- vy c) (- vz c) d in
  let d2 := apply_matrix (rotation_matrix dx dy dz) d1 in
  let d3 := translate (vx c) (vy c) (vz c) d2 in
  with_angle d3 (V3 (vx (angle d) + dx) (vy (angle d) + dy) (vz (angle d) + dz)).

(** [FigureWrapper.scale].  The code builds the factor matrix with
    [dtype=np.float32]; the factors are taken exactly here, so a factor
    that float32 rounds to 0 or to infinity is not distinguished. *)
Definition scale (sx sy sz : R) (d : FigureData) : FigureData :=
  let c := centroid d in
  let d1 := translate (- vx c) (- vy c) (- vz c) d in
  let d2 := apply_matrix (scale_matrix sx sy sz) d1 in
  translate (vx c) (vy c) (vz c) d2.

(** Set the figure colour and every vertex colour. *)
Definition paint (c : pycolor) (d : FigureData) : FigureData :=
  with_vertices (with_color d c) (map (set_vcolor c) (vertices d)).

(** [FigureWrapper.set_color]: a palette name is replaced by its list; the
    membership test hashes the argument, so a list argument raises
    [TypeError]; any value of length 3 is then accepted. *)
Definition set_color (arg : pycolor) (d : FigureData) : result FigureData :=
  match arg with
  | PyList _ => Err (TypeError "unhashable type: 'list'")
  | _ =>
    let c := match arg with
             | PyStr s => match dict_get s colors with Some l => PyList l | None => arg end
             | _ => arg
             end in
    if Nat.eqb (py_len c) 3 then Ok (paint c d)
    else Err (ValueError "Color must be a tuple of 3 elements (R, G, B).")
  end.

(** [FigureWrapper.apply_color_transformation]: [None] stands for an
    argument that is not callable. *)
Definition apply_color_transformation (t : option (pycolor -> pycolor)) (d : FigureData)
  : result FigureData :=
  match t with
  | None => Err (ValueError "Transformation must be a callable function that returns a tuple of 3 elements (R, G, B).")
  | Some f =>
    let c := f (color d) in
    if Nat.eqb (py_len c) 3 then Ok (paint c d)
    else Err (ValueError "Transformed color must be a tuple of 3 elements (R, G, B).")
  end.

Definition draw_mode_of_string (s : string) : option DrawMode :=
  if String.eqb s "points" then Some Points
  else if String.eqb s "edges" then Some Edges
  else if String.eqb s "faces" then Some Faces
  else None.

(** [FigureWrapper.set_draw_mode]: an unknown mode is ignored. *)
Definition set_draw_mode (mode : string) (d : FigureData) : FigureData :=
  match draw_mode_of_string mode with
  | Some m => with_draw_mode d m
  | None => d
  end.

(** The state-changing operations, as the commands a client issues. *)
Inductive fig_op : Type :=
| OpTranslate (x y z : R)
| OpRotate (dx dy dz : R)
| OpScale (sx sy sz : R)
| OpSetColor (c : pycolor)
| OpApplyColor (t : option (pycolor -> pycolor))
| OpSetDrawMode (m : string).

Definition apply_op (op : fig_op) (d : FigureData) : result FigureData :=
  match op with
  | OpTranslate x y z => Ok (translate x y z d)
  | OpRotate dx dy dz => Ok (rotate dx dy dz d)
  | OpScale sx sy sz => Ok (scale sx sy sz d)
  | OpSetColor c => set_color c d
  | OpApplyColor t => apply_color_transformation t d
  | OpSetDrawMode m => Ok (set_draw_mode m d)
  end.

(** Well-formedness: edge and face indices name vertices of the figure,
    faces have at least three corners (the spec's data model), and the
    per-element colour flag is set (the constructor forces it). *)
Definition idx_ok (n i : nat) : bool := Nat.ltb i n.

Definition fig_wf_b (d : FigureData) : bool :=
  let n := length (vertices d) in
  forallb (fun e => idx_ok n (fst (edge_vertices e)) && idx_ok n (snd (edge_vertices e))) (edges d)
  && forallb (fun f => Nat.leb 3 (length (face_vertices f)) && forallb (idx_ok n) (face_vertices f))
       (faces d)
  && figure_color d.

(** The affine map [p -> M (p - c) + c] that [rotate] and [scale] apply to
    every vertex: translate by [-c], apply [M], translate by [c]. *)
Definition about (m : mat3) (c : vec3) (p : vec3) : vec3 := vadd (mat_vec m (vadd p (vopp c))) c.

(** Every vertex colour equals the figure colour. *)
Definition color_synced (d : FigureData) : Prop := Forall (fun v => vcolor v = color d) (vertices d).

(** ** Lemmas on the vertex maps *)

Lemma map_set_position_compose f g l :
  map (set_position f) (map (set_position g) l) = map (set_position (fun p => f (g p))) l.
Proof. rewrite map_map. reflexivity. Qed.

Lemma map_set_position_ext f g l :
  (forall p, f p = g p) -> map (set_position f) l = map (set_position g) l.
Proof. intros H. apply map_ext. intros [p c]. unfold set_position; simpl. rewrite H. reflexivity. Qed.

Lemma map_set_position_id l : map (set_position (fun p => p)) l = l.
Proof. induction l as [|[p c] l IH]; simpl; [reflexivity | rewrite IH; reflexivity]. Qed.

Lemma positions_map_set_position f l : map position (map (set_position f) l) = map f (map position l).
Proof. rewrite !map_map. reflexivity. Qed.

Lemma with_vertices_twice d l1 l2 : with_vertices (with_vertices d l1) l2 = with_vertices d l2.
Proof. reflexivity. Qed.

Lemma with_vertices_self d : with_vertices d (vertices d) = d.
Proof. destruct d; reflexivity. Qed.

Lemma vec3_eta c : V3 (vx c) (vy c) (vz c) = c.
Proof. destruct c; reflexivity. Qed.

Lemma about_compose m1 m2 c p : about m1 c (about m2 c p) = about (mat_mul m1 m2) c p.
Proof. unfold about. vec_ring. Qed.

Lemma about_id c p : about mat_id c p = p.
Proof. unfold about. vec_ring. Qed.

Lemma about_dist2 m c p q : orthogonal m -> vdist2 (about m c p) (about m c q) = vdist2 p q.
Proof.
  intros H. unfold about.
  transitivity (vdist2 (mat_vec m (vadd p (vopp c))) (mat_vec m (vadd q (vopp c)))).
  - unfold vdist2. f_equal; vec_ring.
  - rewrite orthogonal_dist2 by exact H. unfold vdist2. f_equal; vec_ring.
Qed.

(** The mean of the points moved about their own mean is that mean. *)
Lemma vmean_about m l : vmean (map (about m (vmean l)) l) = vmean l.
Proof.
  destruct l as [|p0 l0] eqn:El; [reflexivity|]. rewrite <- El.
  assert (Hne : l <> []) by (subst; discriminate).
  unfold about.
  replace (map (fun p => vadd (mat_vec m (vadd p (vopp (vmean l)))) (vmean l)) l)
    with (map (fun q => vadd q (vmean l)) (map (mat_vec m) (map (fun p => vadd p (vopp (vmean l))) l)))
    by (rewrite !map_map; reflexivity).
  rewrite vmean_map_add, vmean_map_linear, vmean_map_add by (auto; destruct l; simpl; congruence).
  rewrite vadd_opp_r, mat_vec_zero. unfold vzero. destruct (vmean l); vec_ring.
Qed.

(** [rotate] and [scale] move every vertex by [about] around the centroid. *)
Lemma vertices_about_centroid m d :
  vertices (translate (vx (centroid d)) (vy (centroid d)) (vz (centroid d))
              (apply_matrix m (translate (- vx (centroid d)) (- vy (centroid d)) (- vz (centroid d)) d)))
  = map (set_position (about m (centroid d))) (vertices d).
Proof.
  generalize (centroid d) as c. intros c. simpl.
  rewrite !map_set_position_compose. apply map_set_position_ext.
  intros p. unfold about. vec_ring.
Qed.

Lemma rotate_vertices dx dy dz d :
  vertices (rotate dx dy dz d) = map (set_position (about (rotation_matrix dx dy dz) (centroid d))) (vertices d).
Proof. apply vertices_about_centroid. Qed.

Lemma scale_vertices sx sy sz d :
  vertices (scale sx sy sz d) = map (set_position (about (scale_matrix sx sy sz) (centroid d))) (vertices d).
Proof. apply vertices_about_centroid. Qed.

Lemma centroid_map_about m d :
  vmean (map position (map (set_position (about m (centroid d))) (vertices d))) = centroid d.
Proof. rewrite positions_map_set_position. apply vmean_about. Qed.

Lemma centroid_rotate_eq dx dy dz d : centroid (rotate dx dy dz d) = centroid d.
Proof. unfold centroid at 1, positions. rewrite rotate_vertices. apply centroid_map_about. Qed.

Lemma centroid_scale_eq sx sy sz d : centroid (scale sx sy sz d) = centroid d.
Proof. unfold centroid at 1, positions. rewrite scale_vertices. apply centroid_map_about. Qed.

#[export] Hint Rewrite rotate_vertices scale_vertices centroid_rotate_eq centroid_scale_eq
  map_set_position_compose : scene_rw.

(** A figure whose vertices are moved about its centroid by [m1] and then
    by [m2] is moved by [m2 * m1]. *)
Lemma rotation_matrix_inverse dx dy dz :
  mat_mul (rotation_matrix (- dx) 0 0)
    (mat_mul (rotation_matrix 0 (- dy) 0) (mat_mul (rotation_matrix 0 0 (- dz)) (rotation_matrix dx dy dz)))
  = mat_id.
Proof.
  unfold rotation_matrix.
  rewrite rotation_matrix_x_0, rotation_matrix_y_0, rotation_matrix_z_0, !mat_mul_id_r, !mat_mul_id_l.
  rewrite rotation_matrix_x_opp, rotation_matrix_y_opp, rotation_matrix_z_opp.
  rewrite !mat_mul_assoc.
  rewrite <- (mat_mul_assoc (transpose (rotation_matrix_z dz))), orthogonal_rotation_matrix_z, mat_mul_id_l.
  rewrite <- (mat_mul_assoc (transpose (rotation_matrix_y dy))), orthogonal_rotation_matrix_y, mat_mul_id_l.
  apply orthogonal_rotation_matrix_x.
Qed.

Lemma scale_matrix_inverse sx sy sz :
  sx <> 0 -> sy <> 0 -> sz <> 0 -> mat_mul (scale_matrix (/ sx) (/ sy) (/ sz)) (scale_matrix sx sy sz) = mat_id.
Proof.
  intros. unfold mat_mul, scale_matrix, mat_id, col0, col1, col2, vdot; simpl.
  f_equal; f_equal; field; auto.
Qed.

Lemma rotate_fields dx dy dz d :
  edges (rotate dx dy dz d) = edges d /\ faces (rotate dx dy dz d) = faces d /\
  color (rotate dx dy dz d) = color d /\ selected (rotate dx dy dz d) = selected d /\
  draw_mode (rotate dx dy dz d) = draw_mode d /\ figure_color (rotate dx dy dz d) = figure_color d.
Proof. repeat split. Qed.

Lemma figure_eq (a b : FigureData) :
  vertices a = vertices b -> edges a = edges b -> faces a = faces b -> color a = color b ->
  angle a = angle b -> draw_mode a = draw_mode b -> selected a = selected b ->
  figure_color a = figure_color b -> a = b.
Proof. destruct a, b; simpl; intros; subst; reflexivity. Qed.

(** ** Properties of the figure transforms *)

(** [translate] is additive: translating by [(x1, y1, z1)] and then by
    [(x2, y2, z2)] gives the same figure as one translation by the sum. *)
Theorem translate_additive x1 y1 z1 x2 y2 z2 d :
  translate x2 y2 z2 (translate x1 y1 z1 d) = translate (x1 + x2) (y1 + y2) (z1 + z2) d.
Proof.
  unfold translate. rewrite with_vertices_twice. f_equal. simpl.
  rewrite map_set_position_compose. apply map_set_position_ext. intros p. vec_ring.
Qed.

(** C1. [rotate] keeps the centroid of the vertices in place, whatever the
    angles: the rotation is applied about the centroid. *)
Theorem rotate_preserves_centroid dx dy dz d : centroid (rotate dx dy dz d) = centroid d.
Proof. apply centroid_rotate_eq. Qed.

(** C2. [rotate] is rigid: the squared distance between any two vertices of
    the figure is the same after the rotation. *)
Theorem rotate_rigid dx dy dz d i j :
  (i < length (vertices d))%nat -> (j < length (vertices d))%nat ->
  vdist2 (nth i (positions (rotate dx dy dz d)) vzero) (nth j (positions (rotate dx dy dz d)) vzero)
  = vdist2 (nth i (positions d) vzero) (nth j (positions d) vzero).
Proof.
  intros Hi Hj. unfold positions. rewrite rotate_vertices, positions_map_set_position.
  set (f := about (rotation_matrix dx dy dz) (centroid d)).
  rewrite (nth_indep _ vzero (f vzero)), (nth_indep _ vzero (f vzero)) by (rewrite !length_map; exact Hi || exact Hj).
  rewrite !map_nth. apply about_dist2. apply orthogonal_rotation_matrix.
Qed.

Lemma rotate_rigid_witness :
  (0 < length (vertices cube_data))%nat /\ (6 < length (vertices cube_data))%nat /\
  vdist2 (nth 0 (positions (rotate 30 45 60 cube_data)) vzero) (nth 6 (positions (rotate 30 45 60 cube_data)) vzero)
  = vdist2 (nth 0 (positions cube_data) vzero) (nth 6 (positions cube_data) vzero).
Proof.
  split; [simpl; lia|]. split; [simpl; lia|].
  apply rotate_rigid; simpl; lia.
Defined.

(** C3. Rotations are exactly invertible: after [rotate(dx, dy, dz)], the
    three single-axis rotations [rotate(0, 0, -dz)], [rotate(0, -dy, 0)]
    and [rotate(-dx, 0, 0)] give back the original figure, positions and
    accumulated angles included. *)
Theorem rotate_inverse_restores dx dy dz d :
  rotate (- dx) 0 0 (rotate 0 (- dy) 0 (rotate 0 0 (- dz) (rotate dx dy dz d))) = d.
Proof.
  apply figure_eq; try reflexivity.
  - rewrite !rotate_vertices, !centroid_rotate_eq, !map_set_position_compose.
    rewrite <- (map_set_position_id (vertices d)) at 2. apply map_set_position_ext. intros p.
    rewrite !about_compose, !mat_mul_assoc, rotation_matrix_inverse. apply about_id.
  - simpl. destruct (angle d). simpl. f_equal; ring.
Qed.

(** In exact arithmetic, [scale] keeps the centroid in place and, for
    non-zero factors, is undone by scaling with the reciprocal factors.
    The program casts the factors to float32, so it is undone only when
    the casts of a factor and of its reciprocal multiply to 1; this is a
    property of the model's arithmetic, not claimed of the code. *)
Theorem scale_inverse_restores sx sy sz d :
  sx <> 0 -> sy <> 0 -> sz <> 0 ->
  centroid (scale sx sy sz d) = centroid d /\ scale (/ sx) (/ sy) (/ sz) (scale sx sy sz d) = d.
Proof.
  intros Hx Hy Hz. split; [apply centroid_scale_eq|].
  apply figure_eq; try reflexivity.
  rewrite !scale_vertices, !centroid_scale_eq, !map_set_position_compose.
  rewrite <- (map_set_position_id (vertices d)) at 2. apply map_set_position_ext. intros p.
  rewrite about_compose, scale_matrix_inverse by assumption. apply about_id.
Qed.

Lemma scale_inverse_restores_witness :
  (2 <> 0 /\ 4 <> 0 /\ 5 <> 0) /\
  (centroid (scale 2 4 5 pyramid_data) = centroid pyramid_data /\
   scale (/ 2) (/ 4) (/ 5) (scale 2 4 5 pyramid_data) = pyramid_data).
Proof.
  split; [repeat split; lra|].
  apply scale_inverse_restores; lra.
Defined.

(** ** Colours, draw mode and the well-formedness invariant *)

Lemma apply_op_shape op d d' :
  apply_op op d = Ok d' ->
  edges d' = edges d /\ faces d' = faces d /\ figure_color d' = figure_color d /\
  length (vertices d') = length (vertices d).
Proof.
  destruct op; simpl.
  - intros [= <-]. simpl. rewrite length_map. auto.
  - intros [= <-]. rewrite rotate_vertices, length_map. auto.
  - intros [= <-]. rewrite scale_vertices, length_map. auto.
  - unfold set_color. destruct c; try discriminate;
      match goal with |- context [if ?b then _ else _] => destruct b end;
      intros H; inversion H; subst; simpl; rewrite ?length_map; auto.
  - unfold apply_color_transformation. destruct t; [|discriminate].
    destruct (Nat.eqb _ 3); intros H; inversion H; subst; simpl; rewrite length_map; auto.
  - intros [= <-]. unfold set_draw_mode. destruct (draw_mode_of_string m); auto.
Qed.

Lemma fig_wf_b_congr d d' :
  edges d' = edges d -> faces d' = faces d -> figure_color d' = figure_color d ->
  length (vertices d') = length (vertices d) -> fig_wf_b d' = fig_wf_b d.
Proof. intros He Hf Hc Hl. unfold fig_wf_b. rewrite He, Hf, Hc, Hl. reflexivity. Qed.

Lemma paint_synced c d : color_synced (paint c d).
Proof.
  unfold color_synced, paint. simpl. apply Forall_forall. intros v Hv.
  apply in_map_iff in Hv as [w [<- _]]. reflexivity.
Qed.

Lemma paint_positions c d : positions (paint c d) = positions d.
Proof. unfold positions, paint. simpl. rewrite map_map. reflexivity. Qed.

Lemma set_color_paint arg d d' :
  set_color arg d = Ok d' -> exists c, d' = paint c d /\ py_len c = 3%nat.
Proof.
  unfold set_color. destruct arg; try discriminate;
    match goal with |- context [if Nat.eqb ?n 3 then _ else _] => destruct (Nat.eqb_spec n 3) end;
    intros H; inversion H; subst; eauto.
Qed.

Lemma dict_get_In {A} k (d : list (string * A)) v : dict_get k d = Some v -> In (k, v) d.
Proof.
  induction d as [|[k' v'] t IH]; simpl; [discriminate|].
  destruct (String.eqb_spec k k'); [intros [= <-]; subst; auto | auto].
Qed.

Lemma colors_length3 name l : dict_get name colors = Some l -> length l = 3%nat.
Proof.
  intros H. apply dict_get_In in H. simpl in H.
  repeat (destruct H as [H | H]; [injection H as _ <-; reflexivity |]). destruct H.
Qed.

Lemma vertices_apply_op_colors op d d' :
  apply_op op d = Ok d' ->
  (exists c, d' = paint c d) \/ (color d' = color d /\ map vcolor (vertices d') = map vcolor (vertices d)).
Proof.
  destruct op; simpl.
  - intros [= <-]. right. simpl. rewrite map_map. split; [reflexivity|]. apply map_ext. reflexivity.
  - intros [= <-]. right. rewrite rotate_vertices, map_map. split; [reflexivity|]. apply map_ext. reflexivity.
  - intros [= <-]. right. rewrite scale_vertices, map_map. split; [reflexivity|]. apply map_ext. reflexivity.
  - intros H. left. apply set_color_paint in H as [c0 [-> _]]. eauto.
  - unfold apply_color_transformation. destruct t; [|discriminate].
    destruct (Nat.eqb _ 3); intros H; inversion H; subst. eauto.
  - intros [= <-]. right. unfold set_draw_mode. destruct (draw_mode_of_string m); auto.
Qed.

(** Figures reachable from a template by any sequence of operations. *)
Inductive reachable_fig : FigureData -> Prop :=
| reach_template name d : dict_get name figures = Some d -> reachable_fig d
| reach_op op d d' : reachable_fig d -> apply_op op d = Ok d' -> reachable_fig d'.

(** C4. Once set, figure and vertex colours stay in sync: [set_color]
    establishes it (and accepts every palette name), and every operation
    of [FigureWrapper] preserves it. *)
Theorem color_sync_invariant :
  (forall name l d, dict_get name colors = Some l ->
     set_color (PyStr name) d = Ok (paint (PyList l) d) /\ color_synced (paint (PyList l) d)) /\
  (forall op d d', color_synced d -> apply_op op d = Ok d' -> color_synced d').
Proof.
  split.
  - intros name l d H. unfold set_color. rewrite H. simpl.
    rewrite (colors_length3 _ _ H). split; [reflexivity | apply paint_synced].
  - intros op d d' Hs Hop.
    destruct (vertices_apply_op_colors op d d' Hop) as [[c ->] | [Hc Hv]]; [apply paint_synced|].
    unfold color_synced in *. rewrite Hc. apply Forall_forall. intros v Hin.
    assert (Hin' : In (vcolor v) (map vcolor (vertices d))) by (rewrite <- Hv; apply in_map; exact Hin).
    apply in_map_iff in Hin' as [w [Hw Hinw]]. rewrite <- Hw.
    exact (proj1 (Forall_forall _ _) Hs w Hinw).
Qed.

Lemma color_sync_invariant_witness :
  dict_get "Green"%string colors = Some [0; 1; 0] /\
  (set_color (PyStr "Green") cube_data = Ok (paint (PyList [0; 1; 0]) cube_data) /\
   color_synced (paint (PyList [0; 1; 0]) cube_data)).
Proof.
  split; [reflexivity|]. apply (proj1 color_sync_invariant). reflexivity.
Defined.

(** C5. Every figure reachable from a template is well formed: edge and
    face indices name vertices of the figure, every face has at least three
    corners, and the per-figure colour flag is set; no operation breaks it. *)
Theorem reachable_fig_wf d : reachable_fig d -> fig_wf_b d = true.
Proof.
  induction 1 as [name d Hget | op d d' _ IH Hop].
  - apply dict_get_In in Hget. simpl in Hget.
    repeat (destruct Hget as [Hget | Hget]; [injection Hget as _ <-; vm_compute; reflexivity |]).
    destruct Hget.
  - destruct (apply_op_shape op d d' Hop) as (He & Hf & Hc & Hl).
    rewrite (fig_wf_b_congr d d' He Hf Hc Hl). exact IH.
Qed.

Lemma reachable_fig_wf_witness :
  reachable_fig (rotate 45 0 0 pyramid_data) /\ fig_wf_b (rotate 45 0 0 pyramid_data) = true.
Proof.
  assert (H : reachable_fig (rotate 45 0 0 pyramid_data)).
  { apply (reach_op (OpRotate 45 0 0) pyramid_data); [|reflexivity].
    apply (reach_template "Pyramid"). reflexivity. }
  split; [exact H | apply reachable_fig_wf; exact H].
Defined.

(** The [figure_color] argument of the [FigureData] constructor is
    ignored: a figure built with [figure_color=False] still has the flag
    set. *)
Theorem mkFigureData_ignores_figure_color vs es fs c m :
  figure_color (mkFigureData vs es fs c m false) = true.
Proof. reflexivity. Qed.

(** Every colour of the palette is an RGB triple. *)
Lemma colors_rgb s l : dict_get s colors = Some l -> length l = 3%nat.
Proof.
  unfold colors. cbn [dict_get].
  repeat (destruct (String.eqb s _); [intros [= <-]; reflexivity|]). discriminate.
Qed.

(** C6. [set_color] checks only the length of the colour: over every
    argument, a list raises [TypeError] (the palette test hashes it), a
    palette name is stored as its RGB list, any other string is accepted
    exactly when it has three characters (so ["abc"] is stored as a
    colour) and raises [ValueError] otherwise, and a tuple is accepted
    exactly when it has three components, whatever they are. *)
Theorem set_color_checks_only_length d :
  (forall l, set_color (PyList l) d = Err (TypeError "unhashable type: 'list'")) /\
  (forall s l, dict_get s colors = Some l -> set_color (PyStr s) d = Ok (paint (PyList l) d)) /\
  (forall s, dict_get s colors = None ->
     set_color (PyStr s) d = if Nat.eqb (String.length s) 3 then Ok (paint (PyStr s) d)
                             else Err (ValueError "Color must be a tuple of 3 elements (R, G, B).")) /\
  (forall l, set_color (PyTuple l) d = if Nat.eqb (length l) 3 then Ok (paint (PyTuple l) d)
                                       else Err (ValueError "Color must be a tuple of 3 elements (R, G, B).")).
Proof.
  split; [reflexivity|]. split; [|split; [|reflexivity]].
  - intros s l Hl. unfold set_color. rewrite Hl. cbn [py_len]. rewrite (colors_rgb s l Hl). reflexivity.
  - intros s Hs. unfold set_color. rewrite Hs. reflexivity.
Qed.

Lemma set_color_checks_only_length_witness :
  dict_get "Red"%string colors = Some [1; 0; 0] /\ dict_get "abc"%string colors = None /\
  set_color (PyStr "Red"%string) cube_data = Ok (paint (PyList [1; 0; 0]) cube_data) /\
  set_color (PyStr "abc"%string) cube_data = Ok (paint (PyStr "abc"%string) cube_data).
Proof.
  destruct (set_color_checks_only_length cube_data) as (_ & Hp & Hs & _).
  split; [reflexivity|]. split; [reflexivity|]. split; [exact (Hp "Red"%string _ eq_refl)|].
  exact (Hs "abc"%string eq_refl).
Defined.

(** [set_draw_mode] ignores any string other than ["points"],
    ["edges"] and ["faces"] (a capitalised mode included) and sets the mode
    for those three. *)
Theorem set_draw_mode_spec s d :
  (draw_mode_of_string s = None -> set_draw_mode s d = d) /\
  draw_mode (set_draw_mode "points" d) = Points /\ draw_mode (set_draw_mode "edges" d) = Edges /\
  draw_mode (set_draw_mode "faces" d) = Faces.
Proof. unfold set_draw_mode. split; [intros ->; reflexivity | repeat split]. Qed.

Lemma set_draw_mode_spec_witness :
  draw_mode_of_string "Points" = None /\ set_draw_mode "Points" cube_data = cube_data.
Proof. split; [reflexivity | apply (set_draw_mode_spec "Points" cube_data); reflexivity]. Defined.
