(* ===== verification/Camera.v ===== *)
(** * Camera: [dal/Camera.py] and [bll/CameraWrapper.py]

    [CameraData] keeps three vectors and six scalars.  The vectors are
    numpy arrays when the camera comes from [Camera.create], but plain
    Python lists when it comes from [init.camera_create], which passes the
    lists read from the JSON settings straight to [CameraData].  The two
    behave differently under [+=] ([list.__iadd__] extends the list) and
    [+] ([ndarray.__radd__] adds elementwise, with 1-D broadcasting), so a
    vector is a [pyvec] and both operators are modelled as Python runs them.

    [rotate] and [translate] mutate fields one after the other; when a
    later statement raises, the earlier mutations stay, so they return an
    [outcome].  The perspective setters are the clamps of the code. *)

From Stdlib Require Import Setoid Morphisms.
From S2P Require Import Prelude Vec3.

(** ** Python sequences and their operators *)

Inductive pyvec : Type :=
| PyListV (l : list R)
| NdArray (l : list R).

Definition pv_elems (v : pyvec) : list R := match v with PyListV l | NdArray l => l end.

(** numpy elementwise addition of two 1-D arrays, with broadcasting of a
    length-1 operand. *)
Definition np_add (a b : list R) : result (list R) :=
  if Nat.eqb (length a) (length b) then Ok (map (fun '(x, y) => x + y) (combine a b))
  else if Nat.eqb (length a) 1 then Ok (map (fun y => hd 0 a + y) b)
  else if Nat.eqb (length b) 1 then Ok (map (fun x => x + hd 0 b) a)
  else Err BroadcastError.

(** [v += arr] with a numpy array on the right: a list is extended, an
    array is updated in place (its shape cannot change). *)
Definition py_iadd (v : pyvec) (arr : list R) : result pyvec :=
  match v with
  | PyListV l => Ok (PyListV (l ++ arr))
  | NdArray l =>
    if Nat.eqb (length arr) (length l) then Ok (NdArray (map (fun '(x, y) => x + y) (combine l arr)))
    else if Nat.eqb (length arr) 1 then Ok (NdArray (map (fun x => x + hd 0 arr) l))
    else Err BroadcastError
  end.

(** [v + arr] with a numpy array on the right: a list defers to
    [ndarray.__radd__], so both cases add elementwise. *)
Definition py_add (v : pyvec) (arr : list R) : result pyvec :=
  match np_add (pv_elems v) arr with
  | Ok l => Ok (NdArray l)
  | Err e => Err e
  end.

(** [v[i]]. *)
Definition py_index (v : pyvec) (i : nat) : result R :=
  match nth_error (pv_elems v) i with
  | Some x => Ok x
  | None => Err IndexError
  end.

(** ** Camera data *)

Record CameraData : Type := {
  cam_position : pyvec;
  cam_target : pyvec;
  cam_up : pyvec;
  pitch : R;
  yaw : R;
  fovy : R;
  aspect : R;
  z_near : R;
  z_far : R
}.

Definition with_pitch_yaw (c : CameraData) (p y : R) : CameraData :=
  {| cam_position := cam_position c; cam_target := cam_target c; cam_up := cam_up c;
     pitch := p; yaw := y; fovy := fovy c; aspect := aspect c; z_near := z_near c; z_far := z_far c |}.

Definition with_position (c : CameraData) (v : pyvec) : CameraData :=
  {| cam_position := v; cam_target := cam_target c; cam_up := cam_up c;
     pitch := pitch c; yaw := yaw c; fovy := fovy c; aspect := aspect c; z_near := z_near c; z_far := z_far c |}.

Definition with_target (c : CameraData) (v : pyvec) : CameraData :=
  {| cam_position := cam_position c; cam_target := v; cam_up := cam_up c;
     pitch := pitch c; yaw := yaw c; fovy := fovy c; aspect := aspect c; z_near := z_near c; z_far := z_far c |}.

Definition with_perspective (c : CameraData) (f a n fa : R) : CameraData :=
  {| cam_position := cam_position c; cam_target := cam_target c; cam_up := cam_up c;
     pitch := pitch c; yaw := yaw c; fovy := f; aspect := a; z_near := n; z_far := fa |}.

(** [Camera.create]: the vectors are converted to numpy arrays. *)
(** [Camera.set_data]: [if data: self.data = data] (a [CameraData] is
    falsy only as [None]).  The application never calls it. *)
Definition camera_set_data (data : option CameraData) (cam : CameraData) : CameraData :=
  match data with Some d => d | None => cam end.

Definition camera_create_np (position target up_vector : list R) (p y f a n fa : R) : CameraData :=
  {| cam_position := NdArray position; cam_target := NdArray target; cam_up := NdArray up_vector;
     pitch := p; yaw := y; fovy := f; aspect := a; z_near := n; z_far := fa |}.

(** [Camera.create] with its default arguments. *)
Definition camera_create_default (position target up_vector : list R) : CameraData :=
  camera_create_np position target up_vector 0 (-90) 45 1.77 0.1 100.

(** The [camera_default_settings] section of the lab5 settings file. *)
Record camera_settings : Type := {
  default_position : list R; default_target : list R; default_up_vector : list R;
  default_pitch : R; default_yaw : R; default_fovy : R; default_aspect : R;
  default_z_near : R; default_z_far : R
}.

(** [init.camera_create]: the JSON lists are stored as they are. *)
Definition camera_create (s : camera_settings) : CameraData :=
  {| cam_position := PyListV (default_position s); cam_target := PyListV (default_target s);
     cam_up := PyListV (default_up_vector s); pitch := default_pitch s; yaw := default_yaw s;
     fovy := default_fovy s; aspect := default_aspect s; z_near := default_z_near s;
     z_far := default_z_far s |}.

(** [Camera.apply_transformations]: the nine scalars handed to [gluLookAt]. *)
Definition look_at_args (c : CameraData) : result (list R) :=
  px <- py_index (cam_position c) 0 ;; py <- py_index (cam_position c) 1 ;;
  pz <- py_index (cam_position c) 2 ;;
  tx <- py_index (cam_target c) 0 ;; ty <- py_index (cam_target c) 1 ;;
  tz <- py_index (cam_target c) 2 ;;
  ux <- py_index (cam_up c) 0 ;; uy <- py_index (cam_up c) 1 ;; uz <- py_index (cam_up c) 2 ;;
  Ok [px; py; pz; tx; ty; tz; ux; uy; uz].

(** The direction vector of [Camera.rotate]. *)
Definition look_direction (y p : R) : list R :=
  [cos (radians y) * cos (radians p); sin (radians p); sin (radians y) * cos (radians p)].

(** [Camera.rotate(dx, dy, dz=0)]: yaw is driven by [dy], pitch by [dx];
    the pitch is clamped to [[-89, 89]] and the target recomputed. *)
Definition camera_rotate (dx dy : R) (c : CameraData) : outcome CameraData :=
  let y := yaw c - dy in
  let p := py_clamp (-89) 89 (pitch c + dx) in
  let c1 := with_pitch_yaw c p y in
  match py_add (cam_position c1) (look_direction y p) with
  | Ok t => Done (with_target c1 t)
  | Err e => Raised c1 e
  end.

(** [Camera.translate]: [position += v] then [target += v]. *)
Definition camera_translate (x y z : R) (c : CameraData) : outcome CameraData :=
  let v := [x; y; z] in
  match py_iadd (cam_position c) v with
  | Err e => Raised c e
  | Ok p =>
    let c1 := with_position c p in
    match py_iadd (cam_target c1) v with
    | Ok t => Done (with_target c1 t)
    | Err e => Raised c1 e
    end
  end.

(** [Camera.update_fovy]. *)
Definition update_fovy (d : R) (c : CameraData) : CameraData :=
  with_perspective c (py_clamp 10 170 (fovy c + d)) (aspect c) (z_near c) (z_far c).

(** [Camera.update_aspect]: a zero argument is ignored; otherwise the
    argument itself, not the sum, is clamped and stored. *)
Definition update_aspect (d : R) (c : CameraData) : CameraData :=
  if Req_dec_T d 0 then c
  else with_perspective c (fovy c) (py_clamp 0.1 5 d) (z_near c) (z_far c).

(** [Camera.update_z_near]. *)
Definition update_z_near (d : R) (c : CameraData) : CameraData :=
  with_perspective c (fovy c) (aspect c) (py_clamp 0.01 5.0 (z_near c + d)) (z_far c).

(** [Camera.update_z_far]. *)
Definition update_z_far (d : R) (c : CameraData) : CameraData :=
  with_perspective c (fovy c) (aspect c) (z_near c) (py_clamp 3.0 1000.0 (z_far c + d)).

(** [Camera.get_perspective]. *)
Definition get_perspective (c : CameraData) : R * R * R * R := (fovy c, aspect c, z_near c, z_far c).

(** [CameraData.__eq__]: the aspect test compares [self.aspect] with
    itself. *)
Definition camera_eq (a b : CameraData) : Prop :=
  pv_elems (cam_position a) = pv_elems (cam_position b) /\
  pv_elems (cam_target a) = pv_elems (cam_target b) /\
  pv_elems (cam_up a) = pv_elems (cam_up b) /\
  pitch a = pitch b /\ yaw a = yaw b /\ fovy a = fovy b /\ aspect a = aspect a /\
  z_near a = z_near b /\ z_far a = z_far b.

(** A perspective update, as issued by [Controller.change_camera_perspective]. *)
Inductive persp_op : Type :=
| UFovy (d : R) | UAspect (d : R) | UNear (d : R) | UFar (d : R).

Definition apply_persp (o : persp_op) (c : CameraData) : CameraData :=
  match o with
  | UFovy d => update_fovy d c
  | UAspect d => update_aspect d c
  | UNear d => update_z_near d c
  | UFar d => update_z_far d c
  end.

(** The documented ranges of the four perspective parameters. *)
Definition persp_ok (c : CameraData) : Prop :=
  10 <= fovy c <= 170 /\ 0.1 <= aspect c <= 5 /\ 0.01 <= z_near c <= 5 /\ 3 <= z_far c <= 1000.

(** ** Lemmas *)

Lemma py_add_len3 v a b c x y z :
  pv_elems v = [a; b; c] -> py_add v [x; y; z] = Ok (NdArray [a + x; b + y; c + z]).
Proof. intros H. unfold py_add, np_add. rewrite H. reflexivity. Qed.

Lemma look_direction_unit y p :
  forall tx ty tz, look_direction y p = [tx; ty; tz] -> tx * tx + ty * ty + tz * tz = 1.
Proof.
  intros tx ty tz H. unfold look_direction in H. injection H as <- <- <-.
  pose proof (cos_sin_sq (radians y)) as Hy. pose proof (cos_sin_sq (radians p)) as Hp.
  transitivity ((cos (radians y) * cos (radians y) + sin (radians y) * sin (radians y))
                * (cos (radians p) * cos (radians p)) + sin (radians p) * sin (radians p)); [ring|].
  rewrite Hy. lra.
Qed.

Lemma apply_persp_ok o c : persp_ok c -> persp_ok (apply_persp o c).
Proof.
  unfold persp_ok. intros (Hf & Ha & Hn & Hfa).
  destruct o; unfold apply_persp; [| unfold update_aspect; destruct (Req_dec_T d 0) | |];
    unfold update_fovy, update_z_near, update_z_far, with_perspective; cbn [fovy aspect z_near z_far];
    clamp_lra.
Qed.

(** [CameraData.__eq__] is an equivalence, coarser than equality: it
    ignores the aspect, and compares vectors by their elements whether
    they are lists or arrays ([np.array_equal]). *)
#[export] Instance camera_eq_equiv : Equivalence camera_eq.
Proof.
  unfold camera_eq. split.
  - intros a. repeat split.
  - intros a b (H1 & H2 & H3 & H4 & H5 & H6 & _ & H8 & H9). repeat split; congruence.
  - intros a b c (H1 & H2 & H3 & H4 & H5 & H6 & _ & H8 & H9) (G1 & G2 & G3 & G4 & G5 & G6 & _ & G8 & G9).
    repeat split; congruence.
Qed.

(** The nine scalars handed to [gluLookAt] depend only on what [__eq__]
    compares, so equal cameras are viewed alike. *)
#[export] Instance look_at_args_proper : Proper (camera_eq ==> eq) look_at_args.
Proof.
  intros a b (H1 & H2 & H3 & _). unfold look_at_args, py_index. rewrite H1, H2, H3. reflexivity.
Qed.

(** ** Properties of the camera *)

(** C7. The perspective setters keep their parameters in the documented
    ranges: whatever the camera and the delta, [update_fovy] leaves [fovy]
    in [[10, 170]], [update_z_near] leaves [z_near] in [[0.01, 5]] and
    [update_z_far] leaves [z_far] in [[3, 1000]]; and any sequence of
    perspective updates from a camera inside the ranges stays inside them. *)
Theorem perspective_clamped :
  (forall d c, 10 <= fovy (update_fovy d c) <= 170) /\
  (forall d c, 0.01 <= z_near (update_z_near d c) <= 5) /\
  (forall d c, 3 <= z_far (update_z_far d c) <= 1000) /\
  (forall ops c, persp_ok c -> persp_ok (fold_left (fun c o => apply_persp o c) ops c)).
Proof.
  split; [intros; simpl; clamp_lra|].
  split; [intros; simpl; clamp_lra|].
  split; [intros; simpl; clamp_lra|].
  intros ops. induction ops as [|o ops IH]; simpl; auto using apply_persp_ok.
Qed.

Lemma perspective_clamped_witness :
  persp_ok (camera_create_default [0; 0; 5] [0; 0; 0] [0; 1; 0]) /\
  persp_ok (fold_left (fun c o => apply_persp o c) [UFovy 500; UNear (-3); UFar 2000; UAspect 9]
              (camera_create_default [0; 0; 5] [0; 0; 0] [0; 1; 0])).
Proof.
  assert (H : persp_ok (camera_create_default [0; 0; 5] [0; 0; 0] [0; 1; 0]))
    by (unfold persp_ok; simpl; lra).
  split; [exact H | apply (proj2 (proj2 (proj2 perspective_clamped))); exact H].
Defined.

(** C8. The ordering [z_near < z_far] is not enforced: from every camera
    whose perspective is within its ranges, lowering the far plane by at
    least 997 and then raising the near plane by at least 5 leaves the near
    plane at 5, beyond the far plane at 3 (each update clamps only its own
    plane, so no sequence of updates is rejected). *)
Theorem z_near_beyond_z_far c dfar dnear :
  persp_ok c -> dfar <= -997 -> 5 <= dnear ->
  z_near (update_z_near dnear (update_z_far dfar c)) = 5 /\
  z_far (update_z_near dnear (update_z_far dfar c)) = 3 /\
  z_far (update_z_near dnear (update_z_far dfar c)) < z_near (update_z_near dnear (update_z_far dfar c)).
Proof.
  intros (_ & _ & Hn & Hf) Hd Hn'. cbn [z_near z_far update_z_near update_z_far with_perspective].
  rewrite py_clamp_hi, py_clamp_lo by lra. lra.
Qed.

Lemma z_near_beyond_z_far_witness :
  let c := camera_create_default [0; 0; 5] [0; 0; 0] [0; 1; 0] in
  persp_ok c /\ -1000 <= -997 /\ 5 <= 10 /\
  z_near (update_z_near 10 (update_z_far (-1000) c)) = 5 /\
  z_far (update_z_near 10 (update_z_far (-1000) c)) = 3 /\
  z_far (update_z_near 10 (update_z_far (-1000) c)) < z_near (update_z_near 10 (update_z_far (-1000) c)).
Proof.
  intros c. assert (Hp : persp_ok c) by (unfold persp_ok; simpl; lra).
  split; [exact Hp|]. split; [lra|]. split; [lra|].
  exact (z_near_beyond_z_far c (-1000) 10 Hp ltac:(lra) ltac:(lra)).
Defined.

(** [update_aspect] does not add its argument: a non-zero argument is
    clamped to [[0.1, 5]] and replaces the aspect whatever it was, and a
    zero argument leaves the camera unchanged. *)
Theorem update_aspect_replaces d c :
  (d <> 0 -> aspect (update_aspect d c) = py_clamp 0.1 5 d) /\ update_aspect 0 c = c.
Proof.
  unfold update_aspect. split.
  - intros H. destruct (Req_dec_T d 0); [contradiction | reflexivity].
  - destruct (Req_dec_T 0 0); [reflexivity | contradiction].
Qed.

Lemma update_aspect_replaces_witness :
  (2 <> 0 -> aspect (update_aspect 2 (camera_create_default [0; 0; 5] [0; 0; 0] [0; 1; 0])) = py_clamp 0.1 5 2)
  /\ 2 <> 0.
Proof. split; [apply (update_aspect_replaces 2) | lra]. Defined.

(** [CameraData.__eq__] ignores the aspect ratio: two cameras that
    differ only in their aspect compare equal. *)
Theorem camera_eq_ignores_aspect c a :
  camera_eq c (with_perspective c (fovy c) a (z_near c) (z_far c)).
Proof. unfold camera_eq. simpl. repeat split. Qed.

(** [Camera.rotate] on a camera whose position has three coordinates
    clamps the pitch to [[-89, 89]], decreases the yaw by [dy], keeps the
    position, and places the target at unit distance from it. *)
Theorem camera_rotate_look px py pz dx dy c :
  pv_elems (cam_position c) = [px; py; pz] ->
  exists c' tx ty tz,
    camera_rotate dx dy c = Done c' /\ cam_target c' = NdArray [px + tx; py + ty; pz + tz] /\
    tx * tx + ty * ty + tz * tz = 1 /\ -89 <= pitch c' <= 89 /\ yaw c' = yaw c - dy /\
    cam_position c' = cam_position c.
Proof.
  intros Hp. unfold camera_rotate.
  remember (look_direction (yaw c - dy) (py_clamp (-89) 89 (pitch c + dx))) as dir eqn:Hd.
  assert (Hdir : exists tx ty tz, dir = [tx; ty; tz]) by (subst; unfold look_direction; eauto).
  destruct Hdir as (tx & ty & tz & ->).
  rewrite (py_add_len3 _ px py pz tx ty tz) by exact Hp.
  eexists _, tx, ty, tz. split; [reflexivity|]. split; [reflexivity|].
  split; [symmetry in Hd; exact (look_direction_unit _ _ _ _ _ Hd)|].
  split; [cbn [pitch with_target with_pitch_yaw]; clamp_lra|]. split; reflexivity.
Qed.

Lemma camera_rotate_look_witness :
  pv_elems (cam_position (camera_create_default [0; 0; 5] [0; 0; 0] [0; 1; 0])) = [0; 0; 5] /\
  exists c' tx ty tz,
    camera_rotate 120 10 (camera_create_default [0; 0; 5] [0; 0; 0] [0; 1; 0]) = Done c' /\
    cam_target c' = NdArray [0 + tx; 0 + ty; 5 + tz] /\ tx * tx + ty * ty + tz * tz = 1 /\
    -89 <= pitch c' <= 89 /\ yaw c' = yaw (camera_create_default [0; 0; 5] [0; 0; 0] [0; 1; 0]) - 10 /\
    cam_position c' = cam_position (camera_create_default [0; 0; 5] [0; 0; 0] [0; 1; 0]).
Proof. split; [reflexivity | apply camera_rotate_look; reflexivity]. Defined.

(** On a camera built by [Camera.create] (numpy vectors), [translate]
    moves the eye and the target by the same offset, so the viewing
    direction is kept. *)
Theorem camera_translate_fly a b c0 t1 t2 t3 x y z c :
  cam_position c = NdArray [a; b; c0] -> cam_target c = NdArray [t1; t2; t3] ->
  camera_translate x y z c =
  Done (with_target (with_position c (NdArray [a + x; b + y; c0 + z])) (NdArray [t1 + x; t2 + y; t3 + z])).
Proof. intros Hp Ht. unfold camera_translate. rewrite Hp. simpl. rewrite Ht. reflexivity. Qed.

Lemma camera_translate_fly_witness :
  cam_position (camera_create_default [0; 0; 5] [0; 0; 0] [0; 1; 0]) = NdArray [0; 0; 5] /\
  cam_target (camera_create_default [0; 0; 5] [0; 0; 0] [0; 1; 0]) = NdArray [0; 0; 0] /\
  camera_translate 0.5 0 0 (camera_create_default [0; 0; 5] [0; 0; 0] [0; 1; 0]) =
  Done (with_target (with_position (camera_create_default [0; 0; 5] [0; 0; 0] [0; 1; 0])
          (NdArray [0 + 0.5; 0 + 0; 5 + 0])) (NdArray [0 + 0.5; 0 + 0; 0 + 0])).
Proof. split; [reflexivity|]. split; [reflexivity|]. apply camera_translate_fly; reflexivity. Defined.

(** C9. On the camera the application builds ([init.camera_create], with
    the JSON lists kept as Python lists), [translate] extends the position
    and target lists instead of moving them: the nine scalars passed to
    [gluLookAt] are unchanged, and the next [rotate] raises a numpy
    broadcast error after updating pitch and yaw. *)
Theorem list_camera_translate_ignored a b c0 t1 t2 t3 x y z dx dy c :
  cam_position c = PyListV [a; b; c0] -> cam_target c = PyListV [t1; t2; t3] ->
  exists c', camera_translate x y z c = Done c' /\ look_at_args c' = look_at_args c /\
    length (pv_elems (cam_position c')) = 6%nat /\
    camera_rotate dx dy c' = Raised (with_pitch_yaw c' (py_clamp (-89) 89 (pitch c' + dx)) (yaw c' - dy))
                               BroadcastError.
Proof.
  intros Hp Ht. unfold camera_translate. rewrite Hp. simpl. rewrite Ht.
  eexists. split; [reflexivity|]. split.
  - unfold look_at_args, py_index. simpl. rewrite Hp, Ht. reflexivity.
  - split; reflexivity.
Qed.

Lemma list_camera_translate_ignored_witness :
  let s := {| default_position := [0; 0; 5]; default_target := [0; 0; 0]; default_up_vector := [0; 1; 0];
              default_pitch := 0; default_yaw := -90; default_fovy := 45; default_aspect := 1.33;
              default_z_near := 0.1; default_z_far := 50 |} in
  cam_position (camera_create s) = PyListV [0; 0; 5] /\ cam_target (camera_create s) = PyListV [0; 0; 0] /\
  exists c', camera_translate 0.5 0 0 (camera_create s) = Done c' /\
    look_at_args c' = look_at_args (camera_create s) /\ length (pv_elems (cam_position c')) = 6%nat /\
    camera_rotate 0 (-5) c' = Raised (with_pitch_yaw c' (py_clamp (-89) 89 (pitch c' + 0)) (yaw c' - -5))
                                BroadcastError.
Proof.
  intros s. split; [reflexivity|]. split; [reflexivity|].
  apply (list_camera_translate_ignored 0 0 5 0 0 0); reflexivity.
Defined.
