(* ===== verification/Picking.v ===== *)
(** * Picking: [FigureWrapper.project_vertices_to_screen] and
    [FigureWrapper.contains_point]

    The projection is [gluProject] under the matrices and viewport read
    back from OpenGL at the click; it is a library call, so it is a
    parameter of the model: a function from a vertex position to its window
    coordinates, [None] when [gluProject] raises [ValueError] (the code
    catches it, prints, and skips the vertex).  [contains_point] is the
    axis-aligned bounding-box test of the code; its abstract specification
    ([in_projected_box]) says that the point lies between two projected
    vertices on each axis, and the refinement theorem relates the two. *)

From S2P Require Import Prelude Vec3 Figure.

(** [gluProject(x, y, z, modelview, projection, viewport)[:2]]. *)
Definition projector : Type := vec3 -> option (R * R).

(** [FigureWrapper.project_vertices_to_screen]. *)
Fixpoint project_vertices_to_screen (proj : projector) (vs : list Vertex) : list (R * R) :=
  match vs with
  | [] => []
  | v :: t =>
    match proj (position v) with
    | Some c => c :: project_vertices_to_screen proj t
    | None => project_vertices_to_screen proj t
    end
  end.

(** Python's [min] and [max] of a non-empty sequence. *)
Definition list_min (h : R) (t : list R) : R := fold_left Rmin t h.
Definition list_max (h : R) (t : list R) : R := fold_left Rmax t h.

(** [FigureWrapper.contains_point]: [x] and [y] are window coordinates
    (integers, [y] already flipped by the caller). *)
Definition contains_point (x y : Z) (proj : projector) (d : FigureData) : bool :=
  match project_vertices_to_screen proj (vertices d) with
  | [] => false
  | c :: cs =>
    let min_x := list_min (fst c) (map fst cs) in
    let max_x := list_max (fst c) (map fst cs) in
    let min_y := list_min (snd c) (map snd cs) in
    let max_y := list_max (snd c) (map snd cs) in
    Rleb min_x (IZR x) && Rleb (IZR x) max_x && Rleb min_y (IZR y) && Rleb (IZR y) max_y
  end.

(** The abstract contract: the point lies within the bounding box of the
    vertices that could be projected. *)
Definition in_projected_box (x y : R) (proj : projector) (d : FigureData) : Prop :=
  let cs := project_vertices_to_screen proj (vertices d) in
  (exists a, In a cs /\ fst a <= x) /\ (exists b, In b cs /\ x <= fst b) /\
  (exists a, In a cs /\ snd a <= y) /\ (exists b, In b cs /\ y <= snd b).

(** ** Lemmas *)

Lemma Rmin_le_iff a b x : Rmin a b <= x <-> a <= x \/ b <= x.
Proof. unfold Rmin. destruct (Rle_dec a b); split; intros; lra. Qed.

Lemma le_Rmax_iff a b x : x <= Rmax a b <-> x <= a \/ x <= b.
Proof. unfold Rmax. destruct (Rle_dec a b); split; intros; lra. Qed.

Lemma list_min_le h t x : list_min h t <= x <-> exists a, In a (h :: t) /\ a <= x.
Proof.
  unfold list_min. revert h. induction t as [|b t IH]; intros h; simpl.
  - split; [intros H; exists h; simpl; auto | intros (a & [<- | []] & H); exact H].
  - rewrite IH. split.
    + intros (a & [<- | Ha] & H).
      * apply Rmin_le_iff in H as [H | H]; [exists h | exists b]; simpl; auto.
      * exists a. simpl. auto.
    + intros (a & [<- | [<- | Ha]] & H);
        [exists (Rmin h b) | exists (Rmin h b) | exists a]; simpl; split; auto;
        apply Rmin_le_iff; auto.
Qed.

Lemma le_list_max h t x : x <= list_max h t <-> exists a, In a (h :: t) /\ x <= a.
Proof.
  unfold list_max. revert h. induction t as [|b t IH]; intros h; simpl.
  - split; [intros H; exists h; simpl; auto | intros (a & [<- | []] & H); exact H].
  - rewrite IH. split.
    + intros (a & [<- | Ha] & H).
      * apply le_Rmax_iff in H as [H | H]; [exists h | exists b]; simpl; auto.
      * exists a. simpl. auto.
    + intros (a & [<- | [<- | Ha]] & H);
        [exists (Rmax h b) | exists (Rmax h b) | exists a]; simpl; split; auto;
        apply le_Rmax_iff; auto.
Qed.

Lemma exists_in_map {A} (f : A -> R) (P : R -> Prop) c cs :
  (exists a, In a (f c :: map f cs) /\ P a) <-> (exists b, In b (c :: cs) /\ P (f b)).
Proof.
  split.
  - intros (a & Ha & HP). simpl in Ha. destruct Ha as [<- | Ha].
    + exists c. simpl. auto.
    + apply in_map_iff in Ha as (b & <- & Hb). exists b. simpl. auto.
  - intros (b & Hb & HP). exists (f b). split; [|exact HP].
    destruct Hb as [<- | Hb]; [left; reflexivity | right; apply in_map; exact Hb].
Qed.

Lemma andb_true4 a b c d : a && b && c && d = true <-> a = true /\ b = true /\ c = true /\ d = true.
Proof. rewrite !andb_true_iff. tauto. Qed.

(** ** Properties of picking *)

(** C10. [contains_point] implements its contract: it answers [True]
    exactly when the click lies, on each axis, between two of the projected
    vertices (the bounding box of the projected vertex set); vertices whose
    projection failed take no part, and with no projected vertex the answer
    is [False]. *)
Theorem contains_point_spec x y proj d :
  contains_point x y proj d = true <-> in_projected_box (IZR x) (IZR y) proj d.
Proof.
  unfold contains_point, in_projected_box.
  destruct (project_vertices_to_screen proj (vertices d)) as [|c cs].
  - split; [discriminate | intros ((a & [] & _) & _)].
  - rewrite andb_true4, !Rleb_true, list_min_le, le_list_max, list_min_le, le_list_max.
    rewrite !(exists_in_map fst), !(exists_in_map snd). reflexivity.
Qed.
