(* ===== verification/Scene.v ===== *)
(** * Scene: [dal/Scene.py] and [bll/Scene.py]

    The figure objects live in a store indexed by object identity.  The
    store starts with the seven template objects of [Figure.figures], in the
    dictionary's order, because [FigureWrapper.create(name)] binds the new
    wrapper to the template object itself; a wrapper is therefore the
    identity of its data.  [SceneData.figures] is the ordered list of those
    identities and [selected_figure] an optional identity.

    The selection follows the code: [deselect_figure] clears the flag of
    the previously selected object, then the figures are scanned in scene
    order and the first whose projected bounding box contains the click is
    selected.  [handle_motion] orbits the camera while the right button is
    held.  The camera of the scene is the data of the [Camera] wrapper that
    [init.create_scene] installs with [set_camera] before any event. *)

From S2P Require Import Prelude Vec3 Figure Camera Picking.

Record SceneData : Type := {
  store : list FigureData;
  scene_figures : list nat;
  selected_figure : option nat;
  is_rotating : bool;
  last_mouse_x : Z;
  last_mouse_y : Z;
  camera : CameraData;
  point_size : R;
  line_width : R;
  alpha : R;
  highlight_color : pycolor;
  highlight_line_width : R
}.

(** The template objects, the initial content of the store. *)
Definition template_store : list FigureData := map snd figures.

(** [SceneData.__init__] followed by [Scene.set_camera]. *)
(** [Scene.set_data]: [if data: self.data = data] (a [SceneData] is
    falsy only as [None]).  The application never calls it. *)
Definition scene_set_data (data : option SceneData) (s : SceneData) : SceneData :=
  match data with Some d => d | None => s end.

Definition new_scene (cam : CameraData) : SceneData :=
  {| store := template_store; scene_figures := []; selected_figure := None; is_rotating := false;
     last_mouse_x := 0; last_mouse_y := 0; camera := cam; point_size := 30; line_width := 10;
     alpha := 0.2; highlight_color := rgb 1 1 1; highlight_line_width := 20 |}.

Definition with_store (s : SceneData) (st : list FigureData) (sel : option nat) : SceneData :=
  {| store := st; scene_figures := scene_figures s; selected_figure := sel;
     is_rotating := is_rotating s; last_mouse_x := last_mouse_x s; last_mouse_y := last_mouse_y s;
     camera := camera s; point_size := point_size s; line_width := line_width s; alpha := alpha s;
     highlight_color := highlight_color s; highlight_line_width := highlight_line_width s |}.

Definition with_figures (s : SceneData) (fs : list nat) : SceneData :=
  {| store := store s; scene_figures := fs; selected_figure := selected_figure s;
     is_rotating := is_rotating s; last_mouse_x := last_mouse_x s; last_mouse_y := last_mouse_y s;
     camera := camera s; point_size := point_size s; line_width := line_width s; alpha := alpha s;
     highlight_color := highlight_color s; highlight_line_width := highlight_line_width s |}.

Definition with_camera (s : SceneData) (c : CameraData) : SceneData :=
  {| store := store s; scene_figures := scene_figures s; selected_figure := selected_figure s;
     is_rotating := is_rotating s; last_mouse_x := last_mouse_x s; last_mouse_y := last_mouse_y s;
     camera := c; point_size := point_size s; line_width := line_width s; alpha := alpha s;
     highlight_color := highlight_color s; highlight_line_width := highlight_line_width s |}.

Definition with_mouse (s : SceneData) (rot : bool) (x y : Z) : SceneData :=
  {| store := store s; scene_figures := scene_figures s; selected_figure := selected_figure s;
     is_rotating := rot; last_mouse_x := x; last_mouse_y := y;
     camera := camera s; point_size := point_size s; line_width := line_width s; alpha := alpha s;
     highlight_color := highlight_color s; highlight_line_width := highlight_line_width s |}.

(** Mutate the object with identity [i] in place. *)
Definition update_obj (st : list FigureData) (i : nat) (f : FigureData -> FigureData) : list FigureData :=
  match nth_error st i with
  | Some d => list_set st i (f d)
  | None => st
  end.

(** [Scene.add_figure]. *)
Definition add_figure (i : nat) (s : SceneData) : SceneData := with_figures s (scene_figures s ++ [i]).

(** [Scene.deselect_figure]. *)
Definition deselect_figure (s : SceneData) : SceneData :=
  match selected_figure s with
  | Some i => with_store s (update_obj (store s) i (fun d => with_selected d false)) None
  | None => s
  end.

(** [Scene.select_figure]. *)
Definition select_figure (i : nat) (s : SceneData) : SceneData :=
  with_store s (update_obj (store s) i (fun d => with_selected d true)) (Some i).

(** The OpenGL state read back at a click: [glutGet(GLUT_WINDOW_HEIGHT)]
    and the projection under the current matrices and viewport. *)
Record gl_view : Type := { window_height : Z; view_proj : projector }.

(** [figure.contains_point(x, window_height - y - 1, ...)] for the figure
    with identity [i]. *)
Definition hit (v : gl_view) (x y : Z) (st : list FigureData) (i : nat) : bool :=
  match nth_error st i with
  | Some d => contains_point x (window_height v - y - 1) (view_proj v) d
  | None => false
  end.

(** [Scene.selection]. *)
Definition selection (v : gl_view) (x y : Z) (s : SceneData) : SceneData :=
  let s1 := deselect_figure s in
  match find_first (hit v x y (store s1)) (scene_figures s1) with
  | Some i => select_figure i s1
  | None => s1
  end.

Inductive mouse_button : Type := LeftButton | MiddleButton | RightButton.

(** [Scene.handle_click]: the left button runs the selection. *)
Definition handle_click (v : gl_view) (x y : Z) (b : mouse_button) (s : SceneData) : SceneData :=
  match b with
  | LeftButton => selection v x y s
  | _ => s
  end.

(** [Scene.handle_mouse] has the same body as [handle_click]. *)
Definition scene_handle_mouse := handle_click.

(** [Scene.handle_motion]: while rotating, the mouse deltas scaled by
    [0.1] drive [Camera.rotate(dy * 0.1, dx * 0.1)]; the last position is
    stored after the rotation returns. *)
Definition handle_motion (x y : Z) (s : SceneData) : outcome SceneData :=
  if is_rotating s then
    let dx := IZR (x - last_mouse_x s) in
    let dy := IZR (y - last_mouse_y s) in
    let sensitivity := 0.1 in
    match camera_rotate (dy * sensitivity) (dx * sensitivity) (camera s) with
    | Done c => Done (with_mouse (with_camera s c) true x y)
    | Raised c e => Raised (with_camera s c) e
    end
  else Done s.

(** The selection invariant, as a test on the store: the object at
    position [k] is flagged exactly when [sel = Some k]. *)
Fixpoint sel_ok_from (sel : option nat) (k : nat) (l : list FigureData) : bool :=
  match l with
  | [] => true
  | d :: t =>
    Bool.eqb (selected d) (match sel with Some i => Nat.eqb i k | None => false end)
    && sel_ok_from sel (S k) t
  end.

Definition sel_inv_b (s : SceneData) : bool := sel_ok_from (selected_figure s) 0 (store s).

Definition scene_wf_b (s : SceneData) : bool :=
  forallb (fun i => Nat.ltb i (length (store s))) (scene_figures s) &&
  match selected_figure s with Some i => Nat.ltb i (length (store s)) | None => true end.

(** The selection invariant: an object of the store carries the selected
    flag exactly when it is the scene's selected figure. *)
Definition sel_inv (s : SceneData) : Prop :=
  forall i d, nth_error (store s) i = Some d -> (selected d = true <-> selected_figure s = Some i).

(** Every identity the scene refers to is an object of the store. *)
Definition scene_wf (s : SceneData) : Prop :=
  Forall (fun i => (i < length (store s))%nat) (scene_figures s) /\
  (forall i, selected_figure s = Some i -> (i < length (store s))%nat).

(** ** Lemmas *)

Lemma sel_ok_from_spec sel k l :
  sel_ok_from sel k l = true <->
  (forall i d, nth_error l i = Some d -> (selected d = true <-> sel = Some (k + i)%nat)).
Proof.
  revert k. induction l as [|d t IH]; intros k; simpl.
  - split; [intros _ [|i] d H; discriminate | reflexivity].
  - rewrite andb_true_iff, IH. split.
    + intros [Hd Ht] [|i] d' H; simpl in H.
      * injection H as <-. rewrite Nat.add_0_r. apply Bool.eqb_prop in Hd. rewrite Hd.
        destruct sel as [j|]; [|split; discriminate].
        destruct (Nat.eqb_spec j k); subst; split; congruence.
      * rewrite (Ht i d' H). replace (S k + i)%nat with (k + S i)%nat by lia. reflexivity.
    + intros H. split.
      * specialize (H 0%nat d eq_refl). rewrite Nat.add_0_r in H.
        apply Bool.eqb_true_iff.
        destruct sel as [j|]; [destruct (Nat.eqb_spec j k) as [->|Hne] |];
          destruct (selected d); try reflexivity;
          first [ apply (proj2 H); reflexivity | exfalso; pose proof (proj1 H eq_refl); congruence ].
      * intros i d' Hi. specialize (H (S i) d' Hi). replace (k + S i)%nat with (S k + i)%nat in H by lia.
        exact H.
Qed.

Lemma sel_inv_b_spec s : sel_inv_b s = true <-> sel_inv s.
Proof. unfold sel_inv_b, sel_inv. rewrite sel_ok_from_spec. reflexivity. Qed.

Lemma scene_wf_b_spec s : scene_wf_b s = true <-> scene_wf s.
Proof.
  unfold scene_wf_b, scene_wf. rewrite andb_true_iff, forallb_forall, Forall_forall.
  split; intros [H1 H2]; split.
  - intros i Hi. apply Nat.ltb_lt, H1, Hi.
  - intros i Hs. rewrite Hs in H2. apply Nat.ltb_lt, H2.
  - intros i Hi. apply Nat.ltb_lt, H1, Hi.
  - destruct (selected_figure s) as [i|]; [apply Nat.ltb_lt, H2 |]; reflexivity.
Qed.

Lemma update_obj_length st i f : length (update_obj st i f) = length st.
Proof. unfold update_obj. destruct (nth_error st i); [apply list_set_length | reflexivity]. Qed.

Lemma nth_error_update_obj_eq st i f d :
  nth_error st i = Some d -> nth_error (update_obj st i f) i = Some (f d).
Proof.
  intros H. unfold update_obj. rewrite H. apply nth_error_list_set_eq.
  apply nth_error_Some. congruence.
Qed.

Lemma nth_error_update_obj_ne st i j f : i <> j -> nth_error (update_obj st i f) j = nth_error st j.
Proof. intros H. unfold update_obj. destruct (nth_error st i); [apply nth_error_list_set_ne, H | reflexivity]. Qed.

(** Changing the flag of an object does not change what a click hits. *)
Lemma hit_update_selected v x y st i b j :
  hit v x y (update_obj st i (fun d => with_selected d b)) j = hit v x y st j.
Proof.
  unfold hit. destruct (Nat.eq_dec i j) as [<- | Hne].
  - destruct (nth_error st i) as [d|] eqn:E.
    + rewrite (nth_error_update_obj_eq _ _ _ _ E). reflexivity.
    + unfold update_obj. rewrite E, E. reflexivity.
  - rewrite nth_error_update_obj_ne by exact Hne. reflexivity.
Qed.

Lemma deselect_clears s :
  sel_inv s -> selected_figure (deselect_figure s) = None /\
  length (store (deselect_figure s)) = length (store s) /\
  forall i d, nth_error (store (deselect_figure s)) i = Some d -> selected d = false.
Proof.
  intros Hinv. unfold deselect_figure. destruct (selected_figure s) as [k|] eqn:Ek; simpl.
  - split; [reflexivity|]. split; [apply update_obj_length|]. intros i d Hd.
    destruct (Nat.eq_dec k i) as [<- | Hne].
    + destruct (nth_error (store s) k) as [d0|] eqn:E0.
      * rewrite (nth_error_update_obj_eq _ _ _ _ E0) in Hd. injection Hd as <-. reflexivity.
      * unfold update_obj in Hd. rewrite E0 in Hd. congruence.
    + rewrite nth_error_update_obj_ne in Hd by exact Hne.
      destruct (selected d) eqn:Es; [|reflexivity].
      apply (Hinv i d Hd) in Es. rewrite Ek in Es. congruence.
  - split; [exact Ek|]. split; [reflexivity|]. intros i d Hd.
    destruct (selected d) eqn:Es; [|reflexivity].
    apply (Hinv i d Hd) in Es. rewrite Ek in Es. discriminate.
Qed.

Lemma select_establishes s i :
  (forall j d, nth_error (store s) j = Some d -> selected d = false) ->
  (i < length (store s))%nat -> sel_inv (select_figure i s).
Proof.
  intros Hclr Hi j d Hd. unfold select_figure in *. simpl in *.
  destruct (Nat.eq_dec i j) as [<- | Hne].
  - destruct (nth_error (store s) i) as [d0|] eqn:E0.
    + rewrite (nth_error_update_obj_eq _ _ _ _ E0) in Hd. injection Hd as <-. simpl. tauto.
    + apply nth_error_None in E0. lia.
  - rewrite nth_error_update_obj_ne in Hd by exact Hne. rewrite (Hclr j d Hd).
    split; congruence.
Qed.

Lemma selection_first_hit_eq v x y s :
  find_first (hit v x y (store (deselect_figure s))) (scene_figures (deselect_figure s))
  = find_first (hit v x y (store s)) (scene_figures s).
Proof.
  unfold deselect_figure. destruct (selected_figure s); [|reflexivity].
  simpl. apply find_first_ext. intros j. apply hit_update_selected.
Qed.

Lemma selection_selected v x y s :
  selected_figure (selection v x y s) = find_first (hit v x y (store s)) (scene_figures s).
Proof.
  unfold selection. rewrite selection_first_hit_eq.
  destruct (find_first _ (scene_figures s)) as [i|] eqn:E; [reflexivity|].
  unfold deselect_figure. destruct (selected_figure s) eqn:Es; [reflexivity | exact Es].
Qed.

Lemma selection_store_length v x y s : length (store (selection v x y s)) = length (store s).
Proof.
  unfold selection, select_figure, deselect_figure.
  destruct (selected_figure s); destruct (find_first _ _); simpl; rewrite ?update_obj_length; reflexivity.
Qed.

Lemma selection_figures v x y s : scene_figures (selection v x y s) = scene_figures s.
Proof.
  unfold selection, select_figure, deselect_figure.
  destruct (selected_figure s); destruct (find_first _ _); reflexivity.
Qed.

Lemma hit_in_store v x y st i : hit v x y st i = true -> (i < length st)%nat.
Proof.
  unfold hit. destruct (nth_error st i) eqn:E; [|discriminate].
  intros _. apply nth_error_Some. congruence.
Qed.

Lemma sel_inv_unique s i j di dj :
  sel_inv s -> nth_error (store s) i = Some di -> nth_error (store s) j = Some dj ->
  selected di = true -> selected dj = true -> i = j.
Proof.
  intros H Hi Hj Si Sj. apply (H i di Hi) in Si. apply (H j dj Hj) in Sj. congruence.
Qed.

(** A click keeps the selection invariant and the well-formedness of
    the scene. *)
Lemma selection_sel_inv v x y s : sel_inv s -> sel_inv (selection v x y s).
Proof.
  intros Hinv. destruct (deselect_clears s Hinv) as (Hnone & Hlen & Hclr).
  unfold selection. destruct (find_first _ _) as [i|] eqn:E.
  - apply select_establishes; [exact Hclr|].
    apply find_first_some in E as [_ E]. exact (hit_in_store _ _ _ _ _ E).
  - intros i d Hd. rewrite (Hclr i d Hd), Hnone. split; discriminate.
Qed.

Lemma selection_scene_wf v x y s : scene_wf s -> scene_wf (selection v x y s).
Proof.
  intros [Hf Hs]. split.
  - rewrite selection_figures, selection_store_length. exact Hf.
  - intros i Hi. rewrite selection_store_length. rewrite selection_selected in Hi.
    apply find_first_some in Hi as [_ Hi]. exact (hit_in_store _ _ _ _ _ Hi).
Qed.

(** ** Properties of the selection *)

(** C11. At most one figure is selected, and it is the scene's selected
    figure: a click (deselect, then select the first hit) keeps the
    invariant that an object of the store carries the [selected] flag
    exactly when it is [selected_figure], so no two objects are flagged. *)
Theorem selection_at_most_one v x y s :
  sel_inv s -> scene_wf s ->
  sel_inv (selection v x y s) /\ scene_wf (selection v x y s) /\
  (forall i j di dj, nth_error (store (selection v x y s)) i = Some di ->
     nth_error (store (selection v x y s)) j = Some dj ->
     selected di = true -> selected dj = true -> i = j).
Proof.
  intros Hinv Hwf. pose proof (selection_sel_inv v x y s Hinv) as Hinv'.
  split; [exact Hinv'|]. split; [apply selection_scene_wf, Hwf|].
  intros i j di dj. apply sel_inv_unique, Hinv'.
Qed.

Lemma selection_at_most_one_witness :
  let s := add_figure 2 (add_figure 1 (add_figure 0
             (new_scene (camera_create_default [0; 0; 5] [0; 0; 0] [0; 1; 0])))) in
  let v := {| window_height := 600; view_proj := fun p => Some (vx p, vy p) |} in
  sel_inv s /\ scene_wf s /\
  (sel_inv (selection v 0 599 s) /\ scene_wf (selection v 0 599 s) /\
   (forall i j di dj, nth_error (store (selection v 0 599 s)) i = Some di ->
      nth_error (store (selection v 0 599 s)) j = Some dj ->
      selected di = true -> selected dj = true -> i = j)).
Proof.
  intros s v.
  assert (H1 : sel_inv s) by (apply sel_inv_b_spec; vm_compute; reflexivity).
  assert (H2 : scene_wf s) by (apply scene_wf_b_spec; vm_compute; reflexivity).
  split; [exact H1|]. split; [exact H2|]. apply selection_at_most_one; assumption.
Defined.

(** The click selects the first figure in scene order whose projected
    bounding box contains the (y-flipped) click point: every figure before
    it is missed; when no figure is hit, nothing is selected. *)
Theorem selection_first_hit v x y s :
  (forall i, selected_figure (selection v x y s) = Some i ->
     exists pre post, scene_figures s = pre ++ i :: post /\ hit v x y (store s) i = true /\
       (forall j, In j pre -> hit v x y (store s) j = false)) /\
  (selected_figure (selection v x y s) = None ->
     forall j, In j (scene_figures s) -> hit v x y (store s) j = false).
Proof.
  rewrite selection_selected. split.
  - intros i H. apply find_first_split, H.
  - apply find_first_none.
Qed.

(** Drag-to-orbit: while the right button is held, a motion to
    [(x, y)] turns the camera with the axes swapped as the code does (the
    vertical mouse delta times 0.1 drives the pitch, clamped to
    [[-89, 89]], and the horizontal delta times 0.1 decreases the yaw),
    records [(x, y)] as the last mouse position and leaves the figures and
    the selection alone; without the button held nothing changes. *)
Theorem handle_motion_orbit x y s px py pz :
  pv_elems (cam_position (camera s)) = [px; py; pz] ->
  (is_rotating s = true ->
   exists s', handle_motion x y s = Done s' /\
     pitch (camera s') = py_clamp (-89) 89 (pitch (camera s) + IZR (y - last_mouse_y s) * 0.1) /\
     yaw (camera s') = yaw (camera s) - IZR (x - last_mouse_x s) * 0.1 /\
     last_mouse_x s' = x /\ last_mouse_y s' = y /\
     store s' = store s /\ selected_figure s' = selected_figure s) /\
  (is_rotating s = false -> handle_motion x y s = Done s).
Proof.
  intros Hp. unfold handle_motion. split; intros Hr; rewrite Hr; [|reflexivity].
  destruct (camera_rotate_look px py pz (IZR (y - last_mouse_y s) * 0.1) (IZR (x - last_mouse_x s) * 0.1)
              (camera s) Hp) as (c' & tx & ty & tz & Hrot & _ & _ & _ & Hyaw & _).
  rewrite Hrot. eexists. split; [reflexivity|]. simpl.
  unfold camera_rotate in Hrot. destruct (py_add _ _); [|discriminate].
  injection Hrot as <-. simpl in Hyaw |- *. repeat split; assumption || reflexivity.
Qed.

Lemma handle_motion_orbit_witness :
  let s := with_mouse (new_scene (camera_create_default [0; 0; 5] [0; 0; 0] [0; 1; 0])) true 100%Z 100%Z in
  pv_elems (cam_position (camera s)) = [0; 0; 5] /\
  ((is_rotating s = true ->
    exists s', handle_motion 110%Z 95%Z s = Done s' /\
     pitch (camera s') = py_clamp (-89) 89 (pitch (camera s) + IZR (95 - last_mouse_y s) * 0.1) /\
     yaw (camera s') = yaw (camera s) - IZR (110 - last_mouse_x s) * 0.1 /\
     last_mouse_x s' = 110%Z /\ last_mouse_y s' = 95%Z /\
     store s' = store s /\ selected_figure s' = selected_figure s) /\
   (is_rotating s = false -> handle_motion 110%Z 95%Z s = Done s)).
Proof. intros s. split; [reflexivity|]. apply (handle_motion_orbit 110%Z 95%Z s 0 0 5). reflexivity. Defined.

Lemma cube_hit_center :
  hit {| window_height := 600; view_proj := fun p => Some (vx p, vy p) |} 0 599 template_store 0 = true.
Proof.
  unfold hit. simpl nth_error. cbv iota beta. apply contains_point_spec.
  unfold in_projected_box. simpl.
  split; [exists (-1, -1); split; [auto | simpl; lra]|].
  split; [exists (1, -1); split; [auto | simpl; lra]|].
  split; [exists (-1, -1); split; [auto | simpl; lra]|].
  exists (1, 1); split; [auto 10 | simpl; lra].
Qed.

(** [FigureWrapper.create] binds every wrapper of a template to the
    one shared template object: a scene holding two cubes holds one object
    twice, so a click on it flags both scene entries as selected (and a
    transform of either moves both). *)
Theorem shared_template_selected_twice :
  set_example "Cube" = Ok 0%nat /\
  let s := selection {| window_height := 600; view_proj := fun p => Some (vx p, vy p) |} 0 599
             (add_figure 0 (add_figure 0 (new_scene (camera_create_default [0; 0; 5] [0; 0; 0] [0; 1; 0])))) in
  length (scene_figures s) = 2%nat /\
  forall k i, nth_error (scene_figures s) k = Some i ->
    exists d, nth_error (store s) i = Some d /\ selected d = true.
Proof.
  split; [reflexivity|]. intros s.
  set (s0 := add_figure 0 (add_figure 0 (new_scene (camera_create_default [0; 0; 5] [0; 0; 0] [0; 1; 0])))).
  assert (Hinv : sel_inv s0) by (apply sel_inv_b_spec; vm_compute; reflexivity).
  assert (Hwf : scene_wf s0) by (apply scene_wf_b_spec; vm_compute; reflexivity).
  assert (Hsel : selected_figure s = Some 0%nat).
  { unfold s. rewrite selection_selected. simpl scene_figures. simpl find_first.
    change (store s0) with template_store. rewrite cube_hit_center. reflexivity. }
  destruct (selection_at_most_one {| window_height := 600; view_proj := fun p => Some (vx p, vy p) |}
              0 599 s0 Hinv Hwf) as [Hinv' _]. fold s in Hinv'.
  split; [unfold s; rewrite selection_figures; reflexivity|].
  intros k i Hk. unfold s in Hk. rewrite selection_figures in Hk. simpl in Hk.
  assert (Hi : i = 0%nat) by (destruct k as [|[|[|k]]]; simpl in Hk; congruence). subst i.
  assert (Hlen : (0 < length (store s))%nat) by (unfold s; rewrite selection_store_length; simpl; lia).
  destruct (nth_error (store s) 0) as [d|] eqn:Ed; [|apply nth_error_None in Ed; lia].
  exists d. split; [reflexivity|]. apply (Hinv' 0%nat d Ed). exact Hsel.
Qed.
