(* ===== verification/Ascii.v ===== *)
(** * Ascii: the text pipeline of [ui/Renderer.py] and the escape stripping
    of [Controller.get_scene]

    The glyph index [int(gray_value / 255 * (len(ascii_chars) - 1))] and
    the downsampled width [int(scaled_height * (width / height) * 3)] are
    computed by CPython in IEEE-754 binary64; they are modelled with Rocq's
    primitive floats, which compute the same bits, and [py_int] is Python's
    [int()] on a float (truncation toward zero).  The exact-arithmetic
    references are the spec's formulas with [Z.div].

    The image after [Image.resize(..., NEAREST)] and [convert("L")] comes
    from PIL, a library: it is the input of [render_to_ascii], a list of
    rows, bottom row first (the frame buffer is read bottom-up), each cell a
    grey value and an RGB triple of bytes.  Python strings are [string]s
    whose characters are code points below 128. *)

From Stdlib Require Import Ascii Floats DecimalString.
From S2P Require Import Prelude.

Local Open Scope Z_scope.

(** ** Floats as CPython computes them *)

(** [float(z)] for an integer of at most 53 bits. *)
Definition fz (z : Z) : float :=
  if z <? 0 then PrimFloat.opp (PrimFloat.of_uint63 (Uint63.of_Z (- z)))
  else PrimFloat.of_uint63 (Uint63.of_Z z).

(** [int(f)] on a finite float: truncation toward zero. *)
Definition py_int (f : float) : Z :=
  match Prim2SF f with
  | SpecFloat.S754_finite s m e =>
    let a := if 0 <=? e then Z.pos m * 2 ^ e else Z.pos m / 2 ^ (- e) in
    if s then - a else a
  | _ => 0
  end.

(** The index expression of [map_pixel_to_ascii] for a ramp of [n]
    characters. *)
Definition glyph_index (gray n : Z) : Z :=
  py_int (PrimFloat.mul (PrimFloat.div (fz gray) (fz 255)) (fz (n - 1))).

(** The spec's formula [floor(intensity / 255 * (len - 1))], exactly. *)
Definition glyph_index_exact (gray n : Z) : Z := gray * (n - 1) / 255.

(** [seq[i]] with Python's negative indices. *)
Definition py_getitem {A : Type} (l : list A) (i : Z) : result A :=
  let n := Z.of_nat (length l) in
  let j := if i <? 0 then n + i else i in
  if (0 <=? j) && (j <? n) then
    match nth_error l (Z.to_nat j) with Some x => Ok x | None => Err IndexError end
  else Err IndexError.

(** ** The renderer *)

Record renderer : Type := {
  r_width : Z;
  r_height : Z;
  ascii_height : Z;
  ascii_chars : string
}.

Definition ESC : ascii := Ascii.ascii_of_nat 27.
Definition NL : ascii := Ascii.ascii_of_nat 10.

(** [f"{v}"] for a byte value. *)
Definition dec (v : Z) : string := NilEmpty.string_of_uint (N.to_uint (Z.to_N v)).

(** The escape that opens a coloured glyph and the one that resets. *)
Definition color_escape (r g b : Z) : string :=
  String ESC ("[38;2;" ++ dec r ++ ";" ++ dec g ++ ";" ++ dec b ++ "m")%string.
Definition reset_escape : string := String ESC "[0m".

(** [AsciiRenderer.map_pixel_to_ascii]. *)
Definition map_pixel_to_ascii (chars : string) (gray : Z) (rgb : Z * Z * Z) : result string :=
  let '(r, g, b) := rgb in
  ch <- py_getitem (list_ascii_of_string chars) (glyph_index gray (Z.of_nat (String.length chars))) ;;
  Ok (color_escape r g b ++ String ch reset_escape)%string.

(** One row: [''.join(map(self.map_pixel_to_ascii, row, color_row))]. *)
Fixpoint render_row (chars : string) (row : list (Z * (Z * Z * Z))) : result string :=
  match row with
  | [] => Ok ""%string
  | (gray, rgb) :: t =>
    c <- map_pixel_to_ascii chars gray rgb ;;
    rest <- render_row chars t ;;
    Ok (c ++ rest)%string
  end.

(** [render_rows]: the rows of the frame, bottom row first, rendered in
    reverse order ([pixel_data[::-1]]). *)
Fixpoint render_rows_rev (chars : string) (rows : list (list (Z * (Z * Z * Z)))) : result (list string) :=
  match rows with
  | [] => Ok []
  | r :: t =>
    rest <- render_rows_rev chars t ;;
    line <- render_row chars r ;;
    Ok (rest ++ [line])
  end.

(** ["\n".join(ascii_image)]. *)
Definition join_lines (ls : list string) : string := String.concat (String NL "") ls.

(** The text part of [AsciiRenderer.render_to_ascii], from the downsampled
    frame. *)
Definition render_to_ascii (chars : string) (rows : list (list (Z * (Z * Z * Z)))) : result string :=
  ls <- render_rows_rev chars rows ;; Ok (join_lines ls).

(** The target size of [render_to_ascii]: [(scaled_width, scaled_height)]. *)
Definition scaled_size (rd : renderer) : Z * Z :=
  let sh := if ascii_height rd =? 0 then py_int (PrimFloat.mul (fz (r_height rd)) 0x1.999999999999ap-3%float)
            else ascii_height rd in
  let sw := if (r_height rd =? 0) || (r_width rd =? 0) then py_int (fz (sh * 3))
            else py_int (PrimFloat.mul (PrimFloat.mul (fz sh) (PrimFloat.div (fz (r_width rd)) (fz (r_height rd))))
                                       (fz 3)) in
  (sw, sh).

(** The spec's width [ascii_height * (frame_width / frame_height) * 3],
    exactly. *)
Definition scaled_width_exact (sh w h : Z) : Z := sh * w * 3 / h.

(** [AsciiRenderer.reshape]: a height below 70 is raised to 70 and the
    window is forced to it; the viewport and the projection follow, with the
    aspect the caller computed. *)
Definition renderer_reshape (w h : Z) (fov asp zn zf : R) (rd : renderer) : renderer * list gl_cmd :=
  let '(h', forced) := if h <? 70 then (70, [ReshapeWindow w 70]) else (h, []) in
  ({| r_width := w; r_height := h'; ascii_height := ascii_height rd; ascii_chars := ascii_chars rd |},
   forced ++ [Viewport w h'; Perspective fov asp zn zf]).

(** [AsciiRenderer.set_ascii_height]. *)
Definition set_ascii_height (n : Z) (rd : renderer) : renderer :=
  {| r_width := r_width rd; r_height := r_height rd; ascii_height := n; ascii_chars := ascii_chars rd |}.

(** ** Escape stripping: [Controller.get_scene(remove_color=True)] *)

(** [line.find("m", i)]. *)
Fixpoint find_from (c : ascii) (s : list ascii) (i : nat) : option nat :=
  match s with
  | [] => None
  | x :: t =>
    match i with
    | O => if Ascii.eqb x c then Some O else option_map S (find_from c t O)
    | S i' => option_map S (find_from c t i')
    end
  end.

Definition LBRACKET : ascii := "["%char.
Definition LETTER_M : ascii := "m"%char.

(** The [while i < len(line)] loop, with a fuel bound: [None] when the fuel
    runs out.  An escape with no later ['m'] sends [i] back to [0] (the
    code's [find] returns [-1]). *)
Fixpoint strip_loop (fuel : nat) (line : list ascii) (i : nat) (acc : list ascii) : option (list ascii) :=
  match fuel with
  | O => None
  | S f =>
    if Nat.ltb i (length line) then
      if (match nth_error line i, nth_error line (S i) with
          | Some a, Some b => Ascii.eqb a ESC && Ascii.eqb b LBRACKET
          | _, _ => false
          end)
      then match find_from LETTER_M line i with
           | Some j => strip_loop f line (S j) acc
           | None => strip_loop f line 0 acc
           end
      else strip_loop f line (S i) (acc ++ match nth_error line i with Some a => [a] | None => [] end)
    else Some acc
  end.

Definition strip_line (fuel : nat) (line : string) : option string :=
  option_map string_of_list_ascii (strip_loop fuel (list_ascii_of_string line) 0 []).

(** [str.split("\n")]. *)
Fixpoint split_lines_aux (s : list ascii) (cur : list ascii) : list (list ascii) :=
  match s with
  | [] => [cur]
  | c :: t => if Ascii.eqb c NL then cur :: split_lines_aux t [] else split_lines_aux t (cur ++ [c])
  end.

Definition split_lines (s : string) : list string :=
  map string_of_list_ascii (split_lines_aux (list_ascii_of_string s) []).

(** [for line in self.last_screen.split("\n")]: strip every line. *)
Fixpoint strip_lines (fuel : nat) (ls : list string) : option (list string) :=
  match ls with
  | [] => Some []
  | l :: t =>
    match strip_line fuel l, strip_lines fuel t with
    | Some l', Some t' => Some (l' :: t')
    | _, _ => None
    end
  end.

(** The stripping branch of [Controller.get_scene]. *)
Definition get_scene_plain (fuel : nat) (last_screen : string) : option string :=
  option_map join_lines (strip_lines fuel (split_lines last_screen)).

(** The reference text without colour: the glyph of each cell, rows top
    row first, joined by line breaks (what the export should contain). *)
Definition plain_pixel (chars : string) (gray : Z) : result string :=
  ch <- py_getitem (list_ascii_of_string chars) (glyph_index gray (Z.of_nat (String.length chars))) ;;
  Ok (String ch "").

Fixpoint plain_row (chars : string) (row : list (Z * (Z * Z * Z))) : result string :=
  match row with
  | [] => Ok ""%string
  | (gray, _) :: t => c <- plain_pixel chars gray ;; rest <- plain_row chars t ;; Ok (c ++ rest)%string
  end.

Fixpoint plain_rows_rev (chars : string) (rows : list (list (Z * (Z * Z * Z)))) : result (list string) :=
  match rows with
  | [] => Ok []
  | r :: t => rest <- plain_rows_rev chars t ;; line <- plain_row chars r ;; Ok (rest ++ [line])
  end.

Definition render_plain (chars : string) (rows : list (list (Z * (Z * Z * Z)))) : result string :=
  ls <- plain_rows_rev chars rows ;; Ok (join_lines ls).

(** ** Exhaustive checkers *)

(** [check_upto k P] tests [P 0], ..., [P (k-1)]. *)
Fixpoint check_upto (k : nat) (p : Z -> bool) : bool :=
  match k with
  | O => true
  | S k' => p (Z.of_nat k') && check_upto k' p
  end.

Definition glyph_agrees (n g : Z) : bool := Z.eqb (glyph_index g n) (glyph_index_exact g n).
Definition glyph_in_range (n g : Z) : bool := (0 <=? glyph_index g n) && (glyph_index g n <? n).

(** ** The shape of a rendered line, used by the proofs *)

Definition escape_body (r g b : Z) : list ascii :=
  list_ascii_of_string ("38;2;" ++ dec r ++ ";" ++ dec g ++ ";" ++ dec b)%string.

Definition cell_tail (ch : ascii) (post : list ascii) : list ascii :=
  "m"%char :: ch :: ESC :: "["%char :: "0"%char :: "m"%char :: post.

Definition cell_list (X : list ascii) (ch : ascii) : list ascii := ESC :: "["%char :: X ++ cell_tail ch [].

Definition cells_text (cells : list (list ascii * ascii)) : list ascii :=
  concat (map (fun '(X, ch) => cell_list X ch) cells).

Definition digit_or_semi (c : ascii) : Prop :=
  In c ["0"; "1"; "2"; "3"; "4"; "5"; "6"; "7"; "8"; "9"; ";"]%char.

Definition line_cells (chars : string) (line pl : string) : Prop :=
  exists cells, list_ascii_of_string line = cells_text cells /\
    Forall (fun '(X, _) => forall c, In c X -> digit_or_semi c) cells /\
    (forall c, In c (map snd cells) -> In c (list_ascii_of_string chars)) /\
    pl = string_of_list_ascii (map snd cells).

(** ** Lemmas *)

Lemma check_upto_spec k p : check_upto k p = true -> forall z, 0 <= z < Z.of_nat k -> p z = true.
Proof.
  induction k as [|k IH]; simpl; intros H z Hz; [lia|].
  apply andb_true_iff in H as [Hk Ht].
  destruct (Z.eq_dec z (Z.of_nat k)) as [-> | Hne]; [exact Hk|].
  apply IH; [exact Ht | lia].
Qed.

(** Ranges [lo <= z <= hi] checked through [check_upto]. *)
Lemma check_range (lo hi : Z) (p : Z -> bool) :
  0 <= lo -> check_upto (Z.to_nat (hi + 1)) (fun z => (z <? lo) || p z) = true ->
  forall z, lo <= z <= hi -> p z = true.
Proof.
  intros Hlo H z Hz. pose proof (check_upto_spec _ _ H z) as Hz'.
  rewrite Z2Nat.id in Hz' by lia. specialize (Hz' ltac:(lia)).
  destruct (Z.ltb_spec z lo); [lia | exact Hz'].
Qed.

Lemma glyph_agrees_all n g : 1 <= n <= 51 -> 0 <= g <= 255 -> glyph_agrees n g = true.
Proof.
  intros Hn Hg.
  assert (H : check_upto 256 (glyph_agrees n) = true).
  { revert n Hn. apply (check_range 1 51 (fun n => check_upto 256 (glyph_agrees n))); [lia|].
    vm_compute. reflexivity. }
  apply (check_upto_spec _ _ H). simpl. lia.
Qed.

Lemma glyph_in_range_all n g : 1 <= n <= 128 -> 0 <= g <= 255 -> glyph_in_range n g = true.
Proof.
  intros Hn Hg.
  assert (H : check_upto 256 (glyph_in_range n) = true).
  { revert n Hn. apply (check_range 1 128 (fun n => check_upto 256 (glyph_in_range n))); [lia|].
    vm_compute. reflexivity. }
  apply (check_upto_spec _ _ H). simpl. lia.
Qed.

Lemma py_getitem_in_range {A} (l : list A) i :
  0 <= i < Z.of_nat (length l) -> exists x, py_getitem l i = Ok x.
Proof.
  intros Hi. unfold py_getitem.
  destruct (Z.ltb_spec i 0); [lia|].
  destruct (Z.leb_spec 0 i); [|lia]. destruct (Z.ltb_spec i (Z.of_nat (length l))); [|lia]. simpl.
  destruct (nth_error l (Z.to_nat i)) eqn:E; [eauto|].
  apply nth_error_None in E. lia.
Qed.

Lemma length_list_ascii_of_string s : length (list_ascii_of_string s) = String.length s.
Proof. induction s as [|c s IH]; simpl; [reflexivity | rewrite IH; reflexivity]. Qed.

Lemma py_getitem_nil {A} i : @py_getitem A [] i = Err IndexError.
Proof. unfold py_getitem. destruct (_ && _); [destruct (Z.to_nat _); reflexivity | reflexivity]. Qed.

Lemma find_from_app c pre s j :
  find_from c (pre ++ s) (length pre + j) = option_map (Nat.add (length pre)) (find_from c s j).
Proof.
  induction pre as [|x pre IH]; simpl.
  - destruct (find_from c s j); reflexivity.
  - rewrite IH. destruct (find_from c s j); reflexivity.
Qed.

Lemma find_from_first c l r :
  ~ In c l -> find_from c (l ++ c :: r) 0 = Some (length l).
Proof.
  induction l as [|x l IH]; simpl; intros H.
  - rewrite Ascii.eqb_refl. reflexivity.
  - destruct (Ascii.eqb_spec x c) as [-> | _]; [exfalso; apply H; left; reflexivity|].
    rewrite IH by tauto. reflexivity.
Qed.

Lemma nth_error_app_len {A} (pre s : list A) k : nth_error (pre ++ s) (length pre + k) = nth_error s k.
Proof. rewrite nth_error_app2 by lia. f_equal. lia. Qed.

Lemma list_ascii_of_string_app s1 s2 :
  list_ascii_of_string (s1 ++ s2) = list_ascii_of_string s1 ++ list_ascii_of_string s2.
Proof. induction s1 as [|c s1 IH]; simpl; [reflexivity | rewrite IH; reflexivity]. Qed.

Lemma strip_loop_S f line i acc :
  strip_loop (S f) line i acc =
  if Nat.ltb i (length line) then
    if (match nth_error line i, nth_error line (S i) with
        | Some a, Some b => Ascii.eqb a ESC && Ascii.eqb b LBRACKET
        | _, _ => false
        end)
    then match find_from LETTER_M line i with
         | Some j => strip_loop f line (S j) acc
         | None => strip_loop f line 0 acc
         end
    else strip_loop f line (S i) (acc ++ match nth_error line i with Some a => [a] | None => [] end)
  else Some acc.
Proof. reflexivity. Qed.

Lemma strip_cell f pre X ch post acc :
  ~ In "m"%char X ->
  let line := pre ++ ESC :: "["%char :: X ++ cell_tail ch post in
  strip_loop (3 + f) line (length pre) acc =
  strip_loop f line (length pre + (8 + length X)) (acc ++ [ch]).
Proof.
  intros HX line.
  set (P := pre ++ ESC :: "["%char :: X).
  assert (HL : line = P ++ cell_tail ch post) by (unfold line, P; rewrite <- app_assoc; reflexivity).
  assert (HP : length P = (length pre + (2 + length X))%nat) by (unfold P; rewrite length_app; simpl; lia).
  assert (Hlen : length line = (length P + 6 + length post)%nat)
    by (rewrite HL, length_app; simpl; lia).
  (* step 1: the colour escape *)
  change (3 + f)%nat with (S (S (S f))). rewrite strip_loop_S.
  replace (Nat.ltb (length pre) (length line)) with true by (symmetry; apply Nat.ltb_lt; lia).
  replace (nth_error line (length pre)) with (Some ESC)
    by (unfold line; rewrite <- (Nat.add_0_r (length pre)), nth_error_app_len; reflexivity).
  replace (nth_error line (S (length pre))) with (Some "["%char)
    by (unfold line; rewrite <- Nat.add_1_r, nth_error_app_len; reflexivity).
  replace (find_from LETTER_M line (length pre)) with (Some (length P)).
  2:{ unfold line. rewrite <- (Nat.add_0_r (length pre)), find_from_app.
      change (ESC :: "["%char :: X ++ cell_tail ch post) with ((ESC :: "["%char :: X) ++ "m"%char :: (ch :: ESC :: "["%char :: "0"%char :: "m"%char :: post)).
      rewrite find_from_first.
      - simpl. f_equal. rewrite HP. lia.
      - intros [H | [H | H]]; [discriminate | discriminate | exact (HX H)]. }
  cbv [Ascii.eqb ESC LBRACKET Ascii.ascii_of_nat Ascii.ascii_of_pos]. simpl andb. cbv iota.
  (* step 2: the glyph *)
  rewrite strip_loop_S.
  replace (Nat.ltb (S (length P)) (length line)) with true by (symmetry; apply Nat.ltb_lt; lia).
  rewrite HL.
  replace (nth_error (P ++ cell_tail ch post) (S (length P))) with (Some ch)
    by (rewrite <- Nat.add_1_r, nth_error_app_len; reflexivity).
  replace (nth_error (P ++ cell_tail ch post) (S (S (length P)))) with (Some ESC)
    by (replace (S (S (length P))) with (length P + 2)%nat by lia; rewrite nth_error_app_len; reflexivity).
  replace (Ascii.eqb ch ESC && Ascii.eqb ESC LBRACKET) with false by (rewrite andb_false_r; reflexivity).
  (* step 3: the reset escape *)
  rewrite strip_loop_S.
  replace (Nat.ltb (S (S (length P))) (length (P ++ cell_tail ch post))) with true
    by (symmetry; apply Nat.ltb_lt; rewrite <- HL; lia).
  replace (nth_error (P ++ cell_tail ch post) (S (S (length P)))) with (Some ESC)
    by (replace (S (S (length P))) with (length P + 2)%nat by lia; rewrite nth_error_app_len; reflexivity).
  replace (nth_error (P ++ cell_tail ch post) (S (S (S (length P))))) with (Some "["%char)
    by (replace (S (S (S (length P)))) with (length P + 3)%nat by lia; rewrite nth_error_app_len; reflexivity).
  replace (find_from LETTER_M (P ++ cell_tail ch post) (S (S (length P)))) with (Some (length P + 5)%nat)
    by (replace (S (S (length P))) with (length P + 2)%nat by lia; rewrite find_from_app; reflexivity).
  cbv [Ascii.eqb ESC LBRACKET Ascii.ascii_of_nat Ascii.ascii_of_pos]. simpl andb. cbv iota.
  f_equal. lia.
Qed.

Lemma cell_list_app X ch post : cell_list X ch ++ post = ESC :: "["%char :: X ++ cell_tail ch post.
Proof. unfold cell_list, cell_tail. simpl. rewrite <- app_assoc. reflexivity. Qed.

Lemma length_cell_list X ch : length (cell_list X ch) = (8 + length X)%nat.
Proof. unfold cell_list, cell_tail. simpl. rewrite length_app. simpl. lia. Qed.

Lemma strip_cells cells : Forall (fun '(X, _) => ~ In "m"%char X) cells ->
  forall pre post acc f,
  strip_loop (3 * length cells + f) (pre ++ cells_text cells ++ post) (length pre) acc =
  strip_loop f (pre ++ cells_text cells ++ post) (length pre + length (cells_text cells)) (acc ++ map snd cells).
Proof.
  induction 1 as [|[X ch] cs HX Hcs IH]; intros pre post acc f.
  - unfold cells_text. cbn [map concat length]. rewrite Nat.mul_0_r, Nat.add_0_l, Nat.add_0_r, !app_nil_r.
    reflexivity.
  - unfold cells_text in *. cbn [map concat length snd].
    rewrite <- app_assoc, cell_list_app.
    replace (3 * S (length cs) + f)%nat with (3 + (3 * length cs + f))%nat by lia.
    rewrite strip_cell by exact HX.
    replace (pre ++ ESC :: "["%char :: X ++ cell_tail ch (concat (map (fun '(X0, ch0) => cell_list X0 ch0) cs) ++ post))
      with ((pre ++ cell_list X ch) ++ concat (map (fun '(X0, ch0) => cell_list X0 ch0) cs) ++ post)
      by (rewrite <- app_assoc, cell_list_app; reflexivity).
    replace (length pre + (8 + length X))%nat with (length (pre ++ cell_list X ch))
      by (rewrite length_app, length_cell_list; reflexivity).
    rewrite IH. rewrite <- !app_assoc. f_equal. rewrite !length_app. lia.
Qed.

Lemma strip_loop_more f n line i acc r :
  strip_loop f line i acc = Some r -> strip_loop (f + n) line i acc = Some r.
Proof.
  revert i acc. induction f as [|f IH]; intros i acc H; [discriminate|].
  change (S f + n)%nat with (S (f + n)). rewrite strip_loop_S in H |- *.
  destruct (Nat.ltb i (length line)); [|exact H].
  destruct (match nth_error line i, nth_error line (S i) with
            | Some a, Some b => Ascii.eqb a ESC && Ascii.eqb b LBRACKET | _, _ => false end).
  - destruct (find_from LETTER_M line i); apply IH, H.
  - apply IH, H.
Qed.

(** [find] returns an index at or after the start holding the character. *)
Lemma find_from_some c l j k : find_from c l j = Some k -> (j <= k)%nat /\ nth_error l k = Some c.
Proof.
  revert j k. induction l as [|x t IH]; intros j k; simpl; [discriminate|]. destruct j as [|j'].
  - destruct (Ascii.eqb_spec x c) as [->|_]; [intros [= <-]; split; [lia | reflexivity]|].
    destruct (find_from c t 0) as [k'|] eqn:E; simpl; [intros [= <-] | discriminate].
    destruct (IH 0%nat k' E) as [_ H]. split; [lia | exact H].
  - destruct (find_from c t j') as [k'|] eqn:E; simpl; [intros [= <-] | discriminate].
    destruct (IH j' k' E) as [H1 H2]. split; [lia | exact H2].
Qed.

(** [find] returns [-1] only when no later index holds the character. *)
Lemma find_from_none c l j : find_from c l j = None -> forall k, (j <= k)%nat -> nth_error l k <> Some c.
Proof.
  revert j. induction l as [|x t IH]; intros j H k Hk; [destruct k; discriminate|].
  destruct j as [|j']; simpl in H.
  - destruct (Ascii.eqb_spec x c) as [_|Hx]; [discriminate|].
    destruct (find_from c t 0) eqn:E; [discriminate|].
    destruct k as [|k]; simpl; [congruence | apply (IH 0%nat E k); lia].
  - destruct (find_from c t j') eqn:E; [discriminate|].
    destruct k as [|k]; [lia|]. simpl. apply (IH j' E k). lia.
Qed.

(** The start of an escape at [p] with no ['m'] at or after it. *)
Definition unterminated_escape (line : list ascii) (p : nat) : Prop :=
  nth_error line p = Some ESC /\ nth_error line (S p) = Some LBRACKET /\ find_from LETTER_M line p = None.

(** From any index up to an unterminated escape the loop never ends: every
    jump to after an ['m'] lands at or before it, and the escape itself
    sends the index back to [0]. *)
Lemma strip_loop_reset_diverges line p :
  unterminated_escape line p -> forall f j acc, (j <= p)%nat -> strip_loop f line j acc = None.
Proof.
  intros (He & Hb & Hn). assert (Hp : (p < length line)%nat) by (apply nth_error_Some; congruence).
  induction f as [|f IH]; intros j acc Hj; [reflexivity|]. rewrite strip_loop_S.
  replace (Nat.ltb j (length line)) with true by (symmetry; apply Nat.ltb_lt; lia).
  destruct (match nth_error line j, nth_error line (S j) with
            | Some a, Some b => Ascii.eqb a ESC && Ascii.eqb b LBRACKET | _, _ => false end) eqn:Esc.
  - destruct (find_from LETTER_M line j) as [k|] eqn:Ef; [|apply IH; lia].
    destruct (find_from_some _ _ _ _ Ef) as [Hjk Hk]. apply IH.
    destruct (Nat.le_gt_cases p k) as [Hpk|Hkp]; [exfalso; exact (find_from_none _ _ _ Hn k Hpk Hk) | lia].
  - apply IH. destruct (Nat.eq_dec j p) as [->|]; [|lia].
    exfalso. rewrite He, Hb in Esc. vm_compute in Esc. discriminate.
Qed.

(** A run that ends from index [i] ends within one iteration per
    remaining character, plus one. *)
Lemma strip_loop_bound line f : forall i acc r,
  strip_loop f line i acc = Some r -> strip_loop (S (length line - i)) line i acc = Some r.
Proof.
  induction f as [|f IH]; intros i acc r H; [discriminate|].
  rewrite strip_loop_S in H |- *.
  destruct (Nat.ltb_spec i (length line)) as [Hi|Hi]; [|exact H].
  destruct (match nth_error line i, nth_error line (S i) with
            | Some a, Some b => Ascii.eqb a ESC && Ascii.eqb b LBRACKET | _, _ => false end) eqn:Esc.
  - destruct (find_from LETTER_M line i) as [k|] eqn:Ef.
    + destruct (find_from_some _ _ _ _ Ef) as [Hik Hk].
      assert (Hkl : (k < length line)%nat) by (apply nth_error_Some; congruence).
      replace (length line - i)%nat with (S (length line - S k) + (k - i))%nat by lia.
      apply strip_loop_more, IH, H.
    + exfalso.
      destruct (nth_error line i) as [a|] eqn:Ea, (nth_error line (S i)) as [b|] eqn:Eb; try discriminate.
      apply andb_prop in Esc as [E1 E2]. apply Ascii.eqb_eq in E1, E2. subst a b.
      rewrite (strip_loop_reset_diverges line i (conj Ea (conj Eb Ef)) f 0 acc ltac:(lia)) in H. discriminate.
  - replace (length line - i)%nat with (S (length line - S i)) by lia. exact (IH _ _ _ H).
Qed.

Lemma strip_line_cells cells :
  Forall (fun '(X, _) => ~ In "m"%char X) cells ->
  strip_loop (S (3 * length cells)) (cells_text cells) 0 [] = Some (map snd cells).
Proof.
  intros H. pose proof (strip_cells cells H [] [] [] 1) as E.
  rewrite app_nil_r in E. cbn [app length Nat.add] in E.
  replace (3 * length cells + 1)%nat with (S (3 * length cells)) in E by lia. rewrite E.
  rewrite strip_loop_S. rewrite (proj2 (Nat.ltb_ge _ _)) by lia. reflexivity.
Qed.

Lemma string_of_uint_digits d c : In c (list_ascii_of_string (NilEmpty.string_of_uint d)) -> digit_or_semi c.
Proof. unfold digit_or_semi. induction d; simpl; intuition subst; simpl; tauto. Qed.

Lemma escape_body_digits r g b c : In c (escape_body r g b) -> digit_or_semi c.
Proof.
  unfold escape_body, dec. rewrite !list_ascii_of_string_app. cbn [list_ascii_of_string].
  intros H. repeat (apply in_app_or in H as [H | H]);
    first [ exact (string_of_uint_digits _ _ H)
          | unfold digit_or_semi; simpl in H |- *; intuition subst; tauto ].
Qed.

Lemma cell_of_pixel r g b ch :
  list_ascii_of_string (color_escape r g b ++ String ch reset_escape)%string = cell_list (escape_body r g b) ch.
Proof.
  unfold color_escape, reset_escape, cell_list, cell_tail, escape_body.
  rewrite list_ascii_of_string_app. cbn [list_ascii_of_string].
  rewrite !list_ascii_of_string_app. cbn [list_ascii_of_string app].
  repeat (rewrite <- app_assoc || rewrite <- app_comm_cons). reflexivity.
Qed.

Lemma py_getitem_In {A} (l : list A) i x : py_getitem l i = Ok x -> In x l.
Proof.
  unfold py_getitem. destruct (_ && _); [|discriminate].
  destruct (nth_error l _) eqn:E; [intros [= <-]; eapply nth_error_In; exact E | discriminate].
Qed.

(** A rendered row is a sequence of cells; its plain text is their glyphs. *)

Lemma render_row_cells chars row line :
  render_row chars row = Ok line ->
  exists cells, list_ascii_of_string line = cells_text cells /\
    Forall (fun '(X, _) => forall c, In c X -> digit_or_semi c) cells /\
    (forall c, In c (map snd cells) -> In c (list_ascii_of_string chars)) /\
    plain_row chars row = Ok (string_of_list_ascii (map snd cells)).
Proof.
  revert line. induction row as [|[gray [[r g] b]] t IH]; intros line; cbn [render_row plain_row].
  - intros [= <-]. exists []. split; [reflexivity|]. split; [constructor|]. split; [intros c []|reflexivity].
  - unfold map_pixel_to_ascii, plain_pixel.
    destruct (py_getitem _ _) as [ch|e] eqn:Eg; [|discriminate]. cbn [bind].
    destruct (render_row chars t) as [rest|e] eqn:Er; [|discriminate]. cbn [bind].
    intros Heq. assert (Hline : line = ((color_escape r g b ++ String ch reset_escape) ++ rest)%string)
      by congruence. subst line. clear Heq.
    destruct (IH rest eq_refl) as (cells & Hl & Hd & Hin & Hp).
    exists ((escape_body r g b, ch) :: cells). split; [|split; [|split]].
    + rewrite list_ascii_of_string_app, cell_of_pixel, Hl. reflexivity.
    + constructor; [intros c; apply escape_body_digits | exact Hd].
    + intros c [<- | Hc]; [exact (py_getitem_In _ _ _ Eg) | exact (Hin c Hc)].
    + rewrite Hp. reflexivity.
Qed.

Lemma render_rows_cells chars rows lines :
  render_rows_rev chars rows = Ok lines ->
  exists plines, plain_rows_rev chars rows = Ok plines /\ Forall2 (line_cells chars) lines plines.
Proof.
  revert lines. induction rows as [|r t IH]; intros lines; cbn [render_rows_rev plain_rows_rev].
  - intros [= <-]. exists []. split; [reflexivity | constructor].
  - destruct (render_rows_rev chars t) as [rest|e]; [|discriminate]. cbn [bind].
    destruct (render_row chars r) as [line|e] eqn:Er; [|discriminate]. cbn [bind].
    intros [= <-]. destruct (IH rest eq_refl) as (prest & Hp & Hf).
    destruct (render_row_cells chars r line Er) as (cells & Hl & Hd & Hin & Hpl).
    rewrite Hp. cbn [bind]. rewrite Hpl. cbn [bind].
    eexists. split; [reflexivity|]. apply Forall2_app; [exact Hf|].
    constructor; [exists cells; auto | constructor].
Qed.

Lemma cells_text_no_nl chars cells :
  ~ In NL (list_ascii_of_string chars) ->
  Forall (fun '(X, _) => forall c, In c X -> digit_or_semi c) cells ->
  (forall c, In c (map snd cells) -> In c (list_ascii_of_string chars)) ->
  ~ In NL (cells_text cells).
Proof.
  intros Hchars Hd Hin. unfold cells_text. induction Hd as [|[X ch] cs HX Hcs IH]; cbn [map concat]; [tauto|].
  intros H. apply in_app_or in H as [H | H].
  - unfold cell_list, cell_tail in H. simpl in H.
    destruct H as [H | [H | H]]; [discriminate | discriminate |].
    apply in_app_or in H as [H | H].
    + apply HX in H. unfold digit_or_semi in H. simpl in H. intuition discriminate.
    + simpl in H. destruct H as [H | [H | H]]; [discriminate | | intuition discriminate].
      subst ch. apply Hchars, Hin. left. reflexivity.
  - apply IH; [intros c Hc; apply Hin; right; exact Hc | exact H].
Qed.

Lemma cells_text_length cells : (3 * length cells <= length (cells_text cells))%nat.
Proof.
  unfold cells_text. induction cells as [|[X ch] cs IH]; cbn [map concat length]; [lia|].
  rewrite length_app, length_cell_list. lia.
Qed.

Lemma split_aux_app L R cur : ~ In NL L -> split_lines_aux (L ++ R) cur = split_lines_aux R (cur ++ L).
Proof.
  revert cur. induction L as [|c L IH]; intros cur H; simpl; [rewrite app_nil_r; reflexivity|].
  destruct (Ascii.eqb_spec c NL) as [E | _]; [exfalso; apply H; left; exact E|].
  rewrite IH by (intros Hc; apply H; right; exact Hc). rewrite <- app_assoc. reflexivity.
Qed.

Lemma join_lines_cons l l2 t :
  join_lines (l :: l2 :: t) = (l ++ String NL "" ++ join_lines (l2 :: t))%string.
Proof. reflexivity. Qed.

Lemma split_join ls :
  ls <> [] -> Forall (fun l => ~ In NL (list_ascii_of_string l)) ls -> split_lines (join_lines ls) = ls.
Proof.
  intros Hne Hf. unfold split_lines.
  enough (E : split_lines_aux (list_ascii_of_string (join_lines ls)) [] = map list_ascii_of_string ls).
  { rewrite E, map_map. rewrite <- (map_id ls) at 2. apply map_ext. apply string_of_list_ascii_of_string. }
  induction Hf as [|l t Hl Ht IH]; [contradiction|].
  destruct t as [|l2 t].
  - unfold join_lines. simpl String.concat.
    rewrite <- (app_nil_r (list_ascii_of_string l)), split_aux_app by exact Hl. reflexivity.
  - rewrite join_lines_cons.
    rewrite !list_ascii_of_string_app. cbn [list_ascii_of_string app].
    rewrite split_aux_app by exact Hl. simpl.
    rewrite IH by discriminate. reflexivity.
Qed.

Lemma string_length_app s1 s2 : String.length (s1 ++ s2) = (String.length s1 + String.length s2)%nat.
Proof. induction s1 as [|c s1 IH]; simpl; [reflexivity | rewrite IH; reflexivity]. Qed.

Lemma in_join_length l ls : In l ls -> (String.length l <= String.length (join_lines ls))%nat.
Proof.
  unfold join_lines. induction ls as [|x [|y t] IH]; intros H; [destruct H | |].
  - destruct H as [<- | []]. simpl. lia.
  - fold (join_lines (x :: y :: t)) (join_lines (y :: t)) in *. rewrite join_lines_cons.
    rewrite !string_length_app. destruct H as [<- | H]; [lia|]. specialize (IH H). simpl. lia.
Qed.

Lemma strip_lines_of_cells chars fuel lines plines :
  ~ In NL (list_ascii_of_string chars) ->
  Forall2 (line_cells chars) lines plines ->
  (forall l, In l lines -> (String.length l < fuel)%nat) ->
  strip_lines fuel lines = Some plines /\ Forall (fun l => ~ In NL (list_ascii_of_string l)) lines.
Proof.
  intros Hnl. induction 1 as [|l pl ls pls Hc Hrest IH]; intros Hlen; [split; [reflexivity | constructor]|].
  destruct IH as [IH1 IH2]; [intros l' Hl'; apply Hlen; right; exact Hl'|].
  destruct Hc as (cells & Hl & Hd & Hin & ->).
  assert (Hs : strip_line fuel l = Some (string_of_list_ascii (map snd cells))).
  { unfold strip_line. rewrite Hl.
    pose proof (cells_text_length cells) as H3.
    assert (Hf : (String.length l < fuel)%nat) by (apply Hlen; left; reflexivity).
    rewrite <- length_list_ascii_of_string, Hl in Hf.
    replace fuel with (S (3 * length cells) + (fuel - S (3 * length cells)))%nat by lia.
    rewrite (strip_loop_more _ _ _ _ _ _ (strip_line_cells cells ltac:(
      eapply Forall_impl; [| exact Hd]; intros [X ch] HX Hm; apply HX in Hm;
      unfold digit_or_semi in Hm; simpl in Hm; intuition discriminate))).
    reflexivity. }
  split.
  - cbn [strip_lines]. rewrite Hs, IH1. reflexivity.
  - constructor; [|exact IH2]. rewrite Hl. apply (cells_text_no_nl chars); assumption.
Qed.

(** ** Properties of the glyph mapping *)

(** The spec's scenario: with the ramp [" .:#"] a grey value of 128
    maps to index [floor(128 / 255 * 3) = 1], the glyph ["."], wrapped in
    the colour escape of the cell and the reset escape. *)
Theorem glyph_scenario_128 r g b :
  map_pixel_to_ascii " .:#" 128 (r, g, b) = Ok (color_escape r g b ++ "." ++ reset_escape)%string.
Proof. reflexivity. Qed.

(** C12. For every grey value 0..255 and every ramp of 1 to 51 characters,
    the float computation of the code gives the spec's exact index
    [floor(gray * (len - 1) / 255)]. *)
Theorem glyph_index_matches_spec gray n :
  0 <= gray <= 255 -> 1 <= n <= 51 -> glyph_index gray n = glyph_index_exact gray n.
Proof. intros Hg Hn. apply Z.eqb_eq, glyph_agrees_all; assumption. Qed.

Lemma glyph_index_matches_spec_witness :
  (0 <= 128 <= 255 /\ 1 <= 4 <= 51) /\ glyph_index 128 4 = glyph_index_exact 128 4.
Proof. split; [lia|]. apply glyph_index_matches_spec; lia. Defined.

(** From 52 characters on, the float index can fall one below the
    spec's exact index: for a ramp of 52 characters a grey value of 155
    gives index 30, while [155 * 51 / 255 = 31] exactly. *)
Theorem glyph_index_off_by_one :
  glyph_index 155 52 = 30 /\ glyph_index_exact 155 52 = 31.
Proof. split; vm_compute; reflexivity. Qed.

(** [map_pixel_to_ascii] never raises on a grey byte with a ramp of 1
    to 128 characters: the index is within the ramp; with an empty ramp it
    always raises [IndexError]. *)
Theorem map_pixel_to_ascii_total chars gray rgb :
  (1 <= Z.of_nat (String.length chars) <= 128 -> 0 <= gray <= 255 ->
   exists s, map_pixel_to_ascii chars gray rgb = Ok s) /\
  map_pixel_to_ascii "" gray rgb = Err IndexError.
Proof.
  destruct rgb as [[r g] b]. split.
  - intros Hn Hg. pose proof (glyph_in_range_all _ _ Hn Hg) as H.
    unfold glyph_in_range in H. apply andb_true_iff in H as [H1 H2].
    apply Z.leb_le in H1. apply Z.ltb_lt in H2.
    destruct (py_getitem_in_range (list_ascii_of_string chars)
                (glyph_index gray (Z.of_nat (String.length chars)))) as [ch Hch].
    { rewrite length_list_ascii_of_string. lia. }
    unfold map_pixel_to_ascii. rewrite Hch. eexists. reflexivity.
  - unfold map_pixel_to_ascii. simpl list_ascii_of_string. rewrite py_getitem_nil. reflexivity.
Qed.

(** The stripped rendered screen is the plain glyph text of the frame. *)
Lemma render_strip_plain chars rows screen :
  ~ In NL (list_ascii_of_string chars) ->
  render_to_ascii chars rows = Ok screen ->
  exists plain, render_plain chars rows = Ok plain /\
    get_scene_plain (S (String.length screen)) screen = Some plain.
Proof.
  intros Hnl H. unfold render_to_ascii in H.
  destruct (render_rows_rev chars rows) as [lines|e] eqn:E; [|discriminate]. cbn [bind] in H.
  injection H as <-.
  destruct (render_rows_cells _ _ _ E) as (plines & Hp & Hf).
  exists (join_lines plines). split; [unfold render_plain; rewrite Hp; reflexivity|].
  unfold get_scene_plain.
  destruct (strip_lines_of_cells chars (S (String.length (join_lines lines))) lines plines Hnl Hf)
    as [Hs Hno].
  { intros l Hl. pose proof (in_join_length l lines Hl). lia. }
  destruct lines as [|l ls].
  - inversion Hf; subst. reflexivity.
  - rewrite split_join by (discriminate || exact Hno). rewrite Hs. reflexivity.
Qed.

(** C13. Stripping the colour escapes from a rendered screen, as
    [Controller.get_scene] does, gives back the plain glyph text of the
    frame (rows top first), for any ramp without a line break; the loop
    needs no more iterations than the screen has characters. *)
Theorem strip_render_roundtrip chars rows screen :
  ~ In NL (list_ascii_of_string chars) ->
  render_to_ascii chars rows = Ok screen ->
  exists plain, render_plain chars rows = Ok plain /\
    get_scene_plain (S (String.length screen)) screen = Some plain.
Proof. exact (render_strip_plain chars rows screen). Qed.

(** C14. The stripping loop of [Controller.get_scene] ends on a line
    exactly when it ends within one iteration per character plus one:
    whatever fuel gives a result, [S (length line)] gives the same.  And
    it never ends on a line holding an escape start with no later ['m']:
    [find] returns [-1], the index goes back to [0], and every jump from an
    earlier escape lands at or before that start, so the loop repeats
    itself forever. *)
Theorem strip_loop_termination line :
  (forall fuel r, strip_loop fuel line 0 [] = Some r -> strip_loop (S (length line)) line 0 [] = Some r) /\
  (forall p, unterminated_escape line p -> forall fuel, strip_loop fuel line 0 [] = None).
Proof.
  split.
  - intros fuel r H. pose proof (strip_loop_bound line fuel 0 [] r H) as H'.
    rewrite Nat.sub_0_r in H'. exact H'.
  - intros p Hp fuel. apply (strip_loop_reset_diverges line p Hp fuel 0 []). lia.
Qed.

Lemma strip_loop_termination_witness :
  unterminated_escape [ESC; LBRACKET] 0 /\ strip_loop 7 [ESC; LBRACKET] 0 [] = None.
Proof.
  assert (H : unterminated_escape [ESC; LBRACKET] 0) by (split; [reflexivity | split; reflexivity]).
  split; [exact H|]. exact (proj2 (strip_loop_termination [ESC; LBRACKET]) 0%nat H 7%nat).
Defined.

Lemma map_pixel_to_ascii_total_witness :
  (1 <= Z.of_nat (String.length " .:#") <= 128 /\ 0 <= 200 <= 255) /\
  exists s, map_pixel_to_ascii " .:#" 200 (10, 20, 30) = Ok s.
Proof.
  split; [simpl; lia|].
  apply (proj1 (map_pixel_to_ascii_total " .:#" 200 (10, 20, 30))); simpl; lia.
Defined.

Lemma strip_render_roundtrip_witness :
  let rows := [[(128, (1, 2, 3)); (0, (0, 0, 0))]; [(255, (255, 255, 255)); (64, (9, 9, 9))]] in
  let screen := match render_to_ascii " .:#" rows with Ok s => s | Err _ => ""%string end in
  ~ In NL (list_ascii_of_string " .:#") /\ render_to_ascii " .:#" rows = Ok screen /\
  exists plain, render_plain " .:#" rows = Ok plain /\
    get_scene_plain (S (String.length screen)) screen = Some plain.
Proof.
  intros rows screen.
  assert (H1 : ~ In NL (list_ascii_of_string " .:#")) by (simpl; intuition discriminate).
  assert (H2 : render_to_ascii " .:#" rows = Ok screen) by (vm_compute; reflexivity).
  split; [exact H1|]. split; [exact H2|]. apply strip_render_roundtrip; assumption.
Defined.

(** The downsampled width is computed in floats and truncated: for
    the usual window sizes (800x600 with 20 rows) it is the spec's
    [ascii_height * width / height * 3], but for a 200x72 window with 3 rows
    it is 24 columns where the exact value is 25. *)
Theorem scaled_width_float_truncation :
  scaled_size {| r_width := 800; r_height := 600; ascii_height := 20; ascii_chars := " .:#" |} = (80, 20) /\
  scaled_width_exact 20 800 600 = 80 /\
  scaled_size {| r_width := 200; r_height := 72; ascii_height := 3; ascii_chars := " .:#" |} = (24, 3) /\
  scaled_width_exact 3 200 72 = 25.
Proof. repeat split; vm_compute; reflexivity. Qed.
