(* ===== verification/Keyboard.v ===== *)
(** * Keyboard: [dal/Keyboard.py] and [ui/Keyboard.py]

    [keys_map] is a Python dict display whose keys are GLUT key codes
    (integers) and a few characters (strings).  A display evaluates its
    entries left to right; a key that is already present keeps its first
    position and takes the later value.  GLUT's special-key codes [F1..F12]
    are the integers 1..12 and its modifier masks [SHIFT], [CTRL], [ALT] are
    1, 2, 4, so the modifier entries of the display overwrite the entries of
    [F1]..[F7].

    [KeyboardHandler] turns a GLUT key event into the [(key, modifiers)]
    pair that [Controller.handle_keyboard] receives.  The key is given
    decoded ([None] for bytes that are not UTF-8, where the handler
    returns); [glutGetModifiers()] is the integer [mods]. *)

From S2P Require Import Prelude.

Local Open Scope Z_scope.
Local Open Scope string_scope.

(** A key of [keys_map]: an [int] or a [str]; the two never compare equal. *)
Inductive pykey : Type := KInt (n : Z) | KStr (s : string).

Definition pykey_eqb (a b : pykey) : bool :=
  match a, b with
  | KInt m, KInt n => Z.eqb m n
  | KStr s, KStr t => String.eqb s t
  | _, _ => false
  end.

(** GLUT's constants as [freeglut_std.h] defines them. *)
Definition GLUT_KEY_F1 : Z := 1.
Definition GLUT_KEY_F2 : Z := 2.
Definition GLUT_KEY_F3 : Z := 3.
Definition GLUT_KEY_F4 : Z := 4.
Definition GLUT_KEY_F5 : Z := 5.
Definition GLUT_KEY_F6 : Z := 6.
Definition GLUT_KEY_F7 : Z := 7.
Definition GLUT_KEY_F8 : Z := 8.
Definition GLUT_KEY_F9 : Z := 9.
Definition GLUT_KEY_F10 : Z := 10.
Definition GLUT_KEY_F11 : Z := 11.
Definition GLUT_KEY_F12 : Z := 12.
Definition GLUT_KEY_LEFT : Z := 100.
Definition GLUT_KEY_UP : Z := 101.
Definition GLUT_KEY_RIGHT : Z := 102.
Definition GLUT_KEY_DOWN : Z := 103.
Definition GLUT_KEY_PAGE_UP : Z := 104.
Definition GLUT_KEY_PAGE_DOWN : Z := 105.
Definition GLUT_KEY_HOME : Z := 106.
Definition GLUT_KEY_END : Z := 107.
Definition GLUT_KEY_INSERT : Z := 108.
Definition GLUT_ACTIVE_SHIFT : Z := 1.
Definition GLUT_ACTIVE_CTRL : Z := 2.
Definition GLUT_ACTIVE_ALT : Z := 4.

(** The modifier masks of [dal/Keyboard.py]. *)
Definition SHIFT : Z := GLUT_ACTIVE_SHIFT.
Definition CTRL : Z := GLUT_ACTIVE_CTRL.
Definition ALT : Z := GLUT_ACTIVE_ALT.
Definition SHIFT_CTRL : Z := Z.lor SHIFT CTRL.
Definition SHIFT_ALT : Z := Z.lor SHIFT ALT.
Definition CTRL_ALT : Z := Z.lor CTRL ALT.
Definition SHIFT_CTRL_ALT : Z := Z.lor (Z.lor SHIFT CTRL) ALT.

(** The one-character strings of the display. *)
Definition ESC_STR : string := String (Ascii.ascii_of_nat 27) EmptyString.
Definition ETX_STR : string := String (Ascii.ascii_of_nat 3) EmptyString.
Definition SPACE_STR : string := " ".

(** The entries of the display [keys_map], in source order. *)
Definition keys_map_entries : list (pykey * string) :=
  [(KInt 27, "esc"); (KInt 32, "enter"); (KStr ESC_STR, "esc"); (KStr ETX_STR, "ctrl+c");
   (KStr SPACE_STR, "enter");
   (KInt GLUT_KEY_F1, "f1"); (KInt GLUT_KEY_F2, "f2"); (KInt GLUT_KEY_F3, "f3");
   (KInt GLUT_KEY_F4, "f4"); (KInt GLUT_KEY_F5, "f5"); (KInt GLUT_KEY_F6, "f6");
   (KInt GLUT_KEY_F7, "f7"); (KInt GLUT_KEY_F8, "f8"); (KInt GLUT_KEY_F9, "f9");
   (KInt GLUT_KEY_F10, "f10"); (KInt GLUT_KEY_F11, "f11"); (KInt GLUT_KEY_F12, "f12");
   (KInt GLUT_KEY_LEFT, "left"); (KInt GLUT_KEY_UP, "up"); (KInt GLUT_KEY_RIGHT, "right");
   (KInt GLUT_KEY_DOWN, "down"); (KInt GLUT_KEY_PAGE_UP, "page up");
   (KInt GLUT_KEY_PAGE_DOWN, "page down"); (KInt GLUT_KEY_HOME, "home");
   (KInt GLUT_KEY_END, "end"); (KInt GLUT_KEY_INSERT, "insert");
   (KInt SHIFT, "shift"); (KInt CTRL, "ctrl"); (KInt ALT, "alt"); (KInt SHIFT_ALT, "shift_alt");
   (KInt SHIFT_CTRL, "shift_ctr"); (KInt CTRL_ALT, "ctrl_alt");
   (KInt SHIFT_CTRL_ALT, "shift_ctr_alt");
   (KInt 112, "shift"); (KInt 114, "ctrl"); (KInt 116, "alt")].

(** [keys_map]. *)
Definition keys_map : list (pykey * string) := dict_display pykey_eqb keys_map_entries.

Definition keys_map_get (k : pykey) : option string := dict_lookup pykey_eqb k keys_map.

(** Python truth of a string. *)
Definition str_truthy (s : string) : bool := negb (String.eqb s "").

(** The [modifiers] value handed to the controller: the integer of
    [glutGetModifiers()], or what [keys_map.get] returned. *)
Inductive pymod : Type := ModInt (m : Z) | ModStr (s : string) | ModNone.

Definition mod_truthy (m : pymod) : bool :=
  match m with
  | ModInt z => negb (Z.eqb z 0)
  | ModStr s => str_truthy s
  | ModNone => false
  end.

(** [KeyboardHandler.keyboard]: [key.lower()] is evaluated and its result
    dropped; the key is replaced by its [keys_map] name if it has one; a
    non-zero modifier mask is replaced by [keys_map.get(key)]. *)
Definition keyboard (mods : Z) (key : option string) : option (string * pymod) :=
  match key with
  | None => None
  | Some k0 =>
    let k := match keys_map_get (KStr k0) with
             | Some nk => if str_truthy nk then nk else k0
             | None => k0
             end in
    let m := if Z.eqb mods 0 then ModInt mods
             else match keys_map_get (KStr k) with Some s => ModStr s | None => ModNone end in
    Some (k, m)
  end.

(** [KeyboardHandler.special_keyboard]. *)
Definition special_keyboard (mods : Z) (key : Z) : option (string * pymod) :=
  match keys_map_get (KInt key) with
  | Some s => if str_truthy s then keyboard mods (Some s) else None
  | None => None
  end.

(** [KeyboardHandler.keyboard_up]: the decoded key, not mapped. *)
Definition keyboard_up (key : option string) : option string := key.

(** [KeyboardHandler.special_keyboard_up]. *)
Definition special_keyboard_up (key : Z) : option string :=
  match keys_map_get (KInt key) with
  | Some s => if str_truthy s then keyboard_up (Some s) else None
  | None => None
  end.

(** ** Lemmas *)

(** The string keys of [keys_map] are the three characters of the display. *)
Lemma keys_map_get_str s :
  keys_map_get (KStr s) =
  if String.eqb s ESC_STR then Some "esc" else if String.eqb s ETX_STR then Some "ctrl+c"
  else if String.eqb s SPACE_STR then Some "enter" else None.
Proof. reflexivity. Qed.

(** The key that [keyboard] settles on is never a string key of [keys_map]:
    a mapped character becomes a name, and an unmapped one stays unmapped. *)
Lemma keyboard_key_unmapped k0 :
  keys_map_get (KStr (match keys_map_get (KStr k0) with
                      | Some nk => if str_truthy nk then nk else k0
                      | None => k0
                      end)) = None.
Proof.
  rewrite !keys_map_get_str.
  destruct (String.eqb k0 ESC_STR) eqn:E1; [reflexivity|].
  destruct (String.eqb k0 ETX_STR) eqn:E2; [reflexivity|].
  destruct (String.eqb k0 SPACE_STR) eqn:E3; [reflexivity|].
  rewrite E1, E2, E3. reflexivity.
Qed.

(** ** Properties of the keyboard handler *)

(** C15. The modifier keys never reach the controller: [keyboard] replaces a
    non-zero modifier mask by [keys_map.get(key)] (the key, not the mask),
    which is [None] for every key it can hold at that point; so the
    controller receives [0] or [None], both false, and its shortcut table
    is never consulted. *)
Theorem keyboard_modifiers_lost mods key k m :
  keyboard mods key = Some (k, m) -> m = (if Z.eqb mods 0 then ModInt 0 else ModNone).
Proof.
  intros H. destruct key as [k0|]; [|discriminate]. unfold keyboard in H. cbv zeta in H.
  rewrite keyboard_key_unmapped in H. injection H as _ <-.
  destruct (Z.eqb_spec mods 0) as [->|]; reflexivity.
Qed.

Lemma keyboard_modifiers_lost_witness :
  keyboard CTRL (Some "a") = Some ("a", ModNone) /\
  ModNone = (if Z.eqb CTRL 0 then ModInt 0 else ModNone).
Proof.
  split; [reflexivity|]. apply (keyboard_modifiers_lost CTRL (Some "a") "a"). reflexivity.
Defined.

(** In the display [keys_map] the modifier masks 1..7 come after the
    function keys [F1..F7], whose GLUT codes are the same integers, and
    overwrite them: pressing [F1] reaches the controller as ["shift"],
    [F2] as ["ctrl"], ..., [F7] as ["shift_ctr_alt"]; [F8] keeps its name. *)
Theorem special_keys_shadowed_by_modifiers :
  map (fun k => option_map fst (special_keyboard 0 k))
      [GLUT_KEY_F1; GLUT_KEY_F2; GLUT_KEY_F3; GLUT_KEY_F4; GLUT_KEY_F5; GLUT_KEY_F6;
       GLUT_KEY_F7; GLUT_KEY_F8] =
  [Some "shift"; Some "ctrl"; Some "shift_ctr"; Some "alt"; Some "shift_alt"; Some "ctrl_alt";
   Some "shift_ctr_alt"; Some "f8"] /\
  length keys_map = 29%nat.
Proof. split; vm_compute; reflexivity. Qed.
