(* ===== verification/Draw.v ===== *)
(** * Draw: the draw strategies of [bll/FigureWrapper.py] and [Scene.draw]

    A draw strategy issues immediate-mode OpenGL commands; here it maps a
    drawing state (the figure object and the command trace) to an outcome,
    because [draw_faces] can raise on a string colour and
    [draw_faces_custom] rebinds a face's colour and then raises when
    [figure_color] is false (it reads the local [face_color] that only the
    other branch assigns).  Edges and faces refer to vertex objects of the
    figure's own list, so [glVertex3fv(vertex.position)] reads the vertex
    at that index; an index out of range has no counterpart in the code and
    cannot occur for the figures the program builds
    ([Figure.reachable_fig_wf]).

    [Scene.draw] applies the camera's look-at and draws every figure of the
    scene in order with [draw_custom] and the scene's style; the style
    fields are never [None] ([SceneData.__init__] sets them and nothing
    clears them), so the code's fall-back values are not reachable. *)

From S2P Require Import Prelude Vec3 Figure Camera Scene.

(** The figure being drawn and the commands issued so far. *)
Definition draw_state : Type := FigureData * list gl_cmd.

Definition issue (cmds : list gl_cmd) (st : draw_state) : draw_state := (fst st, snd st ++ cmds).

Definition vertex_cmd (p : vec3) : gl_cmd := Vertex3 (vx p) (vy p) (vz p).

(** [glVertex3fv(vertex.position)] for the vertex object [i] of the figure. *)
Definition gl_vertex (i : nat) (st : draw_state) : outcome draw_state :=
  match nth_error (vertices (fst st)) i with
  | Some v => Done (issue [vertex_cmd (position v)] st)
  | None => Raised st IndexError
  end.

(** The border loop of a face: [face.vertices[i]] and
    [face.vertices[(i + 1) % len(face.vertices)]] for every [i]. *)
Definition face_loop (l : list nat) : list nat :=
  flat_map (fun i => [nth i l 0%nat; nth ((i + 1) mod length l) l 0%nat]) (seq 0 (length l)).

(** [FigureWrapper.draw_points_custom]. *)
Definition draw_points_custom (point_size : R) (st : draw_state) : outcome draw_state :=
  let d := fst st in
  Done (issue ([PointSize (if selected d then point_size else 1); BeginPrim GL_POINTS] ++
               flat_map (fun v => [Color3 (if figure_color d then color d else vcolor v);
                                   vertex_cmd (position v)]) (vertices d) ++
               [EndPrim]) st).

(** [FigureWrapper.draw_edges_custom]. *)
Definition draw_edges_custom (line_width highlight_line_width : R) (st : draw_state) : outcome draw_state :=
  let d := fst st in
  let st := issue [LineWidth (if selected d then highlight_line_width else line_width);
                   BeginPrim GL_LINES] st in
  st <~ ofold (fun e st =>
                 ofold gl_vertex [fst (edge_vertices e); snd (edge_vertices e)]
                       (issue [Color3 (if figure_color d then color d else ecolor e)] st))
              (edges d) st ;;
  Done (issue [EndPrim] st).

(** [( *c, alpha)]: the colour tuple extended by the alpha.  Face colours
    are tuples ([Face]'s default, or this extension); a string never
    occurs. *)
Definition with_alpha (c : pycolor) (alpha : R) : pycolor :=
  match c with
  | PyTuple l | PyList l => PyTuple (l ++ [alpha])
  | PyStr s => PyStr s
  end.

(** [face.color = ...] on the face object [k]. *)
Definition set_face_color (d : FigureData) (k : nat) (c : pycolor) : FigureData :=
  {| vertices := vertices d;
     edges := edges d;
     faces := match nth_error (faces d) k with
              | Some f => list_set (faces d) k {| face_vertices := face_vertices f; fcolor := c |}
              | None => faces d
              end;
     color := color d; angle := angle d; draw_mode := draw_mode d; selected := selected d;
     figure_color := figure_color d |}.

(** One iteration of the face loop of [draw_faces_custom], with the local
    [face_color] ([None] while unbound). *)
Definition face_body (alpha : R) (k : nat) (st : draw_state * option (pycolor * R)) :
  outcome (draw_state * option (pycolor * R)) :=
  let '((d, t), fc) := st in
  match nth_error (faces d) k with
  | None => Done st
  | Some f =>
    let '(d, fc) := if figure_color d then (d, Some (color d, alpha))
                    else (set_face_color d k (with_alpha (fcolor f) alpha), fc) in
    match fc with
    | None => Raised ((d, t), fc) (UnboundLocalError "face_color")
    | Some (c, a) => omap (fun st' => (st', fc)) (ofold gl_vertex (face_vertices f) (d, t ++ [Color4 c a]))
    end
  end.

(** The border loops of all faces. *)
Definition draw_face_loops (st : draw_state) : outcome draw_state :=
  ofold (fun f st => ofold gl_vertex (face_loop (face_vertices f)) st) (faces (fst st)) st.

(** [FigureWrapper.draw_faces_custom]. *)
Definition draw_faces_custom (alpha : R) (highlight_color : pycolor) (highlight_line_width : R)
  (st : draw_state) : outcome draw_state :=
  let st := issue [BeginPrim GL_QUADS] st in
  st <~ omap fst (ofold (face_body alpha) (seq 0 (length (faces (fst st)))) (st, None)) ;;
  let st := issue [EndPrim] st in
  if selected (fst st) then
    st <~ draw_face_loops (issue [Color3 highlight_color; LineWidth highlight_line_width;
                                  BeginPrim GL_LINES] st) ;;
    Done (issue [EndPrim] st)
  else Done st.

(** [FigureWrapper.draw_custom]. *)
Definition draw_custom (point_size line_width alpha : R) (highlight_color : pycolor)
  (highlight_line_width : R) (st : draw_state) : outcome draw_state :=
  let st := issue [PushMatrix] st in
  st <~ match draw_mode (fst st) with
        | Points => draw_points_custom point_size st
        | Edges => draw_edges_custom line_width highlight_line_width st
        | Faces => draw_faces_custom alpha highlight_color highlight_line_width st
        end ;;
  Done (issue [PopMatrix] st).

(** [FigureWrapper.draw_points] and [draw_edges]: the custom versions with
    the sizes [5]/[1] and [2]/[1]. *)
Definition draw_points : draw_state -> outcome draw_state := draw_points_custom 5.

Definition draw_edges : draw_state -> outcome draw_state := draw_edges_custom 1 2.

(** Python's [sum] of a colour: a string raises. *)
Definition py_sum (c : pycolor) : result R :=
  match c with
  | PyTuple l | PyList l => Ok (fold_left Rplus l 0)
  | PyStr _ => Err (TypeError "unsupported operand type(s) for +: 'int' and 'str'")
  end.

(** [FigureWrapper.draw_faces]: translucent faces ([list(color) + [0.2]]),
    then, for a selected figure, the border in a colour that contrasts
    with the figure's. *)
Definition draw_faces (st : draw_state) : outcome draw_state :=
  let d := fst st in
  let st := issue [BeginPrim GL_QUADS] st in
  st <~ ofold (fun f st => ofold gl_vertex (face_vertices f)
                             (issue [Color4 (if figure_color d then color d else fcolor f) 0.2] st))
              (faces d) st ;;
  let st := issue [EndPrim] st in
  if selected d then
    match py_sum (color d) with
    | Err e => Raised st e
    | Ok total =>
      let border_color := if Rle_dec total 1.5 then rgb 1 1 1 else rgb 0 0 0 in
      st <~ draw_face_loops (issue [Color3 border_color; LineWidth 2; BeginPrim GL_LINES] st) ;;
      Done (issue [EndPrim] st)
    end
  else Done st.

(** [FigureWrapper.draw]. *)
Definition draw (st : draw_state) : outcome draw_state :=
  let st := issue [PushMatrix] st in
  st <~ match draw_mode (fst st) with
        | Points => draw_points st
        | Edges => draw_edges st
        | Faces => draw_faces st
        end ;;
  Done (issue [PopMatrix] st).

(** [Camera.apply_transformations]: [gluLookAt] with the nine scalars. *)
Definition apply_transformations (c : CameraData) (t : list gl_cmd) : outcome (list gl_cmd) :=
  match look_at_args c with
  | Ok args => Done (t ++ [LookAt args])
  | Err e => Raised t e
  end.

(** [figure.draw_custom(...)] on the object [i] of the store. *)
Definition draw_figure_obj (i : nat) (st : SceneData * list gl_cmd) : outcome (SceneData * list gl_cmd) :=
  let '(s, t) := st in
  match nth_error (store s) i with
  | None => Done st
  | Some d =>
    omap (fun r => (with_store s (list_set (store s) i (fst r)) (selected_figure s), snd r))
         (draw_custom (point_size s) (line_width s) (alpha s) (highlight_color s)
                      (highlight_line_width s) (d, t))
  end.

(** [Scene.draw]. *)
Definition scene_draw (s : SceneData) (t : list gl_cmd) : outcome (SceneData * list gl_cmd) :=
  match apply_transformations (camera s) t with
  | Raised t e => Raised (s, t) e
  | Done t => ofold draw_figure_obj (scene_figures s) (s, t)
  end.

(** ** Reference traces *)

(** The commands that draw the vertices [l] of [d]. *)
Definition vertex_cmds (d : FigureData) (l : list nat) : list gl_cmd :=
  map (fun i => vertex_cmd (nth i (positions d) vzero)) l.

(** Every face refers to vertices of the figure. *)
Definition faces_in_range (d : FigureData) : bool :=
  forallb (fun f => forallb (fun i => Nat.ltb i (length (vertices d))) (face_vertices f)) (faces d).

(** The translucent faces in colour [c] with alpha [a]. *)
Definition quad_cmds (d : FigureData) (c : pycolor) (a : R) : list gl_cmd :=
  flat_map (fun f => Color4 c a :: vertex_cmds d (face_vertices f)) (faces d).

(** The border loops of the faces. *)
Definition loop_cmds (d : FigureData) : list gl_cmd :=
  flat_map (fun f => vertex_cmds d (face_loop (face_vertices f))) (faces d).

(** ** Lemmas *)

(** A loop whose body only appends commands, figure unchanged. *)
Lemma ofold_emit {A : Type} (body : A -> draw_state -> outcome draw_state) (cmds : A -> list gl_cmd)
  (xs : list A) d t :
  (forall x t, In x xs -> body x (d, t) = Done (d, t ++ cmds x)) ->
  ofold body xs (d, t) = Done (d, t ++ flat_map cmds xs).
Proof.
  revert t. induction xs as [|x xs IH]; intros t H; simpl.
  - rewrite app_nil_r. reflexivity.
  - rewrite (H x t (or_introl eq_refl)). simpl. rewrite IH, app_assoc; [reflexivity|].
    intros y t' Hy. apply H. right. exact Hy.
Qed.

Lemma nth_positions d i v : nth_error (vertices d) i = Some v -> nth i (positions d) vzero = position v.
Proof.
  intros H. unfold positions. apply nth_error_nth. rewrite nth_error_map, H. reflexivity.
Qed.

Lemma gl_vertex_in_range d t i :
  (i < length (vertices d))%nat -> gl_vertex i (d, t) = Done (d, t ++ [vertex_cmd (nth i (positions d) vzero)]).
Proof.
  intros Hi. unfold gl_vertex. simpl.
  destruct (nth_error (vertices d) i) as [v|] eqn:E; [|apply nth_error_None in E; lia].
  rewrite (nth_positions d i v E). reflexivity.
Qed.

Lemma flat_map_single {A B : Type} (f : A -> B) (l : list A) : flat_map (fun x => [f x]) l = map f l.
Proof. induction l as [|x l IH]; simpl; [reflexivity | rewrite IH; reflexivity]. Qed.

Lemma ofold_gl_vertex d t l :
  (forall i, In i l -> (i < length (vertices d))%nat) ->
  ofold gl_vertex l (d, t) = Done (d, t ++ vertex_cmds d l).
Proof.
  intros H. unfold vertex_cmds. rewrite <- flat_map_single.
  apply ofold_emit. intros i t' Hi. apply gl_vertex_in_range, H, Hi.
Qed.

(** The border loop of a face visits only vertices of the face. *)
Lemma face_loop_In l i : In i (face_loop l) -> In i l.
Proof.
  unfold face_loop. rewrite in_flat_map. intros (k & Hk & Hi). apply in_seq in Hk.
  destruct Hi as [<- | [<- | []]]; apply nth_In; [lia|].
  apply Nat.mod_upper_bound. lia.
Qed.

Lemma faces_in_range_spec d :
  faces_in_range d = true ->
  forall f, In f (faces d) -> forall i, In i (face_vertices f) -> (i < length (vertices d))%nat.
Proof.
  unfold faces_in_range. rewrite forallb_forall. intros H f Hf i Hi.
  specialize (H f Hf). rewrite forallb_forall in H. apply Nat.ltb_lt, H, Hi.
Qed.

Lemma draw_face_loops_spec d t :
  faces_in_range d = true -> draw_face_loops (d, t) = Done (d, t ++ loop_cmds d).
Proof.
  intros H. unfold draw_face_loops, loop_cmds. simpl. apply ofold_emit.
  intros f t' Hf. apply ofold_gl_vertex. intros i Hi.
  exact (faces_in_range_spec d H f Hf i (face_loop_In _ _ Hi)).
Qed.

Lemma skipn_nth_error {A : Type} (l : list A) k x :
  nth_error l k = Some x -> skipn k l = x :: skipn (S k) l.
Proof.
  revert l. induction k as [|k IH]; intros [|y l] H; simpl in *; try discriminate.
  - injection H as ->. reflexivity.
  - apply IH, H.
Qed.

(** The face loop of [draw_faces_custom] with the figure colour on: each
    face is drawn in the figure colour with the alpha, nothing raises and
    the figure is unchanged. *)
Lemma face_body_loop alpha d t fc k m :
  figure_color d = true -> faces_in_range d = true -> (k + m <= length (faces d))%nat ->
  exists fc', ofold (face_body alpha) (seq k m) ((d, t), fc) =
    Done ((d, t ++ flat_map (fun f => Color4 (color d) alpha :: vertex_cmds d (face_vertices f))
                           (firstn m (skipn k (faces d)))), fc').
Proof.
  intros Hc Hr. revert k t fc. induction m as [|m IH]; intros k t fc Hkm; simpl.
  - exists fc. rewrite app_nil_r. reflexivity.
  - destruct (nth_error (faces d) k) as [f|] eqn:E; [|apply nth_error_None in E; lia].
    rewrite Hc. rewrite (skipn_nth_error _ _ _ E). simpl.
    assert (Hf : In f (faces d)) by (eapply nth_error_In; exact E).
    rewrite (ofold_gl_vertex d _ _ (faces_in_range_spec d Hr f Hf)). simpl.
    destruct (IH (S k) ((t ++ [Color4 (color d) alpha]) ++ vertex_cmds d (face_vertices f))
                 (Some (color d, alpha))) as [fc' H']; [lia|].
    exists fc'. etransitivity; [exact H'|]. rewrite <- !app_assoc. reflexivity.
Qed.

Lemma firstn_skipn_all {A : Type} (l : list A) : firstn (length l) (skipn 0 l) = l.
Proof. apply firstn_all. Qed.

Lemma draw_faces_custom_quads alpha d t :
  figure_color d = true -> faces_in_range d = true ->
  omap fst (ofold (face_body alpha) (seq 0 (length (faces d))) ((d, t), None)) =
  Done (d, t ++ quad_cmds d (color d) alpha).
Proof.
  intros Hc Hr. destruct (face_body_loop alpha d t None 0 (length (faces d)) Hc Hr) as [fc' H]; [lia|].
  rewrite H, firstn_skipn_all. reflexivity.
Qed.

(** Drawing that returns leaves the figure as it was: only the branch
    that rebinds a face colour changes it, and that branch raises. *)
Lemma gl_vertex_keep i st st' : gl_vertex i st = Done st' -> fst st' = fst st.
Proof.
  unfold gl_vertex. destruct (nth_error _ i); intros H; [injection H as <-; reflexivity | discriminate].
Qed.

Lemma ofold_gl_vertex_keep l st st' : ofold gl_vertex l st = Done st' -> fst st' = fst st.
Proof.
  apply (ofold_inv (fun st1 => fst st1 = fst st)); [reflexivity|].
  intros i s1 s2 H1 H2. rewrite (gl_vertex_keep _ _ _ H2). exact H1.
Qed.

Lemma face_body_keep alpha d k st st' :
  fst (fst st) = d /\ (figure_color d = true \/ snd st = None) ->
  face_body alpha k st = Done st' ->
  fst (fst st') = d /\ (figure_color d = true \/ snd st' = None).
Proof.
  destruct st as [[d0 t] fc]. simpl. intros [-> Hfc]. unfold face_body.
  destruct (nth_error (faces d) k) as [f|]; [|intros H; injection H as <-; simpl; auto].
  destruct (figure_color d) eqn:Ec.
  - destruct (ofold gl_vertex (face_vertices f) (d, t ++ [Color4 (color d) alpha])) as [st1|st1 e] eqn:E;
      simpl; intros H; [|discriminate]. injection H as <-. simpl.
    split; [apply (ofold_gl_vertex_keep _ _ _ E) | left; reflexivity].
  - destruct Hfc as [Hfc | ->]; [discriminate | intros H; discriminate].
Qed.

Lemma draw_faces_custom_keep alpha hc hlw st st' :
  draw_faces_custom alpha hc hlw st = Done st' -> fst st' = fst st.
Proof.
  unfold draw_faces_custom. intros H. apply obind_done in H as (st1 & H1 & H).
  destruct (ofold (face_body alpha) _ _) as [r|r e] eqn:E; simpl in H1; [|discriminate].
  injection H1 as <-.
  destruct (ofold_inv (fun r => fst (fst r) = fst st /\ (figure_color (fst st) = true \/ snd r = None))
              (face_body alpha) _ (issue [BeginPrim GL_QUADS] st, None) r (conj eq_refl (or_intror eq_refl))
              (fun k => face_body_keep alpha (fst st) k) E)
    as [Hr _].
  destruct (selected _).
  - apply obind_done in H as (st2 & H2 & H). injection H as <-. unfold draw_face_loops in H2.
    apply (ofold_inv (fun s => fst s = fst st)) in H2; [exact H2 | exact Hr |].
    intros f s1 s2 Hs1 Hs2. rewrite (ofold_gl_vertex_keep _ _ _ Hs2). exact Hs1.
  - injection H as <-. exact Hr.
Qed.

Lemma draw_custom_keep ps lw alpha hc hlw st st' :
  draw_custom ps lw alpha hc hlw st = Done st' -> fst st' = fst st.
Proof.
  unfold draw_custom. intros H. apply obind_done in H as (st1 & H1 & H). injection H as <-.
  change (fst (issue [PushMatrix] st)) with (fst st) in H1. simpl. destruct (draw_mode (fst st)).
  - unfold draw_points_custom in H1. cbv zeta in H1. injection H1 as <-. reflexivity.
  - unfold draw_edges_custom in H1. apply obind_done in H1 as (st2 & H2 & H1). injection H1 as <-.
    apply (ofold_inv (fun s => fst s = fst st)) in H2; [exact H2 | reflexivity |].
    intros e s1 s2 Hs1 Hs2. rewrite (ofold_gl_vertex_keep _ _ _ Hs2). exact Hs1.
  - exact (draw_faces_custom_keep _ _ _ _ _ H1).
Qed.

Lemma list_set_nth_error_same {A : Type} (l : list A) i x : nth_error l i = Some x -> list_set l i x = l.
Proof.
  revert i. induction l as [|y l IH]; intros [|i] H; simpl in *; try discriminate.
  - injection H as ->. reflexivity.
  - rewrite (IH i H). reflexivity.
Qed.

Lemma with_store_same s : with_store s (store s) (selected_figure s) = s.
Proof. destruct s. reflexivity. Qed.

Lemma scene_draw_keep s t s' t' : scene_draw s t = Done (s', t') -> s' = s.
Proof.
  unfold scene_draw. destruct (apply_transformations (camera s) t) as [t1|t1 e]; [|discriminate].
  intros H. apply (ofold_inv (fun r => fst r = s)) in H; [exact H | reflexivity |].
  intros i [s1 u1] r2 Hs1 H2. simpl in Hs1. subst s1. unfold draw_figure_obj in H2.
  destruct (nth_error (store s) i) as [d|] eqn:E; [|injection H2 as <-; reflexivity].
  destruct (draw_custom _ _ _ _ _ (d, u1)) as [[d' u2]|r e] eqn:Ed; simpl in H2; [|discriminate].
  injection H2 as <-. simpl. apply draw_custom_keep in Ed. simpl in Ed. subst d'.
  rewrite (list_set_nth_error_same _ _ _ E). apply with_store_same.
Qed.

(** ** Properties of the draw strategies *)

(** C27. How the application draws a selected figure in faces mode
    ([Scene.draw] calls [draw_custom] with the scene's style): the faces
    translucent in the figure colour with the given alpha, then every
    face's border loop (consecutive vertex pairs, closing on the first) in
    the scene's highlight colour and width, whatever the figure's colour:
    the contrast rule of the spec (dark border on bright faces) is not
    applied on this path. *)
Theorem draw_custom_selected_faces point_size line_width alpha hc hlw d t :
  draw_mode d = Faces -> selected d = true -> figure_color d = true -> faces_in_range d = true ->
  draw_custom point_size line_width alpha hc hlw (d, t) =
  Done (d, t ++ [PushMatrix; BeginPrim GL_QUADS] ++ quad_cmds d (color d) alpha ++
           [EndPrim; Color3 hc; LineWidth hlw; BeginPrim GL_LINES] ++ loop_cmds d ++
           [EndPrim; PopMatrix]).
Proof.
  intros Hm Hs Hc Hr. unfold draw_custom, draw_faces_custom. simpl fst. rewrite Hm.
  unfold issue. cbn [fst snd]. rewrite (draw_faces_custom_quads alpha d _ Hc Hr).
  cbn [obind fst snd]. rewrite Hs, (draw_face_loops_spec d _ Hr). cbn [obind fst snd].
  rewrite <- !app_assoc. reflexivity.
Qed.

Lemma draw_custom_selected_faces_witness :
  let d := with_selected (with_draw_mode cube_data Faces) true in
  draw_mode d = Faces /\ selected d = true /\ figure_color d = true /\ faces_in_range d = true /\
  draw_custom 30 10 0.2 (rgb 1 1 1) 20 (d, []) =
  Done (d, [] ++ [PushMatrix; BeginPrim GL_QUADS] ++ quad_cmds d (color d) 0.2 ++
           [EndPrim; Color3 (rgb 1 1 1); LineWidth 20; BeginPrim GL_LINES] ++ loop_cmds d ++
           [EndPrim; PopMatrix]).
Proof.
  intros d.
  assert (H1 : draw_mode d = Faces) by reflexivity.
  assert (H2 : selected d = true) by reflexivity.
  assert (H3 : figure_color d = true) by reflexivity.
  assert (H4 : faces_in_range d = true) by (vm_compute; reflexivity).
  split; [exact H1|]. split; [exact H2|]. split; [exact H3|]. split; [exact H4|].
  exact (draw_custom_selected_faces 30 10 0.2 (rgb 1 1 1) 20 d [] H1 H2 H3 H4).
Defined.

(** The contrast rule lives in [FigureWrapper.draw_faces], which the
    application never calls: for a selected figure it draws the faces with
    alpha 0.2 and then the borders in white when the colour components sum
    to at most 1.5 and in black otherwise; with a colour that [set_color]
    accepted as a three-character string, [sum] raises [TypeError] after
    the faces are drawn. *)
Theorem draw_faces_contrast_border d t :
  selected d = true -> figure_color d = true -> faces_in_range d = true ->
  (forall total, py_sum (color d) = Ok total ->
     draw_faces (d, t) =
     Done (d, t ++ [BeginPrim GL_QUADS] ++ quad_cmds d (color d) 0.2 ++
              [EndPrim; Color3 (if Rle_dec total 1.5 then rgb 1 1 1 else rgb 0 0 0); LineWidth 2;
               BeginPrim GL_LINES] ++ loop_cmds d ++ [EndPrim])) /\
  (forall s, color d = PyStr s ->
     draw_faces (d, t) =
     Raised (d, t ++ [BeginPrim GL_QUADS] ++ quad_cmds d (color d) 0.2 ++ [EndPrim])
            (TypeError "unsupported operand type(s) for +: 'int' and 'str'")).
Proof.
  intros Hs Hc Hr.
  assert (Hq : ofold (fun f st => ofold gl_vertex (face_vertices f)
                         (issue [Color4 (if figure_color d then color d else fcolor f) 0.2] st))
                     (faces d) (issue [BeginPrim GL_QUADS] (d, t)) =
               Done (d, (t ++ [BeginPrim GL_QUADS]) ++ quad_cmds d (color d) 0.2)).
  { rewrite Hc. apply ofold_emit. intros f t' Hf. unfold issue. cbn [fst snd].
    rewrite (ofold_gl_vertex d _ _ (faces_in_range_spec d Hr f Hf)), <- app_assoc. reflexivity. }
  unfold draw_faces. cbn [fst]. rewrite Hq. cbn [obind]. rewrite Hs. split.
  - intros total Ht. rewrite Ht.
    change (issue [Color3 (if Rle_dec total 1.5 then rgb 1 1 1 else rgb 0 0 0); LineWidth 2;
                   BeginPrim GL_LINES]
                  (issue [EndPrim] (d, (t ++ [BeginPrim GL_QUADS]) ++ quad_cmds d (color d) 0.2)))
      with (d, (((t ++ [BeginPrim GL_QUADS]) ++ quad_cmds d (color d) 0.2) ++ [EndPrim]) ++
               [Color3 (if Rle_dec total 1.5 then rgb 1 1 1 else rgb 0 0 0); LineWidth 2;
                BeginPrim GL_LINES]).
    rewrite (draw_face_loops_spec d _ Hr). cbn [obind]. unfold issue. cbn [fst snd].
    rewrite <- !app_assoc. reflexivity.
  - intros s Hcs. rewrite Hcs. simpl py_sum. unfold issue. cbn [fst snd]. rewrite <- !app_assoc.
    reflexivity.
Qed.

Lemma draw_faces_contrast_border_witness :
  let d := with_selected (with_draw_mode (paint (rgb 1 1 1) cube_data) Faces) true in
  selected d = true /\ figure_color d = true /\ faces_in_range d = true /\
  ((forall total, py_sum (color d) = Ok total ->
     draw_faces (d, []) =
     Done (d, [] ++ [BeginPrim GL_QUADS] ++ quad_cmds d (color d) 0.2 ++
              [EndPrim; Color3 (if Rle_dec total 1.5 then rgb 1 1 1 else rgb 0 0 0); LineWidth 2;
               BeginPrim GL_LINES] ++ loop_cmds d ++ [EndPrim])) /\
   (forall s, color d = PyStr s ->
     draw_faces (d, []) =
     Raised (d, [] ++ [BeginPrim GL_QUADS] ++ quad_cmds d (color d) 0.2 ++ [EndPrim])
            (TypeError "unsupported operand type(s) for +: 'int' and 'str'"))).
Proof.
  intros d.
  assert (H1 : selected d = true) by reflexivity.
  assert (H2 : figure_color d = true) by reflexivity.
  assert (H3 : faces_in_range d = true) by (vm_compute; reflexivity).
  split; [exact H1|]. split; [exact H2|]. split; [exact H3|].
  exact (draw_faces_contrast_border d [] H1 H2 H3).
Defined.
