(* ===== verification/Controller.v ===== *)
(** * Controller: [bll/Controller.py], [ui/Mouse.py] and [init.create_scene]

    The controller owns the scene, the ASCII renderer, the set of pressed
    keys (an [OrderedSet]), the last rendered screen and, here, the trace of
    the commands it sent to OpenGL and GLUT.  Its settings (the [shortcuts]
    and [action_keys] tables of the JSON settings file) are a parameter of
    the section below; so are the values the handlers read back from GLUT
    at an event (window size, matrices), gathered in a [glut_env].

    [action_values] is the table of the constructor: each action name is
    bound to one of five methods with fixed arguments.  The methods that
    move things route on the selection: with a selected figure they
    transform its object in the store, without one they act on the camera.
    Every GLUT callback is one event of [step]; [reachable] is the set of
    controller states reachable from the scene that [init.create_scene]
    builds, by events that return normally. *)

From S2P Require Import Prelude Vec3 Figure Camera Picking Scene Ascii Keyboard Draw OrderedSet.

(** A frame of the window as [render_to_ascii] sees it after the
    [glReadPixels] capture and the PIL resize: rows of grey and colour
    values. *)
Definition frame : Type := list (list (Z * (Z * Z * Z))).

(** What a handler reads back from GLUT and OpenGL during an event:
    [glutGet(GLUT_WINDOW_WIDTH)] and, in [view], [glutGet(GLUT_WINDOW_HEIGHT)]
    and the projection under the current matrices; [front_initial] is what
    the front buffer of a window holds before its first buffer swap, which
    OpenGL leaves unspecified. *)
Record glut_env : Type := { win_width : Z; view : gl_view; front_initial : frame }.

(** The parts of the settings file the handlers read: the two tables of
    [handle_actions] and the [print_settings] section of [print_screen]:
    [None] when the section is missing, else its [title] and
    [after_screen], each [None] when missing or not a string (the two
    cases fail alike in ["\n".join]). *)
Record settings : Type := {
  shortcuts : list (string * list (string * string));
  action_keys : list (string * string);
  print_settings : option (option string * option string)
}.

(** The attributes of [Controller] the handlers use.  [file_name] is the
    name set from the console menu ([None] at first), [scenes_folder] the
    folder read from the settings by [__init__], [settings_ascii_height]
    the [ascii_window.ascii_height] of the settings file (written by
    [set_height]), [scene_files] the writes of [FileDataAccess] (path and
    content, in order) and [hung] records that a call never returned (the
    stripping loop of [get_scene] on an unterminated escape): nothing the
    program does after it is observable.  [front_buffer] is the frame
    OpenGL shows in the window's front buffer: the one the last
    [glutSwapBuffers] brought forward, [None] before the first swap;
    [printed] is the console output, one [print] call per entry. *)
Record ControllerState : Type := {
  scene : SceneData;
  rend : renderer;
  pressed_keys : list string;
  last_screen : option string;
  gl_out : list gl_cmd;
  file_name : option string;
  scenes_folder : string;
  settings_ascii_height : Z;
  scene_files : list (string * string);
  hung : bool;
  front_buffer : option frame;
  printed : list string
}.

Definition with_scene (c : ControllerState) (s : SceneData) : ControllerState :=
  {| scene := s; rend := rend c; pressed_keys := pressed_keys c; last_screen := last_screen c; gl_out := gl_out c;
     file_name := file_name c; scenes_folder := scenes_folder c; settings_ascii_height := settings_ascii_height c; scene_files := scene_files c; hung := hung c; front_buffer := front_buffer c; printed := printed c |}.

Definition with_rend (c : ControllerState) (r : renderer) : ControllerState :=
  {| scene := scene c; rend := r; pressed_keys := pressed_keys c; last_screen := last_screen c; gl_out := gl_out c;
     file_name := file_name c; scenes_folder := scenes_folder c; settings_ascii_height := settings_ascii_height c; scene_files := scene_files c; hung := hung c; front_buffer := front_buffer c; printed := printed c |}.

Definition with_keys (c : ControllerState) (ks : list string) : ControllerState :=
  {| scene := scene c; rend := rend c; pressed_keys := ks; last_screen := last_screen c; gl_out := gl_out c;
     file_name := file_name c; scenes_folder := scenes_folder c; settings_ascii_height := settings_ascii_height c; scene_files := scene_files c; hung := hung c; front_buffer := front_buffer c; printed := printed c |}.

Definition with_screen (c : ControllerState) (sc : option string) : ControllerState :=
  {| scene := scene c; rend := rend c; pressed_keys := pressed_keys c; last_screen := sc; gl_out := gl_out c;
     file_name := file_name c; scenes_folder := scenes_folder c; settings_ascii_height := settings_ascii_height c; scene_files := scene_files c; hung := hung c; front_buffer := front_buffer c; printed := printed c |}.

Definition with_out (c : ControllerState) (t : list gl_cmd) : ControllerState :=
  {| scene := scene c; rend := rend c; pressed_keys := pressed_keys c; last_screen := last_screen c; gl_out := t;
     file_name := file_name c; scenes_folder := scenes_folder c; settings_ascii_height := settings_ascii_height c; scene_files := scene_files c; hung := hung c; front_buffer := front_buffer c; printed := printed c |}.

Definition with_file_name (c : ControllerState) (f : option string) : ControllerState :=
  {| scene := scene c; rend := rend c; pressed_keys := pressed_keys c; last_screen := last_screen c; gl_out := gl_out c;
     file_name := f; scenes_folder := scenes_folder c; settings_ascii_height := settings_ascii_height c; scene_files := scene_files c; hung := hung c; front_buffer := front_buffer c; printed := printed c |}.

Definition with_settings_height (c : ControllerState) (n : Z) : ControllerState :=
  {| scene := scene c; rend := rend c; pressed_keys := pressed_keys c; last_screen := last_screen c; gl_out := gl_out c;
     file_name := file_name c; scenes_folder := scenes_folder c; settings_ascii_height := n; scene_files := scene_files c; hung := hung c; front_buffer := front_buffer c; printed := printed c |}.

Definition with_files (c : ControllerState) (fs : list (string * string)) : ControllerState :=
  {| scene := scene c; rend := rend c; pressed_keys := pressed_keys c; last_screen := last_screen c; gl_out := gl_out c;
     file_name := file_name c; scenes_folder := scenes_folder c; settings_ascii_height := settings_ascii_height c; scene_files := fs; hung := hung c; front_buffer := front_buffer c; printed := printed c |}.

Definition with_front (c : ControllerState) (f : option frame) : ControllerState :=
  {| scene := scene c; rend := rend c; pressed_keys := pressed_keys c; last_screen := last_screen c; gl_out := gl_out c;
     file_name := file_name c; scenes_folder := scenes_folder c; settings_ascii_height := settings_ascii_height c; scene_files := scene_files c; hung := hung c; front_buffer := f; printed := printed c |}.

Definition with_printed (c : ControllerState) (p : list string) : ControllerState :=
  {| scene := scene c; rend := rend c; pressed_keys := pressed_keys c; last_screen := last_screen c; gl_out := gl_out c;
     file_name := file_name c; scenes_folder := scenes_folder c; settings_ascii_height := settings_ascii_height c; scene_files := scene_files c; hung := hung c; front_buffer := front_buffer c; printed := p |}.

Definition with_hung (c : ControllerState) : ControllerState :=
  {| scene := scene c; rend := rend c; pressed_keys := pressed_keys c; last_screen := last_screen c; gl_out := gl_out c;
     file_name := file_name c; scenes_folder := scenes_folder c; settings_ascii_height := settings_ascii_height c; scene_files := scene_files c; hung := true; front_buffer := front_buffer c; printed := printed c |}.

(** Issue GL/GLUT commands. *)
Definition emit (cmds : list gl_cmd) (c : ControllerState) : ControllerState :=
  with_out c (gl_out c ++ cmds).

(** A scene method that may raise, run on the controller's scene. *)
Definition lift_scene (o : outcome SceneData) (c : ControllerState) : outcome ControllerState :=
  match o with
  | Done s => Done (with_scene c s)
  | Raised s e => Raised (with_scene c s) e
  end.

(** A camera method that may raise, run on the scene's camera. *)
Definition lift_camera (o : outcome CameraData) (s : SceneData) : outcome SceneData :=
  match o with
  | Done cam => Done (with_camera s cam)
  | Raised cam e => Raised (with_camera s cam) e
  end.

(** ** The methods behind the actions *)

(** A wrapper method run on the figure object [i] of the store. *)
Definition scene_map_figure (i : nat) (f : FigureData -> FigureData) (s : SceneData) : SceneData :=
  with_store s (update_obj (store s) i f) (selected_figure s).

(** [Controller.set_draw_mode]: the selected figure, or every figure of
    the scene in order. *)
Definition ctl_set_draw_mode (mode : string) (s : SceneData) : SceneData :=
  match selected_figure s with
  | Some i => scene_map_figure i (set_draw_mode mode) s
  | None => fold_left (fun s i => scene_map_figure i (set_draw_mode mode) s) (scene_figures s) s
  end.

(** The routing rule of [translate_figure_or_camera] and
    [rotate_figure_or_camera]: [if self.scene.data.selected_figure:] the
    wrapper method on the selected figure, else the camera method. *)
Definition figure_or_camera (f : FigureData -> FigureData) (g : CameraData -> outcome CameraData)
  (s : SceneData) : outcome SceneData :=
  match selected_figure s with
  | Some i => Done (scene_map_figure i f s)
  | None => lift_camera (g (camera s)) s
  end.

(** [Controller.translate_figure_or_camera]. *)
Definition translate_figure_or_camera (x y z : R) : SceneData -> outcome SceneData :=
  figure_or_camera (translate x y z) (camera_translate x y z).

(** [Controller.rotate_figure_or_camera]: the camera's [rotate(dx, dy, dz)]
    ignores [dz]. *)
Definition rotate_figure_or_camera (dx dy dz : R) : SceneData -> outcome SceneData :=
  figure_or_camera (rotate dx dy dz) (camera_rotate dx dy).

(** The camera updates of [Controller.change_camera_perspective], in the
    code's order: far plane, field of view, aspect, near plane. *)
Definition change_camera_perspective (dfovy asp dnear dfar : option R) (s : SceneData) : SceneData :=
  let cam := camera s in
  let cam := match dfar with Some d => update_z_far d cam | None => cam end in
  let cam := match dfovy with Some d => update_fovy d cam | None => cam end in
  let cam := match asp with Some a => update_aspect a cam | None => cam end in
  let cam := match dnear with Some d => update_z_near d cam | None => cam end in
  with_camera s cam.

(** [Controller.reset_perspective]: the projection from the camera and the
    window's aspect [width / max(height, 1)], then a redraw request. *)
Definition reset_perspective (env : glut_env) (c : ControllerState) : ControllerState :=
  let cam := camera (scene c) in
  emit [Perspective (fovy cam) (IZR (win_width env) / IZR (Z.max (window_height (view env)) 1))
                    (z_near cam) (z_far cam); PostRedisplay] c.

(** The entries of [action_values]. *)
Inductive action : Type :=
| SetDrawModeA (mode : string)
| TranslateA (x y z : R)
| RotateA (dx dy dz : R)
| PerspectiveA (dfovy asp dnear dfar : option R)
| ExitA.

(** [Controller.action_values]. *)
Definition action_values : list (string * action) :=
  [("draw_points", SetDrawModeA "points"); ("draw_edges", SetDrawModeA "edges");
   ("draw_faces", SetDrawModeA "faces");
   ("translate_left", TranslateA (-0.5) 0 0); ("translate_right", TranslateA 0.5 0 0);
   ("translate_forward", TranslateA 0 0 (-0.5)); ("translate_backward", TranslateA 0 0 0.5);
   ("translate_up", TranslateA 0 0.5 0); ("translate_down", TranslateA 0 (-0.5) 0);
   ("rotate_x_plus", RotateA 0 (-5) 0); ("rotate_x_minus", RotateA 0 5 0);
   ("rotate_y_plus", RotateA 5 0 0); ("rotate_y_minus", RotateA (-5) 0 0);
   ("increase_render_distance", PerspectiveA None None None (Some 10));
   ("decrease_render_distance", PerspectiveA None None None (Some (-10)));
   ("zoom_up", PerspectiveA (Some (-5)) None None None);
   ("zoom_down", PerspectiveA (Some 5) None None None);
   ("exit", ExitA)]%string.

(** [Controller.save_scene]: the stripped screen ([get_scene()]) is
    written to [scenes_folder + file_name].  The stripping loop runs on
    [S (length screen)] iterations of fuel on each line, which is enough
    whenever the loop ends at all ([strip_loop_termination]: a line never
    needs more than its length plus one); when it runs out, the loop is one
    that never ends and the controller records [hung]. *)
Definition save_scene (c : ControllerState) : outcome ControllerState :=
  match file_name c with
  | None => Raised c (TypeError "can only concatenate str (not NoneType) to str")
  | Some fname =>
    let full_path := (scenes_folder c ++ fname)%string in
    match last_screen c with
    | None => Raised c AttributeError
    | Some sc =>
      match get_scene_plain (S (String.length sc)) sc with
      | None => Done (with_hung c)
      | Some plain =>
        if String.eqb plain "" then Raised c (ValueError "No scene to save")
        else Done (with_files c (scene_files c ++ [(full_path, plain)]))
      end
    end
  end.

(** [Controller.stop_scene]: [glutLeaveMainLoop()], then [save_scene]
    when a file name is set. *)
Definition stop_scene (c : ControllerState) : outcome ControllerState :=
  let c := emit [LeaveMainLoop] c in
  match file_name c with
  | Some f => if str_truthy f then save_scene c else Done c
  | None => Done c
  end.

(** [Controller.exit]. *)
Definition ctl_exit (c : ControllerState) : outcome ControllerState := stop_scene c.

(** One action of [action_values]. *)
Definition run_action (env : glut_env) (a : action) (c : ControllerState) : outcome ControllerState :=
  match a with
  | SetDrawModeA m => Done (with_scene c (ctl_set_draw_mode m (scene c)))
  | TranslateA x y z => lift_scene (translate_figure_or_camera x y z (scene c)) c
  | RotateA dx dy dz => lift_scene (rotate_figure_or_camera dx dy dz (scene c)) c
  | PerspectiveA f a n z => Done (reset_perspective env (with_scene c (change_camera_perspective f a n z (scene c))))
  | ExitA => ctl_exit c
  end.

(** [Controller.execute_command]. *)
Definition execute_command (env : glut_env) (name : string) (c : ControllerState) : outcome ControllerState :=
  match dict_get name action_values with
  | None => Done c
  | Some a => c' <~ run_action env a c ;; Done (emit [PostRedisplay] c')
  end.

(** [Mouse] and GLUT's button states. *)
Inductive button_state : Type := GlutDown | GlutUp.

(** The GLUT callbacks, wired to the controller by [add_handlers]. *)
Inductive event : Type :=
| EvKeyboard (mods : Z) (key : option string)
| EvSpecial (mods : Z) (key : Z)
| EvKeyboardUp (key : option string)
| EvSpecialUp (key : Z)
| EvMouse (b : mouse_button) (st : button_state) (x y : Z)
| EvWheel (wheel direction x y : Z)
| EvMotion (x y : Z)
| EvReshape (w h : Z)
| EvDisplay (rows : frame).

Section Handlers.

Variable cfg : settings.

(** [self.shortcuts().get(modifiers)]: the JSON keys are strings. *)
Definition shortcut_table (m : pymod) : option (list (string * string)) :=
  match m with
  | ModStr s => dict_get s (shortcuts cfg)
  | _ => None
  end.

(** The loop of [Controller.handle_actions] over the pressed keys, in
    insertion order.  With true modifiers the first key that has a shortcut
    runs it and ends the loop ([None.get] raises [AttributeError] when the
    modifiers have no table); otherwise every key bound in [action_keys]
    runs its action. *)
Fixpoint handle_actions_loop (env : glut_env) (m : pymod) (keys : list string) (c : ControllerState) :
  outcome ControllerState :=
  match keys with
  | [] => Done c
  | k :: ks =>
    if mod_truthy m then
      match shortcut_table m with
      | None => Raised c AttributeError
      | Some tbl =>
        match dict_get k tbl with
        | Some name => if str_truthy name then execute_command env name c
                       else handle_actions_loop env m ks c
        | None => handle_actions_loop env m ks c
        end
      end
    else
      match dict_get k (action_keys cfg) with
      | Some name => c' <~ execute_command env name c ;; handle_actions_loop env m ks c'
      | None => handle_actions_loop env m ks c
      end
  end.

(** [Controller.handle_actions]. *)
Definition handle_actions (env : glut_env) (m : pymod) (c : ControllerState) : outcome ControllerState :=
  handle_actions_loop env m (pressed_keys c) c.

(** [Controller.handle_keyboard]. *)
Definition handle_keyboard (env : glut_env) (key : string) (m : pymod) (c : ControllerState) :
  outcome ControllerState :=
  let c1 := with_keys c (oset_add key (pressed_keys c)) in
  c2 <~ handle_actions env m c1 ;; Done (emit [PostRedisplay] c2).

(** [Controller.handle_keyboard_up]. *)
Definition handle_keyboard_up (key : string) (c : ControllerState) : ControllerState :=
  with_keys c (oset_discard key (pressed_keys c)).

(** [Controller.handle_mouse]: the left button picks, the right button
    latches the drag rotation. *)
Definition ctl_handle_mouse (env : glut_env) (b : mouse_button) (st : button_state) (x y : Z)
  (c : ControllerState) : ControllerState :=
  let s := scene c in
  let s' := match b, st with
            | LeftButton, GlutDown => handle_click (view env) x y b s
            | RightButton, GlutDown => with_mouse s true x y
            | RightButton, GlutUp => with_mouse s false (last_mouse_x s) (last_mouse_y s)
            | _, _ => s
            end in
  emit [PostRedisplay] (with_scene c s').

(** [Controller.handle_wheel]. *)
Definition handle_wheel (env : glut_env) (direction : Z) (c : ControllerState) : outcome ControllerState :=
  c' <~ execute_command env (if (0 <? direction)%Z then "zoom_up" else "zoom_down")%string c ;;
  Done (emit [PostRedisplay] c').

(** [Controller.handle_motion]: [Scene.handle_motion], which ends with a
    redraw request. *)
Definition ctl_handle_motion (x y : Z) (c : ControllerState) : outcome ControllerState :=
  c' <~ lift_scene (handle_motion x y (scene c)) c ;; Done (emit [PostRedisplay] c').

(** The three callbacks of [ui/Mouse.py]'s [MouseHandler], which pass
    their arguments on to the controller ([Controller.handle_wheel]
    ignores the wheel number and the position). *)
Definition mouse_handler_mouse (env : glut_env) (b : mouse_button) (st : button_state) (x y : Z)
  (c : ControllerState) : outcome ControllerState :=
  Done (ctl_handle_mouse env b st x y c).

Definition mouse_handler_wheel (env : glut_env) (wheel direction x y : Z) (c : ControllerState) :
  outcome ControllerState :=
  handle_wheel env direction c.

Definition mouse_handler_motion (x y : Z) (c : ControllerState) : outcome ControllerState :=
  ctl_handle_motion x y c.

(** [Controller.reshape]: the aspect is computed from the requested size,
    before the renderer raises the height to its floor. *)
Definition reshape (w h : Z) (c : ControllerState) : ControllerState :=
  let cam := camera (scene c) in
  let asp := if negb (Z.eqb w 0) && negb (Z.eqb h 0) then IZR w / IZR h else 1.5 in
  let '(rd, cmds) := renderer_reshape w h (fovy cam) asp (z_near cam) (z_far cam) (rend c) in
  emit cmds (with_rend c rd).

(** [AsciiRenderer.display(self.scene.draw)] and the assignment of its
    text to [last_screen] in [Controller.display]: clear the buffers and
    run [Scene.draw], which leaves [rows] in the back buffer (the
    rasterisation is OpenGL's; [rows] is its result, downsampled).
    [render_to_ascii] then reads the FRONT buffer ([glReadBuffer(GL_FRONT)])
    of the double-buffered window, which still holds the frame of the last
    swap, and renders it to text; only then [glutSwapBuffers] brings
    [rows] forward. *)
Definition shown_frame (env : glut_env) (c : ControllerState) : frame :=
  match front_buffer c with Some f => f | None => front_initial env end.

Definition renderer_display (env : glut_env) (rows : frame) (c : ControllerState) : outcome ControllerState :=
  match scene_draw (scene c) (gl_out c ++ [Clear; LoadIdentity]) with
  | Raised (s, t) e => Raised (with_out (with_scene c s) t) e
  | Done (s, t) =>
    let c2 := with_out (with_scene c s) t in
    match render_to_ascii (ascii_chars (rend c)) (shown_frame env c) with
    | Ok sc => Done (emit [SwapBuffers] (with_front (with_screen c2 (Some sc)) (Some rows)))
    | Err e => Raised c2 e
    end
  end.

(** [Controller.print_screen]: [print_settings.get] on a missing section
    raises [AttributeError]; ["\n".join([title, scene, after_screen])]
    raises [TypeError] on an item that is not a string. *)
Definition print_screen (c : ControllerState) : outcome ControllerState :=
  match print_settings cfg with
  | None => Raised c AttributeError
  | Some (Some title, Some after) =>
    match last_screen c with
    | Some sc => Done (with_printed c (printed c ++ [(title ++ String NL (sc ++ String NL after))%string]))
    | None => Raised c (TypeError "sequence item 1: expected str instance, NoneType found")
    end
  | Some _ => Raised c (TypeError "expected str instance")
  end.

(** [Controller.display]. *)
Definition display (env : glut_env) (rows : frame) (c : ControllerState) : outcome ControllerState :=
  c1 <~ renderer_display env rows c ;; print_screen c1.

(** [Controller.set_height]: the new row count is written to the
    [ascii_window] section of the settings file and given to the renderer. *)
Definition ctl_set_height (n : Z) (c : ControllerState) : ControllerState :=
  with_rend (with_settings_height c n) (set_ascii_height n (rend c)).

(** [Controller.set_file_name]. *)
Definition set_file_name (f : string) (c : ControllerState) : ControllerState :=
  with_file_name c (Some f).

Definition key_down (env : glut_env) (k : option (string * pymod)) (c : ControllerState) :
  outcome ControllerState :=
  match k with Some (key, m) => handle_keyboard env key m c | None => Done c end.

Definition key_up (k : option string) (c : ControllerState) : ControllerState :=
  match k with Some key => handle_keyboard_up key c | None => c end.

(** One GLUT callback, through [KeyboardHandler] and [MouseHandler]. *)
Definition step (env : glut_env) (ev : event) (c : ControllerState) : outcome ControllerState :=
  match ev with
  | EvKeyboard m k => key_down env (keyboard m k) c
  | EvSpecial m k => key_down env (special_keyboard m k) c
  | EvKeyboardUp k => Done (key_up (keyboard_up k) c)
  | EvSpecialUp k => Done (key_up (special_keyboard_up k) c)
  | EvMouse b st x y => mouse_handler_mouse env b st x y c
  | EvWheel w d x y => mouse_handler_wheel env w d x y c
  | EvMotion x y => mouse_handler_motion x y c
  | EvReshape w h => Done (reshape w h c)
  | EvDisplay rows => display env rows c
  end.

End Handlers.

(** ** Set-up: [init.create_scene] and [Controller.__init__] *)

(** A wrapper method that may raise, run on the figure object [i]. *)
Definition scene_try_figure (i : nat) (f : FigureData -> result FigureData) (s : SceneData) :
  result SceneData :=
  match nth_error (store s) i with
  | Some d => d' <- f d ;; Ok (with_store s (list_set (store s) i d') (selected_figure s))
  | None => Ok s
  end.

(** [init.create_scene]. *)
Definition create_scene (cs : camera_settings) : result SceneData :=
  let s := new_scene (camera_create cs) in
  cube <- set_example "Cube" ;;
  s <- scene_try_figure cube (fun d => set_color (PyStr "Green") (translate 4 (-2) 1 d)) s ;;
  pyramid <- set_example "Pyramid" ;;
  s <- scene_try_figure pyramid
         (fun d => set_color (PyStr "Red") (scale 1.1 1.5 0.4 (rotate 45 0 0 d))) s ;;
  sphere <- set_example "Sphere" ;;
  s <- scene_try_figure sphere (fun d => set_color (PyStr "Blue") (translate (-1) 3 5 d)) s ;;
  Ok (add_figure sphere (add_figure pyramid (add_figure cube s))).

(** The values of the settings file read by [Controller]: the
    [window_settings] section ([set_up_renderer], [glut_init]), the
    [ascii_window] section ([set_up_renderer]) and [scenes_folder]
    ([__init__]). *)
Record window_settings : Type := {
  ws_width : Z; ws_height : Z; ws_ascii_height : Z; ws_ascii_chars : string;
  ws_scenes_folder : string; ws_title : string; ws_fov : R; ws_z_near : R; ws_z_far : R
}.

(** [Controller.set_up_renderer]. *)
Definition set_up_renderer (ws : window_settings) : renderer :=
  {| r_width := ws_width ws; r_height := ws_height ws; ascii_height := ws_ascii_height ws;
     ascii_chars := ws_ascii_chars ws |}.

(** [Controller.__init__]. *)
Definition controller_init (ws : window_settings) (s : SceneData) : ControllerState :=
  {| scene := s; rend := set_up_renderer ws; pressed_keys := []; last_screen := None; gl_out := [];
     file_name := None; scenes_folder := ws_scenes_folder ws; settings_ascii_height := ws_ascii_height ws;
     scene_files := []; hung := false; front_buffer := None; printed := [] |}.

(** The states the application can reach: the controller built on the
    scene of [create_scene], then any sequence of callbacks that return. *)
Inductive reachable (cfg : settings) (cs : camera_settings) (ws : window_settings) :
  ControllerState -> Prop :=
| reachable_init s : create_scene cs = Ok s -> reachable cfg cs ws (controller_init ws s)
| reachable_step env ev c c' :
    reachable cfg cs ws c -> step cfg env ev c = Done c' -> reachable cfg cs ws c'.

(** The controller invariant: the selection invariant, the scene's
    identities in the store, and the camera's perspective in its ranges. *)
Definition ctl_inv (c : ControllerState) : Prop :=
  sel_inv (scene c) /\ scene_wf (scene c) /\ persp_ok (camera (scene c)).

(** ** Interfaces between the controller and the wrappers it drives *)

(** What the routing needs of a figure method: it leaves the selection
    flag of the object alone. *)
Class KeepsSelection (f : FigureData -> FigureData) : Prop :=
  keeps_selection : forall d, selected (f d) = selected d.

(** What it needs of a camera method: when the method returns, the
    perspective parameters are those it started with. *)
Class KeepsPerspective (g : CameraData -> outcome CameraData) : Prop :=
  keeps_perspective : forall c c', g c = Done c' -> get_perspective c' = get_perspective c.

(** ** Lemmas *)

(** Two stores whose objects carry the same selection flags, position by
    position. *)
Definition same_flags (st st' : list FigureData) : Prop :=
  Forall2 (fun d d' => selected d = selected d') st st'.

Lemma same_flags_refl st : same_flags st st.
Proof. induction st; constructor; auto. Qed.

Lemma same_flags_nth st st' i d' :
  same_flags st st' -> nth_error st' i = Some d' ->
  exists d, nth_error st i = Some d /\ selected d = selected d'.
Proof.
  intros H. revert i. induction H as [|d0 d0' t t' Hd _ IH]; intros [|i] Hi; try discriminate.
  - injection Hi as <-. exists d0. auto.
  - apply IH, Hi.
Qed.

Lemma same_flags_list_set st i d' :
  (forall d, nth_error st i = Some d -> selected d = selected d') -> same_flags st (list_set st i d').
Proof.
  unfold same_flags. revert i. induction st as [|d t IH]; intros [|i] H; simpl; constructor.
  - apply H. reflexivity.
  - apply same_flags_refl.
  - reflexivity.
  - apply IH. exact H.
Qed.

Lemma same_flags_update_obj st i f :
  (forall d, selected (f d) = selected d) -> same_flags st (update_obj st i f).
Proof.
  intros Hf. unfold update_obj. destruct (nth_error st i) as [d|] eqn:E; [|apply same_flags_refl].
  apply same_flags_list_set. intros d0 H0. rewrite E in H0. injection H0 as <-. auto.
Qed.

(** A new store with the same flags keeps the selection invariant and the
    well-formedness of the scene. *)
Lemma scene_inv_same_flags s st' :
  same_flags (store s) st' -> sel_inv s -> scene_wf s ->
  sel_inv (with_store s st' (selected_figure s)) /\ scene_wf (with_store s st' (selected_figure s)).
Proof.
  intros Hf Hinv [Hw1 Hw2]. pose proof (Forall2_length Hf) as Hlen. split.
  - intros i d' Hd'. destruct (same_flags_nth _ _ _ _ Hf Hd') as (d & Hd & Hsel).
    simpl. rewrite <- Hsel. apply Hinv, Hd.
  - split; simpl; rewrite <- Hlen; [exact Hw1 | exact Hw2].
Qed.

(** The wrapper methods the controller routes to keep the flag. *)
#[export] Instance translate_keeps_selection x y z : KeepsSelection (translate x y z).
Proof. intros d. reflexivity. Qed.

#[export] Instance rotate_keeps_selection dx dy dz : KeepsSelection (rotate dx dy dz).
Proof. intros d. reflexivity. Qed.

#[export] Instance set_draw_mode_keeps_selection m : KeepsSelection (set_draw_mode m).
Proof. intros d. unfold set_draw_mode. destruct (draw_mode_of_string m); reflexivity. Qed.

Lemma selected_set_color c d d' : set_color c d = Ok d' -> selected d' = selected d.
Proof.
  unfold set_color. destruct c; try discriminate;
    (destruct (Nat.eqb _ 3); [intros H; injection H as <-; reflexivity | discriminate]).
Qed.

Lemma scene_map_figure_inv i f `{KeepsSelection f} s :
  sel_inv s -> scene_wf s ->
  sel_inv (scene_map_figure i f s) /\ scene_wf (scene_map_figure i f s).
Proof. apply scene_inv_same_flags, same_flags_update_obj, keeps_selection. Qed.

(** The camera's perspective parameters are all [persp_ok] looks at. *)
Lemma persp_ok_same c c' : get_perspective c' = get_perspective c -> persp_ok c -> persp_ok c'.
Proof.
  unfold get_perspective, persp_ok. intros H. injection H as Hf Ha Hn Hz.
  rewrite Hf, Ha, Hn, Hz. auto.
Qed.

#[export] Instance camera_translate_keeps_perspective x y z : KeepsPerspective (camera_translate x y z).
Proof.
  intros c c'. unfold camera_translate. destruct (py_iadd (cam_position c) _); [|discriminate].
  destruct (py_iadd _ _); [|discriminate]. intros H. injection H as <-. reflexivity.
Qed.

#[export] Instance camera_rotate_keeps_perspective dx dy : KeepsPerspective (camera_rotate dx dy).
Proof.
  intros c c'. unfold camera_rotate. destruct (py_add _ _); [|discriminate]. intros H. injection H as <-.
  reflexivity.
Qed.

Lemma change_camera_perspective_ok f a n z s :
  persp_ok (camera s) -> persp_ok (camera (change_camera_perspective f a n z s)).
Proof.
  intros H. unfold change_camera_perspective. simpl.
  destruct n as [n|]; [apply (apply_persp_ok (UNear n))|];
  (destruct a as [a|]; [apply (apply_persp_ok (UAspect a))|]);
  (destruct f as [f|]; [apply (apply_persp_ok (UFovy f))|]);
  (destruct z as [z|]; [apply (apply_persp_ok (UFar z))|]); exact H.
Qed.

Lemma figure_or_camera_inv f g `{KeepsSelection f} `{KeepsPerspective g} s s' :
  sel_inv s -> scene_wf s -> persp_ok (camera s) ->
  figure_or_camera f g s = Done s' -> sel_inv s' /\ scene_wf s' /\ persp_ok (camera s').
Proof.
  intros Hs Hw Hp. unfold figure_or_camera. destruct (selected_figure s) as [i|].
  - intros E. injection E as <-. destruct (scene_map_figure_inv i f s Hs Hw). auto.
  - destruct (g (camera s)) as [cam|cam e] eqn:E; simpl; intros E'; [|discriminate].
    injection E' as <-. split; [exact Hs|]. split; [exact Hw|].
    apply (persp_ok_same (camera s)); [apply (keeps_perspective _ _ E) | exact Hp].
Qed.

Lemma fold_map_figure_inv f `{KeepsSelection f} fs s :
  sel_inv s -> scene_wf s ->
  let s' := fold_left (fun s i => scene_map_figure i f s) fs s in
  sel_inv s' /\ scene_wf s' /\ camera s' = camera s.
Proof.
  revert s. induction fs as [|i fs IH]; intros s Hs Hw; simpl; [auto|].
  destruct (scene_map_figure_inv i f s Hs Hw) as [Hs' Hw'].
  destruct (IH _ Hs' Hw') as (H1 & H2 & H3). auto.
Qed.

Lemma ctl_set_draw_mode_inv m s :
  sel_inv s -> scene_wf s -> persp_ok (camera s) ->
  sel_inv (ctl_set_draw_mode m s) /\ scene_wf (ctl_set_draw_mode m s) /\
  persp_ok (camera (ctl_set_draw_mode m s)).
Proof.
  intros Hs Hw Hp. unfold ctl_set_draw_mode. destruct (selected_figure s) as [i|].
  - destruct (scene_map_figure_inv i (set_draw_mode m) s Hs Hw). auto.
  - destruct (fold_map_figure_inv (set_draw_mode m) (scene_figures s) s Hs Hw)
      as (H1 & H2 & H3). split; [exact H1|]. split; [exact H2|]. rewrite H3. exact Hp.
Qed.

Lemma lift_scene_done o c c' :
  lift_scene o c = Done c' -> exists s, o = Done s /\ c' = with_scene c s.
Proof. destruct o as [s|s e]; simpl; intros H; [injection H as <-; eauto | discriminate]. Qed.

(** [stop_scene] leaves the scene, the renderer, the keys and the screen
    as they were and only adds [glutLeaveMainLoop] to the trace. *)
Lemma stop_scene_keeps c c' :
  stop_scene c = Done c' ->
  scene c' = scene c /\ rend c' = rend c /\ pressed_keys c' = pressed_keys c /\
  last_screen c' = last_screen c /\ gl_out c' = gl_out c ++ [LeaveMainLoop] /\
  settings_ascii_height c' = settings_ascii_height c.
Proof.
  unfold stop_scene, save_scene. cbn [file_name last_screen emit with_out].
  destruct (file_name c) as [f|]; [|intros [= <-]; repeat split].
  destruct (str_truthy f); [|intros [= <-]; repeat split].
  destruct (last_screen c) as [sc|] eqn:E; [|intros [=]].
  destruct (get_scene_plain _ sc) as [p|]; [destruct (String.eqb p "")|]; intros H;
    try discriminate; injection H as <-; repeat split; exact E.
Qed.

Lemma run_action_inv env a c c' : ctl_inv c -> run_action env a c = Done c' -> ctl_inv c'.
Proof.
  intros (Hs & Hw & Hp). destruct a; simpl; intros H.
  - injection H as <-. apply ctl_set_draw_mode_inv; assumption.
  - apply lift_scene_done in H as (s' & Hs' & ->).
    exact (figure_or_camera_inv (translate x y z) (camera_translate x y z) _ _ Hs Hw Hp Hs').
  - apply lift_scene_done in H as (s' & Hs' & ->).
    exact (figure_or_camera_inv (rotate dx dy dz) (camera_rotate dx dy) _ _ Hs Hw Hp Hs').
  - injection H as <-. split; [exact Hs|]. split; [exact Hw|].
    apply change_camera_perspective_ok, Hp.
  - destruct (stop_scene_keeps c c' H) as (E & _). unfold ctl_inv. rewrite E. split; [exact Hs|]. split; [exact Hw | exact Hp].
Qed.

Lemma execute_command_inv env name c c' : ctl_inv c -> execute_command env name c = Done c' -> ctl_inv c'.
Proof.
  intros Hc. unfold execute_command. destruct (dict_get name action_values) as [a|].
  - destruct (run_action env a c) as [c1|c1 e] eqn:E; simpl; intros H; [|discriminate].
    injection H as <-. apply (run_action_inv env a c c1 Hc E).
  - intros H. injection H as <-. exact Hc.
Qed.

Lemma handle_actions_loop_inv cfg env m keys c c' :
  ctl_inv c -> handle_actions_loop cfg env m keys c = Done c' -> ctl_inv c'.
Proof.
  revert c. induction keys as [|k ks IH]; intros c Hc; simpl.
  - intros H. injection H as <-. exact Hc.
  - destruct (mod_truthy m).
    + destruct (shortcut_table cfg m) as [tbl|]; [|discriminate].
      destruct (dict_get k tbl) as [name|]; [|apply IH, Hc].
      destruct (str_truthy name); [apply execute_command_inv, Hc | apply IH, Hc].
    + destruct (dict_get k (action_keys cfg)) as [name|]; [|apply IH, Hc].
      destruct (execute_command env name c) as [c1|c1 e] eqn:E; simpl; [|discriminate].
      apply IH. exact (execute_command_inv env name c c1 Hc E).
Qed.

Lemma handle_keyboard_inv cfg env key m c c' :
  ctl_inv c -> handle_keyboard cfg env key m c = Done c' -> ctl_inv c'.
Proof.
  intros Hc H. unfold handle_keyboard in H. apply obind_done in H as (c2 & H2 & H).
  injection H as <-. exact (handle_actions_loop_inv cfg env m _ (with_keys c _) _ Hc H2).
Qed.

Lemma selection_camera v x y s : camera (selection v x y s) = camera s.
Proof.
  unfold selection, select_figure, deselect_figure.
  destruct (selected_figure s); destruct (find_first _ _); reflexivity.
Qed.

Lemma ctl_handle_mouse_inv env b st x y c : ctl_inv c -> ctl_inv (ctl_handle_mouse env b st x y c).
Proof.
  intros (Hs & Hw & Hp). unfold ctl_handle_mouse.
  destruct b, st; cbn [ctl_inv handle_click emit with_scene scene];
    try (split; [exact Hs | split; [exact Hw | exact Hp]]).
  split; [apply selection_sel_inv, Hs|]. split; [apply selection_scene_wf, Hw|].
  change (persp_ok (camera (selection (view env) x y (scene c)))).
  rewrite selection_camera. exact Hp.
Qed.

Lemma ctl_handle_motion_inv x y c c' : ctl_inv c -> ctl_handle_motion x y c = Done c' -> ctl_inv c'.
Proof.
  intros (Hs & Hw & Hp) H. unfold ctl_handle_motion in H.
  apply obind_done in H as (c2 & H2 & H). injection H as <-.
  apply lift_scene_done in H2 as (s' & Hs' & ->). unfold handle_motion in Hs'.
  destruct (is_rotating (scene c)).
  - destruct (camera_rotate _ _ _) as [cam|cam e] eqn:E; [|discriminate].
    injection Hs' as <-. split; [exact Hs|]. split; [exact Hw|].
    exact (persp_ok_same _ _ (keeps_perspective _ _ E) Hp).
  - injection Hs' as <-. split; [exact Hs | split; [exact Hw | exact Hp]].
Qed.

(** A [display] that returns normally changes only the last screen, the
    front buffer, the console and the command trace: the screen is the
    rendering, with the renderer's ramp, of the frame that was in front. *)
Lemma display_keeps cfg env rows c c' :
  display cfg env rows c = Done c' ->
  scene c' = scene c /\ rend c' = rend c /\ pressed_keys c' = pressed_keys c /\
  settings_ascii_height c' = settings_ascii_height c /\ file_name c' = file_name c /\
  scenes_folder c' = scenes_folder c /\ scene_files c' = scene_files c /\ front_buffer c' = Some rows /\
  exists screen, render_to_ascii (ascii_chars (rend c)) (shown_frame env c) = Ok screen /\ last_screen c' = Some screen.
Proof.
  unfold display, renderer_display. destruct (scene_draw _ _) as [[s t]|[s t] e] eqn:E; [|discriminate].
  apply scene_draw_keep in E. subst s.
  destruct (render_to_ascii _ _) as [sc|e]; [|discriminate]. cbn [obind]. unfold print_screen.
  destruct (print_settings cfg) as [[[ti|] [af|]]|]; intros H; try discriminate.
  injection H as <-. repeat split. exists sc. split; reflexivity.
Qed.

(** What a [display] that returns normally prints: the title, the new
    screen and the footer of the [print_settings] section, one [print]. *)
Lemma display_printed cfg env rows c c' ti af :
  print_settings cfg = Some (Some ti, Some af) -> display cfg env rows c = Done c' ->
  exists screen, render_to_ascii (ascii_chars (rend c)) (shown_frame env c) = Ok screen /\
    last_screen c' = Some screen /\ printed c' = printed c ++ [(ti ++ String NL (screen ++ String NL af))%string].
Proof.
  intros Hp. unfold display, renderer_display. destruct (scene_draw _ _) as [[s t]|[s t] e]; [|discriminate].
  destruct (render_to_ascii _ _) as [sc|e]; [|discriminate]. cbn [obind]. unfold print_screen. rewrite Hp.
  intros H. injection H as <-. exists sc. repeat split.
Qed.

(** Without a [print_settings] section every display raises
    [AttributeError] in [print_screen], after the swap and the new last
    screen: in a GLUT callback the exception ends the program. *)
Lemma display_no_print_settings cfg env rows c c2 :
  print_settings cfg = None -> renderer_display env rows c = Done c2 ->
  display cfg env rows c = Raised c2 AttributeError.
Proof. intros Hp Hr. unfold display. rewrite Hr. cbn [obind]. unfold print_screen. rewrite Hp. reflexivity. Qed.

Lemma step_inv cfg env ev c c' : ctl_inv c -> step cfg env ev c = Done c' -> ctl_inv c'.
Proof.
  intros Hc. destruct ev; simpl.
  - destruct (keyboard mods key) as [[k m]|]; simpl; [apply handle_keyboard_inv, Hc|].
    intros H. injection H as <-. exact Hc.
  - destruct (special_keyboard mods key) as [[k m]|]; simpl; [apply handle_keyboard_inv, Hc|].
    intros H. injection H as <-. exact Hc.
  - intros H. injection H as <-. destruct (keyboard_up key); exact Hc.
  - intros H. injection H as <-. destruct (special_keyboard_up key); exact Hc.
  - intros H. injection H as <-. apply ctl_handle_mouse_inv, Hc.
  - intros H. unfold handle_wheel in H. apply obind_done in H as (c2 & H2 & H).
    injection H as <-. exact (execute_command_inv _ _ _ _ Hc H2).
  - apply ctl_handle_motion_inv, Hc.
  - intros H. injection H as <-. unfold reshape.
    destruct (renderer_reshape _ _ _ _ _ _ _). exact Hc.
  - intros H. destruct (display_keeps _ _ _ _ _ H) as (Hs & _). unfold ctl_inv. rewrite Hs. exact Hc.
Qed.

Lemma scene_try_figure_inv i f s s' :
  (forall d d', f d = Ok d' -> selected d' = selected d) ->
  sel_inv s -> scene_wf s -> scene_try_figure i f s = Ok s' ->
  sel_inv s' /\ scene_wf s' /\ camera s' = camera s.
Proof.
  intros Hf Hs Hw. unfold scene_try_figure. destruct (nth_error (store s) i) as [d|] eqn:E.
  - destruct (f d) as [d'|e] eqn:Ed; simpl; intros H; [|discriminate]. injection H as <-.
    assert (Hfl : same_flags (store s) (list_set (store s) i d')).
    { apply same_flags_list_set. intros d0 H0. rewrite E in H0. injection H0 as <-.
      symmetry. apply (Hf d d' Ed). }
    destruct (scene_inv_same_flags s _ Hfl Hs Hw). auto.
  - intros H. injection H as <-. auto.
Qed.

Lemma add_figure_inv i s :
  sel_inv s -> scene_wf s -> (i < length (store s))%nat ->
  sel_inv (add_figure i s) /\ scene_wf (add_figure i s).
Proof.
  intros Hs [Hw1 Hw2] Hi. split; [exact Hs|]. split; [|exact Hw2].
  simpl. apply Forall_app. split; [exact Hw1 | constructor; [exact Hi | constructor]].
Qed.

Lemma scene_try_figure_length i f s s' :
  scene_try_figure i f s = Ok s' -> length (store s') = length (store s).
Proof.
  unfold scene_try_figure. destruct (nth_error (store s) i); [|intros H; injection H as <-; reflexivity].
  destruct (f f0); simpl; intros H; [|discriminate]. injection H as <-. apply list_set_length.
Qed.

(** The templates start unselected, so the fresh scene has the invariant. *)
Lemma new_scene_inv cam : sel_inv (new_scene cam) /\ scene_wf (new_scene cam).
Proof.
  split; [apply sel_inv_b_spec; vm_compute; reflexivity|].
  split; [constructor | discriminate].
Qed.

Lemma create_scene_inv cs s :
  create_scene cs = Ok s -> persp_ok (camera_create cs) ->
  sel_inv s /\ scene_wf s /\ persp_ok (camera s).
Proof.
  intros H Hp. unfold create_scene in H. cbv zeta in H.
  assert (E1 : set_example "Cube" = Ok 0%nat) by reflexivity.
  assert (E2 : set_example "Pyramid" = Ok 1%nat) by reflexivity.
  assert (E3 : set_example "Sphere" = Ok 2%nat) by reflexivity.
  destruct (new_scene_inv (camera_create cs)) as [Hs0 Hw0].
  rewrite E1 in H. cbn [bind] in H.
  destruct (scene_try_figure 0 _ _) as [s1|] eqn:H1; cbn [bind] in H; [|discriminate].
  rewrite E2 in H. cbn [bind] in H.
  destruct (scene_try_figure 1 _ _) as [s2|] eqn:H2; cbn [bind] in H; [|discriminate].
  rewrite E3 in H. cbn [bind] in H.
  destruct (scene_try_figure 2 _ _) as [s3|] eqn:H3; cbn [bind] in H; [|discriminate].
  injection H as <-.
  assert (Hf : forall c (g : FigureData -> FigureData), (forall d, selected (g d) = selected d) ->
                 forall d d', set_color c (g d) = Ok d' -> selected d' = selected d).
  { intros c g Hg d d' Hd. rewrite (selected_set_color _ _ _ Hd). apply Hg. }
  destruct (scene_try_figure_inv _ _ _ _ (Hf _ _ (@keeps_selection (translate 4 (-2) 1) _)) Hs0 Hw0 H1)
    as (Hs1 & Hw1 & Hc1).
  destruct (scene_try_figure_inv _ _ _ _ (Hf _ (fun d => scale 1.1 1.5 0.4 (rotate 45 0 0 d))
              (fun d => eq_refl)) Hs1 Hw1 H2) as (Hs2 & Hw2 & Hc2).
  destruct (scene_try_figure_inv _ _ _ _ (Hf _ _ (@keeps_selection (translate (-1) 3 5) _)) Hs2 Hw2 H3)
    as (Hs3 & Hw3 & Hc3).
  assert (Hlen : length (store s3) = 7%nat).
  { rewrite (scene_try_figure_length _ _ _ _ H3), (scene_try_figure_length _ _ _ _ H2),
      (scene_try_figure_length _ _ _ _ H1). reflexivity. }
  destruct (add_figure_inv 0 s3 Hs3 Hw3) as [Ha Hb]; [lia|].
  destruct (add_figure_inv 1 _ Ha Hb) as [Ha' Hb']; [simpl; lia|].
  destruct (add_figure_inv 2 _ Ha' Hb') as [Ha'' Hb'']; [simpl; lia|].
  split; [exact Ha''|]. split; [exact Hb''|].
  simpl. rewrite Hc3, Hc2, Hc1. exact Hp.
Qed.

Lemma update_obj_some st i f d : nth_error st i = Some d -> update_obj st i f = list_set st i (f d).
Proof. intros H. unfold update_obj. rewrite H. reflexivity. Qed.

(** [execute_command] on a name bound to a movement runs the routing rule
    and, when it returns, requests a redraw. *)
Lemma execute_move env name a f g c :
  dict_get name action_values = Some a ->
  run_action env a c = lift_scene (figure_or_camera f g (scene c)) c ->
  execute_command env name c =
  match figure_or_camera f g (scene c) with
  | Done s => Done (emit [PostRedisplay] (with_scene c s))
  | Raised s e => Raised (with_scene c s) e
  end.
Proof.
  intros Hn Ha. unfold execute_command. rewrite Hn, Ha.
  destruct (figure_or_camera f g (scene c)); reflexivity.
Qed.

(** What an action leaves alone: the pressed keys, the renderer, the
    last screen and the settings file; and it only appends to the command
    trace. *)
Definition ctl_frame (c c' : ControllerState) : Prop :=
  pressed_keys c' = pressed_keys c /\ rend c' = rend c /\ last_screen c' = last_screen c /\
  settings_ascii_height c' = settings_ascii_height c /\ exists l, gl_out c' = gl_out c ++ l.

Lemma ctl_frame_refl c : ctl_frame c c.
Proof. repeat split. exists []. rewrite app_nil_r. reflexivity. Qed.

Lemma ctl_frame_trans c1 c2 c3 : ctl_frame c1 c2 -> ctl_frame c2 c3 -> ctl_frame c1 c3.
Proof.
  intros (K1 & R1 & S1 & H1 & l1 & G1) (K2 & R2 & S2 & H2 & l2 & G2).
  split; [congruence|]. split; [congruence|]. split; [congruence|]. split; [congruence|].
  exists (l1 ++ l2). rewrite G2, G1, app_assoc. reflexivity.
Qed.

Lemma ctl_frame_emit c cmds : ctl_frame c (emit cmds c).
Proof. repeat split. exists cmds. reflexivity. Qed.

Lemma ctl_frame_scene c s : ctl_frame c (with_scene c s).
Proof. repeat split. exists []. symmetry. apply app_nil_r. Qed.

#[export] Hint Resolve ctl_frame_refl ctl_frame_emit ctl_frame_scene : scene.

Lemma stop_scene_frame c c' : stop_scene c = Done c' -> ctl_frame c c'.
Proof.
  intros H. destruct (stop_scene_keeps c c' H) as (_ & R & K & S & G & Hh).
  repeat split; try assumption. eexists; exact G.
Qed.

Lemma run_action_frame env a c c' : run_action env a c = Done c' -> ctl_frame c c'.
Proof.
  destruct a; simpl; intros H;
    try (apply lift_scene_done in H as (s & _ & ->); apply ctl_frame_scene);
    [injection H as <-; apply ctl_frame_scene | | exact (stop_scene_frame c c' H)].
  injection H as <-.
  apply (ctl_frame_trans _ (with_scene c (change_camera_perspective dfovy asp dnear dfar (scene c))));
    [apply ctl_frame_scene | apply ctl_frame_emit].
Qed.

Lemma execute_command_frame env name c c' : execute_command env name c = Done c' -> ctl_frame c c'.
Proof.
  unfold execute_command. destruct (dict_get name action_values) as [a|].
  - destruct (run_action env a c) as [c1|c1 e] eqn:E; simpl; intros H; [|discriminate].
    injection H as <-. apply (ctl_frame_trans _ c1); [apply (run_action_frame env a), E | apply ctl_frame_emit].
  - intros H. injection H as <-. apply ctl_frame_refl.
Qed.

Lemma handle_actions_loop_frame cfg env m keys c c' :
  handle_actions_loop cfg env m keys c = Done c' -> ctl_frame c c'.
Proof.
  revert c. induction keys as [|k ks IH]; intros c; simpl.
  - intros H. injection H as <-. apply ctl_frame_refl.
  - destruct (mod_truthy m).
    + destruct (shortcut_table cfg m) as [tbl|]; [|discriminate].
      destruct (dict_get k tbl) as [name|]; [|apply IH].
      destruct (str_truthy name); [apply execute_command_frame | apply IH].
    + destruct (dict_get k (action_keys cfg)) as [name|]; [|apply IH].
      destruct (execute_command env name c) as [c1|c1 e] eqn:E; simpl; [|discriminate].
      intros H. apply (ctl_frame_trans _ c1); [apply (execute_command_frame env name), E | apply IH, H].
Qed.

(** A key press adds the key to the pressed set and runs the actions. *)
Lemma handle_keyboard_frame cfg env key m c c' :
  handle_keyboard cfg env key m c = Done c' ->
  pressed_keys c' = oset_add key (pressed_keys c) /\ exists l, gl_out c' = gl_out c ++ l ++ [PostRedisplay].
Proof.
  unfold handle_keyboard. intros H. apply obind_done in H as (c2 & H2 & H). injection H as <-.
  destruct (handle_actions_loop_frame _ _ _ _ _ _ H2) as (K & _ & _ & _ & l & G).
  split; [exact K|]. exists l. simpl. rewrite G, app_assoc. reflexivity.
Qed.

(** The pressed keys stay an ordered set of distinct keys: the
    key-down handler adds with [OrderedSet.add], the key-up handler
    discards, and no other callback touches them. *)
Lemma step_keys_nodup cfg env ev c c' :
  NoDup (pressed_keys c) -> step cfg env ev c = Done c' -> NoDup (pressed_keys c').
Proof.
  intros Hk. destruct ev; cbn [step key_down key_up].
  - destruct (keyboard mods key) as [[k m]|]; [|intros [= <-]; exact Hk].
    intros H. rewrite (proj1 (handle_keyboard_frame _ _ _ _ _ _ H)). apply oset_add_NoDup, Hk.
  - destruct (special_keyboard mods key) as [[k m]|]; [|intros [= <-]; exact Hk].
    intros H. rewrite (proj1 (handle_keyboard_frame _ _ _ _ _ _ H)). apply oset_add_NoDup, Hk.
  - intros [= <-]. destruct (keyboard_up key); [apply oset_discard_NoDup, Hk | exact Hk].
  - intros [= <-]. destruct (special_keyboard_up key); [apply oset_discard_NoDup, Hk | exact Hk].
  - intros [= <-]. exact Hk.
  - intros H. unfold handle_wheel in H. apply obind_done in H as (c2 & H2 & H). injection H as <-.
    destruct (execute_command_frame _ _ _ _ H2) as (K & _). cbn. rewrite K. exact Hk.
  - unfold ctl_handle_motion. intros H. apply obind_done in H as (c2 & H2 & H). injection H as <-.
    apply lift_scene_done in H2 as (s & _ & ->). exact Hk.
  - intros [= <-]. unfold reshape. destruct (renderer_reshape _ _ _ _ _ _ _). exact Hk.
  - intros H. destruct (display_keeps _ _ _ _ _ H) as (_ & _ & K & _). rewrite K. exact Hk.
Qed.

(** ** Properties of the controller *)

(** C16. The controller keeps its invariant through every callback: in
    every state reachable from the scene of [init.create_scene] (camera
    settings within the documented ranges) by GLUT events that return, an
    object of the store is flagged selected exactly when it is the scene's
    selected figure (so at most one is), the scene names only objects of
    the store, the camera's field of view, aspect and clip planes are
    within their ranges, and the pressed keys are an ordered set of
    distinct keys. *)
Theorem reachable_ctl_inv cfg cs ws c :
  persp_ok (camera_create cs) -> reachable cfg cs ws c ->
  (sel_inv (scene c) /\ scene_wf (scene c) /\ persp_ok (camera (scene c))) /\ NoDup (pressed_keys c).
Proof.
  intros Hp Hr. induction Hr as [s Hs | env ev c c' _ [IH IK] Hstep].
  - split; [exact (create_scene_inv cs s Hs Hp) | constructor].
  - split; [exact (step_inv cfg env ev c c' IH Hstep) | exact (step_keys_nodup cfg env ev c c' IK Hstep)].
Qed.

Lemma reachable_ctl_inv_witness :
  let cs := {| default_position := [0; 0; 5]; default_target := [0; 0; 0];
               default_up_vector := [0; 1; 0]; default_pitch := 0; default_yaw := -90;
               default_fovy := 45; default_aspect := 1.77; default_z_near := 0.1;
               default_z_far := 100 |} in
  let ws := {| ws_width := 800; ws_height := 600; ws_ascii_height := 20; ws_ascii_chars := " .:#"%string;
                              ws_scenes_folder := "scenes/"%string; ws_title := "Scene"%string;
                              ws_fov := 45; ws_z_near := 1; ws_z_far := 50 |} in
  let cfg := {| shortcuts := []; action_keys := [("a", "translate_left")%string]; print_settings := Some (Some "Scene"%string, Some ""%string) |} in
  let env := {| win_width := 800;
                view := {| window_height := 600; view_proj := fun p => Some (vx p, vy p) |}; front_initial := [] |} in
  exists c, persp_ok (camera_create cs) /\ reachable cfg cs ws c /\
    ((sel_inv (scene c) /\ scene_wf (scene c) /\ persp_ok (camera (scene c))) /\ NoDup (pressed_keys c)).
Proof.
  intros cs ws cfg env.
  assert (Hp : persp_ok (camera_create cs)) by (unfold persp_ok; simpl; lra).
  assert (Hs : exists s, create_scene cs = Ok s) by (eexists; reflexivity).
  destruct Hs as [s Hs].
  assert (Hr : reachable cfg cs ws (ctl_handle_mouse env RightButton GlutDown 10 20 (controller_init ws s))).
  { apply (reachable_step cfg cs ws env (EvMouse RightButton GlutDown 10 20) (controller_init ws s));
      [apply reachable_init, Hs | reflexivity]. }
  eexists. split; [exact Hp|]. split; [exact Hr|]. exact (reachable_ctl_inv cfg cs ws _ Hp Hr).
Defined.

(** C17. The movement commands route on the selection: a name of
    [action_values] bound to a translation or a rotation transforms the
    object of the selected figure in place, and only it, leaving the camera
    alone; with nothing selected it runs the camera method, leaves the
    figures alone, and an exception of the camera propagates (no redraw is
    requested). *)
Theorem move_commands_route env name x y z f g c :
  (dict_get name action_values = Some (TranslateA x y z) /\ f = translate x y z /\
   g = camera_translate x y z) \/
  (dict_get name action_values = Some (RotateA x y z) /\ f = rotate x y z /\ g = camera_rotate x y) ->
  (forall i d, selected_figure (scene c) = Some i -> nth_error (store (scene c)) i = Some d ->
     exists c', execute_command env name c = Done c' /\
       store (scene c') = list_set (store (scene c)) i (f d) /\
       camera (scene c') = camera (scene c) /\ selected_figure (scene c') = Some i) /\
  (selected_figure (scene c) = None ->
     match g (camera (scene c)) with
     | Done cam => exists c', execute_command env name c = Done c' /\
                     store (scene c') = store (scene c) /\ camera (scene c') = cam
     | Raised cam e => exists c', execute_command env name c = Raised c' e /\
                     store (scene c') = store (scene c) /\ camera (scene c') = cam
     end).
Proof.
  intros H. assert (E : execute_command env name c =
    match figure_or_camera f g (scene c) with
    | Done s => Done (emit [PostRedisplay] (with_scene c s))
    | Raised s e => Raised (with_scene c s) e
    end).
  { destruct H as [(Hn & -> & ->) | (Hn & -> & ->)]; apply (execute_move env name _ _ _ c Hn); reflexivity. }
  rewrite E. unfold figure_or_camera. split.
  - intros i d Hi Hd. rewrite Hi. eexists. split; [reflexivity|]. simpl.
    rewrite (update_obj_some _ _ _ _ Hd). auto.
  - intros Hn. rewrite Hn. destruct (g (camera (scene c))); simpl; eauto.
Qed.

Lemma move_commands_route_witness :
  let c := controller_init {| ws_width := 800; ws_height := 600; ws_ascii_height := 20;
                              ws_ascii_chars := " .:#"%string;
                              ws_scenes_folder := "scenes/"%string; ws_title := "Scene"%string;
                              ws_fov := 45; ws_z_near := 1; ws_z_far := 50 |}
             (new_scene (camera_create_default [0; 0; 5] [0; 0; 0] [0; 1; 0])) in
  let env := {| win_width := 800;
                view := {| window_height := 600; view_proj := fun p => Some (vx p, vy p) |}; front_initial := [] |} in
  ((dict_get "translate_left" action_values = Some (TranslateA (-0.5) 0 0) /\
    translate (-0.5) 0 0 = translate (-0.5) 0 0 /\ camera_translate (-0.5) 0 0 = camera_translate (-0.5) 0 0) \/
   (dict_get "translate_left" action_values = Some (RotateA (-0.5) 0 0) /\
    translate (-0.5) 0 0 = rotate (-0.5) 0 0 /\ camera_translate (-0.5) 0 0 = camera_rotate (-0.5) 0)) /\
  selected_figure (scene c) = None /\
  match camera_translate (-0.5) 0 0 (camera (scene c)) with
  | Done cam => exists c', execute_command env "translate_left" c = Done c' /\
                  store (scene c') = store (scene c) /\ camera (scene c') = cam
  | Raised cam e => exists c', execute_command env "translate_left" c = Raised c' e /\
                  store (scene c') = store (scene c) /\ camera (scene c') = cam
  end.
Proof.
  intros c env.
  assert (H : (dict_get "translate_left" action_values = Some (TranslateA (-0.5) 0 0) /\
    translate (-0.5) 0 0 = translate (-0.5) 0 0 /\ camera_translate (-0.5) 0 0 = camera_translate (-0.5) 0 0) \/
   (dict_get "translate_left" action_values = Some (RotateA (-0.5) 0 0) /\
    translate (-0.5) 0 0 = rotate (-0.5) 0 0 /\ camera_translate (-0.5) 0 0 = camera_rotate (-0.5) 0))
    by (left; split; [reflexivity | split; reflexivity]).
  split; [exact H|]. split; [reflexivity|].
  apply (proj2 (move_commands_route env "translate_left" (-0.5) 0 0 _ _ c H)). reflexivity.
Defined.

(** C18. The Escape, Ctrl-C and space keys stay pressed for good: the
    key-down handler records them under their [keys_map] names (["esc"],
    ["ctrl+c"], ["enter"]) while the key-up handler discards the raw
    character, so after pressing and releasing Escape the pressed set still
    holds ["esc"], and every later key press runs its action again.  A
    special key is mapped on both sides and is released. *)
Theorem escape_key_stays_pressed cfg env c c1 c2 :
  pressed_keys c = [] ->
  step cfg env (EvKeyboard 0 (Some ESC_STR)) c = Done c1 ->
  step cfg env (EvKeyboardUp (Some ESC_STR)) c1 = Done c2 ->
  pressed_keys c2 = ["esc"%string] /\
  (forall c3 c4, step cfg env (EvSpecial 0 GLUT_KEY_LEFT) c = Done c3 ->
     step cfg env (EvSpecialUp GLUT_KEY_LEFT) c3 = Done c4 -> pressed_keys c4 = []).
Proof.
  intros H0 H1 H2. split.
  - apply handle_keyboard_frame in H1 as [K1 _]. injection H2 as <-. simpl.
    rewrite K1, H0. reflexivity.
  - intros c3 c4 H3 H4. apply handle_keyboard_frame in H3 as [K3 _]. injection H4 as <-. simpl.
    rewrite K3, H0. reflexivity.
Qed.

Lemma escape_key_stays_pressed_witness :
  let cfg := {| shortcuts := []; action_keys := []; print_settings := Some (Some "Scene"%string, Some ""%string) |} in
  let env := {| win_width := 800;
                view := {| window_height := 600; view_proj := fun p => Some (vx p, vy p) |}; front_initial := [] |} in
  let c := controller_init {| ws_width := 800; ws_height := 600; ws_ascii_height := 20;
                              ws_ascii_chars := " .:#"%string;
                              ws_scenes_folder := "scenes/"%string; ws_title := "Scene"%string;
                              ws_fov := 45; ws_z_near := 1; ws_z_far := 50 |}
             (new_scene (camera_create_default [0; 0; 5] [0; 0; 0] [0; 1; 0])) in
  exists c1 c2, pressed_keys c = [] /\
    step cfg env (EvKeyboard 0 (Some ESC_STR)) c = Done c1 /\
    step cfg env (EvKeyboardUp (Some ESC_STR)) c1 = Done c2 /\
    (pressed_keys c2 = ["esc"%string] /\
     (forall c3 c4, step cfg env (EvSpecial 0 GLUT_KEY_LEFT) c = Done c3 ->
        step cfg env (EvSpecialUp GLUT_KEY_LEFT) c3 = Done c4 -> pressed_keys c4 = [])).
Proof.
  intros cfg env c. do 2 eexists.
  split; [reflexivity|]. split; [reflexivity|]. split; [reflexivity|].
  eapply (escape_key_stays_pressed cfg env c); reflexivity.
Defined.

(** C19. Reshaping below the floor: for a window of height [h] under 70
    the renderer raises its height to 70, forces the window to 70 and sets
    a viewport of height 70, but the projection is set with the aspect
    [w / h] that [Controller.reshape] computed from the requested height,
    not with [w / 70]. *)
Theorem reshape_aspect_before_floor c w h :
  (0 < w)%Z -> (0 < h < 70)%Z ->
  r_height (rend (reshape w h c)) = 70%Z /\
  gl_out (reshape w h c) =
    gl_out c ++ [ReshapeWindow w 70; Viewport w 70;
                 Perspective (fovy (camera (scene c))) (IZR w / IZR h)
                             (z_near (camera (scene c))) (z_far (camera (scene c)))] /\
  IZR w / IZR h <> IZR w / 70.
Proof.
  intros Hw Hh. unfold reshape, renderer_reshape.
  replace (h <? 70)%Z with true by (symmetry; apply Z.ltb_lt; lia).
  replace (negb (w =? 0)%Z && negb (h =? 0)%Z) with true
    by (symmetry; apply andb_true_iff; split; apply negb_true_iff, Z.eqb_neq; lia).
  split; [reflexivity|]. split; [reflexivity|].
  assert (0 < IZR w) by (apply IZR_lt; lia).
  assert (0 < IZR h < 70) by (split; apply IZR_lt; lia).
  apply Rgt_not_eq. unfold Rdiv. apply Rmult_lt_compat_l; [lra|].
  apply Rinv_lt_contravar; nra.
Qed.

Lemma reshape_aspect_before_floor_witness :
  let c := controller_init {| ws_width := 800; ws_height := 600; ws_ascii_height := 20;
                              ws_ascii_chars := " .:#"%string;
                              ws_scenes_folder := "scenes/"%string; ws_title := "Scene"%string;
                              ws_fov := 45; ws_z_near := 1; ws_z_far := 50 |}
             (new_scene (camera_create_default [0; 0; 5] [0; 0; 0] [0; 1; 0])) in
  (0 < 800)%Z /\ (0 < 10 < 70)%Z /\
  (r_height (rend (reshape 800 10 c)) = 70%Z /\
   gl_out (reshape 800 10 c) =
     gl_out c ++ [ReshapeWindow 800 70; Viewport 800 70;
                  Perspective (fovy (camera (scene c))) (IZR 800 / IZR 10)
                              (z_near (camera (scene c))) (z_far (camera (scene c)))] /\
   IZR 800 / IZR 10 <> IZR 800 / 70).
Proof.
  intros c. split; [lia|]. split; [lia|]. apply reshape_aspect_before_floor; lia.
Defined.

(** The mouse wheel zooms and never raises: a positive direction runs
    [zoom_up] (field of view [- 5]), any other [zoom_down] ([+ 5]), clamped
    to [[10, 170]]; the figures are untouched, the projection is reset with
    the new field of view and the window's aspect, and three redraws are
    requested (by [reset_perspective], [execute_command] and
    [handle_wheel]). *)
Theorem wheel_zoom env dir c :
  let cam' := update_fovy (if (0 <? dir)%Z then -5 else 5) (camera (scene c)) in
  exists c', handle_wheel env dir c = Done c' /\
    scene c' = with_camera (scene c) cam' /\
    fovy cam' = py_clamp 10 170 (fovy (camera (scene c)) + (if (0 <? dir)%Z then -5 else 5)) /\
    pressed_keys c' = pressed_keys c /\
    gl_out c' = gl_out c ++ [Perspective (fovy cam')
                               (IZR (win_width env) / IZR (Z.max (window_height (view env)) 1))
                               (z_near cam') (z_far cam'); PostRedisplay; PostRedisplay; PostRedisplay].
Proof.
  intros cam'. unfold handle_wheel, execute_command.
  destruct (0 <? dir)%Z; (eexists; split; [reflexivity|]);
    (split; [reflexivity|]); (split; [reflexivity|]); (split; [reflexivity|]);
    simpl; rewrite <- !app_assoc; reflexivity.
Qed.

(** C20. Every callback that changes the scene requests a redraw as its
    last command: whenever an event returns with a scene different from
    the one it started with, the commands it issued end with
    [glutPostRedisplay()]. *)
Theorem scene_change_requests_redraw cfg env ev c c' :
  step cfg env ev c = Done c' -> scene c' <> scene c ->
  exists l, gl_out c' = gl_out c ++ l ++ [PostRedisplay].
Proof.
  intros H Hne. destruct ev; simpl in H.
  - destruct (keyboard mods key) as [[k m]|]; simpl in H;
      [exact (proj2 (handle_keyboard_frame _ _ _ _ _ _ H)) | injection H as <-; congruence].
  - destruct (special_keyboard mods key) as [[k m]|]; simpl in H;
      [exact (proj2 (handle_keyboard_frame _ _ _ _ _ _ H)) | injection H as <-; congruence].
  - injection H as <-. destruct (keyboard_up key); simpl in Hne; congruence.
  - injection H as <-. destruct (special_keyboard_up key); simpl in Hne; congruence.
  - injection H as <-. exists []. reflexivity.
  - unfold handle_wheel in H. apply obind_done in H as (c2 & H2 & H). injection H as <-.
    destruct (execute_command_frame _ _ _ _ H2) as (_ & _ & _ & _ & l & G).
    exists l. simpl. rewrite G, app_assoc. reflexivity.
  - unfold ctl_handle_motion in H. apply obind_done in H as (c2 & H2 & H). injection H as <-.
    apply lift_scene_done in H2 as (s & _ & ->). exists []. reflexivity.
  - injection H as <-. unfold reshape in Hne.
    destruct (renderer_reshape _ _ _ _ _ _ _). simpl in Hne. congruence.
  - destruct (display_keeps _ _ _ _ _ H) as (Hs & _). congruence.
Qed.

Lemma scene_change_requests_redraw_witness :
  let cfg := {| shortcuts := []; action_keys := []; print_settings := Some (Some "Scene"%string, Some ""%string) |} in
  let env := {| win_width := 800;
                view := {| window_height := 600; view_proj := fun p => Some (vx p, vy p) |}; front_initial := [] |} in
  let c := controller_init {| ws_width := 800; ws_height := 600; ws_ascii_height := 20;
                              ws_ascii_chars := " .:#"%string;
                              ws_scenes_folder := "scenes/"%string; ws_title := "Scene"%string;
                              ws_fov := 45; ws_z_near := 1; ws_z_far := 50 |}
             (new_scene (camera_create_default [0; 0; 5] [0; 0; 0] [0; 1; 0])) in
  exists c', step cfg env (EvMouse RightButton GlutDown 10 20) c = Done c' /\ scene c' <> scene c /\
    exists l, gl_out c' = gl_out c ++ l ++ [PostRedisplay].
Proof.
  intros cfg env c. eexists.
  assert (H : step cfg env (EvMouse RightButton GlutDown 10 20) c =
              Done (ctl_handle_mouse env RightButton GlutDown 10 20 c)) by reflexivity.
  assert (Hne : scene (ctl_handle_mouse env RightButton GlutDown 10 20 c) <> scene c)
    by (intros E; apply (f_equal is_rotating) in E; discriminate).
  split; [exact H|]. split; [exact Hne|]. exact (scene_change_requests_redraw cfg env _ c _ H Hne).
Defined.

(** ** Saving the scene on exit *)

(** The [exit] command of [action_values]: [stop_scene], then the redraw
    request of [execute_command]. *)
Lemma execute_exit env c :
  execute_command env "exit" c = (c' <~ stop_scene c ;; Done (emit [PostRedisplay] c')).
Proof. reflexivity. Qed.

(** [display] when the draw, the capture and the print succeed, with the
    state it returns written out. *)
Lemma display_eq cfg env rows c t sc ti af :
  scene_draw (scene c) (gl_out c ++ [Clear; LoadIdentity]) = Done (scene c, t) ->
  render_to_ascii (ascii_chars (rend c)) (shown_frame env c) = Ok sc ->
  print_settings cfg = Some (Some ti, Some af) ->
  display cfg env rows c =
    Done (with_printed (emit [SwapBuffers] (with_front (with_screen (with_out (with_scene c (scene c)) t) (Some sc)) (Some rows)))
                       (printed c ++ [(ti ++ String NL (sc ++ String NL af))%string])).
Proof. intros Hd Hr Hp. unfold display, renderer_display. rewrite Hd, Hr. cbn [obind]. unfold print_screen. rewrite Hp. reflexivity. Qed.

(** [Scene.draw] on a scene without figures only sets the camera. *)
Lemma scene_draw_no_figures s t args :
  scene_figures s = [] -> look_at_args (camera s) = Ok args -> scene_draw s t = Done (s, t ++ [LookAt args]).
Proof. intros Hf Ha. unfold scene_draw, apply_transformations. rewrite Ha, Hf. reflexivity. Qed.

(** [stop_scene] with a file name and a screen whose stripped text is
    [plain]. *)
Lemma stop_scene_save c f sc plain :
  file_name c = Some f -> str_truthy f = true -> last_screen c = Some sc ->
  get_scene_plain (S (String.length sc)) sc = Some plain ->
  stop_scene c = if String.eqb plain "" then Raised (emit [LeaveMainLoop] c) (ValueError "No scene to save")
                 else Done (with_files (emit [LeaveMainLoop] c) (scene_files c ++ [((scenes_folder c ++ f)%string, plain)])).
Proof.
  intros Hf Ht Hs Hp. unfold stop_scene, save_scene. cbn [file_name last_screen scene_files scenes_folder emit with_out].
  rewrite Hf, Ht, Hs, Hp. reflexivity.
Qed.

(** C21. Leaving a scene window saves, without its colours, the frame
    drawn by the display BEFORE the last one: [render_to_ascii] reads the
    front buffer before [glutSwapBuffers], so after two displays that
    draw [rows1] then [rows2] (with a ramp holding no line break), the
    [exit] command (with a file name set from the menu) leaves the main
    loop, writes to [scenes_folder + file_name] exactly the plain glyph
    text of [rows1], and requests a redraw. *)
Theorem display_then_exit_saves cfg env1 env2 env rows1 rows2 c c1 c2 f plain :
  ~ In NL (list_ascii_of_string (ascii_chars (rend c))) ->
  display cfg env1 rows1 c = Done c1 -> display cfg env2 rows2 c1 = Done c2 ->
  file_name c = Some f -> str_truthy f = true ->
  render_plain (ascii_chars (rend c)) rows1 = Ok plain -> plain <> ""%string ->
  execute_command env "exit" c2 =
    Done (emit [PostRedisplay] (with_files (emit [LeaveMainLoop] c2)
                                           (scene_files c ++ [((scenes_folder c ++ f)%string, plain)]))).
Proof.
  intros Hnl Hd1 Hd2 Hf Ht Hp Hne.
  destruct (display_keeps _ _ _ _ _ Hd1) as (_ & Er & _ & _ & Ef & Ed & Efs & Hfb & _).
  destruct (display_keeps _ _ _ _ _ Hd2) as (_ & _ & _ & _ & Ef' & Ed' & Efs' & _ & sc & Hr & Hs).
  unfold shown_frame in Hr. rewrite Hfb, Er in Hr.
  destruct (render_strip_plain _ _ _ Hnl Hr) as (plain' & Hp' & Hg). rewrite Hp in Hp'. injection Hp' as <-.
  rewrite execute_exit, (stop_scene_save c2 f sc plain) by (congruence || assumption).
  apply String.eqb_neq in Hne. rewrite Hne, Ed', Efs', Ed, Efs. reflexivity.
Qed.

(** C22. The console shows each frame one display late: when two displays
    return normally, the screen the second one prints (between the
    [print_settings] title and footer) is the rendering of the frame the
    first one drew, since [render_to_ascii] reads the front buffer before
    [glutSwapBuffers] brings the new frame forward. *)
Theorem display_prints_previous_frame cfg env1 env2 rows1 rows2 c c1 c2 ti af :
  print_settings cfg = Some (Some ti, Some af) ->
  display cfg env1 rows1 c = Done c1 -> display cfg env2 rows2 c1 = Done c2 ->
  exists screen, render_to_ascii (ascii_chars (rend c)) rows1 = Ok screen /\ last_screen c2 = Some screen /\
    printed c2 = printed c1 ++ [(ti ++ String NL (screen ++ String NL af))%string].
Proof.
  intros Hp Hd1 Hd2.
  destruct (display_keeps _ _ _ _ _ Hd1) as (_ & Er & _ & _ & _ & _ & _ & Hfb & _).
  destruct (display_printed _ _ _ _ _ _ _ Hp Hd2) as (sc & Hr & Hs & Hpr).
  unfold shown_frame in Hr. rewrite Hfb, Er in Hr. exists sc. auto.
Qed.

(** C24. [exit] before the first frame fails where the code means to
    report that there is no scene: with a file name set and no screen yet,
    [save_scene] calls [None.split] and raises [AttributeError] instead of
    its [ValueError("No scene to save")]; nothing is written, and in a
    scene window the exception ends the program. *)
Theorem exit_before_first_frame env c f :
  file_name c = Some f -> str_truthy f = true -> last_screen c = None ->
  execute_command env "exit" c = Raised (emit [LeaveMainLoop] c) AttributeError.
Proof.
  intros Hf Ht Hs. rewrite execute_exit. unfold stop_scene, save_scene.
  cbn [file_name last_screen emit with_out]. rewrite Hf, Ht, Hs. reflexivity.
Qed.

(** ** Sample inputs of the save *)

Definition sample_ws : window_settings :=
  {| ws_width := 800; ws_height := 600; ws_ascii_height := 20; ws_ascii_chars := " .:#"%string;
     ws_scenes_folder := "scenes/"%string; ws_title := "Ascii 3D"%string;
     ws_fov := 45; ws_z_near := 1; ws_z_far := 50 |}.

Definition sample_cs : camera_settings :=
  {| default_position := [0; 0; 5]%R; default_target := [0; 0; 0]%R; default_up_vector := [0; 1; 0]%R;
     default_pitch := 0; default_yaw := -90; default_fovy := 45; default_aspect := 1.77;
     default_z_near := 0.1; default_z_far := 100 |}.

Definition sample_env : glut_env :=
  {| win_width := 800; view := {| window_height := 600; view_proj := fun p => Some (vx p, vy p) |}; front_initial := [] |}.

(** Settings whose [print_settings] section has a title. *)
Definition sample_settings : settings :=
  {| shortcuts := []; action_keys := []; print_settings := Some (Some "Ascii 3D", Some "")%string |}.

Definition sample_rows : list (list (Z * (Z * Z * Z))) :=
  [[(128, (1, 2, 3)); (0, (0, 0, 0))]; [(255, (255, 255, 255)); (64, (9, 9, 9))]]%Z.

(** The controller of [init.main] on an empty scene, with the file name
    option 2 of the console menu sets for ["shot"]. *)
Definition sample_named_ctl : ControllerState :=
  set_file_name "shot.txt" (controller_init sample_ws (new_scene (camera_create sample_cs))).

(** A second frame, all dark. *)
Definition sample_rows2 : frame := [[(0, (0, 0, 0)); (0, (0, 0, 0))]]%Z.

(** Two displays of the sample controller, drawing [sample_rows] and then
    [sample_rows2], both return normally. *)
Lemma sample_displays :
  exists c1 c2, display sample_settings sample_env sample_rows sample_named_ctl = Done c1 /\
    display sample_settings sample_env sample_rows2 c1 = Done c2.
Proof.
  assert (Ha : exists args, look_at_args (camera (scene sample_named_ctl)) = Ok args) by (eexists; reflexivity).
  destruct Ha as [args Ha].
  assert (Hr1 : render_to_ascii " .:#" [] = Ok ""%string) by reflexivity.
  assert (Hr2 : exists sc, render_to_ascii " .:#" sample_rows = Ok sc) by (eexists; vm_compute; reflexivity).
  destruct Hr2 as [sc Hr2].
  pose proof (display_eq sample_settings sample_env sample_rows sample_named_ctl _ _ _ _
                (scene_draw_no_figures (scene sample_named_ctl) _ _ eq_refl Ha) Hr1 eq_refl) as Hd.
  match type of Hd with _ = Done ?x => set (c1 := x) in Hd end.
  pose proof (display_eq sample_settings sample_env sample_rows2 c1 _ _ _ _
                (scene_draw_no_figures (scene c1) _ _ eq_refl Ha) Hr2 eq_refl) as Hd2.
  exists c1. eexists. split; [exact Hd | exact Hd2].
Qed.

Lemma display_then_exit_saves_witness :
  exists c1 c2, ~ In NL (list_ascii_of_string (ascii_chars (rend sample_named_ctl))) /\
    display sample_settings sample_env sample_rows sample_named_ctl = Done c1 /\
    display sample_settings sample_env sample_rows2 c1 = Done c2 /\
    file_name sample_named_ctl = Some "shot.txt"%string /\ str_truthy "shot.txt" = true /\
    render_plain (ascii_chars (rend sample_named_ctl)) sample_rows = Ok ("# " ++ String NL ". ")%string /\
    ("# " ++ String NL ". ")%string <> ""%string /\
    execute_command sample_env "exit" c2 =
      Done (emit [PostRedisplay] (with_files (emit [LeaveMainLoop] c2)
              [("scenes/shot.txt", "# " ++ String NL ". ")%string])).
Proof.
  destruct sample_displays as (c1 & c2 & Hd & Hd2).
  assert (Hnl : ~ In NL (list_ascii_of_string (ascii_chars (rend sample_named_ctl))))
    by (simpl; intuition discriminate).
  assert (Hp : render_plain (ascii_chars (rend sample_named_ctl)) sample_rows = Ok ("# " ++ String NL ". ")%string)
    by (vm_compute; reflexivity).
  assert (Hne : ("# " ++ String NL ". ")%string <> ""%string) by discriminate.
  exists c1, c2. split; [exact Hnl|]. split; [exact Hd|]. split; [exact Hd2|]. split; [reflexivity|].
  split; [reflexivity|]. split; [exact Hp|]. split; [exact Hne|].
  exact (display_then_exit_saves sample_settings sample_env sample_env sample_env sample_rows sample_rows2 sample_named_ctl c1 c2
           "shot.txt" _ Hnl Hd Hd2 eq_refl eq_refl Hp Hne).
Defined.

Lemma display_prints_previous_frame_witness :
  exists c1 c2, print_settings sample_settings = Some (Some "Ascii 3D"%string, Some ""%string) /\
    display sample_settings sample_env sample_rows sample_named_ctl = Done c1 /\
    display sample_settings sample_env sample_rows2 c1 = Done c2 /\
    exists screen, render_to_ascii (ascii_chars (rend sample_named_ctl)) sample_rows = Ok screen /\
      last_screen c2 = Some screen /\
      printed c2 = printed c1 ++ [("Ascii 3D" ++ String NL (screen ++ String NL ""))%string].
Proof.
  destruct sample_displays as (c1 & c2 & Hd & Hd2).
  exists c1, c2. split; [reflexivity|]. split; [exact Hd|]. split; [exact Hd2|].
  exact (display_prints_previous_frame sample_settings sample_env sample_env sample_rows sample_rows2
           sample_named_ctl c1 c2 _ _ eq_refl Hd Hd2).
Defined.

Lemma exit_before_first_frame_witness :
  file_name sample_named_ctl = Some "shot.txt"%string /\ str_truthy "shot.txt" = true /\
  last_screen sample_named_ctl = None /\
  execute_command sample_env "exit" sample_named_ctl =
    Raised (emit [LeaveMainLoop] sample_named_ctl) AttributeError.
Proof.
  split; [reflexivity|]. split; [reflexivity|]. split; [reflexivity|].
  exact (exit_before_first_frame sample_env sample_named_ctl "shot.txt" eq_refl eq_refl eq_refl).
Defined.
