(* ===== verification/Session.v ===== *)
(** * Session: the lab5 console menu and the life of a scene window

    [ui/Ascii3DMenu.py] is the console front end of lab5 ([init.main]
    shows it): option 1 opens the scene window ([make_scene]), option 2
    sets the name of the file the scene is saved to ([save_scene]),
    option 3 sets the number of text rows ([set_height]); ["0"], ["Exit"]
    and ["exit"] leave.  The window runs [Controller.make_scene]:
    [glut_init] creates it, [add_handlers] routes the GLUT events to the
    controller ([Controller.step]) and [glutMainLoop] delivers them until a
    callback calls [glutLeaveMainLoop] (the [exit] action, which also saves
    the stripped screen when a file name is set).

    The menu and the inputs come from [shared] (not in the repository):
    [MenuBuilder.show] reads a choice, runs the handler of its key, warns
    on an unknown key and stops on a stop key; [BoolInput], [StringInput]
    and [NumberBetweenInput] return the value the user gave, within the
    bounds they are asked for.  A session is the list of the user's turns:
    a choice with the answers the prompts of its handler would get.

    Two facts of the libraries are modelled as they are: an exception that
    escapes a GLUT callback ends the program (PyOpenGL's callback wrapper
    prints it and exits the process), and whether [glutMainLoop] returns to
    the menu after [glutLeaveMainLoop] is the parameter [loop_returns]
    (freeglut's [GLUT_ACTION_ON_WINDOW_CLOSE], which the program never
    sets; by default freeglut ends the process there). *)

From S2P Require Import Prelude Vec3 Figure Camera Picking Scene Ascii Keyboard Draw Controller.

Local Open Scope Z_scope.

(** ** The window: [glut_init], [add_handlers], [glutMainLoop] *)

(** How [glutMainLoop] ended on the events given: a callback left the
    loop, the events ran out with the window still open, a callback raised
    (the process exits) or a call never returned. *)
Inductive loop_end : Type :=
| LoopLeft
| LoopOpen
| LoopCrashed (e : py_error)
| LoopHung.

(** [glutLeaveMainLoop] was called during a callback: the trace [t'] after
    it extends the trace [t] before it with that call. *)
Definition is_leave (cmd : gl_cmd) : bool :=
  match cmd with LeaveMainLoop => true | _ => false end.

Definition left_loop (t t' : list gl_cmd) : bool :=
  existsb is_leave (skipn (length t) t').

(** The answers a turn of the menu gives to the prompts of its handler:
    [BoolInput] (file not set, save anyway?), the GLUT events of the
    window, [StringInput] (the file name) and [NumberBetweenInput] (the
    height). *)
Inductive num_input : Type :=
| NumInt (n : Z)
| NumFloat (f : PrimFloat.float)
| NumOther.

Record prompts : Type := {
  yes_no : bool;
  glut_events : list (glut_env * event);
  name_input : string;
  height_input : num_input
}.

(** The handlers of the menu ([Ascii3DMenu.__menu_build]). *)
Inductive menu_option : Type := MakeSceneOpt | SaveSceneOpt | SetHeightOpt.

Definition menu_options : list (string * menu_option) :=
  [("1", MakeSceneOpt); ("2", SaveSceneOpt); ("3", SetHeightOpt)]%string.

Definition menu_stop_options : list string := ["0"; "Exit"; "exit"]%string.

(** What a handler does to the session: the menu goes on, or the program
    ends (the scene window left the process, an exception escaped, a call
    never returned) or the user is still in the window. *)
Inductive turn_result : Type :=
| Continue (c : ControllerState)
| Stop (c : ControllerState) (how : loop_end).

(** How the menu loop ended: a stop key, the end of the program in a
    handler, or the user's turns ran out with the menu waiting. *)
Inductive session_end : Type :=
| ByStopKey
| ByHandler (how : loop_end)
| Waiting.

Section Session.

Variable cfg : settings.
Variable ws : window_settings.
Variable loop_returns : bool.

(** [Controller.glut_init]: the window is created with the size and title
    of the settings, then the projection is set with [width / height]
    (true division, which raises on a zero height; [reshape] guards it),
    then the depth and stencil tests.  The new window's front buffer has
    shown no frame yet. *)
Definition glut_init (c : ControllerState) : outcome ControllerState :=
  let c := with_front (emit [CreateWindow (ws_width ws) (ws_height ws) (ws_title ws)] c) None in
  if Z.eqb (ws_height ws) 0 then Raised c ZeroDivisionError
  else Done (emit [Perspective (ws_fov ws) (IZR (ws_width ws) / IZR (ws_height ws))%R
                               (ws_z_near ws) (ws_z_far ws); EnableDepthStencil] c).

(** [glutMainLoop] over the events the user generates, each delivered to
    the controller by the callbacks of [add_handlers]. *)
Fixpoint main_loop (events : list (glut_env * event)) (c : ControllerState) :
  ControllerState * loop_end :=
  match events with
  | [] => (c, LoopOpen)
  | (env, ev) :: rest =>
    match step cfg env ev c with
    | Raised c' e => (c', LoopCrashed e)
    | Done c' =>
      if hung c' then (c', LoopHung)
      else if left_loop (gl_out c) (gl_out c') then (c', LoopLeft)
      else main_loop rest c'
    end
  end.

(** [Controller.make_scene]: [glut_init], [add_handlers], [glutMainLoop]. *)
Definition ctl_make_scene (events : list (glut_env * event)) (c : ControllerState) :
  ControllerState * loop_end :=
  match glut_init c with
  | Raised c' e => (c', LoopCrashed e)
  | Done c' => main_loop events (emit [RegisterCallbacks] c')
  end.

(** [Ascii3DMenu.make_scene]: without a file name the user is asked
    whether to save; answering yes goes back to the menu (to set one),
    answering no opens the window without saving; with one, the menu
    prints where the scene will be saved. *)
Definition menu_make_scene (answer : bool) (events : list (glut_env * event)) (c : ControllerState) :
  turn_result :=
  let named := match file_name c with Some f => str_truthy f | None => false end in
  if negb named && answer then Continue c
  else
    let c := match file_name c with
             | Some f => if named then with_printed c (printed c ++ [("Will save your scene in " ++ f)%string]) else c
             | None => c
             end in
    match ctl_make_scene events c with
       | (c', LoopLeft) => if loop_returns then Continue c' else Stop c' LoopLeft
       | (c', how) => Stop c' how
       end.

(** [Ascii3DMenu.save_scene]: the name typed (1 to 30 characters) with
    [".txt"] appended. *)
Definition menu_save_scene (name : string) (c : ControllerState) : ControllerState :=
  set_file_name (name ++ ".txt")%string c.

(** [int(input)] of [Ascii3DMenu.set_height], [None] when it raises. *)
Definition py_int_input (v : num_input) : option Z :=
  match v with
  | NumInt n => Some n
  | NumFloat f => if PrimFloat.is_finite f then Some (py_int f) else None
  | NumOther => None
  end.

(** [Ascii3DMenu.set_height]: a value that [int] rejects is ignored. *)
Definition menu_set_height (v : num_input) (c : ControllerState) : ControllerState :=
  match py_int_input v with
  | Some n => ctl_set_height n c
  | None => c
  end.

(** One handler of the menu. *)
Definition menu_handle (opt : menu_option) (p : prompts) (c : ControllerState) : turn_result :=
  match opt with
  | MakeSceneOpt => menu_make_scene (yes_no p) (glut_events p) c
  | SaveSceneOpt => Continue (menu_save_scene (name_input p) c)
  | SetHeightOpt => Continue (menu_set_height (height_input p) c)
  end.

(** [MenuBuilder.show] over the user's turns. *)
Fixpoint menu_show (turns : list (string * prompts)) (c : ControllerState) : ControllerState * session_end :=
  match turns with
  | [] => (c, Waiting)
  | (choice, p) :: rest =>
    if existsb (String.eqb choice) menu_stop_options then (c, ByStopKey)
    else match dict_get choice menu_options with
         | None => menu_show rest c
         | Some opt =>
           match menu_handle opt p c with
           | Continue c' => menu_show rest c'
           | Stop c' how => (c', ByHandler how)
           end
         end
  end.

(** The controllers of a running session: the one [init.main] builds on
    the scene of [init.create_scene], then every handler that returns to
    the menu. *)
Inductive session_reachable (cs : camera_settings) : ControllerState -> Prop :=
| session_init s : create_scene cs = Ok s -> session_reachable cs (controller_init ws s)
| session_turn c opt p c' :
    session_reachable cs c -> menu_handle opt p c = Continue c' -> session_reachable cs c'.

End Session.

(** ** The settings height and the renderer's height *)

(** The [ascii_height] of the settings file is the renderer's. *)
Definition heights_agree (c : ControllerState) : Prop :=
  settings_ascii_height c = ascii_height (rend c).

(** No GLUT callback changes either height. *)
Lemma step_heights cfg env ev c c' :
  step cfg env ev c = Done c' ->
  settings_ascii_height c' = settings_ascii_height c /\ ascii_height (rend c') = ascii_height (rend c).
Proof.
  assert (Hkb : forall k m, handle_keyboard cfg env k m c = Done c' ->
            settings_ascii_height c' = settings_ascii_height c /\ ascii_height (rend c') = ascii_height (rend c)).
  { intros k m H. unfold handle_keyboard, handle_actions in H. apply obind_done in H as (c2 & H2 & H).
    injection H as <-. destruct (handle_actions_loop_frame _ _ _ _ _ _ H2) as (_ & R & _ & S & _).
    cbn in R, S |- *. rewrite R, S. split; reflexivity. }
  destruct ev; cbn [step key_down key_up].
  - destruct (keyboard mods key) as [[k m]|]; [apply Hkb | intros [= <-]; split; reflexivity].
  - destruct (special_keyboard mods key) as [[k m]|]; [apply Hkb | intros [= <-]; split; reflexivity].
  - intros [= <-]. destruct (keyboard_up key); split; reflexivity.
  - intros [= <-]. destruct (special_keyboard_up key); split; reflexivity.
  - intros [= <-]. split; reflexivity.
  - unfold handle_wheel. intros H. apply obind_done in H as (c2 & H2 & H). injection H as <-.
    destruct (execute_command_frame _ _ _ _ H2) as (_ & R & _ & S & _). cbn. rewrite R, S. split; reflexivity.
  - unfold ctl_handle_motion. intros H. apply obind_done in H as (c2 & H2 & H). injection H as <-.
    destruct (handle_motion x y (scene c)); cbn in H2; [injection H2 as <-; split; reflexivity | discriminate].
  - intros [= <-]. unfold reshape. cbn zeta.
    destruct (renderer_reshape _ _ _ _ _ _ _) as [rd cmds] eqn:E. unfold renderer_reshape in E.
    destruct (h <? 70); injection E as <- _; split; reflexivity.
  - intros H. destruct (display_keeps _ _ _ _ _ H) as (_ & R & _ & S & _). rewrite R, S. split; reflexivity.
Qed.

Lemma heights_agree_step cfg env ev c c' :
  heights_agree c -> step cfg env ev c = Done c' -> heights_agree c'.
Proof. unfold heights_agree. intros Hc H. destruct (step_heights _ _ _ _ _ H) as [-> ->]. exact Hc. Qed.

Lemma heights_agree_emit cmds c : heights_agree c -> heights_agree (emit cmds c).
Proof. exact (fun H => H). Qed.

Lemma heights_agree_front f c : heights_agree c -> heights_agree (with_front c f).
Proof. exact (fun H => H). Qed.

#[export] Hint Resolve heights_agree_step heights_agree_emit heights_agree_front : scene.

Lemma main_loop_heights cfg events c c' how :
  heights_agree c -> main_loop cfg events c = (c', how) -> how = LoopLeft -> heights_agree c'.
Proof.
  revert c. induction events as [|[env ev] rest IH]; intros c Hc; cbn [main_loop]; [congruence|].
  destruct (step cfg env ev c) as [c1|c1 e] eqn:E; [|congruence].
  pose proof (heights_agree_step _ _ _ _ _ Hc E) as H1.
  destruct (hung c1); [congruence|]. destruct (left_loop _ _); [congruence|]. apply IH, H1.
Qed.

Lemma ctl_make_scene_heights cfg ws events c c' :
  heights_agree c -> ctl_make_scene cfg ws events c = (c', LoopLeft) -> heights_agree c'.
Proof.
  unfold ctl_make_scene, glut_init. intros Hc.
  destruct (Z.eqb (ws_height ws) 0); [congruence|].
  intros H. exact (main_loop_heights _ _ _ _ _
    (heights_agree_emit _ _ (heights_agree_emit _ _ (heights_agree_front None _ (heights_agree_emit _ _ Hc)))) H eq_refl).
Qed.

Lemma menu_handle_heights cfg ws lr opt p c c' :
  heights_agree c -> menu_handle cfg ws lr opt p c = Continue c' -> heights_agree c'.
Proof.
  intros Hc. destruct opt; cbn [menu_handle].
  - unfold menu_make_scene. destruct (_ && _); [intros [= <-]; exact Hc|].
    match goal with |- context [ctl_make_scene _ _ _ ?c0] =>
      assert (H0 : heights_agree c0) by (destruct (file_name c) as [f|]; try destruct (str_truthy f); exact Hc);
      destruct (ctl_make_scene cfg ws (glut_events p) c0) as [c1 []] eqn:E; try discriminate
    end.
    destruct lr; [|discriminate]. intros [= <-]. exact (ctl_make_scene_heights _ _ _ _ _ H0 E).
  - intros [= <-]. exact Hc.
  - intros [= <-]. unfold menu_set_height. destruct (py_int_input _); [reflexivity | exact Hc].
Qed.

(** ** Properties of the session *)

(** C23. The settings file and the renderer agree on the number of text
    rows in every controller of a running session: [init.main] builds the
    renderer from the settings, [set_height] from the menu writes the new
    height to both, and no GLUT callback of a scene window changes either
    (by induction on the turns of the menu). *)
Theorem session_heights_agree cfg ws lr cs c :
  session_reachable cfg ws lr cs c -> settings_ascii_height c = ascii_height (rend c).
Proof.
  induction 1 as [s _ | c opt p c' _ IH H]; [reflexivity|].
  exact (menu_handle_heights _ _ _ _ _ _ _ IH H).
Qed.

(** C25. [glut_init] divides by the window height of the settings without
    the guard [reshape] has: with a height of 0 the window is created and
    [make_scene] raises [ZeroDivisionError] before any event, while a
    reshape to height 0 uses the aspect 1.5 and forces the height to 70. *)
Theorem make_scene_zero_height cfg ws events c w :
  ws_height ws = 0 ->
  ctl_make_scene cfg ws events c =
    (with_front (emit [CreateWindow (ws_width ws) 0 (ws_title ws)] c) None, LoopCrashed ZeroDivisionError) /\
  gl_out (reshape w 0 c) =
    gl_out c ++ [ReshapeWindow w 70; Viewport w 70;
                 Perspective (fovy (camera (scene c))) 1.5 (z_near (camera (scene c))) (z_far (camera (scene c)))].
Proof.
  intros H0. split.
  - unfold ctl_make_scene, glut_init. rewrite H0. reflexivity.
  - unfold reshape. rewrite Z.eqb_refl, andb_false_r. reflexivity.
Qed.

(** ** Sample inputs *)

Definition sample_cfg : settings := {| shortcuts := []; action_keys := [("q", "exit")]%string; print_settings := Some (Some "Scene", Some "")%string |}.

Lemma session_heights_agree_witness :
  exists c, session_reachable sample_cfg sample_ws true sample_cs c /\
    settings_ascii_height c = 7 /\ settings_ascii_height c = ascii_height (rend c).
Proof.
  assert (Hs : exists s, create_scene sample_cs = Ok s) by (eexists; reflexivity). destruct Hs as [s Hs].
  set (p := {| yes_no := false; glut_events := []; name_input := ""; height_input := NumInt 7 |}).
  assert (Hr : session_reachable sample_cfg sample_ws true sample_cs
                 (ctl_set_height 7 (controller_init sample_ws s))).
  { apply (session_turn _ _ _ _ (controller_init sample_ws s) SetHeightOpt p);
      [apply session_init, Hs | reflexivity]. }
  eexists. split; [exact Hr|]. split; [reflexivity|].
  exact (session_heights_agree _ _ _ _ _ Hr).
Defined.

Lemma make_scene_zero_height_witness :
  let ws0 := {| ws_width := 800; ws_height := 0; ws_ascii_height := 20; ws_ascii_chars := " .:#"%string;
                ws_scenes_folder := "scenes/"%string; ws_title := "Ascii 3D"%string;
                ws_fov := 45; ws_z_near := 1; ws_z_far := 50 |} in
  ws_height ws0 = 0 /\
  ctl_make_scene sample_cfg ws0 [] sample_named_ctl =
    (with_front (emit [CreateWindow 800 0 "Ascii 3D"] sample_named_ctl) None, LoopCrashed ZeroDivisionError).
Proof.
  intros ws0. split; [reflexivity|].
  exact (proj1 (make_scene_zero_height sample_cfg ws0 [] sample_named_ctl 800 eq_refl)).
Defined.
