(* ===== verification/Font.v ===== *)
(** * Font: [labs/lab4/bll/base_font.py]

    The ASCII-art font of lab 4 is one dict display: the cell size
    ([height] rows of [width] characters), a name, a line-breaking flag and
    [symbols], a dict from a character to its glyph, a list of [height]
    strings drawn with ['@'] and spaces.  The display is modelled as it is
    written: the six blocks below are its entries in source order, and
    [base_font_symbols] evaluates the display with Python's rule for
    repeated keys ([dict_display]).  Characters are UTF-8 strings; the rows
    are ASCII, so [String.length] of a row is Python's [len].

    Nothing in the repository checks the glyphs against the declared cell
    size; [glyph_ok] states that contract and the theorem below lists the
    glyphs that break it. *)

From Stdlib Require Import Ascii.
From S2P Require Import Prelude.

Record font : Type := {
  font_height : nat;
  font_width : nat;
  font_name : string;
  is_breaks_lines : bool;
  symbols : list (string * list string)
}.

(** The glyphs of the digits (lines 7-76 of the display). *)
Definition font_digits : list (string * list string) :=
  [("0", [" @@@@@"; "@   @ "; "@ @ @ "; "@   @ "; " @@@  "]);
   ("1", ["  @@@@"; " @@   "; "  @   "; "  @   "; "@@@@  "]);
   ("2", [" @@@@@"; "@   @ "; "  @@  "; " @    "; "@@@@@ "]);
   ("3", ["@@@@@@"; "   @  "; " @@@  "; "   @  "; "@@@@  "]);
   ("4", ["@  @@ "; "@  @  "; "@@@@  "; "   @  "; "   @  "]);
   ("5", ["@@@@@@"; "@     "; "@@@@  "; "   @  "; "@@@@  "]);
   ("6", [" @@@@@"; "@     "; "@@@@  "; "@   @ "; " @@@  "]);
   ("7", ["@@@@@@"; "   @  "; " @@@@ "; "  @   "; " @    "]);
   ("8", [" @@@@@"; "@   @ "; " @@@  "; "@   @ "; " @@@  "]);
   ("9", [" @@@@@"; "@   @ "; " @@@  "; "   @  "; " @@@  "])]%string.

(** The glyphs of the Latin letters a to m (lines 77-167 of the display). *)
Definition font_latin_a_m : list (string * list string) :=
  [("a", ["  @@@@"; " @ @  "; "@@@@@ "; "@   @ "; "@   @ "]);
   ("b", ["@@@@@@"; "@   @ "; "@@@@  "; "@   @ "; "@@@@  "]);
   ("c", [" @@@@@"; "@     "; "@     "; "@     "; " @@@  "]);
   ("d", ["@@@@@@"; "@   @ "; "@   @ "; "@   @ "; "@@@@  "]);
   ("e", ["@@@@@@"; "@     "; "@@@@  "; "@     "; "@@@@@ "]);
   ("f", ["@@@@@@"; "@     "; "@@@@  "; "@     "; "@     "]);
   ("g", [" @@@@@"; "@     "; "@  @@ "; "@   @ "; " @@@  "]);
   ("h", ["@   @@"; "@   @ "; "@@@@@ "; "@   @ "; "@   @ "]);
   ("i", [" @@@@@"; "  @   "; "  @   "; "  @   "; " @@@  "]);
   ("j", [" @@@@@"; "  @   "; "  @   "; "  @   "; "@@    "]);
   ("k", ["@   @@"; "@  @  "; "@@    "; "@  @  "; "@   @ "]);
   ("l", ["@@    "; "@     "; "@     "; "@     "; "@@@@@ "]);
   ("m", ["@   @@"; "@@ @@ "; "@ @ @ "; "@   @ "; "@   @ "])]%string.

(** The glyphs of the Latin letters n to z (lines 168-258 of the display). *)
Definition font_latin_n_z : list (string * list string) :=
  [("n", ["@   @@"; "@@  @ "; "@ @ @ "; "@  @@ "; "@   @ "]);
   ("o", [" @@@@@"; "@   @ "; "@   @ "; "@   @ "; " @@@  "]);
   ("p", ["@@@@@@"; "@   @ "; "@@@@  "; "@     "; "@     "]);
   ("q", [" @@@@@"; "@   @ "; "@   @ "; "@@@@@ "; "     @"]);
   ("r", ["@@@@@@"; "@   @ "; "@@@@  "; "@  @  "; "@   @ "]);
   ("s", [" @@@@@"; "@     "; " @@@  "; "    @ "; "@@@@  "]);
   ("t", ["@@@@@@"; "  @   "; "  @   "; "  @   "; "  @   "]);
   ("u", ["@   @@"; "@   @ "; "@   @ "; "@   @ "; " @@@  "]);
   ("v", ["@   @@"; "@   @ "; " @ @  "; " @ @  "; "  @   "]);
   ("w", ["@   @@"; "@   @ "; "@ @ @ "; "@@ @@ "; "@   @ "]);
   ("x", ["@   @@"; " @ @  "; "  @   "; " @ @  "; "@   @ "]);
   ("y", ["@   @@"; " @ @  "; "  @   "; "  @   "; "  @   "]);
   ("z", ["@@@@@@"; "   @  "; "  @   "; " @    "; "@@@@@ "])]%string.

(** The glyphs of the Ukrainian letters а to і (lines 259-342 of the display). *)
Definition font_cyrillic_a_i : list (string * list string) :=
  [("а", ["  @@@@"; " @  @ "; "@@@@@ "; "@   @ "; "@   @ "]);
   ("б", ["@@@@@@"; "@     "; "@@@@  "; "@   @ "; "@@@@  "]);
   ("в", ["@@@@@@"; "@   @ "; "@@@@  "; "@   @ "; "@@@@  "]);
   ("г", ["@@@@@@"; "@     "; "@     "; "@     "; "@     "]);
   ("ґ", ["@@@@@@"; "@     "; "@     "; "@     "; "@     "]);
   ("д", [" @@@@@"; " @ @  "; " @ @  "; "@@@@@ "; "@   @ "]);
   ("е", [" @@@@@"; "@   @ "; "@@@@@ "; "@     "; " @@@  "]);
   ("є", [" @@@@@"; "@     "; "@@@@  "; "@     "; " @@@  "]);
   ("ж", ["@ @ @@"; " @@@  "; "  @   "; " @@@  "; "@ @ @ "]);
   ("з", [" @@@@@"; "    @ "; "  @@  "; "    @ "; " @@@  "]);
   ("и", ["@   @@"; "@  @@ "; "@ @ @ "; "@   @ "; "@   @ "]);
   ("і", ["  @@@"; "      "; "  @   "; "  @   "; "  @   "])]%string.

(** The glyphs of the Ukrainian letters ї to ь (lines 343-475 of the display). *)
Definition font_cyrillic_yi_soft : list (string * list string) :=
  [("ї", ["  @ @"; "      "; "  @   "; "  @   "; "  @   "]);
   ("й", [" @@@@@"; "      "; "@ @@  "; "@@ @  "; "@  @  "]);
   ("к", ["@   @@"; "@  @  "; "@@    "; "@  @  "; "@   @ "]);
   ("л", ["   @@@"; "  @@  "; " @ @  "; "@  @  "; "@  @  "]);
   ("м", ["@   @@"; "@@ @@ "; "@ @ @ "; "@   @ "; "@   @ "]);
   ("н", ["@   @@"; "@   @ "; "@@@@@ "; "@   @ "; "@   @ "]);
   ("о", [" @@@@@"; "@   @ "; "@   @ "; "@   @ "; " @@@  "]);
   ("п", ["@@@@@@"; "@   @ "; "@   @ "; "@   @ "; "@   @ "]);
   ("р", ["@@@@@@"; "@   @ "; "@@@@  "; "@     "; "@     "]);
   ("с", [" @@@@@"; "@     "; "@     "; "@     "; " @@@  "]);
   ("т", ["@@@@@@"; "  @   "; "  @   "; "  @   "; "  @   "]);
   ("у", ["@   @@"; "@   @ "; " @ @  "; "  @   "; " @    "]);
   ("ф", [" @@@@@"; "@ @ @ "; " @@@  "; "  @   "; "  @   "]);
   ("х", ["@   @@"; " @ @  "; "  @   "; " @ @  "; "@   @ "]);
   ("ц", ["@  @@@"; "@  @  "; "@  @  "; "@@@@  "; "    @ "]);
   ("ч", ["@   @@"; "@   @ "; "@@@@@ "; "    @ "; "    @ "]);
   ("ш", ["@ @ @@"; "@ @ @ "; "@ @ @ "; "@ @ @ "; "@@@@@ "]);
   ("щ", ["@ @ @@"; "@ @ @ "; "@ @ @ "; "@@@@@ "; "    @ "]);
   ("ь", ["@     "; "@     "; "@@@@@ "; "@  @  "; "@@@   "])]%string.

(** The glyphs of space and punctuation (lines 476-552 of the display). *)
Definition font_punctuation : list (string * list string) :=
  [(" ", ["      "; "      "; "      "; "      "; "      "]);
   (".", ["      "; "      "; "      "; "  @   "; "  @   "]);
   (",", ["      "; "      "; "      "; "  @   "; " @    "]);
   ("!", ["  @   "; "  @   "; "  @   "; "      "; "  @   "]);
   ("?", [" @@@@ "; "    @ "; "  @@  "; "      "; "  @   "]);
   (":", ["      "; "  @   "; "      "; "  @   "; "      "]);
   (";", ["      "; "  @   "; "      "; "  @   "; " @    "]);
   ("-", ["      "; "      "; " @@@  "; "      "; "      "]);
   ("_", ["      "; "      "; "      "; "      "; " @@@@ "]);
   ("(", ["   @  "; "  @   "; "  @   "; "  @   "; "   @  "]);
   (")", ["  @   "; "   @  "; "   @  "; "   @  "; "  @   "])]%string.
(** The [symbols] dict of the display. *)
Definition base_font_symbols : list (string * list string) :=
  dict_display String.eqb
    (font_digits ++ font_latin_a_m ++ font_latin_n_z ++ font_cyrillic_a_i ++
     font_cyrillic_yi_soft ++ font_punctuation).

(** [base_font]. *)
Definition base_font : font :=
  {| font_height := 5; font_width := 6; font_name := "cap_font"%string; is_breaks_lines := true;
     symbols := base_font_symbols |}.

(** The contract of a glyph: [height] rows of exactly [width] characters,
    each ['@'] or a space. *)
Definition pixel_char (c : ascii) : bool :=
  Ascii.eqb c "@"%char || Ascii.eqb c " "%char.

Definition glyph_ok (fnt : font) (rows : list string) : bool :=
  Nat.eqb (length rows) (font_height fnt) &&
  forallb (fun r => Nat.eqb (String.length r) (font_width fnt) &&
                    forallb pixel_char (list_ascii_of_string r)) rows.

(** The characters whose glyph breaks the contract, in dict order. *)
Definition malformed_glyphs (fnt : font) : list string :=
  map fst (filter (fun kv => negb (glyph_ok fnt (snd kv))) (symbols fnt)).

(** ** Properties of the font *)

(** The font's glyphs do not all fit its declared cell: of the 78
    characters of [symbols] (no key of the display repeats), every glyph is
    5 rows of 6 characters drawn with ['@'] and spaces except those of the
    Ukrainian letters [і] and [ї], whose first row has 5 characters. *)
Theorem base_font_malformed_glyphs :
  length (symbols base_font) = 78%nat /\
  malformed_glyphs base_font = ["і"; "ї"]%string /\
  option_map (fun rows => map String.length rows) (dict_lookup String.eqb "і"%string (symbols base_font)) =
    Some [5; 6; 6; 6; 6]%nat /\
  option_map (fun rows => map String.length rows) (dict_lookup String.eqb "ї"%string (symbols base_font)) =
    Some [5; 6; 6; 6; 6]%nat.
Proof. vm_compute. repeat split. Qed.
