(* ===== verification/Json.v ===== *)
(** * Json: the values of the lab7 client and the Python operations on them

    The lab7 client ([src/src/labs/lab7]) keeps everything it reads (the
    settings files, the user settings, the history, the responses of the
    books API) as the Python objects [json] builds: [None], booleans,
    numbers, strings, lists and dicts.  [jvalue] is that type; a dict is an
    association list in insertion order.  Numbers are integers: the fields
    the client reads are strings, lists of strings and integer counts.

    This file also holds the Python operations the client applies to these
    values and to strings: truth, [str()] and [repr()], [d.get(k, dflt)],
    [d[k]], iteration, [str.split], [str.startswith], [str.endswith],
    [str.replace], [", ".join] and list slicing with negative bounds. *)

From S2P Require Import Prelude.
From Stdlib Require Import Ascii DecimalString.

Local Open Scope Z_scope.
Local Open Scope string_scope.

(** ** JSON values *)

Inductive jvalue : Type :=
| JNull
| JBool (b : bool)
| JInt (n : Z)
| JStr (s : string)
| JList (l : list jvalue)
| JObj (l : list (string * jvalue)).

(** An induction principle that sees the values inside lists and dicts. *)
Definition jvalue_ind' (P : jvalue -> Prop)
  (fnull : P JNull) (fbool : forall b, P (JBool b)) (fint : forall n, P (JInt n))
  (fstr : forall s, P (JStr s))
  (flist : forall l, Forall P l -> P (JList l))
  (fobj : forall l, Forall (fun kv => P (snd kv)) l -> P (JObj l)) : forall v, P v :=
  fix F (v : jvalue) : P v :=
    match v with
    | JNull => fnull
    | JBool b => fbool b
    | JInt n => fint n
    | JStr s => fstr s
    | JList l => flist l ((fix G (l : list jvalue) : Forall P l :=
                            match l with
                            | [] => Forall_nil _
                            | x :: t => Forall_cons _ (F x) (G t)
                            end) l)
    | JObj l => fobj l ((fix G (l : list (string * jvalue)) : Forall (fun kv => P (snd kv)) l :=
                          match l with
                          | [] => Forall_nil _
                          | kv :: t => Forall_cons _ (F (snd kv)) (G t)
                          end) l)
    end.

(** ** Truth, [str] and [repr] *)

Definition py_truthy (v : jvalue) : bool :=
  match v with
  | JNull => false
  | JBool b => b
  | JInt n => negb (Z.eqb n 0)
  | JStr s => negb (String.eqb s "")
  | JList l => negb (Nat.eqb (length l) 0)
  | JObj l => negb (Nat.eqb (length l) 0)
  end.

(** The decimal text of an integer ([str(n)]). *)
Definition z_dec (n : Z) : string := NilEmpty.string_of_int (Z.to_int n).

Definition hex_digit (n : nat) : ascii :=
  if Nat.ltb n 10 then ascii_of_nat (48 + n) else ascii_of_nat (87 + n).

(** One character inside [repr(s)] quoted with [q]. *)
Definition repr_char (q : ascii) (c : ascii) : string :=
  let n := nat_of_ascii c in
  if Ascii.eqb c q then String "\"%char (String c EmptyString)
  else if Ascii.eqb c "\"%char then "\\"
  else if Nat.eqb n 9 then "\t"
  else if Nat.eqb n 10 then "\n"
  else if Nat.eqb n 13 then "\r"
  else if Nat.ltb n 32 || Nat.eqb n 127 then
    String "\"%char (String "x"%char (String (hex_digit (n / 16)) (String (hex_digit (n mod 16)) EmptyString)))
  else String c EmptyString.

Definition DQUOTE : ascii := ascii_of_nat 34.

Fixpoint str_has (c : ascii) (s : string) : bool :=
  match s with
  | EmptyString => false
  | String a t => Ascii.eqb a c || str_has c t
  end.

(** [repr(s)]: single quotes unless the text holds a single quote and no
    double quote. *)
Definition repr_str (s : string) : string :=
  let q := if str_has "'"%char s && negb (str_has DQUOTE s) then DQUOTE else "'"%char in
  String q (String.concat "" (map (repr_char q) (list_ascii_of_string s)) ++ String q EmptyString).

Fixpoint py_repr (v : jvalue) : string :=
  match v with
  | JNull => "None"
  | JBool true => "True"
  | JBool false => "False"
  | JInt n => z_dec n
  | JStr s => repr_str s
  | JList l => "[" ++ String.concat ", " (map py_repr l) ++ "]"
  | JObj l => "{" ++ String.concat ", " (map (fun kv => repr_str (fst kv) ++ ": " ++ py_repr (snd kv)) l)
              ++ "}"
  end.

(** [str(v)]: the text itself for a string, [repr] otherwise. *)
Definition py_str (v : jvalue) : string :=
  match v with
  | JStr s => s
  | _ => py_repr v
  end.

(** ** Dicts and iteration *)

(** [d.get(k, dflt)]: only a dict has [get]. *)
Definition jget (d : jvalue) (k : string) (dflt : jvalue) : result jvalue :=
  match d with
  | JObj l => Ok (match dict_lookup String.eqb k l with Some v => v | None => dflt end)
  | _ => Err AttributeError
  end.

(** [d[k]] with a string key. *)
Definition jindex (d : jvalue) (k : string) : result jvalue :=
  match d with
  | JObj l => match dict_lookup String.eqb k l with Some v => Ok v | None => Err (KeyError k) end
  | JNull => Err (TypeError "'NoneType' object is not subscriptable")
  | JBool _ => Err (TypeError "'bool' object is not subscriptable")
  | JInt _ => Err (TypeError "'int' object is not subscriptable")
  | _ => Err (TypeError "indices must be integers or slices, not str")
  end.

(** [d[k] = v] on a dict. *)
Definition jstore (k : string) (v : jvalue) (d : list (string * jvalue)) : list (string * jvalue) :=
  dict_store String.eqb k v d.

Lemma jstore_lookup_eq k v d : dict_lookup String.eqb k (jstore k v d) = Some v.
Proof.
  unfold jstore. induction d as [|[k' v'] t IH]; simpl; [rewrite String.eqb_refl; reflexivity|].
  destruct (String.eqb_spec k k') as [<-|Hne]; simpl; [rewrite String.eqb_refl; reflexivity|].
  apply String.eqb_neq in Hne. rewrite Hne. exact IH.
Qed.

Lemma jstore_lookup_ne k k2 v d :
  k2 <> k -> dict_lookup String.eqb k2 (jstore k v d) = dict_lookup String.eqb k2 d.
Proof.
  intros Hne. unfold jstore. induction d as [|[k' v'] t IH]; simpl.
  - apply String.eqb_neq in Hne. rewrite Hne. reflexivity.
  - destruct (String.eqb_spec k k') as [<-|Hk]; simpl.
    + apply String.eqb_neq in Hne. rewrite Hne. reflexivity.
    + destruct (String.eqb k2 k'); [reflexivity|exact IH].
Qed.

(** [for x in v]: a list's elements, a dict's keys, a string's characters. *)
Definition py_iter (v : jvalue) : result (list jvalue) :=
  match v with
  | JList l => Ok l
  | JObj l => Ok (map (fun kv => JStr (fst kv)) l)
  | JStr s => Ok (map (fun c => JStr (String c EmptyString)) (list_ascii_of_string s))
  | JNull => Err (TypeError "'NoneType' object is not iterable")
  | JBool _ => Err (TypeError "'bool' object is not iterable")
  | JInt _ => Err (TypeError "'int' object is not iterable")
  end.

(** [sep.join(v)]: every element must be a string. *)
Definition py_join (sep : string) (v : jvalue) : result string :=
  l <- py_iter v ;;
  parts <- fold_right (fun x acc => match x, acc with
                                   | JStr s, Ok t => Ok (s :: t)
                                   | JStr _, Err e => Err e
                                   | _, _ => Err (TypeError "sequence item: expected str instance")
                                   end) (Ok []) l ;;
  Ok (String.concat sep parts).

(** ** Strings *)

Lemma append_nil_r (s : string) : s ++ "" = s.
Proof. induction s as [|c t IH]; simpl; [reflexivity|rewrite IH; reflexivity]. Qed.

Lemma append_assoc (a b c : string) : a ++ (b ++ c) = (a ++ b) ++ c.
Proof. induction a as [|x t IH]; simpl; [reflexivity|rewrite IH; reflexivity]. Qed.

(** [s.split(c)] for a one-character separator. *)
Fixpoint str_split (c : ascii) (s : string) : list string :=
  match s with
  | EmptyString => [""]
  | String a t =>
    let r := str_split c t in
    if Ascii.eqb a c then "" :: r
    else match r with
         | x :: r' => String a x :: r'
         | [] => [String a EmptyString]
         end
  end.

(** [s.startswith(p)] and [s.endswith(p)]. *)
Definition str_startswith (p s : string) : bool := String.prefix p s.

Definition str_endswith (p s : string) : bool :=
  let n := String.length s in
  let m := String.length p in
  Nat.leb m n && String.eqb (substring (n - m) m s) p.

(** [s.replace(old, new)] ([count = None]) and [s.replace(old, new, k)]
    ([count = Some k]), for a non-empty [old]: the occurrences are found
    left to right without overlap; [skip] counts the characters of an
    occurrence already replaced. *)
Fixpoint replace_aux (old new : string) (count : option nat) (skip : nat) (s : string) : string :=
  match s with
  | EmptyString => EmptyString
  | String a t =>
    match skip with
    | S k => replace_aux old new count k t
    | O =>
      if negb (match count with Some 0%nat => true | _ => false end) && String.prefix old s then
        new ++ replace_aux old new (option_map Nat.pred count) (String.length old - 1) t
      else String a (replace_aux old new count 0 t)
    end
  end.

Definition str_replace (old new : string) (count : option nat) (s : string) : string :=
  replace_aux old new count 0 s.

(** ** Lists *)

(** [l[start:stop]] with Python's treatment of negative and too large
    bounds. *)
Definition py_slice {A : Type} (l : list A) (start stop : Z) : list A :=
  let n := Z.of_nat (length l) in
  let norm i := if (i <? 0)%Z then Z.max 0%Z (i + n)%Z else Z.min i n in
  let a := norm start in
  let b := norm stop in
  firstn (Z.to_nat (b - a)%Z) (skipn (Z.to_nat a) l).

(** [d.get(k, dflt)] on a dict with string keys, for any key [k]: a list
    or a dict as key raises ([unhashable type]); a key that is not a string
    is never present. *)
Definition py_dict_get {V : Type} (d : list (string * V)) (k : jvalue) (dflt : V) : result V :=
  match k with
  | JStr s => Ok (match dict_lookup String.eqb s d with Some v => v | None => dflt end)
  | JList _ => Err (TypeError "unhashable type: 'list'")
  | JObj _ => Err (TypeError "unhashable type: 'dict'")
  | _ => Ok dflt
  end.

(** [d.get(k, dflt)] on a value with any key. *)
Definition jget_key (d : jvalue) (k : jvalue) (dflt : jvalue) : result jvalue :=
  match d with
  | JObj l => py_dict_get l k dflt
  | _ => Err AttributeError
  end.

(** ** Lemmas on strings *)

Lemma prefix_app (s t : string) : String.prefix s (s ++ t) = true.
Proof.
  induction s as [|c s IH]; simpl; [destruct t; reflexivity|].
  destruct (Ascii.ascii_dec c c) as [_|n]; [exact IH|contradiction].
Qed.

Lemma replace_aux_exhausted old new s : replace_aux old new (Some 0%nat) 0 s = s.
Proof. induction s as [|c t IH]; simpl; [reflexivity|rewrite IH; reflexivity]. Qed.

(** [("items." + p).replace("items.", "", 1)] is [p]. *)
Lemma replace_items_prefix (p : string) : str_replace "items." "" (Some 1%nat) ("items." ++ p) = p.
Proof.
  unfold str_replace. simpl. replace (String.prefix "" p) with true by (destruct p; reflexivity).
  apply replace_aux_exhausted.
Qed.

(** [sep.join(l)] of strings does not raise. *)
Lemma py_join_strings sep l : Forall (fun v => exists s, v = JStr s) l -> exists r, py_join sep (JList l) = Ok r.
Proof.
  intros H. unfold py_join. simpl.
  enough (exists ps, fold_right (fun x acc => match x, acc with
                                            | JStr s, Ok t => Ok (s :: t)
                                            | JStr _, Err e => Err e
                                            | _, _ => Err (TypeError "sequence item: expected str instance")
                                            end) (Ok []) l = Ok ps) as [ps ->] by (simpl; eauto).
  induction H as [|v l [s ->] _ [ps IH]]; simpl; [eauto|rewrite IH; eauto].
Qed.

Lemma py_slice_nil {A} (a b : Z) : py_slice (@nil A) a b = [].
Proof. unfold py_slice. cbn zeta. rewrite skipn_nil. apply firstn_nil. Qed.
