(* ===== verification/BookData.v ===== *)
(** * BookData: the data side of the lab7 client

    - [bll/InputParser.py]: [_get_nested_value], [_matches_query] and
      [parse_query], the regex filter on a dotted field path.  The regex
      engine is a parameter [re_search] ([re.search(pattern, text) is not
      None]); the client only passes patterns that [re.compile] accepted.
    - [bll/ItemExtraction.py]: [extract_data_items], the flat rows of the
      [items] of a response.
    - [bll/DataStyler.py]: the colorama codes, [apply_styles], [as_list],
      [as_table] (with [tabulate] as a parameter: only the rows handed to
      it are modelled) and [remove_styles], the regular expression
      [\x1B[@-_][0-?]*[ -/]*[@-~]] of [re.sub] written as a scanner
      defined by well-founded recursion on the length of the text. *)

From S2P Require Import Prelude Json.
From Stdlib Require Import Ascii.
From Equations Require Import Equations.

Local Open Scope nat_scope.
Local Open Scope string_scope.

(** ** [InputParser] *)

Section InputParser.

(** [re.search(pattern, text) is not None]. *)
Variable re_search : string -> string -> bool.

(** [InputParser._get_nested_value]: [data.get(field)] while [data] is a
    dict, [None] as soon as it is not. *)
Fixpoint get_nested_value (data : jvalue) (fields : list string) : jvalue :=
  match fields with
  | [] => data
  | f :: t =>
    match data with
    | JObj l => get_nested_value (match dict_lookup String.eqb f l with Some v => v | None => JNull end) t
    | _ => JNull
    end
  end.

(** [InputParser._matches_query]. *)
Definition matches_query (item : jvalue) (field_list : list string) (query : string) : bool :=
  re_search query (py_str (get_nested_value item field_list)).

(** [InputParser.parse_query]: [field.split(".")], then the items of
    [data] whose value at that path matches. *)
Definition ip_parse_query (data : jvalue) (field : jvalue) (query : string) : result jvalue :=
  match field with
  | JStr f =>
    let field_list := str_split "."%char f in
    items <- py_iter data ;;
    Ok (JList (filter (fun item => matches_query item field_list query) items))
  | _ => Err AttributeError
  end.

End InputParser.

(** ** [extract_data_items] *)

(** [value = value.get(key, "")] for every key of the path. *)
Definition walk_keys (item : jvalue) (keys : list string) : result jvalue :=
  rfold (fun v key => jget v key (JStr "")) keys item.

(** The path of a field without its leading ["items"]. *)
Definition path_keys (path : string) : list string :=
  match str_split "."%char path with
  | k :: t => if String.eqb k "items" then t else k :: t
  | [] => []
  end.

(** The value of one selected field in one item: [None] when the field has
    no path in [fields_dict] (the field is skipped). *)
Definition field_value (is_to_string : bool) (fields_dict item field : jvalue) :
  result (option (jvalue * jvalue)) :=
  field_path <- jget_key fields_dict field JNull ;;
  if py_truthy field_path then
    match field_path with
    | JStr p =>
      value <- walk_keys item (path_keys p) ;;
      Ok (Some (field, if is_to_string then JStr (py_str value) else value))
    | _ => Err AttributeError
    end
  else Ok None.

(** The row of one item: a list of the values, or a dict from the field
    names (strings: only a string is a key of [fields_dict]). *)
Definition extract_row (is_to_dict is_to_string : bool) (selected fields_dict item : jvalue) :
  result jvalue :=
  fields <- py_iter selected ;;
  entries <- rfold (fun r field => o <- field_value is_to_string fields_dict item field ;;
                      Ok (match o with Some e => (r ++ [e])%list | None => r end))
                   fields [] ;;
  Ok (if is_to_dict then JObj (dict_display String.eqb (map (fun e => (py_str (fst e), snd e)) entries))
      else JList (map snd entries)).

(** [extract_data_items(data, selected_fields, fields_dict, is_to_dict,
    is_to_string)]. *)
Definition extract_data_items (data selected fields_dict : jvalue) (is_to_dict is_to_string : bool) :
  result (list jvalue) :=
  items_v <- jget data "items" (JList []) ;;
  items <- py_iter items_v ;;
  rfold (fun rows item => row <- extract_row is_to_dict is_to_string selected fields_dict item ;;
                          Ok ((rows ++ [row])%list))
        items [].

(** ** [DataStyler] *)

Definition ANSI_ESC : ascii := ascii_of_nat 27.

(** An SGR escape [ANSI_ESC [ code m], as colorama's constants are. *)
Definition ansi (code : string) : string := String ANSI_ESC ("[" ++ code ++ "m").

Definition Fore_RED := ansi "31".
Definition Fore_GREEN := ansi "32".
Definition Fore_YELLOW := ansi "33".
Definition Fore_BLUE := ansi "34".
Definition Fore_MAGENTA := ansi "35".
Definition Fore_CYAN := ansi "36".
Definition Fore_WHITE := ansi "37".
Definition Fore_BLACK := ansi "30".
Definition Style_BRIGHT := ansi "1".
Definition Style_DIM := ansi "2".
Definition Style_NORMAL := ansi "22".
Definition Style_RESET_ALL := ansi "0".

Definition COLORAMA_FORE_COLORS : list (string * string) :=
  [("red", Fore_RED); ("blue", Fore_BLUE); ("green", Fore_GREEN); ("yellow", Fore_YELLOW);
   ("white", Fore_WHITE); ("magenta", Fore_MAGENTA); ("cyan", Fore_CYAN); ("black", Fore_BLACK)].

Definition TEXT_ATTRIBUTES : list (string * string) :=
  [("bold", Style_BRIGHT); ("dim", Style_DIM); ("normal", Style_NORMAL)].

Record DataStyler : Type := {
  fore_colors : list (string * string);
  text_attributes : list (string * string)
}.

(** [DataStyler.default()]. *)
Definition styler_default : DataStyler :=
  {| fore_colors := COLORAMA_FORE_COLORS; text_attributes := TEXT_ATTRIBUTES |}.

(** [DataStyler.get_available_fore_colors] and
    [get_available_text_attributes]: the names, in the dicts' order. *)
Definition get_available_fore_colors (st : DataStyler) : list string := map fst (fore_colors st).
Definition get_available_text_attributes (st : DataStyler) : list string := map fst (text_attributes st).

(** [DataStyler.apply_styles]. *)
Definition apply_styles (st : DataStyler) (field fields_looks : jvalue) : result string :=
  style <- jget_key fields_looks field (JObj []) ;;
  color <- jget style "color" (JStr "white") ;;
  fore_color <- py_dict_get (fore_colors st) color Fore_WHITE ;;
  font <- jget style "font" (JStr "normal") ;;
  font_style <- py_dict_get (text_attributes st) font Style_NORMAL ;;
  Ok (font_style ++ fore_color ++ py_str field ++ Style_RESET_ALL).

(** The line end of an f-string ["...\n"]. *)
Definition LF : string := String (ascii_of_nat 10) EmptyString.

(** [item[i]] on a row. *)
Definition row_index (row : jvalue) (i : nat) : result jvalue :=
  match row with
  | JList l => match nth_error l i with Some v => Ok v | None => Err IndexError end
  | _ => Err (TypeError "row is not a list")
  end.

(** A value as [as_list] prints it: a list joined by [", "], anything else
    through [str]. *)
Definition show_value (v : jvalue) : result string :=
  match v with
  | JList _ => py_join ", " v
  | _ => Ok (py_str v)
  end.

(** The lines of one item in [as_list], each field's title made by
    [title]. *)
Definition list_item (title : jvalue -> result string) (selected item : jvalue) : result string :=
  fields <- py_iter selected ;;
  rfold (fun s '(i, field) =>
           t <- title field ;;
           value <- row_index item i ;;
           shown <- show_value value ;;
           Ok (s ++ t ++ ": " ++ shown ++ LF))
        (combine (seq 0 (length fields)) fields) "".

(** The loop of [as_list] with the titles made by [title]. *)
Definition list_text (title : jvalue -> result string) (data selected fields_dict : jvalue) :
  result string :=
  items <- extract_data_items data selected fields_dict false false ;;
  rfold (fun s item => lines <- list_item title selected item ;; Ok (s ++ lines ++ LF)) items "".

(** [DataStyler.as_list]: the titles are [apply_styles(field,
    fields_looks)]. *)
Definition as_list (st : DataStyler) (data selected fields_looks fields_dict : jvalue) : result string :=
  list_text (fun field => apply_styles st field fields_looks) data selected fields_dict.

Section AsTable.

(** [tabulate(rows, headers, tablefmt="grid")]. *)
Variable tabulate : list (list jvalue) -> list string -> string.

(** A cell of [as_table]: a list joined by [", "], anything else as is. *)
Definition table_cell (v : jvalue) : result jvalue :=
  match v with
  | JList _ => s <- py_join ", " v ;; Ok (JStr s)
  | _ => Ok v
  end.

(** [DataStyler.as_table]. *)
Definition as_table (st : DataStyler) (data selected fields_looks fields_dict : jvalue) : result string :=
  items <- extract_data_items data selected fields_dict false false ;;
  fields <- py_iter selected ;;
  headers <- rfold (fun hs field => h <- apply_styles st field fields_looks ;; Ok ((hs ++ [h])%list))
                   fields [] ;;
  rows <- rfold (fun rs item => values <- py_iter item ;;
                   row <- rfold (fun r v => c <- table_cell v ;; Ok ((r ++ [c])%list)) values [] ;;
                   Ok ((rs ++ [row])%list)) items [] ;;
  Ok (tabulate rows headers).

End AsTable.

(** ** [DataStyler.remove_styles] *)

Definition in_range (lo hi : nat) (c : ascii) : bool :=
  Nat.leb lo (nat_of_ascii c) && Nat.leb (nat_of_ascii c) hi.

(** [[ -/]*[@-~]]: the rest of the text after the match. *)
Fixpoint csi_inter (s : string) : option string :=
  match s with
  | String c t => if in_range 32 47 c then csi_inter t else if in_range 64 126 c then Some t else None
  | EmptyString => None
  end.

(** [[0-?]*[ -/]*[@-~]].  The three classes are disjoint, so the greedy
    match is the only one and backtracking never finds another. *)
Fixpoint csi_params (s : string) : option string :=
  match s with
  | String c t => if in_range 48 63 c then csi_params t else csi_inter s
  | EmptyString => None
  end.

(** The pattern at a position holding [c] followed by [t]: the rest of the
    text after the match, if it matches. *)
Definition esc_match (c : ascii) (t : string) : option string :=
  if Ascii.eqb c ANSI_ESC then
    match t with
    | String d u => if in_range 64 95 d then csi_params u else None
    | EmptyString => None
    end
  else None.

Lemma csi_inter_len s r : csi_inter s = Some r -> String.length r < String.length s.
Proof.
  induction s as [|c t IH]; simpl; [discriminate|].
  destruct (in_range 32 47 c); [intros H; specialize (IH H); lia|].
  destruct (in_range _ _ c); [intros [= <-]; lia|discriminate].
Qed.

Lemma csi_params_len s r : csi_params s = Some r -> String.length r < String.length s.
Proof.
  induction s as [|c t IH]; intros H; [discriminate|]. cbn [csi_params] in H.
  destruct (in_range 48 63 c); [specialize (IH H); simpl; lia|]. exact (csi_inter_len _ _ H).
Qed.

Lemma esc_match_len c t r : esc_match c t = Some r -> String.length r < String.length t.
Proof.
  unfold esc_match. destruct (Ascii.eqb c ANSI_ESC), t as [|d u]; try discriminate.
  destruct (in_range 64 95 d); [|discriminate]. intros H; apply csi_params_len in H; simpl; lia.
Qed.

Definition inspect {A} (a : A) : {b | a = b} := exist _ a eq_refl.
Notation "x 'eqn' ':' p" := (exist _ x p) (only parsing, at level 20).

(** [re.sub(pattern, "", text)]: the matches are removed left to right;
    where the pattern does not match, one character is kept. *)
Equations? remove_styles (s : string) : string by wf (String.length s) lt :=
  remove_styles EmptyString := EmptyString;
  remove_styles (String c t) with inspect (esc_match c t) := {
    | Some r eqn:H => remove_styles r;
    | None eqn:_ => String c (remove_styles t) }.
Proof. all: simpl; try lia. apply esc_match_len in H. lia. Qed.

(** ** Lemmas on [remove_styles] *)

Lemma remove_styles_cons c t :
  remove_styles (String c t) =
  match esc_match c t with Some r => remove_styles r | None => String c (remove_styles t) end.
Proof. simp remove_styles. destruct (inspect (esc_match c t)) as [[r|] E]; simpl; rewrite E; reflexivity. Qed.

Lemma csi_inter_app s r b : csi_inter s = Some r -> csi_inter (s ++ b) = Some (r ++ b).
Proof.
  induction s as [|c t IH]; simpl; [discriminate|].
  destruct (in_range 32 47 c); [exact IH|]. destruct (in_range _ _ c); [intros [= <-]; reflexivity|discriminate].
Qed.

Lemma csi_params_app s r b : csi_params s = Some r -> csi_params (s ++ b) = Some (r ++ b).
Proof.
  induction s as [|c t IH]; intros H; [discriminate|]. cbn [csi_params append] in H |- *.
  destruct (in_range 48 63 c); [exact (IH H)|]. exact (csi_inter_app (String c t) r b H).
Qed.

Lemma esc_match_app c t r b : esc_match c t = Some r -> esc_match c (t ++ b) = Some (r ++ b).
Proof.
  unfold esc_match. destruct (Ascii.eqb c ANSI_ESC), t as [|d u]; try discriminate. simpl.
  destruct (in_range 64 95 d); [apply csi_params_app|discriminate].
Qed.

(** Text without an escape character is kept as it is. *)
Lemma remove_styles_clean_app a b :
  str_has ANSI_ESC a = false -> remove_styles (a ++ b) = a ++ remove_styles b.
Proof.
  induction a as [|c t IH]; intros H; [reflexivity|]. simpl in H. apply Bool.orb_false_iff in H as [Hc Ht].
  simpl. rewrite remove_styles_cons. unfold esc_match at 1. rewrite Hc, (IH Ht). reflexivity.
Qed.

(** A text that is exactly one match of the pattern. *)
Definition is_sgr (s : string) : bool :=
  match s with
  | String c t => match esc_match c t with Some EmptyString => true | _ => false end
  | EmptyString => false
  end.

(** A match at the front is removed. *)
Lemma remove_styles_sgr_app s b : is_sgr s = true -> remove_styles (s ++ b) = remove_styles b.
Proof.
  destruct s as [|c t]; [discriminate|]. simpl. destruct (esc_match c t) as [[|x r]|] eqn:E; try discriminate.
  intros _. rewrite remove_styles_cons, (esc_match_app c t "" b E). reflexivity.
Qed.

(** The texts on which [remove_styles] distributes over a following text:
    no match of the pattern straddles their end. *)
Definition rs_split (s : string) : Prop :=
  forall b, remove_styles (s ++ b) = remove_styles s ++ remove_styles b.

Lemma remove_styles_clean a : str_has ANSI_ESC a = false -> remove_styles a = a.
Proof.
  intros H. rewrite <- (append_nil_r a) at 1. rewrite (remove_styles_clean_app a "" H).
  simp remove_styles. apply append_nil_r.
Qed.

Lemma remove_styles_sgr s : is_sgr s = true -> remove_styles s = "".
Proof.
  intros H. rewrite <- (append_nil_r s). rewrite (remove_styles_sgr_app s "" H). simp remove_styles.
  reflexivity.
Qed.

Lemma rs_split_clean a : str_has ANSI_ESC a = false -> rs_split a.
Proof. intros H b. rewrite (remove_styles_clean_app a b H), (remove_styles_clean a H). reflexivity. Qed.

Lemma rs_split_sgr s : is_sgr s = true -> rs_split s.
Proof. intros H b. rewrite (remove_styles_sgr_app s b H), (remove_styles_sgr s H). reflexivity. Qed.

Lemma rs_split_app a b : rs_split a -> rs_split b -> rs_split (a ++ b).
Proof.
  intros Ha Hb x. rewrite <- append_assoc, Ha, Hb, Ha, append_assoc. reflexivity.
Qed.

Lemma str_has_app c a b : str_has c (a ++ b) = str_has c a || str_has c b.
Proof. induction a as [|x t IH]; simpl; [reflexivity|rewrite IH, Bool.orb_assoc; reflexivity]. Qed.

(** [s] is the styled form of the plain text [p]: when [p] holds no escape
    character, [remove_styles] gives [p] back from [s], and from [s]
    followed by anything. *)
Definition strips_to (s p : string) : Prop :=
  str_has ANSI_ESC p = false -> rs_split s /\ remove_styles s = p.

Lemma strips_to_refl p : strips_to p p.
Proof. intros H. split; [exact (rs_split_clean p H)|exact (remove_styles_clean p H)]. Qed.

Lemma strips_to_app s1 p1 s2 p2 : strips_to s1 p1 -> strips_to s2 p2 -> strips_to (s1 ++ s2) (p1 ++ p2).
Proof.
  intros H1 H2 H. rewrite str_has_app in H. apply Bool.orb_false_iff in H as [Hp1 Hp2].
  destruct (H1 Hp1) as [S1 R1], (H2 Hp2) as [S2 R2]. split; [exact (rs_split_app _ _ S1 S2)|].
  rewrite S1, R1, R2. reflexivity.
Qed.

Lemma strips_to_sgr s : is_sgr s = true -> strips_to s "".
Proof. intros H _. split; [exact (rs_split_sgr s H)|exact (remove_styles_sgr s H)]. Qed.

#[export] Hint Resolve strips_to_refl strips_to_app strips_to_sgr : scene.

Lemma dict_lookup_in {V} (k : string) (d : list (string * V)) v :
  dict_lookup String.eqb k d = Some v -> In v (map snd d).
Proof.
  induction d as [|[k' v'] t IH]; simpl; [discriminate|].
  destruct (String.eqb k k'); [intros [= ->]; left; reflexivity|intros H; right; exact (IH H)].
Qed.

(** [d.get(k, dflt)] gives one of the values of [d] or the default. *)
Lemma py_dict_get_forall {V} (P : V -> Prop) d k dflt v :
  Forall P (map snd d) -> P dflt -> py_dict_get d k dflt = Ok v -> P v.
Proof.
  intros Hd Hdf. destruct k as [| | |s| |]; simpl; try (intros [= <-]; exact Hdf); try discriminate.
  destruct (dict_lookup String.eqb s d) as [w|] eqn:E; intros [= <-]; [|exact Hdf].
  rewrite Forall_forall in Hd. exact (Hd w (dict_lookup_in s d w E)).
Qed.

(** Every colour and attribute of a styler is one SGR escape. *)
Definition styler_sgr (st : DataStyler) : Prop :=
  Forall (fun s => is_sgr s = true) (map snd (fore_colors st) ++ map snd (text_attributes st)).

Lemma styler_default_sgr : styler_sgr styler_default.
Proof. repeat constructor. Qed.

(** The title [apply_styles] makes is the styled form of the field's text. *)
Lemma apply_styles_strips st field looks s :
  styler_sgr st -> apply_styles st field looks = Ok s -> strips_to s (py_str field).
Proof.
  unfold styler_sgr. rewrite Forall_app. intros [Hf Ht] H. unfold apply_styles in H.
  apply bind_eq_ok in H as (style & _ & H). apply bind_eq_ok in H as (color & _ & H).
  apply bind_eq_ok in H as (fore & Hfore & H). apply bind_eq_ok in H as (font & _ & H).
  apply bind_eq_ok in H as (fs & Hfs & [= <-]).
  apply (py_dict_get_forall (fun s => is_sgr s = true) _ color Fore_WHITE fore Hf eq_refl) in Hfore.
  apply (py_dict_get_forall (fun s => is_sgr s = true) _ font Style_NORMAL fs Ht eq_refl) in Hfs.
  assert (E : py_str field = "" ++ ("" ++ (py_str field ++ ""))) by (simpl; symmetry; apply append_nil_r).
  rewrite E at 2.
  apply (strips_to_app _ ""); [exact (strips_to_sgr _ Hfs)|].
  apply (strips_to_app _ ""); [exact (strips_to_sgr _ Hfore)|].
  apply strips_to_app; [apply strips_to_refl|apply strips_to_sgr; reflexivity].
Qed.

(** The lines of an item with styled titles are the styled form of the
    lines with plain titles. *)
Lemma list_item_strips st looks sel item lines :
  styler_sgr st -> list_item (fun f => apply_styles st f looks) sel item = Ok lines ->
  exists p, list_item (fun f => Ok (py_str f)) sel item = Ok p /\ strips_to lines p.
Proof.
  intros Hst H. unfold list_item in *. apply bind_eq_ok in H as (fields & Hf & H). rewrite Hf. simpl.
  refine (rfold_sim strips_to _ _ _ _ _ _ (strips_to_refl "") _ H).
  intros [i field] s p s' Hsp Hs'. apply bind_eq_ok in Hs' as (t & Ht & Hs'). simpl.
  destruct (row_index item i) as [v|e]; [|discriminate]. simpl in *.
  destruct (show_value v) as [shown|e]; [|discriminate]. simpl in *. injection Hs' as <-.
  eexists; split; [reflexivity|].
  apply strips_to_app; [exact Hsp|]. apply strips_to_app; [exact (apply_styles_strips _ _ _ _ Hst Ht)|].
  apply strips_to_refl.
Qed.

(** ** Properties of the data side *)

(** C35. What [UserInterface.save] writes for a [.txt] file is
    [remove_styles] of the styled results: for the list format, it is the
    text [as_list] would give with plain field names, whenever that plain
    text holds no escape character (every colour and attribute of the
    styler being one SGR escape, as colorama's are). *)
Theorem as_list_remove_styles st data sel looks fd s :
  styler_sgr st -> as_list st data sel looks fd = Ok s ->
  exists p, list_text (fun f => Ok (py_str f)) data sel fd = Ok p /\
            (str_has ANSI_ESC p = false -> remove_styles s = p).
Proof.
  intros Hst H. unfold as_list, list_text in *. apply bind_eq_ok in H as (items & Hi & H). rewrite Hi. simpl.
  enough (exists p, rfold (fun s item => lines <- list_item (fun f => Ok (py_str f)) sel item ;;
                                         Ok (s ++ lines ++ LF)) items "" = Ok p /\ strips_to s p)
    as (p & Hp & Hs) by (exists p; split; [exact Hp|intros Hn; exact (proj2 (Hs Hn))]).
  refine (rfold_sim strips_to _ _ _ _ _ _ (strips_to_refl "") _ H).
  intros item s1 p1 s1' Hsp Hs1'. apply bind_eq_ok in Hs1' as (lines & Hl & [= <-]).
  destruct (list_item_strips st looks sel item lines Hst Hl) as (p & -> & Hlp). simpl.
  eexists; split; [reflexivity|]. apply strips_to_app; [exact Hsp|]. apply strips_to_app; [exact Hlp|].
  apply strips_to_refl.
Qed.

Lemma as_list_remove_styles_witness :
  styler_sgr styler_default /\
  as_list styler_default (JObj [("items", JList [JObj [("title", JStr "Dune")]])]) (JList [JStr "Title"])
          (JObj []) (JObj [("Title", JStr "items.title")]) =
    Ok (Style_NORMAL ++ Fore_WHITE ++ "Title" ++ Style_RESET_ALL ++ ": Dune" ++ LF ++ LF) /\
  exists p, list_text (fun f => Ok (py_str f)) (JObj [("items", JList [JObj [("title", JStr "Dune")]])])
                      (JList [JStr "Title"]) (JObj [("Title", JStr "items.title")]) = Ok p /\
            (str_has ANSI_ESC p = false ->
             remove_styles (Style_NORMAL ++ Fore_WHITE ++ "Title" ++ Style_RESET_ALL ++ ": Dune" ++ LF ++ LF) = p).
Proof.
  split; [exact styler_default_sgr|]. split; [reflexivity|].
  apply (as_list_remove_styles styler_default _ _ (JObj [])); [exact styler_default_sgr|reflexivity].
Defined.
