(* ===== verification/BookSearch.v ===== *)
(** * BookSearch: the models and the controller of the lab7 client

    - [dal/SettingsModel.py], [dal/UserSettingsModel.py],
      [dal/HistoryModel.py]: three views of JSON files read through
      [shared.classes.dict_json.DictJsonDataAccess], which is not in the
      repository.  It is modelled as the dict of the file held in memory:
      [get(key)] returns the stored object itself (as [dict.get] does) and
      [set(key, value)] stores the value.  So a list obtained through
      [get_list_fields] and mutated by the caller is mutated in the store.
    - [bll/GoogleBooksAPI.py]: the parameters of the request, the call to
      [requests.get] (a parameter [http_get] of the section: the HTTP
      exchange itself), [raise_for_status] and [_handle_error].
    - [bll/Controller.py]: the controller's state (the three models, the
      API, the last query, the regex and its field), the regex filter of a
      response, the paging loop of [search] (with fuel, enough for every
      run: each iteration that goes on adds an item), [_search_generic]
      with the alias of the selected-fields list, the settings accessors,
      [flat_search] and the three [save] methods with [dal/FileHandler.py]
      as a trace of written files. *)

From S2P Require Import Prelude Json BookData.
From Stdlib Require Import Ascii.

Local Open Scope Z_scope.
Local Open Scope string_scope.

(** ** The JSON files ([DictJsonDataAccess]) *)

(** The data of a JSON file. *)
Definition store : Type := list (string * jvalue).

(** [DictJsonDataAccess.get(key)]. *)
Definition store_get (d : store) (k : string) : jvalue :=
  match dict_lookup String.eqb k d with Some v => v | None => JNull end.

(** [DictJsonDataAccess.set(key, value)]. *)
Definition store_set (d : store) (k : string) (v : jvalue) : store := jstore k v d.

(** [DictJsonDataAccess.validate(is_can_be_empty)]: the file exists, and
    is not empty unless allowed. *)
Definition store_validate (file : option store) (can_be_empty : bool) : bool :=
  match file with
  | None => false
  | Some d => can_be_empty || negb (Nat.eqb (length d) 0)
  end.

(** ** [SettingsModel] *)

(** [SettingsModel.__init__]. *)
Definition settings_model_init (file : option store) : result store :=
  match file with
  | Some d => if store_validate file false then Ok d else Err (KeyError "Settings empty or doesn't exist")
  | None => Err (KeyError "Settings empty or doesn't exist")
  end.

Definition get_fields (s : store) : jvalue := store_get s "fields".

(** [SettingsModel.get_fields_keys]: [list(self.get_fields().keys())]. *)
Definition get_fields_keys (s : store) : result (list jvalue) :=
  match get_fields s with
  | JObj l => Ok (map (fun kv => JStr (fst kv)) l)
  | _ => Err AttributeError
  end.

Definition get_user_settings_path (s : store) : jvalue := store_get s "user_settings_path".
Definition get_history_path (s : store) : jvalue := store_get s "history_path".
Definition get_languages (s : store) : jvalue := store_get s "languages".
Definition get_max_results (s : store) : jvalue := store_get s "max_results".
Definition get_default_save_dir (s : store) : jvalue := store_get s "default_save_dir".
Definition get_default_file_name (s : store) : jvalue := store_get s "default_file_name".
Definition get_results_to_save (s : store) : jvalue := store_get s "results_to_save".
Definition get_colors (s : store) : jvalue := store_get s "colors".
Definition get_attributes (s : store) : jvalue := store_get s "attributes".
Definition get_logger_path (s : store) : jvalue := store_get s "logger_path".

(** ** [UserSettingsModel] *)

(** [UserSettingsModel.__init__]. *)
Definition user_settings_init (file : option store) : result store :=
  match file with
  | Some d => if store_validate file false then Ok d else Err (KeyError "Settings doesn't exist")
  | None => Err (KeyError "Settings doesn't exist")
  end.

Definition get_selected_fields (u : store) : jvalue := store_get u "selected_fields".

(** [selected_fields.get(mode)]. *)
Definition get_mode_fields (mode : string) (u : store) : result jvalue :=
  jget (get_selected_fields u) mode JNull.

Definition get_table_fields : store -> result jvalue := get_mode_fields "table".
Definition get_list_fields : store -> result jvalue := get_mode_fields "list".

(** [d[k] = v] on a value: only a dict takes a string key. *)
Definition jsetitem (d : jvalue) (k : string) (v : jvalue) : result jvalue :=
  match d with
  | JObj l => Ok (JObj (jstore k v l))
  | JNull => Err (TypeError "'NoneType' object does not support item assignment")
  | JList _ => Err (TypeError "list indices must be integers or slices, not str")
  | JStr _ => Err (TypeError "'str' object does not support item assignment")
  | _ => Err (TypeError "object does not support item assignment")
  end.

(** [set_table_fields] and [set_list_fields]: the dict [selected_fields]
    is changed and stored again. *)
Definition set_mode_fields (mode : string) (v : jvalue) (u : store) : result store :=
  sel <- jsetitem (get_selected_fields u) mode v ;;
  Ok (store_set u "selected_fields" sel).

Definition set_table_fields : jvalue -> store -> result store := set_mode_fields "table".
Definition set_list_fields : jvalue -> store -> result store := set_mode_fields "list".

Definition get_is_table_print (u : store) : jvalue := store_get u "is_table_print".
Definition set_is_table_print (v : jvalue) (u : store) : store := store_set u "is_table_print" v.
Definition get_is_list_print (u : store) : jvalue := store_get u "is_list_print".
Definition set_is_list_print (v : jvalue) (u : store) : store := store_set u "is_list_print" v.
Definition get_lang (u : store) : jvalue := store_get u "lang".
Definition set_lang (v : jvalue) (u : store) : store := store_set u "lang" v.
Definition get_items_amount (u : store) : jvalue := store_get u "items_amount".
Definition set_items_amount (v : jvalue) (u : store) : store := store_set u "items_amount" v.
Definition get_field_styles (u : store) : jvalue := store_get u "field_styles".

(** ** [HistoryModel] *)

Record HistoryModel : Type := {
  hist_data : store;
  results_to_save : jvalue
}.

(** [HistoryModel.__init__(path, results_to_save)]. *)
Definition history_init (file : option store) (results_to_save : jvalue) : result HistoryModel :=
  match file with
  | Some d => if store_validate file true then Ok {| hist_data := d; results_to_save := results_to_save |}
              else Err (KeyError "History file doesn't exist")
  | None => Err (KeyError "History file doesn't exist")
  end.

Definition get_history (h : HistoryModel) : jvalue := store_get (hist_data h) "history".

(** An integer operand of [+], [-] and [<]: [bool] is a subclass of [int]. *)
Definition py_int_of (v : jvalue) : result Z :=
  match v with
  | JInt n => Ok n
  | JBool b => Ok (if b then 1%Z else 0%Z)
  | _ => Err (TypeError "unsupported operand type(s)")
  end.

(** [v[start:stop]] with integer bounds: lists and strings slice, [None]
    is not subscriptable, a dict raises on the slice key. *)
Definition jslice (v : jvalue) (start stop : Z) : result jvalue :=
  match v with
  | JList l => Ok (JList (py_slice l start stop))
  | JStr s => Ok (JStr (string_of_list_ascii (py_slice (list_ascii_of_string s) start stop)))
  | JObj _ => Err (TypeError "unhashable type: 'slice'")
  | _ => Err (TypeError "object is not subscriptable")
  end.

(** [l.append(x)]: only a list has [append]. *)
Definition jappend (v x : jvalue) : result jvalue :=
  match v with
  | JList l => Ok (JList (l ++ [x])%list)
  | _ => Err AttributeError
  end.

(** The event that [HistoryModel.add] records. *)
Definition history_event (query regex regex_field fields results : jvalue) : jvalue :=
  JObj [("query", query); ("regex", regex); ("regex_field", regex_field); ("fields", fields);
        ("results", results)].

(** [HistoryModel.add]: [history[1 : self.results_to_save - 1]], then the
    event appended, then stored. *)
Definition history_add (query regex regex_field fields results : jvalue) (h : HistoryModel) :
  result HistoryModel :=
  let event := history_event query regex regex_field fields results in
  n <- py_int_of (results_to_save h) ;;
  sliced <- jslice (get_history h) 1 (n - 1) ;;
  history <- jappend sliced event ;;
  Ok {| hist_data := store_set (hist_data h) "history" history; results_to_save := results_to_save h |}.

(** [HistoryModel.clear_history]. *)
Definition clear_history (h : HistoryModel) : HistoryModel :=
  {| hist_data := store_set (hist_data h) "history" (JList []); results_to_save := results_to_save h |}.

(** ** [GoogleBooksAPI] *)

(** What [requests.get] gives back: a response (status, reason, final URL
    and the body as JSON, [None] when it is not JSON), or the exception it
    raised (a connection error). *)
Inductive http_reply : Type :=
| HttpReply (status : Z) (reason url : string) (body : option jvalue)
| HttpRaised (e : py_error).

Record GoogleBooksAPI : Type := {
  api_key : jvalue;
  base_url : string
}.

(** [GoogleBooksAPI.__init__(api_key)]. *)
Definition api_init (key : jvalue) : GoogleBooksAPI :=
  {| api_key := key; base_url := "https://www.googleapis.com/books/v1/volumes" |}.

(** The [params] dict of [search]: [",".join(fields) if fields else None],
    and the key when there is one. *)
Definition api_params (a : GoogleBooksAPI) (query language start_index max_results_count : jvalue)
  (fields : list jvalue) : result store :=
  fields_v <- (if Nat.eqb (length fields) 0 then Ok JNull
               else s <- py_join "," (JList fields) ;; Ok (JStr s)) ;;
  let params := [("q", query); ("langRestrict", language); ("startIndex", start_index);
                 ("maxResults", max_results_count); ("fields", fields_v)] in
  Ok (if py_truthy (api_key a) then store_set params "key" (api_key a) else params).

(** [Response.raise_for_status]: the message of the [HTTPError] it raises
    for a status 400..599. *)
Definition http_error_msg (status : Z) (reason url : string) : option string :=
  if Z.leb 400 status && Z.ltb status 500 then
    Some (z_dec status ++ " Client Error: " ++ reason ++ " for url: " ++ url)
  else if Z.leb 500 status && Z.ltb status 600 then
    Some (z_dec status ++ " Server Error: " ++ reason ++ " for url: " ++ url)
  else None.

(** What [GoogleBooksAPI.search] returns: the pair [(response.json(),
    response.url)], or the dict of [_handle_error]. *)
Inductive api_return : Type :=
| ApiTuple (body : jvalue) (url : string)
| ApiDict (d : jvalue).

(** The [RequestException]s [_handle_error] tells apart, with the text
    [str(error)] of each. *)
Inductive request_error : Type :=
| ReqHTTPError (msg : string)
| ReqConnectionError (msg : string)
| ReqOtherError (msg : string).

(** [GoogleBooksAPI._handle_error] (the logging apart). *)
Definition handle_error (e : request_error) : jvalue :=
  match e with
  | ReqHTTPError msg => JObj [("error", JStr msg)]
  | ReqConnectionError msg => JObj [("error", JStr ("No internet connection or connection error: " ++ msg))]
  | ReqOtherError msg => JObj [("error", JStr msg)]
  end.

Section Api.

(** [requests.get(url, params=params)]. *)
Variable http_get : string -> store -> http_reply.

(** [GoogleBooksAPI.search]. *)
Definition api_search (a : GoogleBooksAPI) (query language start_index max_results_count : jvalue)
  (fields : list jvalue) : result api_return :=
  params <- api_params a query language start_index max_results_count fields ;;
  match http_get (base_url a) params with
  | HttpRaised e => Err e
  | HttpReply status reason url body =>
    match http_error_msg status reason url with
    | Some msg => Ok (ApiDict (handle_error (ReqHTTPError msg)))
    | None => match body with
              | Some j => Ok (ApiTuple j url)
              | None => Err (ValueError "Expecting value")
              end
    end
  end.

End Api.

(** ** The controller *)

(** A file written by [FileHandler]: [json.dump], the rows of a
    [csv.DictWriter] under its header, or the text. *)
Inductive file_data : Type :=
| JsonData (v : jvalue)
| CsvData (header : list string) (rows : list (list (string * jvalue)))
| TextData (s : string).

Record BookCtl : Type := {
  settings : store;
  history : HistoryModel;
  user_settings : store;
  api : GoogleBooksAPI;
  last_query : jvalue;
  last_regex : jvalue;
  regex_field_name : jvalue;
  files : list (string * file_data)
}.

Definition PUBLISHING_DATE_FIELD : string := "Publishing date".
Definition REGEX_FOR_DATE : string := "^201[7-9]|^202".
Definition LAST_QUERY : string := "Python".

(** [Controller.__init__]. *)
Definition ctl_init (s : store) (h : HistoryModel) (u : store) (a : GoogleBooksAPI) : BookCtl :=
  {| settings := s; history := h; user_settings := u; api := a; last_query := JStr LAST_QUERY;
     last_regex := JStr REGEX_FOR_DATE; regex_field_name := JStr PUBLISHING_DATE_FIELD; files := [] |}.

Definition with_user (c : BookCtl) (u : store) : BookCtl :=
  {| settings := settings c; history := history c; user_settings := u; api := api c;
     last_query := last_query c; last_regex := last_regex c; regex_field_name := regex_field_name c;
     files := files c |}.

Definition with_history (c : BookCtl) (h : HistoryModel) : BookCtl :=
  {| settings := settings c; history := h; user_settings := user_settings c; api := api c;
     last_query := last_query c; last_regex := last_regex c; regex_field_name := regex_field_name c;
     files := files c |}.

Definition with_search (c : BookCtl) (q r f : jvalue) : BookCtl :=
  {| settings := settings c; history := history c; user_settings := user_settings c; api := api c;
     last_query := q; last_regex := r; regex_field_name := f; files := files c |}.

(** [FileHandler] writing a file. *)
Definition write_file (path : string) (d : file_data) (c : BookCtl) : BookCtl :=
  {| settings := settings c; history := history c; user_settings := user_settings c; api := api c;
     last_query := last_query c; last_regex := last_regex c; regex_field_name := regex_field_name c;
     files := (files c ++ [(path, d)])%list |}.

Definition set_last_query (q : jvalue) (c : BookCtl) : BookCtl :=
  with_search c q (last_regex c) (regex_field_name c).
Definition set_last_regex (r : jvalue) (c : BookCtl) : BookCtl :=
  with_search c (last_query c) r (regex_field_name c).
Definition set_regex_field_name (f : jvalue) (c : BookCtl) : BookCtl :=
  with_search c (last_query c) (last_regex c) f.
Definition clear_regex_field_name (c : BookCtl) : BookCtl :=
  with_search c (last_query c) JNull JNull.

(** The accessors of [Controller] that only read the models. *)
Definition ctl_get_query (c : BookCtl) : jvalue := last_query c.
Definition ctl_get_regex (c : BookCtl) : jvalue := last_regex c.
Definition ctl_get_regex_field_name (c : BookCtl) : jvalue := regex_field_name c.
Definition ctl_get_fields (c : BookCtl) : jvalue := get_fields (settings c).
Definition ctl_get_fields_keys (c : BookCtl) : result (list jvalue) := get_fields_keys (settings c).
Definition ctl_get_history (c : BookCtl) : jvalue := get_history (history c).
Definition ctl_get_languages (c : BookCtl) : jvalue := get_languages (settings c).
Definition ctl_get_max_results (c : BookCtl) : jvalue := get_max_results (settings c).
Definition ctl_get_default_file_name (c : BookCtl) : jvalue := get_default_file_name (settings c).
Definition ctl_get_field_styles (c : BookCtl) : jvalue := get_field_styles (user_settings c).

(** [Controller.clear_history]. *)
Definition ctl_clear_history (c : BookCtl) : BookCtl := with_history c (clear_history (history c)).

(** ** The controller's monad

    A controller method returns a value and the controller it leaves, or
    raises from the controller as it was at the raise.  [RStuck] is a loop
    that ran out of fuel: the fuel chosen is enough ([search_loop_fuel_enough]),
    so no run of the code ends there. *)
Inductive run (A : Type) : Type :=
| RDone (c : BookCtl) (a : A)
| RRaised (c : BookCtl) (e : py_error)
| RStuck.
Arguments RDone {A} c a.
Arguments RRaised {A} c e.
Arguments RStuck {A}.

Definition rbind {A B : Type} (r : run A) (k : BookCtl -> A -> run B) : run B :=
  match r with
  | RDone c a => k c a
  | RRaised c e => RRaised c e
  | RStuck => RStuck
  end.

Notation "'let!' c x ':=' r 'in' k" := (rbind r (fun c x => k))
  (at level 10, c name, x pattern, r at level 100, k at level 200) : scene_scope.

(** A step that cannot change the controller. *)
Definition rlift {A : Type} (c : BookCtl) (r : result A) : run A :=
  match r with
  | Ok a => RDone c a
  | Err e => RRaised c e
  end.

(** Python's [<] and [+] on integer operands. *)
Definition py_lt (a b : jvalue) : result bool :=
  x <- py_int_of a ;; y <- py_int_of b ;; Ok (Z.ltb x y).

Definition py_int_add (a b : jvalue) : result jvalue :=
  x <- py_int_of a ;; y <- py_int_of b ;; Ok (JInt (x + y)).

Definition is_none (v : jvalue) : bool := match v with JNull => true | _ => false end.

(** [Controller.parse_query]: a dict response is unwrapped to its [items]
    when the field path starts with ["items."], filtered, and wrapped again
    (without the other keys of the response). *)
Definition ctl_parse_query (re_search : string -> string -> bool) (data field : jvalue) (query : string) :
  result jvalue :=
  is_wrapped <- (match data with
                 | JObj _ => match field with
                             | JStr f => Ok (str_startswith "items." f)
                             | _ => Err AttributeError
                             end
                 | _ => Ok false
                 end) ;;
  data <- (if is_wrapped then jindex data "items" else Ok data) ;;
  let field := match field with
               | JStr f => if is_wrapped then JStr (str_replace "items." "" (Some 1%nat) f) else field
               | _ => field
               end in
  new_data <- ip_parse_query re_search data field query ;;
  Ok (if is_wrapped then JObj [("items", new_data)] else new_data).

Section Controller.

Variable http_get : string -> store -> http_reply.
Variable re_search : string -> string -> bool.
(** [shared.services.relative_to_absolute_path.absolute]. *)
Variable absolute : jvalue -> jvalue.

(** [Controller.name_to_field]: [fields_dict.get(str(field_name))], the
    settings' [fields] when no dict is given. *)
Definition name_to_field (c : BookCtl) (field_name : jvalue) (fields_dict : option jvalue) : result jvalue :=
  let fd := match fields_dict with Some d => d | None => get_fields (settings c) end in
  jget fd (py_str field_name) JNull.

(** [Controller.names_to_fields]: the truthy paths of the names, in order. *)
Definition names_to_fields (c : BookCtl) (fields_names : jvalue) : result (list jvalue) :=
  let fields_dict := get_fields (settings c) in
  names <- py_iter (if py_truthy fields_names then fields_names else JList []) ;;
  rfold (fun fields name => field <- name_to_field c name (Some fields_dict) ;;
                           Ok (if py_truthy field then (fields ++ [field])%list else fields))
        names [].

(** [Controller.do_regex]. *)
Definition do_regex (c : BookCtl) (data : jvalue) : result jvalue :=
  if negb (py_truthy (last_regex c)) || negb (py_truthy (regex_field_name c)) then
    Err (ValueError "No regex and field to do regex")
  else
    field <- name_to_field c (regex_field_name c) None ;;
    match last_regex c with
    | JStr r => ctl_parse_query re_search data field r
    | _ => Err (TypeError "first argument must be string or compiled pattern")
    end.

(** [Controller._apply_regex_if_needed]. *)
Definition apply_regex_if_needed (c : BookCtl) (data : jvalue) : result jvalue :=
  if py_truthy (last_regex c) && py_truthy (regex_field_name c) then do_regex c data else Ok data.

(** [Controller._fetch_additional_results]: the items of one page and, on
    request, [totalItems]; every exception is re-raised as an [Exception],
    whose message starts with ["Bad API response: "] for an [HTTPError]. *)
Definition fetch_additional_results (c : BookCtl) (query lang start_index max_results : jvalue)
  (fields : list jvalue) (is_total_items : bool) : result (jvalue * jvalue) :=
  let body :=
    r <- api_search http_get (api c) query lang start_index max_results fields ;;
    match r with
    | ApiDict _ => Err (ValueError "not enough values to unpack (expected 2, got 1)")
    | ApiTuple temp_result _ =>
      temp_result <- apply_regex_if_needed c temp_result ;;
      items <- jindex temp_result "items" ;;
      if negb (py_truthy items) then Ok (JList [], JNull)
      else total_items <- (if is_total_items then jget temp_result "totalItems" JNull else Ok JNull) ;;
           Ok (items, total_items)
    end in
  match body with
  | Ok v => Ok v
  | Err (HTTPError m) => Err (PyException "Bad API response: " (HTTPError m))
  | Err e => Err (PyException "" e)
  end.

(** The [while] loop of [Controller.search], on fuel: [None] when the fuel
    runs out. *)
Fixpoint search_loop (fuel : nat) (c : BookCtl) (query lang max_results : jvalue) (fields : list jvalue)
  (items_amount : jvalue) (items : list jvalue) (start_index total_items : jvalue) :
  option (result (list jvalue)) :=
  match fuel with
  | O => None
  | S fuel =>
    match py_lt (JInt (Z.of_nat (length items))) items_amount with
    | Err e => Some (Err e)
    | Ok false => Some (Ok items)
    | Ok true =>
      match (if is_none total_items then Ok true else py_lt start_index total_items) with
      | Err e => Some (Err e)
      | Ok false => Some (Ok items)
      | Ok true =>
        match fetch_additional_results c query lang start_index max_results fields
                                       (is_none total_items) with
        | Err e => Some (Err e)
        | Ok (response, total_items) =>
          if negb (py_truthy response) then Some (Ok items)
          else match py_iter response with
               | Err e => Some (Err e)
               | Ok more =>
                 match py_int_add start_index max_results with
                 | Err e => Some (Err e)
                 | Ok start_index =>
                   search_loop fuel c query lang max_results fields items_amount (items ++ more)%list
                               start_index total_items
                 end
               end
        end
      end
    end
  end.

(** The fuel of the loop: one iteration more than [items_amount]. *)
Definition loop_fuel (items_amount : jvalue) : nat :=
  match py_int_of items_amount with
  | Ok n => S (Z.to_nat n)
  | Err _ => 1%nat
  end.

(** [Controller.add_to_history]. *)
Definition add_to_history (c : BookCtl) (query regex regex_field fields_names results : jvalue) : run unit :=
  match history_add query regex regex_field fields_names results (history c) with
  | Ok h => RDone (with_history c h) tt
  | Err e => RRaised c e
  end.

(** [Controller.search(fields_names)]: the returned value and the list
    [fields_names] after the call.  [search] appends the regex field to the
    very list it is given; [mutated] records that change wherever else the
    list object is held. *)
Definition search (c : BookCtl) (fields_names : jvalue) (mutated : jvalue -> BookCtl -> BookCtl) :
  run (jvalue * jvalue) :=
  let query := last_query c in
  if negb (py_truthy query) then RDone c (JNull, fields_names)
  else
    let! c fields_names :=
      (if py_truthy (regex_field_name c) then
         let! c f := rlift c (jappend fields_names (regex_field_name c)) in RDone (mutated f c) f
       else RDone c fields_names) in
    let lang := get_lang (user_settings c) in
    let max_results := get_max_results (settings c) in
    let items_amount := get_items_amount (user_settings c) in
    let! c fields := rlift c (names_to_fields c fields_names) in
    match search_loop (loop_fuel items_amount) c query lang max_results fields items_amount []
                      (JInt 0) JNull with
    | None => RStuck
    | Some r =>
      let! c items := rlift c r in
      let! c n := rlift c (py_int_of items_amount) in
      let res := JObj [("items", JList (py_slice items 0 n))] in
      let! c _ := add_to_history c query (last_regex c) (regex_field_name c) fields_names res in
      RDone c (res, fields_names)
    end.

(** The selected-fields list of a mode, changed in place: the store holds
    the object that [get_table_fields]/[get_list_fields] returned. *)
Definition alias_fields (mode : string) (after : jvalue) (c : BookCtl) : BookCtl :=
  match get_selected_fields (user_settings c) with
  | JObj l => with_user c (store_set (user_settings c) "selected_fields" (JObj (jstore mode after l)))
  | _ => c
  end.

(** [Controller._search_generic] for [search_for_table] ([mode = "table"],
    checked by [get_is_table]) and [search_for_list] ([mode = "list"]):
    [None] when the format is off, else the pair [(self.search(fields),
    fields)]. *)
Definition search_generic (check : store -> jvalue) (mode : string) (c : BookCtl) :
  run (option (jvalue * jvalue)) :=
  if negb (py_truthy (check (user_settings c))) then RDone c None
  else
    let! c fields := rlift c (get_mode_fields mode (user_settings c)) in
    let! c r := search c fields (alias_fields mode) in
    RDone c (Some r).

Definition search_for_table : BookCtl -> run (option (jvalue * jvalue)) :=
  search_generic get_is_table_print "table".

Definition search_for_list : BookCtl -> run (option (jvalue * jvalue)) :=
  search_generic get_is_list_print "list".

(** [Controller.get_selected_fields(mode)]. *)
Definition ctl_get_selected_fields (c : BookCtl) (mode : string) : result jvalue :=
  if String.eqb mode "List" then get_list_fields (user_settings c)
  else if String.eqb mode "Table" then get_table_fields (user_settings c)
  else Err (ValueError "Wrong mode").

(** [Controller.set_selected(chosen_fields, mode)]. *)
Definition set_selected (chosen_fields : jvalue) (mode : string) (c : BookCtl) : run unit :=
  if String.eqb mode "List" then
    let! c' u := rlift c (set_list_fields chosen_fields (user_settings c)) in RDone (with_user c' u) tt
  else if String.eqb mode "Table" then
    let! c' u := rlift c (set_table_fields chosen_fields (user_settings c)) in RDone (with_user c' u) tt
  else RRaised c (ValueError "Wrong mode").

Definition set_is_list (v : jvalue) (c : BookCtl) : BookCtl :=
  with_user c (set_is_list_print v (user_settings c)).
Definition set_is_table (v : jvalue) (c : BookCtl) : BookCtl :=
  with_user c (set_is_table_print v (user_settings c)).
Definition get_is_list (c : BookCtl) : jvalue := get_is_list_print (user_settings c).
Definition get_is_table (c : BookCtl) : jvalue := get_is_table_print (user_settings c).

(** [Controller.get_default_save_dir]. *)
Definition ctl_get_default_save_dir (c : BookCtl) : jvalue := absolute (get_default_save_dir (settings c)).

(** [Controller.get_logger_path]. *)
Definition ctl_get_logger_path (c : BookCtl) : result jvalue :=
  let path := get_logger_path (settings c) in
  if negb (py_truthy path) then Err (KeyError "There no logger path provided!") else Ok (absolute path).

(** [Controller.flat_search(mode)]: the rows of the search in [mode]
    ([search_for_list] for ["List"], [search_for_table] otherwise) and its
    fields. *)
Definition flat_search (mode : string) (c : BookCtl) : run (list jvalue * jvalue) :=
  let! c r := (if String.eqb mode "List" then search_for_list c else search_for_table c) in
  match r with
  | None => RRaised c (TypeError "cannot unpack non-iterable NoneType object")
  | Some (data, selected_fields) =>
    let! c rows := rlift c (extract_data_items data selected_fields (get_fields (settings c)) false false) in
    RDone c (rows, selected_fields)
  end.

(** A key of the dict comprehension of [save_to_csv]: a list or a dict is
    unhashable; any other value is a key, written by [csv] as its text. *)
Definition csv_key (v : jvalue) : result string :=
  match v with
  | JList _ | JObj _ => Err (TypeError "unhashable type")
  | _ => Ok (py_str v)
  end.

(** [FileHandler.save_to_csv(data, header, filename)]: nothing for no
    rows; else [{header[i]: row[i] for i in range(len(header))}] for every
    row (a dict header has no key [0]), written under the header. *)
Definition file_save_to_csv (data : list jvalue) (header : jvalue) (filename : string) (c : BookCtl) :
  run unit :=
  match data with
  | [] => RDone c tt
  | _ =>
    let! c hs := rlift c (match header with
                          | JObj (_ :: _) => Err (KeyError "0")
                          | _ => py_iter header
                          end) in
    let! c rows := rlift c (rfold (fun rs row =>
                       entries <- rfold (fun es '(i, h) => v <- row_index row i ;; k <- csv_key h ;;
                                           Ok (es ++ [(k, v)])%list)
                                        (combine (seq 0 (length hs)) hs) [] ;;
                       Ok (rs ++ [dict_display String.eqb entries])%list) data []) in
    RDone (write_file filename (CsvData (map py_str hs) rows) c) tt
  end.

(** [FileHandler.save_to_text(data, filename)]: [str(data)] unless it is a
    string. *)
Definition file_save_to_text (data : jvalue) (filename : string) (c : BookCtl) : BookCtl :=
  write_file filename (TextData (py_str data)) c.

(** A tuple [(a, b)] as [json.dump] writes it. *)
Definition json_pair (r : option (jvalue * jvalue)) : jvalue :=
  match r with
  | Some (a, b) => JList [a; b]
  | None => JNull
  end.

(** [Controller.save_to_json]: the table search, then the list search, in
    one dict. *)
Definition save_to_json (file_path : string) (c : BookCtl) : run unit :=
  let! c result := (if py_truthy (get_is_table c) then
                      let! c data := search_for_table c in RDone c [("table", json_pair data)]
                    else RDone c []) in
  let! c result := (if py_truthy (get_is_list c) then
                      let! c data := search_for_list c in RDone c (jstore "list" (json_pair data) result)
                    else RDone c result) in
  RDone (write_file file_path (JsonData (JObj result)) c) tt.

(** [Controller.save_to_csv]: [file_path.replace(".csv", "_table.csv")]
    and [file_path.replace(".csv", "_list.csv")], every occurrence
    replaced. *)
Definition save_to_csv (file_path : string) (c : BookCtl) : run unit :=
  let! c _ := (if py_truthy (get_is_table c) then
                 let! c r := flat_search "Table" c in
                 file_save_to_csv (fst r) (snd r) (str_replace ".csv" "_table.csv" None file_path) c
               else RDone c tt) in
  if py_truthy (get_is_list c) then
    let! c r := flat_search "List" c in
    file_save_to_csv (fst r) (snd r) (str_replace ".csv" "_list.csv" None file_path) c
  else RDone c tt.

(** [Controller.save(file_path, data)]. *)
Definition ctl_save (file_path : string) (data : jvalue) (c : BookCtl) : run unit :=
  if str_endswith ".json" file_path then save_to_json file_path c
  else if str_endswith ".csv" file_path then save_to_csv file_path c
  else RDone (file_save_to_text data file_path c) tt.

End Controller.

(** ** Lemmas on the controller's runs *)

(** A property of the controller that a run keeps wherever it ends. *)
Definition run_inv {A : Type} (P : BookCtl -> Prop) (r : run A) : Prop :=
  match r with
  | RDone c _ | RRaised c _ => P c
  | RStuck => True
  end.

Lemma run_inv_bind {A B : Type} (P : BookCtl -> Prop) (r : run A) (k : BookCtl -> A -> run B) :
  run_inv P r -> (forall c a, P c -> run_inv P (k c a)) -> run_inv P (rbind r k).
Proof. destruct r as [c a|c e|]; simpl; auto. Qed.

Lemma run_inv_lift {A : Type} (P : BookCtl -> Prop) c (r : result A) : P c -> run_inv P (rlift c r).
Proof. destruct r; exact (fun H => H). Qed.

Lemma run_inv_done {A : Type} (P : BookCtl -> Prop) c (a : A) : P c -> run_inv P (RDone c a).
Proof. exact (fun H => H). Qed.

(** A run that never ends in [RStuck]. *)
Definition run_total {A : Type} (r : run A) : Prop := r <> RStuck.

Lemma run_total_bind {A B : Type} (r : run A) (k : BookCtl -> A -> run B) :
  run_total r -> (forall c a, run_total (k c a)) -> run_total (rbind r k).
Proof. unfold run_total. destruct r; simpl; auto. discriminate. Qed.

Lemma run_total_lift {A : Type} c (r : result A) : run_total (rlift c r).
Proof. destruct r; discriminate. Qed.

Lemma run_total_done {A : Type} c (a : A) : run_total (RDone c a).
Proof. discriminate. Qed.

Lemma run_total_raised {A : Type} c e : run_total (A := A) (RRaised c e).
Proof. discriminate. Qed.

Create HintDb books.
#[export] Hint Resolve run_inv_bind run_inv_lift run_inv_done run_total_bind run_total_lift
  run_total_done run_total_raised : books.

(** A truthy iterable yields at least one element. *)
Lemma py_iter_truthy v l : py_truthy v = true -> py_iter v = Ok l -> l <> [].
Proof.
  destruct v as [| | |s|l'|l']; simpl; try discriminate.
  - destruct s as [|a t]; [discriminate|]. intros _ [= <-]. discriminate.
  - destruct l'; [discriminate|]. intros _ [= <-]. discriminate.
  - destruct l'; [discriminate|]. intros _ [= <-]. discriminate.
Qed.

Lemma store_get_set_eq d k v : store_get (store_set d k v) k = v.
Proof. unfold store_get, store_set. rewrite jstore_lookup_eq. reflexivity. Qed.

Lemma store_get_set_ne d k k2 v : k2 <> k -> store_get (store_set d k v) k2 = store_get d k2.
Proof. intros H. unfold store_get, store_set. rewrite (jstore_lookup_ne k k2 v d H). reflexivity. Qed.

Lemma rbind_done {A B : Type} (r : run A) (k : BookCtl -> A -> run B) c' b :
  rbind r k = RDone c' b -> exists c a, r = RDone c a /\ k c a = RDone c' b.
Proof. destruct r as [c a|c e|]; simpl; [eauto|discriminate|discriminate]. Qed.

Lemma rlift_done {A : Type} c (r : result A) c' a : rlift c r = RDone c' a -> c' = c /\ r = Ok a.
Proof. destruct r; simpl; [intros [= <- <-]; auto|discriminate]. Qed.

Lemma Forall_firstn_any {A} (P : A -> Prop) n l : Forall P l -> Forall P (firstn n l).
Proof. intros H. revert n. induction H as [|x l Hx Hl IH]; intros [|n]; simpl; constructor; auto. Qed.

Lemma Forall_skipn_any {A} (P : A -> Prop) n l : Forall P l -> Forall P (skipn n l).
Proof. revert l. induction n as [|n IH]; intros l H; [exact H|]. destruct H; [constructor|exact (IH _ H0)]. Qed.

Lemma Forall_py_slice {A} (P : A -> Prop) l a b : Forall P l -> Forall P (py_slice l a b).
Proof. intros H. unfold py_slice. apply Forall_firstn_any, Forall_skipn_any, H. Qed.

(** One step of a proof that a run keeps a property. *)
Ltac run_inv_step :=
  match goal with
  | |- run_inv _ (rbind _ _) => apply run_inv_bind; [|intros ? ? ?]
  | |- run_inv _ (rlift _ _) => apply run_inv_lift
  | |- run_inv _ (RDone _ _) => apply run_inv_done
  | |- run_inv _ (RRaised _ _) => simpl
  | |- run_inv _ RStuck => exact I
  | |- run_inv _ (if ?b then _ else _) => destruct b
  | |- run_inv _ (match ?x with _ => _ end) => destruct x
  end.

Section ControllerLemmas.

Variable http_get : string -> store -> http_reply.
Variable re_search : string -> string -> bool.

(** Each iteration of the loop that goes on adds an item, so the loop
    returns within [items_amount] iterations after the first. *)
Lemma search_loop_some f c q lang m fields ia items start total n :
  py_int_of ia = Ok n -> (Z.to_nat n < S f + length items)%nat ->
  search_loop http_get re_search (S f) c q lang m fields ia items start total <> None.
Proof.
  revert items start total. induction f as [|f IH]; intros items start total Hn Hlt; cbn [search_loop];
    unfold py_lt at 1; cbn [py_int_of bind]; rewrite Hn; cbn [bind];
    destruct (Z.ltb_spec (Z.of_nat (length items)) n) as [Hl|Hl]; try discriminate;
    destruct (if is_none total then Ok true else py_lt start total) as [[]|]; try discriminate;
    destruct (fetch_additional_results http_get re_search c q lang start m fields (is_none total))
      as [[response total']|]; try discriminate;
    destruct (py_truthy response) eqn:Ht; try discriminate; simpl;
    destruct (py_iter response) as [more|] eqn:Hi; try discriminate;
    destruct (py_int_add start m) as [start'|]; try discriminate.
  - exfalso. lia.
  - apply IH; [exact Hn|]. rewrite length_app.
    pose proof (py_iter_truthy _ _ Ht Hi) as Hm. destruct more; [contradiction|]. simpl. lia.
Qed.

Lemma search_loop_total c q lang m fields ia :
  search_loop http_get re_search (loop_fuel ia) c q lang m fields ia [] (JInt 0) JNull <> None.
Proof.
  unfold loop_fuel. destruct (py_int_of ia) as [n|e] eqn:Hn.
  - apply (search_loop_some _ _ _ _ _ _ _ _ _ _ n Hn). simpl. lia.
  - cbn [search_loop]. unfold py_lt. cbn [py_int_of bind]. rewrite Hn. discriminate.
Qed.

(** [search] never ends in [RStuck]: the loop's fuel is always enough. *)
Lemma search_total c fields_names mutated : run_total (search http_get re_search c fields_names mutated).
Proof.
  unfold search. destruct (negb (py_truthy (last_query c))); [apply run_total_done|].
  apply run_total_bind; [destruct (py_truthy (regex_field_name c)); eauto with books|].
  intros c1 fn1. apply run_total_bind; [apply run_total_lift|]. intros c2 fields.
  match goal with |- run_total (match ?l with Some _ => _ | None => _ end) =>
    destruct l as [r|] eqn:E; [|exfalso; exact (search_loop_total _ _ _ _ _ _ E)] end.
  apply run_total_bind; [apply run_total_lift|]. intros c3 items.
  apply run_total_bind; [apply run_total_lift|]. intros c4 n.
  apply run_total_bind; [unfold add_to_history; destruct history_add; discriminate|].
  intros; apply run_total_done.
Qed.

Lemma search_generic_total check mode c : run_total (search_generic http_get re_search check mode c).
Proof.
  unfold search_generic. destruct (negb _); [apply run_total_done|].
  apply run_total_bind; [apply run_total_lift|]. intros c1 fields.
  apply run_total_bind; [apply search_total|]. intros; apply run_total_done.
Qed.

(** The regex filter is on, with a field whose path is [items.<p>]. *)
Definition regex_on (c : BookCtl) (r p : string) : Prop :=
  last_regex c = JStr r /\ r <> "" /\
  exists rf fd, regex_field_name c = JStr rf /\ rf <> "" /\ get_fields (settings c) = JObj fd /\
                dict_lookup String.eqb rf fd = Some (JStr ("items." ++ p)).

Lemma str_truthy_ne (s : string) : s <> "" -> py_truthy (JStr s) = true.
Proof. intros H. simpl. apply String.eqb_neq in H. rewrite H. reflexivity. Qed.

(** With the filter on, a response whose [items] can be read has been
    replaced by its matching items alone. *)
Lemma apply_regex_on c r p data temp items :
  regex_on c r p -> apply_regex_if_needed re_search c data = Ok temp -> jindex temp "items" = Ok items ->
  exists l, temp = JObj [("items", JList l)] /\
            Forall (fun it => matches_query re_search it (str_split "."%char p) r = true) l.
Proof.
  intros (Hr & Hr0 & rf & fd & Hf & Hf0 & Hfd & Hp). unfold apply_regex_if_needed, do_regex.
  rewrite Hr, Hf, (str_truthy_ne r Hr0), (str_truthy_ne rf Hf0). simpl.
  unfold name_to_field. rewrite Hfd. simpl. rewrite Hp. cbn [bind].
  unfold ctl_parse_query, str_startswith. rewrite prefix_app, replace_items_prefix.
  destruct data as [| | | | |d]; simpl;
    try (intros H; apply bind_eq_ok in H as (? & _ & [= <-]); discriminate);
    try (intros [= <-]; discriminate).
  intros H Hi.
  apply bind_eq_ok in H as (d' & _ & H). apply bind_eq_ok in H as (nd & Hnd & [= <-]).
  apply bind_eq_ok in Hnd as (items' & _ & [= <-]).
  eexists; split; [reflexivity|]. apply Forall_forall. intros x Hx. apply filter_In in Hx. exact (proj2 Hx).
Qed.

(** [_fetch_additional_results] returns only what its inner computation
    returned. *)
Lemma fetch_ok c q lang start m fields b v :
  fetch_additional_results http_get re_search c q lang start m fields b = Ok v ->
  exists body url, api_search http_get (api c) q lang start m fields = Ok (ApiTuple body url) /\
    (temp <- apply_regex_if_needed re_search c body ;;
     items <- jindex temp "items" ;;
     if negb (py_truthy items) then Ok (JList [], JNull)
     else total <- (if b then jget temp "totalItems" JNull else Ok JNull) ;; Ok (items, total)) = Ok v.
Proof.
  unfold fetch_additional_results.
  destruct (api_search http_get (api c) q lang start m fields) as [[body url|d]|e]; cbn [bind];
    [|intros H; discriminate H|destruct e; discriminate].
  match goal with |- (match ?x with Ok _ => _ | Err _ => _ end) = _ -> _ =>
    destruct x as [w|e] eqn:E; [|destruct e; discriminate] end.
  intros [= <-]. eauto.
Qed.

(** With the filter on, a page holds only matching items, and the total
    count of the response is lost: [totalItems] is not in the dict that
    [parse_query] rebuilds. *)
Lemma fetch_regex_on c r p q lang start m fields b resp tot :
  regex_on c r p ->
  fetch_additional_results http_get re_search c q lang start m fields b = Ok (resp, tot) ->
  tot = JNull /\ exists l, resp = JList l /\
    Forall (fun it => matches_query re_search it (str_split "."%char p) r = true) l.
Proof.
  intros Hon H. apply fetch_ok in H as (body & url & _ & H).
  apply bind_eq_ok in H as (temp & Ht & H). apply bind_eq_ok in H as (items & Hi & H).
  destruct (apply_regex_on c r p body temp items Hon Ht Hi) as (l & -> & Hl).
  simpl in Hi. injection Hi as <-.
  destruct (negb (py_truthy (JList l))); [injection H as <- <-; split; [reflexivity|exists []; auto]|].
  destruct b; simpl in H; injection H as <- <-; split; eauto.
Qed.

(** The loop keeps a property that every page it reads has. *)
Lemma search_loop_forall (P : jvalue -> Prop) fuel c q lang m fields ia items start total items' :
  (forall start b resp tot,
     fetch_additional_results http_get re_search c q lang start m fields b = Ok (resp, tot) ->
     exists l, resp = JList l /\ Forall P l) ->
  Forall P items ->
  search_loop http_get re_search fuel c q lang m fields ia items start total = Some (Ok items') ->
  Forall P items'.
Proof.
  intros Hf. revert items start total. induction fuel as [|fuel IH]; intros items start total Hi H;
    [discriminate|]. cbn [search_loop] in H.
  destruct (py_lt _ ia) as [[]|]; [|injection H as <-; exact Hi|discriminate].
  destruct (if is_none total then Ok true else py_lt start total) as [[]|];
    [|injection H as <-; exact Hi|discriminate].
  destruct (fetch_additional_results _ _ _ _ _ _ _ _ _) as [[resp tot]|] eqn:E; [|discriminate].
  destruct (negb (py_truthy resp)); [injection H as <-; exact Hi|].
  destruct (Hf _ _ _ _ E) as (l & -> & Hl). simpl in H.
  destruct (py_int_add start m); [|discriminate]. exact (IH _ _ _ (proj2 (Forall_app _ _ _) (conj Hi Hl)) H).
Qed.

Lemma alias_fields_regex_on mode f c r p : regex_on c r p -> regex_on (alias_fields mode f c) r p.
Proof. unfold alias_fields. destruct (get_selected_fields (user_settings c)); exact (fun H => H). Qed.

(** A search that returns with a query ran the loop from the controller as
    [search] left it after the append, and returns the first
    [items_amount] items the loop gathered. *)
Lemma search_done_inv c fn mut c' res fn' :
  py_truthy (last_query c) = true ->
  search http_get re_search c fn mut = RDone c' (res, fn') ->
  exists c2 fields items n,
    (c2 = c \/ exists f, c2 = mut f c) /\
    search_loop http_get re_search (loop_fuel (get_items_amount (user_settings c2))) c2 (last_query c)
      (get_lang (user_settings c2)) (get_max_results (settings c2)) fields
      (get_items_amount (user_settings c2)) [] (JInt 0) JNull = Some (Ok items) /\
    res = JObj [("items", JList (py_slice items 0 n))].
Proof.
  intros Hq H. unfold search in H. rewrite Hq in H. simpl in H.
  apply rbind_done in H as (c1 & fn1 & E1 & H).
  assert (Hc1 : c1 = c \/ exists f, c1 = mut f c).
  { destruct (py_truthy (regex_field_name c)); [|injection E1 as <- _; left; reflexivity].
    apply rbind_done in E1 as (c0 & f & E0 & E1). apply rlift_done in E0 as [-> _].
    injection E1 as <- _. right. eauto. }
  apply rbind_done in H as (c2 & fields & E2 & H). apply rlift_done in E2 as [-> _].
  destruct (search_loop _ _ _ _ _ _ _ _ _ _ _ _) as [r|] eqn:EL; [|discriminate].
  apply rbind_done in H as (c3 & items & E3 & H). apply rlift_done in E3 as [-> ->].
  apply rbind_done in H as (c4 & n & E4 & H). apply rlift_done in E4 as [-> _].
  apply rbind_done in H as (c5 & u & E5 & [= _ <- _]).
  exists c1, fields, items, n. eauto.
Qed.

(** The request of [GoogleBooksAPI.search] carries its start index. *)
Lemma api_params_start a q lang start m fields params :
  api_params a q lang start m fields = Ok params -> store_get params "startIndex" = start.
Proof.
  unfold api_params. intros H. apply bind_eq_ok in H as (fv & _ & [= <-]).
  destruct (py_truthy (api_key a)); [rewrite store_get_set_ne by discriminate|]; reflexivity.
Qed.

(** [",".join(fields)] of strings does not raise, so the request is built. *)
Lemma api_params_strings a q lang start m fields :
  Forall (fun f => exists s, f = JStr s) fields -> exists params, api_params a q lang start m fields = Ok params.
Proof.
  intros Hf. destruct (py_join_strings "," fields Hf) as [j Hj]. unfold api_params.
  destruct (Nat.eqb (length fields) 0); [simpl; eauto|]. rewrite Hj. simpl. eauto.
Qed.

(** A property of the controller that recording a search in the history
    keeps. *)
Definition hist_closed (P : BookCtl -> Prop) : Prop :=
  forall c q r f fs res h, P c -> history_add q r f fs res (history c) = Ok h -> P (with_history c h).

Lemma hist_closed_any (P : BookCtl -> Prop) : (forall c h, P c -> P (with_history c h)) -> hist_closed P.
Proof. intros H c q r f fs res h Hc _. exact (H c h Hc). Qed.

Lemma add_to_history_inv (P : BookCtl -> Prop) c q r f fs res :
  hist_closed P -> P c -> run_inv P (add_to_history c q r f fs res).
Proof.
  intros Hh Hc. unfold add_to_history. destruct history_add eqn:E; simpl; [exact (Hh _ _ _ _ _ _ _ Hc E)|exact Hc].
Qed.

(** The part of [search] after the append keeps what [with_history]
    keeps. *)
Lemma search_tail_inv (P : BookCtl -> Prop) c fn query :
  hist_closed P -> P c ->
  run_inv P (let lang := get_lang (user_settings c) in
             let max_results := get_max_results (settings c) in
             let items_amount := get_items_amount (user_settings c) in
             let! c fields := rlift c (names_to_fields c fn) in
             match search_loop http_get re_search (loop_fuel items_amount) c query lang max_results fields
                               items_amount [] (JInt 0) JNull with
             | None => RStuck
             | Some r =>
               let! c items := rlift c r in
               let! c n := rlift c (py_int_of items_amount) in
               let res := JObj [("items", JList (py_slice items 0 n))] in
               let! c _ := add_to_history c query (last_regex c) (regex_field_name c) fn res in
               RDone c (res, fn)
             end).
Proof.
  intros Hh Hc. cbv zeta. apply run_inv_bind; [apply run_inv_lift, Hc|]. intros c1 fields H1.
  destruct (search_loop _ _ _ _ _ _ _ _ _ _ _ _); [|exact I].
  apply run_inv_bind; [apply run_inv_lift, H1|]. intros c2 items H2.
  apply run_inv_bind; [apply run_inv_lift, H2|]. intros c3 n H3.
  apply run_inv_bind; [apply add_to_history_inv; assumption|]. intros; apply run_inv_done; assumption.
Qed.

(** What the mutation of the list and [with_history] keep, [search]
    keeps. *)
Lemma search_inv (P : BookCtl -> Prop) c fn mut :
  (forall f c, P c -> P (mut f c)) -> hist_closed P -> P c ->
  run_inv P (search http_get re_search c fn mut).
Proof.
  intros Hm Hh Hc. unfold search. destruct (negb _); [exact Hc|].
  apply run_inv_bind.
  - destruct (py_truthy (regex_field_name c)); [|exact Hc].
    apply run_inv_bind; [apply run_inv_lift, Hc|]. intros c1 f H1. apply Hm, H1.
  - intros c1 fn1 H1. apply search_tail_inv; assumption.
Qed.

(** Once the regex field is appended, a property that holds of the mutated
    controller and that [with_history] keeps holds wherever [search]
    ends. *)
Lemma search_inv_after_append (P : BookCtl -> Prop) c l rf mut :
  py_truthy (last_query c) = true -> regex_field_name c = JStr rf -> rf <> "" ->
  P (mut (JList (l ++ [JStr rf])%list) c) -> hist_closed P ->
  run_inv P (search http_get re_search c (JList l) mut).
Proof.
  intros Hq Hf Hf0 Hm Hh. unfold search. rewrite Hq, Hf, (str_truthy_ne rf Hf0). simpl.
  apply search_tail_inv; assumption.
Qed.

Lemma with_history_user c h : user_settings (with_history c h) = user_settings c.
Proof. reflexivity. Qed.

(** After the alias is written back, the list of the mode is the new
    list. *)
Lemma alias_fields_get mode after c v :
  get_mode_fields mode (user_settings c) = Ok v ->
  get_mode_fields mode (user_settings (alias_fields mode after c)) = Ok after.
Proof.
  unfold get_mode_fields, alias_fields, get_selected_fields. destruct (store_get _ "selected_fields") eqn:E;
    try discriminate. intros _. simpl. rewrite store_get_set_eq. simpl. rewrite jstore_lookup_eq. reflexivity.
Qed.

(** A status 400..599 gives the message of an [HTTPError]. *)
Lemma http_error_msg_some status reason url :
  (400 <= status < 600)%Z -> exists msg, http_error_msg status reason url = Some msg.
Proof.
  intros H. unfold http_error_msg.
  destruct (Z.leb_spec 400 status), (Z.ltb_spec status 500); simpl; eauto;
    destruct (Z.leb_spec 500 status), (Z.ltb_spec status 600); simpl; eauto; lia.
Qed.

(** [search] returns a dict only for an HTTP error status: the branches
    of [_handle_error] for a connection error and the other request
    errors are never taken ([requests.get], which raises them, is called
    outside the [try]). *)
Lemma api_search_dict_http a q lang start m fields d :
  api_search http_get a q lang start m fields = Ok (ApiDict d) ->
  exists msg, d = handle_error (ReqHTTPError msg).
Proof.
  unfold api_search. destruct (api_params _ _ _ _ _ _); cbn [bind]; [|intros [=]].
  destruct (http_get _ _) as [status reason url body|e]; [|intros [=]].
  destruct (http_error_msg _ _ _) as [msg|]; [intros [= <-]; exists msg; reflexivity|].
  destruct body; intros [=].
Qed.

(** The filter on a response holding only the list [items]. *)
Lemma apply_regex_page c r p page :
  regex_on c r p ->
  apply_regex_if_needed re_search c (JObj [("items", JList page)]) =
    Ok (JObj [("items", JList (filter (fun it => matches_query re_search it (str_split "."%char p) r) page))]).
Proof.
  intros (Hr & Hr0 & rf & fd & Hf & Hf0 & Hfd & Hp). unfold apply_regex_if_needed, do_regex.
  rewrite Hr, Hf, (str_truthy_ne r Hr0), (str_truthy_ne rf Hf0). simpl.
  unfold name_to_field. rewrite Hfd. simpl. rewrite Hp. cbn [bind].
  unfold ctl_parse_query, str_startswith. rewrite prefix_app, replace_items_prefix. reflexivity.
Qed.

Lemma filter_none {A} (f : A -> bool) l : Forall (fun x => f x = false) l -> filter f l = [].
Proof. induction 1 as [|x l Hx _ IH]; simpl; [reflexivity|rewrite Hx; exact IH]. Qed.

Lemma loop_fuel_S ia : exists f, loop_fuel ia = S f.
Proof. unfold loop_fuel. destruct (py_int_of ia); eauto. Qed.

(** With the filter on, a first page whose items all fail the regex is an
    empty page for the loop. *)
Lemma fetch_unmatched_page c r p page reason url q lang m fields b v :
  regex_on c r p ->
  (forall params, store_get params "startIndex" = JInt 0 ->
     http_get (base_url (api c)) params = HttpReply 200 reason url (Some (JObj [("items", JList page)]))) ->
  Forall (fun it => matches_query re_search it (str_split "."%char p) r = false) page ->
  fetch_additional_results http_get re_search c q lang (JInt 0) m fields b = Ok v -> v = (JList [], JNull).
Proof.
  intros Hon Hh Hpage H. apply fetch_ok in H as (body & url' & Ea & H).
  unfold api_search in Ea. destruct (api_params _ _ _ _ _ _) as [params|] eqn:Hp; [|discriminate].
  simpl in Ea. rewrite (Hh params (api_params_start _ _ _ _ _ _ _ Hp)) in Ea. simpl in Ea.
  injection Ea as <- _. rewrite (apply_regex_page c r p page Hon), (filter_none _ _ Hpage) in H.
  injection H as <-. reflexivity.
Qed.

(** A property of the controller that changing the user settings, writing a
    file and recording a search keep. *)
Definition book_frame (P : BookCtl -> Prop) : Prop :=
  (forall c u, P c -> P (with_user c u)) /\ (forall c path d, P c -> P (write_file path d c)) /\ hist_closed P.

Lemma alias_fields_frame P mode f c : book_frame P -> P c -> P (alias_fields mode f c).
Proof. intros (Hu & _ & _) Hc. unfold alias_fields. destruct (get_selected_fields _); auto. Qed.

Lemma search_generic_inv P check mode c :
  book_frame P -> P c -> run_inv P (search_generic http_get re_search check mode c).
Proof.
  intros Hf Hc. unfold search_generic. repeat run_inv_step; try assumption.
  apply search_inv; [intros; apply alias_fields_frame|apply Hf|]; assumption.
Qed.

Lemma flat_search_inv P mode c : book_frame P -> P c -> run_inv P (flat_search http_get re_search mode c).
Proof.
  intros Hf Hc. unfold flat_search, search_for_list, search_for_table.
  apply run_inv_bind; [destruct (String.eqb _ _); apply search_generic_inv; assumption|].
  intros. repeat run_inv_step; assumption.
Qed.

Lemma file_save_to_csv_inv P data header filename c :
  book_frame P -> P c -> run_inv P (file_save_to_csv data header filename c).
Proof.
  intros (Hu & Hw & Hh) Hc. unfold file_save_to_csv. repeat run_inv_step; auto.
Qed.

Lemma ctl_save_inv P path data c : book_frame P -> P c -> run_inv P (ctl_save http_get re_search path data c).
Proof.
  intros Hf Hc. pose proof Hf as (Hu & Hw & Hh). unfold ctl_save, save_to_json, save_to_csv, file_save_to_text.
  destruct (str_endswith ".json" path); [|destruct (str_endswith ".csv" path)].
  - apply run_inv_bind; [destruct (py_truthy _); repeat run_inv_step; try apply search_generic_inv; auto|].
    intros. apply run_inv_bind; [destruct (py_truthy _); repeat run_inv_step; try apply search_generic_inv; auto|].
    intros. apply run_inv_done; auto.
  - apply run_inv_bind; [destruct (py_truthy _); repeat run_inv_step; try apply flat_search_inv;
                         try apply file_save_to_csv_inv; auto|].
    intros. destruct (py_truthy _); repeat run_inv_step; try apply flat_search_inv;
      try apply file_save_to_csv_inv; auto.
  - apply run_inv_done; auto.
Qed.

Lemma set_selected_inv P chosen mode c : book_frame P -> P c -> run_inv P (set_selected chosen mode c).
Proof. intros (Hu & _ & _) Hc. unfold set_selected. repeat run_inv_step; auto. Qed.

End ControllerLemmas.

(** Slicing from index 1 leaves nothing of a list of at most one element. *)
Lemma py_slice_from_1_short {A} (l : list A) stop : (length l <= 1)%nat -> py_slice l 1 stop = [].
Proof.
  intros H. unfold py_slice. cbn zeta.
  replace (Z.to_nat (if (1 <? 0)%Z then Z.max 0 (1 + Z.of_nat (length l)) else Z.min 1 (Z.of_nat (length l))))
    with (length l) by (simpl; lia).
  rewrite skipn_all. apply firstn_nil.
Qed.

(** [HistoryModel.add] on a list history. *)
Lemma history_add_list q r f fs res h h' l :
  history_add q r f fs res h = Ok h' -> get_history h = JList l ->
  exists n, get_history h' = JList (py_slice l 1 (n - 1) ++ [history_event q r f fs res])%list.
Proof.
  intros H Hl. unfold history_add in H. rewrite Hl in H.
  apply bind_eq_ok in H as (n & _ & H). injection H as <-. exists n.
  unfold get_history. simpl. apply store_get_set_eq.
Qed.

(** ** Properties of the history *)

(** C29. [HistoryModel.add] keeps [history[1 : results_to_save - 1]] and
    appends the event: the oldest event is dropped even when the history is
    not full, so a history of at most one event (an empty one, as the
    program starts from) holds exactly the new event after every [add],
    whatever [results_to_save] is; it never records more than the last
    search. *)
Theorem history_add_keeps_one q r f fs res h h' l :
  history_add q r f fs res h = Ok h' -> get_history h = JList l -> (length l <= 1)%nat ->
  get_history h' = JList [history_event q r f fs res].
Proof.
  intros H Hl Hlen. destruct (history_add_list q r f fs res h h' l H Hl) as (n & ->).
  rewrite (py_slice_from_1_short l _ Hlen). reflexivity.
Qed.

Lemma history_add_keeps_one_witness :
  let h := {| hist_data := [("history", JList [])]; results_to_save := JInt 5 |} in
  let ev := history_event (JStr "Python") JNull JNull (JList []) (JObj []) in
  history_add (JStr "Python") JNull JNull (JList []) (JObj []) h =
    Ok {| hist_data := [("history", JList [ev])]; results_to_save := JInt 5 |} /\
  get_history {| hist_data := [("history", JList [ev])]; results_to_save := JInt 5 |} = JList [ev].
Proof.
  split; [reflexivity|].
  apply (history_add_keeps_one (JStr "Python") JNull JNull (JList []) (JObj [])
           {| hist_data := [("history", JList [])]; results_to_save := JInt 5 |} _ []);
    [reflexivity|reflexivity|simpl; lia].
Defined.

(** ** A sample run

    The settings, user settings and history of a first start, an API that
    answers two pages and an error, and a regex engine for the default
    date pattern: the inputs of the witnesses below. *)

Definition sample_fields : jvalue :=
  JObj [("Title", JStr "items.volumeInfo.title"); ("Publishing date", JStr "items.volumeInfo.publishedDate")].

Definition sample_ctl : BookCtl :=
  ctl_init [("fields", sample_fields); ("max_results", JInt 2)]
           {| hist_data := [("history", JList [])]; results_to_save := JInt 5 |}
           [("selected_fields", JObj [("list", JList [JStr "Title"]); ("table", JList [JStr "Title"])]);
            ("is_list_print", JBool true); ("is_table_print", JBool false); ("lang", JStr "en");
            ("items_amount", JInt 3); ("field_styles", JObj [])]
           (api_init JNull).

Definition sample_book (title date : string) : jvalue :=
  JObj [("volumeInfo", JObj [("title", JStr title); ("publishedDate", JStr date)])].

(** An API with two pages of two books and the given first page. *)
Definition sample_pages (first : list jvalue) (url : string) (params : store) : http_reply :=
  match store_get params "startIndex" with
  | JInt 0 => HttpReply 200 "OK" url (Some (JObj [("items", JList first)]))
  | JInt 2 => HttpReply 200 "OK" url (Some (JObj [("items", JList [sample_book "C" "2020"; sample_book "D" "2021"])]))
  | _ => HttpReply 200 "OK" url (Some (JObj []))
  end.

(** A first page with one recent book, and one with two old books. *)
Definition sample_http := sample_pages [sample_book "A" "2019"; sample_book "B" "2005"].
Definition sample_http_old := sample_pages [sample_book "A" "2001"; sample_book "B" "2005"].

Definition sample_http_error (url : string) (params : store) : http_reply :=
  HttpReply 503 "Service Unavailable" url None.

(** [re.search("^201[7-9]|^202", text)]. *)
Definition sample_re (pattern text : string) : bool :=
  existsb (fun y => String.prefix y text) ["2017"; "2018"; "2019"; "202"].

(** ** Properties of the search *)

Section SearchProperties.

Variable http_get : string -> store -> http_reply.
Variable re_search : string -> string -> bool.

(** C34. [Controller.search] always returns or raises: the paging loop
    [while len(items) < items_amount and (...)] cannot run for ever,
    whatever the API answers, because every iteration that does not stop
    adds at least one item. *)
Theorem search_terminates c fields_names mutated :
  search http_get re_search c fields_names mutated <> RStuck.
Proof. exact (search_total http_get re_search c fields_names mutated). Qed.

(** C33. With a regex filter on a field whose path is [items.<p>] (the
    application's [Publishing date] setting), every item of the list
    search's result matches the regex at the path [p]: the filter of
    [_apply_regex_if_needed] is applied to every page the loop keeps. *)
Theorem search_for_list_matches_regex c c' res fields r p :
  regex_on c r p -> py_truthy (last_query c) = true ->
  search_for_list http_get re_search c = RDone c' (Some (res, fields)) ->
  exists l, res = JObj [("items", JList l)] /\
            Forall (fun it => matches_query re_search it (str_split "."%char p) r = true) l.
Proof.
  intros Hon Hq H. unfold search_for_list, search_generic in H.
  destruct (negb _); [discriminate|].
  apply rbind_done in H as (c1 & f1 & E1 & H). apply rlift_done in E1 as [-> _].
  apply rbind_done in H as (c2 & [res' fn'] & E2 & [= _ <- _]).
  destruct (search_done_inv http_get re_search _ _ _ _ _ _ Hq E2) as (c3 & fields' & items & n & Hc3 & EL & ->).
  assert (Hon3 : regex_on c3 r p) by (destruct Hc3 as [->|[f ->]]; [exact Hon|apply alias_fields_regex_on, Hon]).
  eexists; split; [reflexivity|]. apply Forall_py_slice.
  refine (search_loop_forall http_get re_search _ _ _ _ _ _ _ _ _ _ _ _ _ (Forall_nil _) EL).
  intros start b resp tot Hf. exact (proj2 (fetch_regex_on http_get re_search _ _ _ _ _ _ _ _ _ _ _ Hon3 Hf)).
Qed.

(** C28. [search] appends the regex field to the very list it is given,
    and [_search_generic] gives it the list held by the user settings: a
    list search with a regex field leaves the stored list fields one entry
    longer (the regex field), wherever the search ends, so the field shows
    up as a column the user did not choose and every later search adds it
    again. *)
Theorem search_for_list_appends_regex_field c rf l :
  py_truthy (get_is_list c) = true -> py_truthy (last_query c) = true ->
  regex_field_name c = JStr rf -> rf <> "" -> get_list_fields (user_settings c) = Ok (JList l) ->
  search_for_list http_get re_search c <> RStuck /\
  run_inv (fun c' => get_list_fields (user_settings c') = Ok (JList (l ++ [JStr rf])%list))
          (search_for_list http_get re_search c).
Proof.
  intros Hl Hq Hf Hf0 Hfields. split; [apply search_generic_total|].
  unfold search_for_list, search_generic. unfold get_is_list in Hl. rewrite Hl. simpl.
  change (get_mode_fields "list" (user_settings c)) with (get_list_fields (user_settings c)). rewrite Hfields.
  simpl. apply run_inv_bind; [|intros; apply run_inv_done; assumption].
  apply (search_inv_after_append http_get re_search _ c l rf); try assumption.
  - exact (alias_fields_get "list" _ c _ Hfields).
  - apply hist_closed_any. intros c1 h H. rewrite with_history_user. exact H.
Qed.

(** C32. An error status of the API never reaches the [HTTPError]
    handler of [_fetch_additional_results]: [GoogleBooksAPI.search]
    catches it and returns the dict [{"error": ...}], whose unpacking into
    [temp_result, url] raises [ValueError]; the controller re-raises it as
    [Exception("not enough values to unpack (expected 2, got 1)")], never
    as ["Bad API response: ..."]. *)
Theorem fetch_http_error_unpack c q lang start m fields b status reason url body :
  (forall params, http_get (base_url (api c)) params = HttpReply status reason url body) ->
  (400 <= status < 600)%Z -> Forall (fun f => exists s, f = JStr s) fields ->
  fetch_additional_results http_get re_search c q lang start m fields b =
    Err (PyException "" (ValueError "not enough values to unpack (expected 2, got 1)")).
Proof.
  intros Hh Hs Hf. destruct (api_params_strings (api c) q lang start m fields Hf) as [params Hp].
  destruct (http_error_msg_some status reason url Hs) as [msg Hm].
  unfold fetch_additional_results, api_search. rewrite Hp. simpl. rewrite Hh, Hm. reflexivity.
Qed.

(** C30. The filter runs on each page, and an empty filtered page ends
    the loop: with a regex filter on, when none of the items of the first
    page matches, the search returns no items at all, whatever the later
    pages hold. *)
Theorem search_for_list_stops_at_unmatched_page c c' res fields r p page reason url :
  regex_on c r p -> py_truthy (last_query c) = true ->
  (forall params, store_get params "startIndex" = JInt 0 ->
     http_get (base_url (api c)) params = HttpReply 200 reason url (Some (JObj [("items", JList page)]))) ->
  Forall (fun it => matches_query re_search it (str_split "."%char p) r = false) page ->
  search_for_list http_get re_search c = RDone c' (Some (res, fields)) ->
  res = JObj [("items", JList [])].
Proof.
  intros Hon Hq Hh Hpage H. unfold search_for_list, search_generic in H.
  destruct (negb _); [discriminate|].
  apply rbind_done in H as (c1 & f1 & E1 & H). apply rlift_done in E1 as [-> _].
  apply rbind_done in H as (c2 & [res' fn'] & E2 & [= _ <- _]).
  destruct (search_done_inv http_get re_search _ _ _ _ _ _ Hq E2) as (c3 & fields' & items & n & Hc3 & EL & ->).
  assert (Hon3 : regex_on c3 r p /\ api c3 = api c)
    by (destruct Hc3 as [->|[f ->]]; [auto|split; [apply alias_fields_regex_on, Hon|]];
        unfold alias_fields; destruct (get_selected_fields _); reflexivity).
  destruct Hon3 as [Hon3 Ha3]. rewrite <- Ha3 in Hh.
  destruct (loop_fuel_S (get_items_amount (user_settings c3))) as [f Hf]. rewrite Hf in EL.
  cbn [search_loop] in EL.
  destruct (py_lt _ _) as [[]|]; [|injection EL as <-; rewrite py_slice_nil; reflexivity|discriminate].
  simpl in EL. destruct (fetch_additional_results _ _ _ _ _ _ _ _ _) as [v|] eqn:Ef; [|discriminate].
  rewrite (fetch_unmatched_page http_get re_search c3 r p page reason url _ _ _ _ _ v Hon3 Hh Hpage Ef) in EL.
  injection EL as <-. rewrite py_slice_nil. reflexivity.
Qed.

(** C31. The API leaves out [items] when nothing matches the query; the
    controller then indexes [temp_result["items"]] (in [parse_query] with
    the default regex filter) and raises [KeyError], re-raised as an
    [Exception]: a query without results is reported as an error (the
    results text is ["Error"]), never as "No list results". *)
Theorem fetch_no_items_raises c r p q lang start m fields b reason url body :
  regex_on c r p -> Forall (fun f => exists s, f = JStr s) fields ->
  (forall params, http_get (base_url (api c)) params = HttpReply 200 reason url (Some (JObj body))) ->
  dict_lookup String.eqb "items" body = None ->
  fetch_additional_results http_get re_search c q lang start m fields b =
    Err (PyException "" (KeyError "items")).
Proof.
  intros (Hr & Hr0 & rf & fd & Hf & Hf0 & Hfd & Hp) Hs Hh Hi.
  destruct (api_params_strings (api c) q lang start m fields Hs) as [params Hpar].
  unfold fetch_additional_results, api_search. rewrite Hpar. simpl. rewrite Hh. simpl.
  unfold apply_regex_if_needed, do_regex.
  rewrite Hr, Hf, (str_truthy_ne r Hr0), (str_truthy_ne rf Hf0). simpl.
  unfold name_to_field. rewrite Hfd. simpl. rewrite Hp. cbn [bind].
  unfold ctl_parse_query, str_startswith. rewrite prefix_app. simpl. rewrite Hi. reflexivity.
Qed.

End SearchProperties.

Lemma sample_regex_on : regex_on sample_ctl REGEX_FOR_DATE "volumeInfo.publishedDate".
Proof.
  split; [reflexivity|]. split; [discriminate|]. do 2 eexists.
  split; [reflexivity|]. split; [discriminate|]. split; reflexivity.
Qed.

Lemma search_for_list_matches_regex_witness :
  exists c' res fields,
    search_for_list sample_http sample_re sample_ctl = RDone c' (Some (res, fields)) /\
    res = JObj [("items", JList [sample_book "A" "2019"; sample_book "C" "2020"; sample_book "D" "2021"])] /\
    exists l, res = JObj [("items", JList l)] /\
      Forall (fun it => matches_query sample_re it (str_split "."%char "volumeInfo.publishedDate")
                                      REGEX_FOR_DATE = true) l.
Proof.
  remember (search_for_list sample_http sample_re sample_ctl) as R eqn:ER.
  pose proof ER as EV. vm_compute in EV.
  destruct R as [c' [[res fields]|]|c' e|]; try discriminate EV.
  exists c', res, fields. split; [reflexivity|]. split; [injection EV as _ Hres _; rewrite Hres; reflexivity|].
  apply (search_for_list_matches_regex sample_http sample_re sample_ctl c' res fields REGEX_FOR_DATE
           "volumeInfo.publishedDate"); [exact sample_regex_on|reflexivity|symmetry; exact ER].
Defined.

Lemma search_for_list_stops_at_unmatched_page_witness :
  exists c' res fields,
    search_for_list sample_http_old sample_re sample_ctl = RDone c' (Some (res, fields)) /\
    res = JObj [("items", JList [])].
Proof.
  remember (search_for_list sample_http_old sample_re sample_ctl) as R eqn:ER.
  pose proof ER as EV. vm_compute in EV.
  destruct R as [c' [[res fields]|]|c' e|]; try discriminate EV.
  exists c', res, fields. split; [reflexivity|].
  apply (search_for_list_stops_at_unmatched_page sample_http_old sample_re sample_ctl c' res fields
           REGEX_FOR_DATE "volumeInfo.publishedDate" [sample_book "A" "2001"; sample_book "B" "2005"]
           "OK" (base_url (api sample_ctl))); [exact sample_regex_on|reflexivity| |repeat constructor|symmetry; exact ER].
  intros params H. unfold sample_http_old, sample_pages. rewrite H. reflexivity.
Defined.

Lemma search_for_list_appends_regex_field_witness :
  search_for_list sample_http sample_re sample_ctl <> RStuck /\
  run_inv (fun c' => get_list_fields (user_settings c') = Ok (JList [JStr "Title"; JStr PUBLISHING_DATE_FIELD]))
          (search_for_list sample_http sample_re sample_ctl).
Proof.
  apply (search_for_list_appends_regex_field sample_http sample_re sample_ctl PUBLISHING_DATE_FIELD
           [JStr "Title"]); first [reflexivity|discriminate].
Defined.

Lemma fetch_http_error_unpack_witness :
  fetch_additional_results sample_http_error sample_re sample_ctl (JStr LAST_QUERY) (JStr "en") (JInt 0) (JInt 2)
    [JStr "items.volumeInfo.title"] true =
    Err (PyException "" (ValueError "not enough values to unpack (expected 2, got 1)")).
Proof.
  apply (fetch_http_error_unpack sample_http_error sample_re sample_ctl _ _ _ _ _ _ 503 "Service Unavailable"
           (base_url (api sample_ctl)) None); [reflexivity|lia|repeat constructor; eexists; reflexivity].
Defined.

Lemma fetch_no_items_raises_witness :
  fetch_additional_results (fun url _ => HttpReply 200 "OK" url (Some (JObj [("totalItems", JInt 0)])))
    sample_re sample_ctl (JStr LAST_QUERY) (JStr "en") (JInt 0) (JInt 2) [JStr "items.volumeInfo.title"] true =
    Err (PyException "" (KeyError "items")).
Proof.
  apply (fetch_no_items_raises _ sample_re sample_ctl REGEX_FOR_DATE "volumeInfo.publishedDate" _ _ _ _ _ _ "OK"
           (base_url (api sample_ctl)) [("totalItems", JInt 0)]);
    [exact sample_regex_on|repeat constructor; eexists; reflexivity|reflexivity|reflexivity].
Defined.

(** ** Other behaviours *)

(** [HistoryModel.__init__] accepts an empty file ([validate(is_can_be_empty=True)]),
    but [add] then slices [None] and raises [TypeError]: every search
    fails. *)
Lemma history_add_without_history q r f fs res h n :
  get_history h = JNull -> py_int_of (results_to_save h) = Ok n ->
  history_add q r f fs res h = Err (TypeError "object is not subscriptable").
Proof. intros Hh Hn. unfold history_add. rewrite Hh, Hn. reflexivity. Qed.

(** [save_to_csv] replaces every [".csv"] of the path, directories
    included. *)
Lemma csv_table_path_replaces_all :
  str_replace ".csv" "_table.csv" None "/data.csv/books.csv" = "/data_table.csv/books_table.csv".
Proof. reflexivity. Qed.
