(* ===== verification/BookUI.v ===== *)
(** * BookUI: [ui/UserInterface.py] and [init.py] of the lab7 client

    The menus are built with classes of [shared] that are not in the
    repository ([MenuBuilder], [ChooseMenuBuilder], [StringInput]); what a
    menu or an input returns is an argument of the handler it calls.  The
    handlers are modelled on the controller of [BookSearch]: the results
    text ([get_results], the dynamic title of the main menu), [save], and
    the setters behind the menu options.  The three menus of
    [UserInterface] (main, regex, settings) are tables of options, and the
    menu loop [ui_menu_loop] runs the user's turns over the stack of open
    menus, the main menu running its dynamic title (a search) each time it
    is shown.  [init.main] builds the models, the API and the controller;
    reading a JSON file is a parameter. *)

From S2P Require Import Prelude Json BookData BookSearch.

Local Open Scope string_scope.

Definition MIN_QUERY_LEN : nat := 3.
Definition MAX_QUERY_LEN : nat := 30.
Definition MIN_REGEX_LEN : nat := 2.
Definition MAX_REGEX_LEN : nat := 100.

(** The extensions [save] accepts. *)
Definition SAVE_EXTENSIONS : list string := [".txt"; ".json"; ".csv"].

Section UserInterface.

Variable http_get : string -> store -> http_reply.
Variable re_search : string -> string -> bool.
Variable tabulate : list (list jvalue) -> list string -> string.

Let search_for_table := search_for_table http_get re_search.
Let search_for_list := search_for_list http_get re_search.

(** [UserInterface._dynamic_regex_title]. *)
Definition dynamic_regex_title (c : BookCtl) : string :=
  py_str (ctl_get_regex c) ++ " regex string on " ++ py_str (ctl_get_regex_field_name c) ++ " field".

(** One format of [_get_results_string]: the search (an exception of the
    search gives ["Error"] for the whole text), then the styled data or the
    message for no results. *)
Definition results_part (search : BookCtl -> run (option (jvalue * jvalue)))
  (style : jvalue -> jvalue -> result string) (none_msg : string) (c : BookCtl) :
  run (option string) :=
  match search c with
  | RStuck => RStuck
  | RRaised c _ => RDone c None
  | RDone c r =>
    match r with
    | None => RRaised c (TypeError "'NoneType' object is not subscriptable")
    | Some (data, selected) =>
      let! c items := rlift c (jindex data "items") in
      if negb (py_truthy items) then RDone c (Some none_msg)
      else let! c styled := rlift c (style data selected) in RDone c (Some (LF ++ styled))
    end
  end.

(** [UserInterface._get_results_string]. *)
Definition get_results_string (query fields field_styles is_table is_list : jvalue) (c : BookCtl) :
  run string :=
  let! c table := (if py_truthy is_table then
                     results_part search_for_table
                       (fun data sel => as_table tabulate styler_default data sel field_styles fields)
                       ("No table results for such query, regex and field, change them" ++ LF) c
                   else RDone c (Some "")) in
  match table with
  | None => RDone c "Error"
  | Some t =>
    let! c lst := (if py_truthy is_list then
                     results_part search_for_list
                       (fun data sel => as_list styler_default data sel field_styles fields)
                       ("No list results for such query, regex and field, change them" ++ LF) c
                   else RDone c (Some "")) in
    match lst with
    | None => RDone c "Error"
    | Some l => RDone c (t ++ l ++ "Query: " ++ py_str query ++ LF ++ dynamic_regex_title c ++ LF)
    end
  end.

(** [UserInterface.get_results]. *)
Definition get_results (c : BookCtl) : run string :=
  let query := ctl_get_query c in
  if negb (py_truthy query) then RDone c "No query yet"
  else get_results_string query (ctl_get_fields c) (ctl_get_field_styles c) (get_is_table c) (get_is_list c) c.

(** How [UserInterface.save] ends: the value it returns or what it prints. *)
Inductive save_end : Type := SaveNoQuery | SaveEmptyPath | SaveBadExtension | SaveDone.

(** [UserInterface.save], with the path the file dialog returned ([""]
    when it was cancelled). *)
Definition ui_save (file_path : string) (c : BookCtl) : run save_end :=
  if negb (py_truthy (ctl_get_query c)) then RDone c SaveNoQuery
  else if String.eqb file_path "" then RDone c SaveEmptyPath
  else if negb (existsb (fun ext => str_endswith ext file_path) SAVE_EXTENSIONS) then
    RDone c SaveBadExtension
  else
    let! c data := (if str_endswith ".txt" file_path then
                      let! c styled := get_results c in RDone c (JStr (remove_styles styled))
                    else RDone c JNull) in
    let! c _ := ctl_save http_get re_search file_path data c in
    RDone c SaveDone.

(** [UserInterface.set_query], with the text [StringInput] returned. *)
Definition ui_set_query (query : string) (c : BookCtl) : BookCtl := set_last_query (JStr query) c.

(** [UserInterface.set_regex]: the inputs are read until one compiles
    ([re_compiles] is [InputParser.is_regex]); [None] when none does (the
    loop goes on reading). *)
Fixpoint ui_set_regex (re_compiles : string -> bool) (inputs : list string) (c : BookCtl) : option BookCtl :=
  match inputs with
  | [] => None
  | r :: rest => if re_compiles r then Some (set_last_regex (JStr r) c) else ui_set_regex re_compiles rest c
  end.

(** [UserInterface.set_regex_field], with the field the menu returned. *)
Definition ui_set_regex_field (selected_field : jvalue) (c : BookCtl) : BookCtl :=
  set_regex_field_name (JStr (py_str selected_field)) c.

(** [UserInterface.choose_fields(attributes)], with the fields the menu
    returned. *)
Definition ui_choose_fields (attributes chosen : jvalue) (c : BookCtl) : run unit :=
  let! c mode := rlift c (jget attributes "mode" JNull) in
  match mode with
  | JStr m =>
    let! c _ := rlift c (ctl_get_selected_fields c m) in
    set_selected chosen m c
  | _ => RRaised c (ValueError "Wrong mode")
  end.

(** [UserInterface.choose_visualization_method], with the modes the menu
    returned. *)
Definition ui_choose_visualization (choose : list string) (c : BookCtl) : BookCtl :=
  let c := set_is_list (JBool (existsb (String.eqb "List") choose)) c in
  set_is_table (JBool (existsb (String.eqb "Table") choose)) c.

(** ** The menu loop as a transition system

    One event is one menu action: the main menu's dynamic title (the
    results), or one of its options with what its inner menu or input
    returned.  An action that raises leaves the menu loop, so only actions
    that return are steps. *)
Inductive ui_event : Type :=
| UiShowResults
| UiSetQuery (query : string)
| UiSetRegex (inputs : list string)
| UiSetRegexField (selected_field : jvalue)
| UiChooseVisualization (choose : list string)
| UiChooseFields (attributes chosen : jvalue)
| UiSave (file_path : string).

Variable re_compiles : string -> bool.

Definition ui_handle (ev : ui_event) (c : BookCtl) : run unit :=
  match ev with
  | UiShowResults => let! c _ := get_results c in RDone c tt
  | UiSetQuery q => RDone (ui_set_query q c) tt
  | UiSetRegex inputs => match ui_set_regex re_compiles inputs c with
                         | Some c => RDone c tt
                         | None => RStuck
                         end
  | UiSetRegexField f => RDone (ui_set_regex_field f c) tt
  | UiChooseVisualization choose => RDone (ui_choose_visualization choose c) tt
  | UiChooseFields attributes chosen => ui_choose_fields attributes chosen c
  | UiSave path => let! c _ := ui_save path c in RDone c tt
  end.

(** The controllers the menu loop reaches from [c0]. *)
Inductive ui_reachable (c0 : BookCtl) : BookCtl -> Prop :=
| ui_start : ui_reachable c0 c0
| ui_next c ev c' : ui_reachable c0 c -> ui_handle ev c = RDone c' tt -> ui_reachable c0 c'.

(** ** The menus ([_build_main_menu], [_build_regex_menu],
    [_build_settings_menu]) *)

Inductive ui_menu : Type := MainMenu | RegexMenu | SettingsMenu.

(** What an option does: call a handler, or show a submenu (its
    [show]). *)
Inductive ui_option : Type :=
| OptSetQuery
| OptSetRegex
| OptSetRegexField
| OptChooseVisualization
| OptChooseFields (mode : string)
| OptSave
| OptSubmenu (m : ui_menu).

Definition ui_menu_options (m : ui_menu) : list (string * ui_option) :=
  match m with
  | MainMenu => [("1", OptSetQuery); ("2", OptSubmenu RegexMenu); ("3", OptChooseVisualization);
                 ("4", OptSubmenu SettingsMenu); ("5", OptSave)]
  | RegexMenu => [("1", OptSetRegex); ("2", OptSetRegexField)]
  | SettingsMenu => [("1", OptChooseFields "List"); ("2", OptChooseFields "Table")]
  end.

(** [add_stop_options(["0", "Exit", "exit", "e", "q"], ...)] of the three
    menus. *)
Definition ui_stop_options : list string := ["0"; "Exit"; "exit"; "e"; "q"].

(** What the prompts of a handler return in a turn: the query, the
    regexes typed until one compiles, the field chosen, the visualization
    modes and fields chosen, the path of the file dialog. *)
Record ui_prompts : Type := {
  query_input : string;
  regex_inputs : list string;
  field_choice : jvalue;
  modes_chosen : list string;
  fields_chosen : jvalue;
  save_path : string
}.

(** The handler an option calls; the keyword arguments of [add_option]
    ([mode="List"]) reach [choose_fields] as the dict [attributes]. *)
Definition option_event (o : ui_option) (p : ui_prompts) : option ui_event :=
  match o with
  | OptSetQuery => Some (UiSetQuery (query_input p))
  | OptSetRegex => Some (UiSetRegex (regex_inputs p))
  | OptSetRegexField => Some (UiSetRegexField (field_choice p))
  | OptChooseVisualization => Some (UiChooseVisualization (modes_chosen p))
  | OptChooseFields mode => Some (UiChooseFields (JObj [("mode", JStr mode)]) (fields_chosen p))
  | OptSave => Some (UiSave (save_path p))
  | OptSubmenu _ => None
  end.

(** [MenuBuilder.show] of the open menus (the innermost first): the main
    menu shows its dynamic title [get_results] (a search) each time it is
    displayed; a stop key closes the menu on top, an unknown key is
    ignored with a warning, a submenu option opens it.  The run ends with
    the menus still open when the user's turns run out. *)
Fixpoint ui_menu_loop (turns : list (string * ui_prompts)) (stack : list ui_menu) (c : BookCtl) :
  run (list ui_menu) :=
  match stack with
  | [] => RDone c []
  | m :: up =>
    let! c _ := (match m with MainMenu => ui_handle UiShowResults c | _ => RDone c tt end) in
    match turns with
    | [] => RDone c stack
    | (key, p) :: rest =>
      if existsb (String.eqb key) ui_stop_options then ui_menu_loop rest up c
      else match dict_lookup String.eqb key (ui_menu_options m) with
           | None => ui_menu_loop rest stack c
           | Some (OptSubmenu m') => ui_menu_loop rest (m' :: stack) c
           | Some o => match option_event o p with
                       | Some ev => let! c _ := ui_handle ev c in ui_menu_loop rest stack c
                       | None => ui_menu_loop rest stack c
                       end
           end
    end
  end.

End UserInterface.

(** The options of the field menus built in [UserInterface.__init__]: the
    keys of the settings' [fields], numbered from 1. *)
Definition field_menu_options (c : BookCtl) : result (list (string * string)) :=
  keys <- ctl_get_fields_keys c ;;
  Ok (map (fun '(i, k) => (z_dec (Z.of_nat (S i)), py_str k)) (combine (seq 0 (length keys)) keys)).

(** [init.set_up_models] and the construction of [init.main], with
    [read_file] the content of the JSON file at a path ([None] when it does
    not exist) and [absolute] the path resolution of [shared]. *)
Definition set_up_models (read_file : jvalue -> option store) (absolute : jvalue -> jvalue)
  (settings_path : jvalue) : result (store * HistoryModel * store) :=
  s <- settings_model_init (read_file settings_path) ;;
  h <- history_init (read_file (absolute (get_history_path s))) (get_results_to_save s) ;;
  u <- user_settings_init (read_file (absolute (get_user_settings_path s))) ;;
  Ok (s, h, u).

Definition lab7_main (read_file : jvalue -> option store) (absolute : jvalue -> jvalue)
  (settings_path api_key : jvalue) : result BookCtl :=
  models <- set_up_models read_file absolute settings_path ;;
  let '(s, h, u) := models in
  let c := ctl_init s h u (api_init api_key) in
  _ <- ctl_get_logger_path absolute c ;;
  _ <- field_menu_options c ;;
  Ok c.

(** ** The well-formed controllers *)

Definition str_or_none (v : jvalue) : bool := match v with JNull | JStr _ => true | _ => false end.

(** The query, the regex and its field are strings or [None], and the
    history is a list of at most one event. *)
Definition ctl_wf (c : BookCtl) : Prop :=
  str_or_none (last_query c) = true /\ str_or_none (last_regex c) = true /\
  str_or_none (regex_field_name c) = true /\
  exists l, get_history (history c) = JList l /\ (length l <= 1)%nat.

Lemma ctl_wf_frame : book_frame ctl_wf.
Proof.
  split; [|split]; [intros c u H; exact H|intros c p d H; exact H|].
  intros c q r f fs res h (H1 & H2 & H3 & l & Hl & Hlen) Hadd. split; [|split; [|split]]; try assumption.
  destruct (history_add_list q r f fs res (history c) h l Hadd Hl) as (n & Hn).
  exists [history_event q r f fs res]. split; [|simpl; lia].
  simpl. rewrite Hn, (py_slice_from_1_short l _ Hlen). reflexivity.
Qed.

Section Invariant.

Variable http_get : string -> store -> http_reply.
Variable re_search : string -> string -> bool.
Variable tabulate : list (list jvalue) -> list string -> string.
Variable re_compiles : string -> bool.

Lemma results_part_inv (P : BookCtl -> Prop) search style msg c :
  run_inv P (search c) -> run_inv P (results_part search style msg c).
Proof.
  unfold results_part. destruct (search c) as [c1 r|c1 e|]; simpl; intros H; [|exact H|exact I].
  repeat run_inv_step; assumption.
Qed.

Lemma get_results_inv (P : BookCtl -> Prop) c :
  book_frame P -> P c -> run_inv P (get_results http_get re_search tabulate c).
Proof.
  intros Hf Hc. unfold get_results, get_results_string. destruct (negb _); [exact Hc|].
  apply run_inv_bind; [destruct (py_truthy _); [apply results_part_inv, search_generic_inv|]; auto|].
  intros c1 t H1. destruct t as [t|]; [|exact H1].
  apply run_inv_bind; [destruct (py_truthy _); [apply results_part_inv, search_generic_inv|]; auto|].
  intros c2 l H2. destruct l; exact H2.
Qed.

Lemma ui_save_inv (P : BookCtl -> Prop) path c :
  book_frame P -> P c -> run_inv P (ui_save http_get re_search tabulate path c).
Proof.
  intros Hf Hc. unfold ui_save. destruct (negb _); [exact Hc|]. destruct (String.eqb path ""); [exact Hc|].
  destruct (negb _); [exact Hc|].
  apply run_inv_bind; [destruct (str_endswith ".txt" path); [|exact Hc]|].
  - apply run_inv_bind; [apply get_results_inv; assumption|]. intros; assumption.
  - intros c1 d H1. apply run_inv_bind; [apply ctl_save_inv; assumption|]. intros; assumption.
Qed.

Lemma ui_handle_wf ev c : ctl_wf c -> run_inv ctl_wf (ui_handle http_get re_search tabulate re_compiles ev c).
Proof.
  intros Hc. pose proof ctl_wf_frame as Hf. destruct ev as [|q|inputs|f|choose|attrs chosen|path]; simpl.
  - apply run_inv_bind; [apply get_results_inv; assumption|]. intros; assumption.
  - destruct Hc as (_ & H2 & H3 & H4). split; auto.
  - induction inputs as [|r rest IH]; simpl; [exact I|].
    destruct (re_compiles r); [|exact IH]. destruct Hc as (H1 & _ & H3 & H4). split; auto.
  - destruct Hc as (H1 & H2 & _ & H4). split; auto.
  - exact Hc.
  - unfold ui_choose_fields. repeat run_inv_step; try assumption. apply set_selected_inv; assumption.
  - apply run_inv_bind; [apply ui_save_inv; assumption|]. intros; assumption.
Qed.

(** Every controller the menus reach from a well-formed one is well
    formed. *)
Lemma ui_menu_loop_wf turns : forall stack c,
  ctl_wf c -> run_inv ctl_wf (ui_menu_loop http_get re_search tabulate re_compiles turns stack c).
Proof.
  induction turns as [|[key p] rest IH]; intros [|m up] c Hc; cbn [ui_menu_loop]; try exact Hc;
    (apply run_inv_bind; [destruct m; [apply ui_handle_wf, Hc | exact Hc | exact Hc]|intros c1 [] H1]);
    [exact H1|].
  destruct (existsb _ _); [apply IH, H1|].
  destruct (dict_lookup _ _ _) as [o|]; [|apply IH, H1].
  destruct o; cbn [option_event];
    try (apply run_inv_bind; [apply ui_handle_wf, H1 | intros c2 [] H2; apply IH, H2]).
  apply IH, H1.
Qed.

(** What the two accessors of the user settings raise: [AttributeError]
    when [selected_fields] is not a dict, [TypeError] when it cannot be
    assigned to. *)
Lemma mode_fields_errors m v u er :
  (get_mode_fields m u = Err er \/ set_mode_fields m v u = Err er) ->
  er = AttributeError \/ exists msg, er = TypeError msg.
Proof.
  unfold get_mode_fields, set_mode_fields, jget, jsetitem.
  intros [H|H]; destruct (get_selected_fields u); cbn [bind] in H; try discriminate; injection H as <-; eauto.
Qed.

(** The two modes the controller accepts select one key of
    [selected_fields]. *)
Lemma known_mode_fields m :
  m = "List" \/ m = "Table" -> exists md,
  (forall c, ctl_get_selected_fields c m = get_mode_fields md (user_settings c)) /\
  (forall v c, set_selected v m c =
               let! c' u := rlift c (set_mode_fields md v (user_settings c)) in RDone (with_user c' u) tt).
Proof. intros [-> | ->]; [exists "list" | exists "table"]; split; reflexivity. Qed.

(** The settings menu gives [choose_fields] only the modes the controller
    accepts: the handlers it calls never raise [ValueError("Wrong mode")]. *)
Lemma settings_menu_modes key o p ev c c' e :
  dict_lookup String.eqb key (ui_menu_options SettingsMenu) = Some o ->
  option_event o p = Some ev ->
  ui_handle http_get re_search tabulate re_compiles ev c = RRaised c' e -> e <> ValueError "Wrong mode".
Proof.
  intros Hk Ho.
  assert (Hm : exists m, (m = "List" \/ m = "Table") /\ o = OptChooseFields m).
  { cbn in Hk. destruct (String.eqb key "1"); [|destruct (String.eqb key "2"); [|discriminate]];
      injection Hk as <-; eauto. }
  destruct Hm as (m & Hm & ->). injection Ho as <-.
  destruct (known_mode_fields m Hm) as (md & Hget & Hset).
  cbn [ui_handle]. unfold ui_choose_fields. cbn [rlift jget dict_lookup rbind].
  replace (String.eqb "mode" "mode") with true by reflexivity. cbv beta iota. rewrite Hget.
  destruct (get_mode_fields md (user_settings c)) as [v|er] eqn:E1; cbn [rlift rbind];
    [rewrite Hset; destruct (set_mode_fields md (fields_chosen p) (user_settings c)) as [u|er] eqn:E2; cbn [rlift rbind];
     [discriminate|]|]; intros [= _ <-];
    [destruct (mode_fields_errors md (fields_chosen p) _ er (or_intror E2)) as [->|[msg ->]]
    |destruct (mode_fields_errors md JNull _ er (or_introl E1)) as [->|[msg ->]]]; discriminate.
Qed.

(** C36. Every controller the menu loop reaches from a well-formed one
    (as [init.main] builds it with an empty history file) is well formed:
    the query, the regex and its field are strings or [None], and the
    history is a list of at most one event, by induction on the menu
    actions. *)
Theorem ui_reachable_wf c0 c :
  ctl_wf c0 -> ui_reachable http_get re_search tabulate re_compiles c0 c -> ctl_wf c.
Proof.
  intros H0 Hr. induction Hr as [|c ev c' _ IH Hstep]; [exact H0|].
  pose proof (ui_handle_wf ev c IH) as Hinv. rewrite Hstep in Hinv. exact Hinv.
Qed.

End Invariant.

Lemma sample_ctl_wf : ctl_wf sample_ctl.
Proof. repeat split. exists []. split; [reflexivity|simpl; lia]. Qed.

Lemma ui_reachable_wf_witness :
  exists c, ui_handle sample_http sample_re (fun _ _ => "") (fun _ => true) UiShowResults sample_ctl = RDone c tt /\
            ctl_wf c.
Proof.
  remember (ui_handle sample_http sample_re (fun _ _ => "") (fun _ => true) UiShowResults sample_ctl) as R eqn:ER.
  pose proof ER as EV. vm_compute in EV. destruct R as [c []|c e|]; try discriminate EV.
  exists c. split; [reflexivity|].
  apply (ui_reachable_wf sample_http sample_re (fun _ _ => "") (fun _ => true) sample_ctl c sample_ctl_wf).
  apply (ui_next _ _ _ _ _ sample_ctl UiShowResults c (ui_start _ _ _ _ _)). symmetry. exact ER.
Defined.

(** ** The retry loop of [set_regex] *)

(** The prompt never leaves while every entry is rejected. *)
Lemma ui_set_regex_rejected re_compiles bad c :
  Forall (fun x => re_compiles x = false) bad -> ui_set_regex re_compiles bad c = None.
Proof. induction 1 as [|x l Hx _ IH]; simpl; [reflexivity|]. rewrite Hx. exact IH. Qed.

(** The prompt leaves only after an entry that compiles. *)
Lemma ui_set_regex_exit re_compiles inputs c c' :
  ui_set_regex re_compiles inputs c = Some c' ->
  exists r, In r inputs /\ re_compiles r = true /\ c' = set_last_regex (JStr r) c.
Proof.
  induction inputs as [|x l IH]; simpl; [discriminate|].
  destruct (re_compiles x) eqn:E; [intros [= <-]; eauto|].
  intros H. destruct (IH H) as (r & ? & ? & ?). eauto.
Qed.

(** C37. [UserInterface.set_regex] asks again after every entry that does
    not compile and leaves at the first that does: whatever rejected
    entries the user types first, the loop ends at the first entry that
    compiles and the controller stores exactly that regex, the rest of the
    input being never read. *)
Theorem ui_set_regex_first_valid re_compiles bad r rest c :
  Forall (fun x => re_compiles x = false) bad -> re_compiles r = true ->
  ui_set_regex re_compiles (bad ++ r :: rest) c = Some (set_last_regex (JStr r) c).
Proof.
  induction 1 as [|x l Hx _ IH]; intros Hr; simpl; [rewrite Hr; reflexivity|].
  rewrite Hx. exact (IH Hr).
Qed.

Lemma ui_set_regex_first_valid_witness :
  Forall (fun x => negb (String.eqb x "(") = false) ["("; "("] /\
  negb (String.eqb "a.*" "(") = true /\
  ui_set_regex (fun x => negb (String.eqb x "(")) (["("; "("] ++ "a.*" :: ["b"]) sample_ctl =
  Some (set_last_regex (JStr "a.*") sample_ctl).
Proof.
  assert (HF : Forall (fun x => negb (String.eqb x "(") = false) ["("; "("]) by (repeat constructor).
  split; [exact HF|]. split; [reflexivity|].
  exact (ui_set_regex_first_valid (fun x => negb (String.eqb x "(")) ["("; "("] "a.*" ["b"] sample_ctl HF eq_refl).
Defined.
